(* ===== verification/_CoqProject ===== *)
-Q . S2P
Prelude.v
JsNumber.v
JsDate.v
Db.v
Streak.v
Completion.v
Habits.v
Stats.v
Mock.v
Api.v
Settings.v
HabitCard.v
Panels.v
Realtime.v
Screens.v
App.v
AddHabit.v
ReadPaths.v
Pages.v
Views.v
Concurrency.v
Routes.v
ShellViews.v
