(* ===== verification/Prelude.v ===== *)
(** * A verification development of SMART-HABIT-TRACKER

    The program is a Next.js habit tracker.  Its logic is in two data
    layers and the code that calls them:
    - [src/supabase/database.ts]: the Supabase (PostgREST) data layer:
      profiles, habits with their streak rows and today's progress,
      completions and the streak update, statistics, user settings, and
      realtime subscriptions;
    - [src/lib/database.ts]: an in-memory layer over a module array of six
      demo habits, with functions of the same names;
    - [src/app/api/**/route.ts]: HTTP routes; [habits], [[id]/complete]
      and [stats] call the Supabase layer, [habits/[id]] calls the
      in-memory one;
    - [src/components/*.tsx]: React components whose handlers call the
      Supabase layer (habit card, habit grid, stats overview, add-habit
      modal, settings panels), the splash screen, login form, sidebar and
      dashboard header;
    - [src/app/**/page.tsx] and [layout.tsx]: the pages; the home page
      composes the splash screen, a session check and the login form, and
      the calendar page computes its month grid.

    ** Files
    - [Prelude] (this file): the state monad [St] and its laws, the
      tactics [st_simpl] and [z_cases], the hint databases [habit] and
      [habit_rw], [Array.reduce]/[filter().length] as [reduce_sum] and
      [count_where], JavaScript truthiness of strings, and list lemmas.
    - [JsNumber]: JavaScript numbers as binary64 floats ([PrimFloat]):
      conversion of integers, [/], [*], [Math.round] (round half up, [-0]
      kept), [Math.max] of a spread and [Math.min].
    - [JsDate]: [new Date("YYYY-MM-DD").getTime()] (UTC midnight, NaN as
      [None]) and the date part of [toISOString()], on the proleptic
      Gregorian day count (the days-to-civil conversion is checked over
      one 400-year era, 146097 days, by [vm_compute], and extends to all
      days by periodicity).
    - [Db]: the tables ([Habit], [HabitStreak], [HabitCompletion], [User],
      [UserSettings] records with the interfaces' fields), the database
      state [db] (tables, session user [auth_user], id counter, clock, and
      a list [faults] saying which coming requests fail), and the
      PostgREST requests the code makes: [select_where], [.single()],
      [.maybeSingle()], [insert_row], [update_where], [update_single],
      [delete_where].  Errors are values ([result], with PostgREST's
      [PGRST116], [23505] and [23503]); nothing throws.
    - [Streak] ([Module Streak]): [updateHabitStreak] and its pure core
      [next_streak]/[apply_completion]; the replay of a history; the
      declarative meaning of a streak (runs of consecutive days).
    - [Completion]: [recordHabitCompletion]; the upsert runs under a
      [schema] (its conflict target and the table's other unique keys), a
      section variable since the schema is not in the repository; the
      code's call, without [onConflict], targets the primary key
      ([conflict_pk], [conflict_pk_unique_key]).
    - [Habits]: [getUserHabits], [getHabit], [createHabit], [updateHabit],
      [deleteHabit], the delete under the foreign keys to [habits] with
      their [ON DELETE] action a parameter ([on_delete]).
    - [Stats]: [getHabitStats] with binary64 arithmetic.
    - [Mock]: the in-memory layer, its step relation and invariant.
    - [Api]: the route handlers over a server state pairing both layers.
    - [Settings] ([Module Profile], [Module Settings]): profiles and user
      settings, with the table's defaults and [user_id] uniqueness as
      parameters.
    - [HabitCard]: the card's state and its three handlers, runs of
      clicks, and the interleaving of two clicks around an [await].
    - [Panels]: the loading and submitting handlers of the habit grid,
      stats overview, add-habit modal and the four settings panels
      (notifications, profile, appearance, privacy).
    - [Realtime]: which row changes reach which subscription callback, and
      the writes of a recording as a sequence of notified states.
    - [Screens]: the calendar grid ([Module Calendar]), the splash
      screen's two timer chains as a step relation ([Module Splash]), the
      login form's handlers ([Module Login], the identity provider a
      section variable) and the sidebar's navigation and user load with
      the header's sign-out ([Module Nav]).
    - [App]: the home page as a step relation composing the splash, the
      session check and the login form ([Module Home]); the app router's
      pages, the header's and sidebar's state and controls, and the
      dashboard layout's mobile sidebar ([Module Shell]).
    - [AddHabit]: [parseInt] and [String(n)] on decimal strings
      ([Module JsParse]) and the add-habit dialog around [handleSubmit]:
      its trigger, inputs, Cancel and the browser's [required]/[min="1"]
      checks before [onSubmit] ([Module Dialog]).
    - [ReadPaths]: the read paths a notification re-runs as a typeclass
      interface [HabitReads] with laws [HabitReadsLaws], instantiated by
      both data layers; client lemmas proved once against the interface.
    - [Pages]: the dashboard page as a step relation over its two
      components' effects, subscriptions, added habits and delivered
      notifications ([Module Dashboard]); the settings page's panels with
      the root layout's theme script ([Module SettingsPage]); the
      analytics page's view ([Module AnalyticsPage]).
    - [Views]: what the habit grid, the stats overview, the calendar and
      the header's date render from their state ([Module GridView],
      [Module OverviewView], [Module CalendarView], [Module HeaderView]),
      with [String()] of a Number
      ([Module NumberText]; the shortest digits of a non-integral value
      are a section variable, the values the theorems print being
      integral or [NaN]).
    - [Concurrency]: [async] functions as resumptions ([proc]) that
      await one request at a time, run alone ([run]) or interleaved under
      a schedule ([interleave]); the settings page's notification and
      privacy panels mounting together ([Module SettingsRace]).
    - [ShellViews]: what the sidebar, the dashboard header, the login
      form, the splash screen and the habit card render
      ([Module SidebarView], [Module HeaderBar], [Module LoginView],
      [Module SplashView], [Module CardView]).
    - [Routes]: the components each path of the app router mounts
      through the dashboard layout ([Module Tree]), the requests of their
      mount effects ([Module Mount]), and the root layout's head tags
      ([Module Head]).

    ** What the theorems show
    - Streaks: the incremental update refines the declarative meaning
      (current and longest run of consecutive days) for histories in date
      order; it keeps [0 <= current <= longest]; re-recording a day is a
      no-op; a backfilled date resets the next day's streak; the handler
      writes exactly the habit's row, and nothing without a single row.
    - Completions: same-day re-recording overwrites under the
      specification's conflict target; the code's primary-key upsert never
      overwrites: with [UNIQUE(habit_id, completion_date)] the second
      recording is rejected, without it a second row is appended; a
      sequence of recordings leaves the pure replay in the database; a
      failed upsert changes nothing; the specification's examples (three
      consecutive days, a gap) hold as lemmas.
    - Habits and statistics: the listing's contents and order, today's
      progress, read-only reads, the non-atomic creation, the delete that
      fails without a cascading key and cascades with one, the
      [.single()] read that shows no progress after two recordings of a
      day, and the statistics' NaN (and, as a lemma, their binary64
      rounding).
    - Mock layer, routes, settings, card and notifications: invariants of
      reachable states, status codes on every branch, the missing
      ownership checks, the settings read that loses data, the card's
      consistency through any clicks, the increment lost by two quick
      clicks, and the stale streak after a notification.
    - Lemmas of the runtime and the layers: the printed date part is a
      well-formed [YYYY-MM-DD] and parses back to midnight of its day
      (years 0 to 9999); the rendered target reads back through
      [parseInt] below [10^21]; the in-memory [getHabitStats] gives the
      Supabase layer's statistics on the same listing; re-running the
      reads is idempotent on both layers (through the interface).
    - Screens and shell: termination of the splash's timers in every
      interleaving (a well-founded step relation); the home page shows
      the login form only after the splash and redirects only with a
      session; the profile panel's Cancel that keeps edits; as lemmas,
      the calendar's December 2024 grid (days 1-29, day 1 under
      Saturday), the header's dead settings link and the sidebar's Sign
      Out without handler.
    - Dialog: every habit the dialog creates, through any sequence of
      events, has a non-empty name and a target of at least 1.
    - Composition: a failed re-read shows an empty listing; the
      overview's statistics never follow added habits; the settings page
      never applies the stored theme, so the layout's script always sets
      the default; as a lemma, the grid's subscriptions accumulate under
      a realtime client that opens a channel per call.
    - Views: a user with no habit sees a current streak of "NaN days";
      a grid load that meets a failing request tells a user who has
      habits "No habits yet"; the calendar's legend gives every rate from
      0 to 100 the colour of its bar; the default completion date is the
      UTC date, a day after the local date the header shows late in the
      evening west of UTC, where the specification asks for the local
      date.
    - Concurrency: when a new user's two settings panels both read
      before either inserts, two default rows are inserted and both
      panels stay on "Loading..." for good; as lemmas, serving one panel
      first is the two loads in a row, and the habits and analytics
      pages render a second dashboard header inside the layout's.
    - Shell views (lemmas): one navigation button highlighted on each
      dashboard page, none labelled when collapsed; the header's avatar
      always "AX"; a card of target 0 shows a bar of width "NaN%"; the
      splash shows "Get Started" only on its last feature at 100%.
    Findings are listed with the theorems that show them in PROJECT.json.

    ** Bounds and modelling choices
    Integers are [Z] (the values are JavaScript numbers far below
    [2^53]); the statistics' divisions and rounding are binary64 floats
    because there the rounding is observable.  No function is defined by
    fuel: every loop of the code is a structural fold or map over a list.
    Ids are [N]; the in-memory layer's random ids and the clock are
    inputs.  Request failures come from the [faults] oracle, so every
    error path is reachable in a theorem.

    Timers are not timed: the splash's and the home page's events may
    fire in any order, which covers every real schedule.

    ** Not modelled
    The realtime transport and delivery timing (delivery is a step of
    [Pages.Dashboard], in any order), and the client's handling of a
    topic subscribed twice (the dashboard's subscriptions are those of a
    client that opens a channel per call; recent realtime-js clients
    return the existing channel and refuse its second [subscribe()]);
    the database schema, whose keys and foreign-key actions are
    parameters; rendering (JSX, styling) beyond
    what [Views] models; the [<meta>] tags Next.js generates from the
    layout's [metadata] are taken from its documentation, and only the
    head is modelled of the layout's output; the signup form (not in the
    repository); the interleaving of effects other than the settings
    panels' (the others only read, or write rows no other effect of the
    page reads); [parseInt]'s [0x] prefix and non-ASCII white space,
    which a number input's value never has; the identity provider (a
    parameter; the session is [auth_user]); unmounting; locales other
    than the header's [en-US] and years before 1 in its date; the
    shortest round-trip digits of non-integral Numbers (a parameter of
    [Views.NumberText]); and the files the sources import
    but the repository does not contain ([src/supabase/client.ts],
    [@/components/ui/*], [@/lib/utils], [signup-form], [add-habit-button]). *)

From stdpp Require Export base list strings.
From Stdlib Require Export ZArith Lia.

(** The development's own notations live in [habit_scope]. *)
Declare Scope habit_scope.
Delimit Scope habit_scope with habit.

(** ** A state monad

    The data-access code of [src/supabase/database.ts] is a sequence of
    awaited requests against one database.  Each request reads or changes
    the database and returns a value that the code inspects ([data] or
    [error]); nothing is thrown.  We thread the database explicitly. *)

Definition St (S A : Type) : Type := S -> A * S.

Definition st_ret {S A} (a : A) : St S A := fun s => (a, s).

Definition st_bind {S A B} (m : St S A) (k : A -> St S B) : St S B :=
  fun s => let '(a, s') := m s in k a s'.

Definition st_get {S} : St S S := fun s => (s, s).

Definition st_put {S} (s : S) : St S unit := fun _ => (tt, s).

Notation "x <- m ;; k" := (st_bind m (fun x => k))
  (at level 100, m at next level, right associativity) : habit_scope.
Notation "m ;;; k" := (st_bind m (fun _ => k))
  (at level 100, right associativity) : habit_scope.

Open Scope habit_scope.

(** Running a computation: its result and its final state. *)
Definition eval_st {S A} (m : St S A) (s : S) : A := fst (m s).
Definition exec_st {S A} (m : St S A) (s : S) : S := snd (m s).

Create HintDb habit discriminated.
Create Rewrite HintDb habit_rw.

Section MonadLaws.
Context {S A B C : Type}.

Lemma st_bind_ret_l (a : A) (k : A -> St S B) s :
  st_bind (st_ret a) k s = k a s.
Proof. reflexivity. Qed.

Lemma st_bind_ret_r (m : St S A) s : st_bind m st_ret s = m s.
Proof. unfold st_bind, st_ret. by destruct (m s). Qed.

Lemma st_bind_assoc (m : St S A) (f : A -> St S B) (g : B -> St S C) s :
  st_bind (st_bind m f) g s = st_bind m (fun a => st_bind (f a) g) s.
Proof. unfold st_bind. by destruct (m s). Qed.

Lemma st_bind_unfold (m : St S A) (k : A -> St S B) s :
  st_bind m k s = k (fst (m s)) (snd (m s)).
Proof. unfold st_bind. by destruct (m s). Qed.
End MonadLaws.

#[export] Hint Rewrite @st_bind_ret_l @st_bind_assoc : habit_rw.

(** Unfold the monad in the goal and in the hypotheses. *)
Ltac st_simpl :=
  repeat (unfold st_bind, st_ret, st_get, st_put, eval_st, exec_st in *; simpl in *).

(** Case analysis on every boolean comparison of integers in the goal,
    then [lia] or [congruence] on each case. *)
Ltac z_cases :=
  repeat match goal with
  | |- context [Z.leb ?a ?b] => destruct (Z.leb_spec a b)
  | |- context [Z.ltb ?a ?b] => destruct (Z.ltb_spec a b)
  | |- context [Z.eqb ?a ?b] => destruct (Z.eqb_spec a b)
  end; first [done | congruence | lia].

(** ** Array reductions as the code writes them

    [xs.reduce((sum, h) => sum + f(h), 0)] is a left fold; [xs.filter(p).length]
    counts. *)

Definition reduce_sum {A} (f : A -> Z) (xs : list A) : Z :=
  fold_left (fun acc x => (acc + f x)%Z) xs 0%Z.

Definition count_where {A} (p : A -> bool) (xs : list A) : nat :=
  length (List.filter p xs).

Section Reductions.
Context {A : Type}.

Lemma fold_sum_acc (f : A -> Z) (xs : list A) (acc : Z) :
  fold_left (fun acc x => (acc + f x)%Z) xs acc = (acc + reduce_sum f xs)%Z.
Proof.
  unfold reduce_sum. revert acc.
  induction xs as [|x xs IH]; intros acc; simpl; [lia|].
  rewrite (IH (acc + f x)%Z), (IH (0 + f x)%Z). lia.
Qed.

Lemma reduce_sum_nil (f : A -> Z) : reduce_sum f [] = 0%Z.
Proof. reflexivity. Qed.

Lemma reduce_sum_cons (f : A -> Z) x xs :
  reduce_sum f (x :: xs) = (f x + reduce_sum f xs)%Z.
Proof. unfold reduce_sum at 1. simpl. rewrite fold_sum_acc. lia. Qed.

Lemma reduce_sum_app (f : A -> Z) xs ys :
  reduce_sum f (xs ++ ys) = (reduce_sum f xs + reduce_sum f ys)%Z.
Proof.
  induction xs as [|x xs IH]; simpl; [by rewrite reduce_sum_nil|].
  rewrite !reduce_sum_cons, IH. lia.
Qed.

Lemma reduce_sum_nonneg (f : A -> Z) xs :
  Forall (fun x => 0 <= f x)%Z xs -> (0 <= reduce_sum f xs)%Z.
Proof.
  induction 1; rewrite ?reduce_sum_nil, ?reduce_sum_cons; lia.
Qed.

Lemma reduce_sum_ext (f g : A -> Z) xs :
  Forall (fun x => f x = g x) xs -> reduce_sum f xs = reduce_sum g xs.
Proof.
  induction 1; [done|]. by rewrite !reduce_sum_cons, IHForall, H.
Qed.

Lemma count_where_cons (p : A -> bool) x xs :
  count_where p (x :: xs) = ((if p x then 1 else 0) + count_where p xs)%nat.
Proof. unfold count_where. simpl. by destruct (p x). Qed.

Lemma count_where_le (p : A -> bool) xs : (count_where p xs <= length xs)%nat.
Proof.
  induction xs as [|x xs IH]; [done|].
  rewrite count_where_cons. simpl. destruct (p x); lia.
Qed.
End Reductions.

#[export] Hint Rewrite @reduce_sum_nil @reduce_sum_cons @reduce_sum_app
  @count_where_cons : habit_rw.
#[export] Hint Resolve reduce_sum_nonneg count_where_le : habit.

(** When a filter keeps exactly one element, every element that passes it
    is that element. *)
Lemma filter_single_member {A} (p : A -> bool) (l : list A) x r :
  List.filter p l = [x] -> In r l -> p r = true -> r = x.
Proof.
  induction l as [|y l IH]; [done|]. simpl. intros Hf [<-|Hin] Hr.
  - rewrite Hr in Hf. by injection Hf.
  - destruct (p y) eqn:Hy; [|by apply IH].
    injection Hf as -> Hnil. assert (In r (List.filter p l)) by (apply filter_In; done).
    rewrite Hnil in *. done.
Qed.

Lemma map_filter_single_ext {A} (p : A -> bool) (f g : A -> A) (l : list A) x :
  List.filter p l = [x] -> f x = g x ->
  map (fun r => if p r then f r else r) l = map (fun r => if p r then g r else r) l.
Proof.
  intros Hf Hx. apply map_ext_in. intros r Hr. destruct (p r) eqn:Hp; [|done].
  by rewrite (filter_single_member p l x r Hf Hr Hp).
Qed.

Lemma filter_nil_update_id {A} (p : A -> bool) (f : A -> A) (l : list A) :
  List.filter p l = [] -> map (fun r => if p r then f r else r) l = l.
Proof.
  induction l as [|y l IH]; [done|]. simpl. destruct (p y); [done|].
  intros H. by rewrite IH.
Qed.

(** Updating the one element a filter keeps: the filter then keeps the
    updated element, when the update keeps it passing. *)
Lemma filter_update_single {A} (p : A -> bool) (f : A -> A) (l : list A) x :
  List.filter p l = [x] -> p (f x) = true ->
  List.filter p (map (fun r => if p r then f r else r) l) = [f x].
Proof.
  induction l as [|y l IH]; [done|]. simpl. destruct (p y) eqn:Hy.
  - intros Hf Hfx. injection Hf as -> Hnil. rewrite filter_nil_update_id by done.
    simpl. rewrite Hfx. by rewrite Hnil.
  - intros Hf Hfx. simpl. rewrite Hy. by apply IH.
Qed.

(** With distinct keys, at most one element has a given key. *)
Lemma filter_key_le1 {A K} (key : A -> K) (eqk : K -> K -> bool)
    (Heqk : forall a b, eqk a b = true <-> a = b) (l : list A) (k : K) :
  NoDup (map key l) -> (length (List.filter (fun r => eqk (key r) k) l) <= 1)%nat.
Proof.
  induction l as [|y l IH]; simpl; [lia|]. intros Hnd. inversion Hnd as [|? ? Hnin Hnd']; subst.
  destruct (eqk (key y) k) eqn:E; simpl; [|by apply IH].
  apply Heqk in E. subst k.
  enough (List.filter (fun r => eqk (key r) (key y)) l = []) as -> by (simpl; lia).
  clear IH Hnd Hnd'. induction l as [|r l IH2]; [done|]. simpl in *.
  destruct (eqk (key r) (key y)) eqn:E.
  - exfalso. apply Heqk in E. apply Hnin. rewrite E. by left.
  - apply IH2. intros Hin. apply Hnin. by right.
Qed.


Lemma NoDup_snoc {A} (l : list A) x : NoDup l -> ~ In x l -> NoDup (l ++ [x]).
Proof.
  intros Hnd Hnin. apply NoDup_app. split; [done|]. split; [|apply NoDup_singleton].
  intros y Hy Hy'. apply list_elem_of_singleton in Hy'. subst.
  apply Hnin. by apply list_elem_of_In.
Qed.

(** A field of [{ ...obj, ...updates }] where [updates] is a
    [Partial<T>]: the update's value when it has one. *)
Definition patch_field {A} (o : option A) (x : A) : A :=
  match o with Some v => v | None => x end.

(** ** JavaScript truthiness of an optional string

    [s ? a : b] and [s || d] on a [string | null | undefined]: the empty
    string is falsy like [null]. *)

Definition js_truthy_string (o : option string) : option string :=
  match o with
  | Some s => if String.eqb s "" then None else Some s
  | None => None
  end.

Definition js_or_string (o : option string) (dflt : string) : string :=
  match js_truthy_string o with
  | Some s => s
  | None => dflt
  end.

Lemma js_truthy_string_Some o s :
  js_truthy_string o = Some s -> o = Some s /\ s <> ""%string.
Proof.
  destruct o as [s'|]; simpl; [|done].
  destruct (String.eqb_spec s' ""); intros; simplify_eq; done.
Qed.

Lemma js_or_string_nonempty s dflt : s <> ""%string -> js_or_string (Some s) dflt = s.
Proof. intros Hs. unfold js_or_string. simpl. destruct (String.eqb_spec s ""); done. Qed.

Lemma filter_nil_iff_false {A} (p : A -> bool) (l : list A) :
  (forall x, In x l -> p x = false) -> List.filter p l = [].
Proof.
  induction l as [|y l IH]; [done|]. intros H. simpl.
  rewrite (H y (or_introl eq_refl)). apply IH. intros x Hx. apply H. by right.
Qed.

Lemma find_filter {A} (p q : A -> bool) (l : list A) :
  List.find q (List.filter p l) = List.find (fun x => p x && q x) l.
Proof.
  induction l as [|x l IH]; [done|]. simpl.
  destruct (p x); simpl; [destruct (q x)|]; rewrite ?IH; done.
Qed.

Lemma find_ext_in {A} (p q : A -> bool) (l : list A) :
  (forall x, In x l -> p x = q x) -> List.find p l = List.find q l.
Proof.
  induction l as [|x l IH]; [done|]. intros H. simpl.
  rewrite (H x (or_introl eq_refl)). destruct (q x); [done|].
  apply IH. intros y Hy. apply H. by right.
Qed.

Lemma find_none_all {A} (p : A -> bool) (l : list A) :
  (forall x, In x l -> p x = false) -> List.find p l = None.
Proof.
  induction l as [|x l IH]; [done|]. intros H. simpl.
  rewrite (H x (or_introl eq_refl)). apply IH. intros y Hy. apply H. by right.
Qed.
