(* ===== verification/JsNumber.v ===== *)
(** * JavaScript numbers, as the statistics code uses them

    The stats code of [src/supabase/database.ts] and [src/lib/database.ts]
    divides, multiplies and rounds JavaScript numbers, which are IEEE 754
    binary64 floats.  This file models the pieces of the runtime it calls,
    on Rocq's primitive binary64 floats (PrimFloat), so that the model
    computes exactly what the engine computes, rounding errors included:
    - [float_of_Z]: an integer-valued Number (a count or a sum of integer
      progress values), correctly rounded;
    - [js_round]: [Math.round], computed exactly on the float's
      mantissa and exponent;
    - [js_max_Z]: [Math.max(...xs)] on integer-valued arguments, with
      [-Infinity] for an empty spread. *)

From S2P Require Import Prelude.
From Stdlib Require Export PrimFloat FloatOps SpecFloat.

Open Scope Z_scope.

(** The Number with the integer value [z] (round to nearest, ties to even;
    exact when [|z| < 2^53]). *)
Definition float_of_Z (z : Z) : float :=
  SF2Prim (binary_normalize prec emax z 0 false).

(** [Math.round(x)]: the integral Number closest to [x], ties towards
    [+Infinity]; NaN, infinities and zeros are returned unchanged, and a
    negative [x] that rounds to zero gives [-0].  A finite float is
    [(-1)^s * m * 2^e]; when [e >= 0] it is already integral, otherwise
    [floor(x + 1/2) = floor((2v + 2^k) / 2^(k+1))] with [k = -e]. *)
Definition js_round (x : float) : float :=
  match Prim2SF x with
  | S754_finite s m e =>
      if 0 <=? e then x
      else
        let k := - e in
        let v := if s then - Z.pos m else Z.pos m in
        let r := (2 * v + 2 ^ k) / 2 ^ (k + 1) in
        if r =? 0 then (if s then (-0)%float else 0%float) else float_of_Z r
  | _ => x
  end.

(** [Math.floor(x)] of a finite Number, as the integer it equals; [None]
    for NaN and the infinities, whose floor is not an integer. *)
Definition js_floor_Z (x : float) : option Z :=
  match Prim2SF x with
  | S754_finite s m e =>
      let v := if s then - Z.pos m else Z.pos m in
      Some (if 0 <=? e then v * 2 ^ e else v / 2 ^ (- e))
  | S754_zero _ => Some 0
  | _ => None
  end.

(** [Math.max(...xs)] on integer-valued Numbers: [-Infinity] when the
    spread is empty. *)
Definition js_max_Z (xs : list Z) : float :=
  match xs with
  | [] => neg_infinity
  | x :: rest => float_of_Z (fold_left Z.max rest x)
  end.

(** [a / b], [a * b] on Numbers. *)
Definition js_div (a b : float) : float := PrimFloat.div a b.
Definition js_mul (a b : float) : float := PrimFloat.mul a b.

(** [Math.min(a, b)]: NaN if either is NaN, and [-0] below [+0]. *)
Definition js_min (a b : float) : float :=
  if PrimFloat.is_nan a || PrimFloat.is_nan b then nan
  else if (a <? b)%float then a
  else if (b <? a)%float then b
  else if get_sign a then a else b.

(** ** Facts used by the statistics proofs *)

Lemma fold_left_max_ge (xs : list Z) (acc : Z) :
  acc <= fold_left Z.max xs acc.
Proof.
  revert acc. induction xs as [|x xs IH]; intros acc; simpl; [lia|].
  specialize (IH (Z.max acc x)). lia.
Qed.

Lemma fold_left_max_in (xs : list Z) (acc : Z) :
  fold_left Z.max xs acc = acc \/ In (fold_left Z.max xs acc) xs.
Proof.
  revert acc. induction xs as [|x xs IH]; intros acc; simpl; [by left|].
  destruct (IH (Z.max acc x)) as [-> | Hin]; [|by right; right].
  destruct (Z.max_spec acc x) as [[_ ->] | [_ ->]]; [by right; left | by left].
Qed.

Lemma fold_left_max_upper (xs : list Z) (acc y : Z) :
  In y xs -> y <= fold_left Z.max xs acc.
Proof.
  revert acc. induction xs as [|x xs IH]; intros acc Hin; [done|].
  simpl. destruct Hin as [<- | Hin]; [|by apply IH].
  etransitivity; [|apply fold_left_max_ge]. lia.
Qed.

(** The maximum of a non-empty list is an element that bounds them all. *)
Definition list_max_Z (x : Z) (rest : list Z) : Z := fold_left Z.max rest x.

Lemma list_max_Z_spec x rest :
  In (list_max_Z x rest) (x :: rest) /\
  Forall (fun y => y <= list_max_Z x rest) (x :: rest).
Proof.
  unfold list_max_Z. split.
  - destruct (fold_left_max_in rest x) as [-> | Hin]; [left | right]; done.
  - constructor; [apply fold_left_max_ge|].
    apply List.Forall_forall. intros y Hy. by apply fold_left_max_upper.
Qed.

(** [Math.max(...xs, 0)] is [Math.max(...xs)] when [xs] is non-empty and
    its elements are non-negative. *)
Lemma js_max_Z_app_zero xs :
  xs <> [] -> Forall (fun x => 0 <= x) xs -> js_max_Z (xs ++ [0]) = js_max_Z xs.
Proof.
  destruct xs as [|x rest]; [done|]. intros _ Hall. simpl. rewrite fold_left_app. simpl.
  f_equal. pose proof (list_max_Z_spec x rest) as [_ Hb]. unfold list_max_Z in Hb.
  inversion Hall as [|? ? Hx _]; subst. inversion Hb as [|? ? Hx' _]; subst. lia.
Qed.
