(* ===== verification/JsDate.v ===== *)
(** * JavaScript dates, as the streak code uses them

    [updateHabitStreak] turns the date strings it receives and stores into
    time values with [new Date(s).getTime()], and [recordHabitCompletion]
    and [getUserHabits] compute "today" as
    [new Date().toISOString().split('T')[0]].  This file models those two
    runtime services for the strings the program handles:
    - [date_getTime]: [new Date(s).getTime()] for an ISO date-only string
      ["YYYY-MM-DD"], which ECMAScript reads as UTC midnight; [None] is the
      NaN time value of an invalid date.  Day numbers up to 31 are accepted
      in every month and overflow into the next one, as [MakeDay] does.
      Other string formats (date-times, extended years) are read as NaN
      here: the program never produces them;
    - [iso_date_of_ms]: the date part of [toISOString()] of a time value,
      with the extended [+YYYYYY]/[-YYYYYY] year outside 0..9999.
    The calendar arithmetic is the proleptic Gregorian day count of
    [days_from_civil] and its inverse [civil_from_days].  That the inverse
    yields a month in 1..12 and a day in 1..31 and round-trips is checked
    for the 146097 days of one 400-year era by [vm_compute] ([check_era])
    and carried to every day by the era decomposition.  The theorems show
    that the printed date part is a well-formed [YYYY-MM-DD] and that
    [new Date(s).getTime()] reads it back as midnight of its day. *)

From S2P Require Import Prelude.
From Stdlib Require Import Ascii String.

Open Scope Z_scope.

(** [1000 * 60 * 60 * 24], the divisor of the streak code. *)
Definition ms_per_day : Z := 1000 * 60 * 60 * 24.

(** Days since 1970-01-01 of the civil date [y-m-d] ([1 <= m <= 12]). *)
Definition days_from_civil (y m d : Z) : Z :=
  let y' := if m <=? 2 then y - 1 else y in
  let era := y' / 400 in
  let yoe := y' - era * 400 in
  let mp := (m + 9) mod 12 in
  let doy := (153 * mp + 2) / 5 + d - 1 in
  let doe := yoe * 365 + yoe / 4 - yoe / 100 + doy in
  era * 146097 + doe - 719468.

(** The civil date [(y, m, d)] of a day number. *)
Definition civil_from_days (z : Z) : Z * Z * Z :=
  let z' := z + 719468 in
  let era := z' / 146097 in
  let doe := z' - era * 146097 in
  let yoe := (doe - doe / 1460 + doe / 36524 - doe / 146096) / 365 in
  let doy := doe - (365 * yoe + yoe / 4 - yoe / 100) in
  let mp := (5 * doy + 2) / 153 in
  let d := doy - (153 * mp + 2) / 5 + 1 in
  let m := if mp <? 10 then mp + 3 else mp - 9 in
  let y := yoe + era * 400 in
  ((if m <=? 2 then y + 1 else y), m, d).

(** ** Parsing ["YYYY-MM-DD"] *)

Definition digit_val (c : ascii) : option Z :=
  let n := Z.of_nat (nat_of_ascii c) in
  if (48 <=? n) && (n <=? 57) then Some (n - 48) else None.

Fixpoint digits_val (acc : Z) (s : string) : option Z :=
  match s with
  | EmptyString => Some acc
  | String c rest =>
      match digit_val c with
      | Some v => digits_val (acc * 10 + v) rest
      | None => None
      end
  end.

(** The civil date written in a date-only ISO string, if it is one. *)
Definition parse_iso_date (s : string) : option (Z * Z * Z) :=
  match s with
  | String y1 (String y2 (String y3 (String y4 (String "-"%char
      (String m1 (String m2 (String "-"%char (String d1 (String d2 EmptyString))))))))) =>
      match digits_val 0 (String y1 (String y2 (String y3 (String y4 EmptyString)))),
            digits_val 0 (String m1 (String m2 EmptyString)),
            digits_val 0 (String d1 (String d2 EmptyString)) with
      | Some y, Some m, Some d =>
          if (1 <=? m) && (m <=? 12) && (1 <=? d) && (d <=? 31)
          then Some (y, m, d) else None
      | _, _, _ => None
      end
  | _ => None
  end.

(** [new Date(s).getTime()]: UTC midnight of the date, [None] for NaN. *)
Definition date_getTime (s : string) : option Z :=
  match parse_iso_date s with
  | Some (y, m, d) => Some ((days_from_civil y m 1 + (d - 1)) * ms_per_day)
  | None => None
  end.

(** ** Printing: [new Date(t).toISOString().split('T')[0]] *)

Fixpoint pad_digits (n : nat) (v : Z) : string :=
  match n with
  | O => EmptyString
  | S n' =>
      pad_digits n' (v / 10) ++
      String (ascii_of_nat (Z.to_nat (48 + v mod 10))) EmptyString
  end.

Definition iso_year (y : Z) : string :=
  if (0 <=? y) && (y <=? 9999) then pad_digits 4 y
  else if y <? 0 then String "-"%char (pad_digits 6 (- y))
  else String "+"%char (pad_digits 6 y).

Definition iso_date_of_ms (t : Z) : string :=
  let '(y, m, d) := civil_from_days (t / ms_per_day) in
  iso_year y ++ "-" ++ pad_digits 2 m ++ "-" ++ pad_digits 2 d.

(** The day number of a time value (the [floor] of the days since the
    epoch). *)
Definition day_of_ms (t : Z) : Z := t / ms_per_day.

Lemma ms_per_day_pos : 0 < ms_per_day.
Proof. unfold ms_per_day. lia. Qed.

#[export] Hint Resolve ms_per_day_pos : habit.

(** A time value that is UTC midnight of day [n]. *)
Lemma day_of_ms_midnight n : day_of_ms (n * ms_per_day) = n.
Proof. unfold day_of_ms. apply Z.div_mul. unfold ms_per_day. lia. Qed.

(** Every parsed date is UTC midnight of some day. *)
Lemma date_getTime_midnight s t :
  date_getTime s = Some t -> exists n, t = n * ms_per_day.
Proof.
  unfold date_getTime. destruct (parse_iso_date s) as [[[y m] d]|]; [|done].
  intros [= <-]. by eexists.
Qed.

Lemma string_app_cons_nonempty s c s' : (s ++ String c s')%string <> ""%string.
Proof. destruct s; discriminate. Qed.

(** A date string printed by [toISOString] is never empty. *)
Lemma iso_date_nonempty t : iso_date_of_ms t <> ""%string.
Proof.
  unfold iso_date_of_ms. destruct (civil_from_days _) as [[y m] d].
  apply string_app_cons_nonempty.
Qed.

(** ** The civil calendar over one era

    [civil_from_days] reduces a day number to its day of the 400-year era,
    [doe] in [0, 146096], and computes the year of the era, the day of the
    year and the month from [doe] alone.  The bounds of those quantities are
    checked for every [doe] by evaluation. *)

Definition era_parts (doe : Z) : Z * Z * Z :=
  let yoe := (doe - doe / 1460 + doe / 36524 - doe / 146096) / 365 in
  let doy := doe - (365 * yoe + yoe / 4 - yoe / 100) in
  let mp := (5 * doy + 2) / 153 in
  (yoe, doy, mp).

Definition doe_ok (doe : Z) : bool :=
  let '(yoe, doy, mp) := era_parts doe in
  let d := doy - (153 * mp + 2) / 5 + 1 in
  (0 <=? yoe) && (yoe <=? 399) && (0 <=? mp) && (mp <=? 11) && (1 <=? d) && (d <=? 31).

(** [doe_ok] on [z, z + 1, ..., z + n - 1]. *)
Fixpoint check_from (n : nat) (z : Z) : bool :=
  match n with
  | O => true
  | S k => doe_ok z && check_from k (z + 1)
  end.

Lemma check_from_spec n z k :
  check_from n z = true -> z <= k < z + Z.of_nat n -> doe_ok k = true.
Proof.
  revert z. induction n as [|n IH]; simpl; intros z; [lia|].
  intros [Hd Hc]%andb_true_iff Hk.
  destruct (Z.eq_dec k z) as [->|]; [done|]. apply (IH (z + 1)); [done|lia].
Qed.

Lemma check_era : check_from (Z.to_nat 146097) 0 = true.
Proof. vm_compute. reflexivity. Qed.

Lemma doe_ok_all doe : 0 <= doe < 146097 -> doe_ok doe = true.
Proof. intros H. apply (check_from_spec _ 0 _ check_era). lia. Qed.

Lemma era_parts_bounds doe : 0 <= doe < 146097 ->
  let '(yoe, doy, mp) := era_parts doe in
  0 <= yoe <= 399 /\ 0 <= mp <= 11 /\
  1 <= doy - (153 * mp + 2) / 5 + 1 <= 31.
Proof.
  intros H. pose proof (doe_ok_all doe H) as Hok. unfold doe_ok in Hok.
  destruct (era_parts doe) as [[yoe doy] mp].
  repeat (apply andb_true_iff in Hok as [Hok ?]). rewrite ?Z.leb_le in *. lia.
Qed.

(** The common start of the proofs on [civil_from_days]: the day of the
    era [doe] and its parts, with their bounds. *)
Ltac civil_setup z :=
  unfold civil_from_days; cbv zeta;
  let era := fresh "era" in let doe := fresh "doe" in let Hdoe := fresh "Hdoe" in
  let Hb := fresh "Hb" in
  set (era := (z + 719468) / 146097);
  set (doe := z + 719468 - era * 146097);
  assert (Hdoe : 0 <= doe < 146097) by
    (subst doe era; pose proof (Z.div_mod (z + 719468) 146097 ltac:(lia));
     pose proof (Z.mod_pos_bound (z + 719468) 146097 ltac:(lia)); lia);
  pose proof (era_parts_bounds doe Hdoe) as Hb; unfold era_parts in Hb; cbv zeta in Hb;
  set (yoe := (doe - doe / 1460 + doe / 36524 - doe / 146096) / 365) in *;
  set (doy := doe - (365 * yoe + yoe / 4 - yoe / 100)) in *;
  set (mp := (5 * doy + 2) / 153) in *;
  destruct Hb as (Hy & Hm & Hd).

(** Every day number is a valid civil date: month in [1, 12], day in
    [1, 31]. *)
Lemma civil_from_days_range z :
  let '(y, m, d) := civil_from_days z in 1 <= m <= 12 /\ 1 <= d <= 31.
Proof. civil_setup z. destruct (Z.ltb_spec mp 10); lia. Qed.

(** The day count of the civil date of a day number is that number. *)
Lemma days_civil_roundtrip z :
  let '(y, m, d) := civil_from_days z in days_from_civil y m d = z.
Proof.
  civil_setup z.
  assert (Hera : (yoe + era * 400) / 400 = era).
  { rewrite Z.div_add by lia. rewrite Z.div_small by lia. lia. }
  unfold days_from_civil. cbv zeta.
  destruct (Z.ltb_spec mp 10).
  - rewrite (proj2 (Z.leb_gt (mp + 3) 2)) by lia.
    replace ((mp + 3 + 9) mod 12) with mp
      by (replace (mp + 3 + 9) with (mp + 1 * 12) by lia; rewrite Z.mod_add by lia;
          rewrite Z.mod_small by lia; lia).
    rewrite Hera. replace (yoe + era * 400 - era * 400) with yoe by lia. subst doy doe. lia.
  - rewrite (proj2 (Z.leb_le (mp - 9) 2)) by lia.
    replace (yoe + era * 400 + 1 - 1) with (yoe + era * 400) by lia.
    replace ((mp - 9 + 9) mod 12) with mp
      by (replace (mp - 9 + 9) with mp by lia; rewrite Z.mod_small by lia; lia).
    rewrite Hera. replace (yoe + era * 400 - era * 400) with yoe by lia. subst doy doe. lia.
Qed.

(** ** Printing then parsing a date *)

(** The character [pad_digits] writes for a digit. *)
Definition digit_char (k : Z) : ascii := ascii_of_nat (Z.to_nat (48 + k)).

#[local] Arguments digit_char : simpl never.
#[local] Arguments digit_val : simpl never.

Lemma digit_val_char v : digit_val (digit_char (v mod 10)) = Some (v mod 10).
Proof.
  pose proof (Z.mod_pos_bound v 10 ltac:(lia)) as Hb.
  assert (v mod 10 = 0 \/ v mod 10 = 1 \/ v mod 10 = 2 \/ v mod 10 = 3 \/ v mod 10 = 4 \/
          v mod 10 = 5 \/ v mod 10 = 6 \/ v mod 10 = 7 \/ v mod 10 = 8 \/ v mod 10 = 9)
    as Hk by lia.
  destruct Hk as [->|[->|[->|[->|[->|[->|[->|[->|[->| ->]]]]]]]]]; reflexivity.
Qed.

Lemma pad_digits_2 v :
  pad_digits 2 v = String (digit_char (v / 10 mod 10)) (String (digit_char (v mod 10)) EmptyString).
Proof. reflexivity. Qed.

Lemma pad_digits_4 v :
  pad_digits 4 v =
  String (digit_char (v / 10 / 10 / 10 mod 10)) (String (digit_char (v / 10 / 10 mod 10))
    (String (digit_char (v / 10 mod 10)) (String (digit_char (v mod 10)) EmptyString))).
Proof. reflexivity. Qed.

Lemma two_digits v : 0 <= v < 100 -> (0 * 10 + v / 10 mod 10) * 10 + v mod 10 = v.
Proof. intros. Z.div_mod_to_equations. lia. Qed.

Lemma four_digits v : 0 <= v < 10000 ->
  (((0 * 10 + v / 10 / 10 / 10 mod 10) * 10 + v / 10 / 10 mod 10) * 10 + v / 10 mod 10) * 10
    + v mod 10 = v.
Proof. intros. Z.div_mod_to_equations. lia. Qed.

(** [new Date(s)] reads back the date part that [toISOString] prints, for
    the years written with four digits. *)
Lemma parse_iso_date_print y m d :
  0 <= y <= 9999 -> 1 <= m <= 12 -> 1 <= d <= 31 ->
  parse_iso_date (pad_digits 4 y ++ "-" ++ pad_digits 2 m ++ "-" ++ pad_digits 2 d) =
  Some (y, m, d).
Proof.
  intros Hy Hm Hd. rewrite pad_digits_4, !pad_digits_2. simpl.
  rewrite !digit_val_char. simpl.
  rewrite four_digits, !two_digits by lia.
  destruct (Z.leb_spec 1 m), (Z.leb_spec m 12), (Z.leb_spec 1 d), (Z.leb_spec d 31); try lia.
  done.
Qed.

Lemma days_from_civil_day y m d : days_from_civil y m d = days_from_civil y m 1 + (d - 1).
Proof. unfold days_from_civil. cbv zeta. lia. Qed.

Lemma iso_year_four_digits y : 0 <= y <= 9999 -> iso_year y = pad_digits 4 y.
Proof.
  intros Hy. unfold iso_year.
  destruct (Z.leb_spec 0 y), (Z.leb_spec y 9999); [done|lia..].
Qed.

(** ** Properties of the date functions *)

(** Every date part [toISOString] prints (the "today" of
    [getUserHabits] and [recordHabitCompletion]) is a well-formed civil
    date [YYYY-MM-DD]: a month in [1, 12] and a day in [1, 31], the
    year written with four digits when it is in [0, 9999]. *)
Lemma iso_date_well_formed t :
  exists y m d, iso_date_of_ms t = (iso_year y ++ "-" ++ pad_digits 2 m ++ "-" ++ pad_digits 2 d)%string /\
    1 <= m <= 12 /\ 1 <= d <= 31 /\
    (0 <= y <= 9999 -> String.length (iso_date_of_ms t) = 10%nat).
Proof.
  pose proof (civil_from_days_range (t / ms_per_day)) as Hr.
  unfold iso_date_of_ms. destruct (civil_from_days (t / ms_per_day)) as [[y m] d].
  exists y, m, d. split; [done|]. split; [lia|]. split; [lia|].
  intros Hy. rewrite iso_year_four_digits by done. rewrite pad_digits_4, !pad_digits_2. reflexivity.
Qed.

(** The date string printed for a time value parses back, with
    [new Date(s).getTime()], to UTC midnight of its day, for the years
    [0] to [9999]: the code's "today" is read back as the day it names. *)
Lemma iso_date_roundtrip t :
  (let '(y, _, _) := civil_from_days (day_of_ms t) in 0 <= y <= 9999) ->
  date_getTime (iso_date_of_ms t) = Some (day_of_ms t * ms_per_day).
Proof.
  unfold iso_date_of_ms, day_of_ms.
  pose proof (days_civil_roundtrip (t / ms_per_day)) as Hrt.
  pose proof (civil_from_days_range (t / ms_per_day)) as Hr.
  destruct (civil_from_days (t / ms_per_day)) as [[y m] d]. intros Hy.
  rewrite iso_year_four_digits by done. unfold date_getTime.
  rewrite parse_iso_date_print by lia. f_equal. rewrite <- days_from_civil_day. by rewrite Hrt.
Qed.

