(* ===== verification/Db.v ===== *)
(** * The database the data-access layer talks to

    [src/supabase/database.ts] reads and writes five tables through the
    Supabase client: [habits], [habit_streaks], [habit_completions],
    [profiles] and [user_settings], and reads the session user.
    This file holds
    - the row types, with the fields of the interfaces [Habit],
      [HabitStreak], [HabitCompletion], [HabitWithProgress], [User] and
      [UserSettings] of the source (one Module per interface, so the
      fields keep their names);
    - the database state [db]: the five tables as lists of rows in
      insertion order, the session user [supabase.auth.getUser()]
      returns, the supply of fresh row ids, the clock read by
      [new Date()], and [faults], the outcome of the next requests
      (a [true] makes that request fail, as a network or server error
      does; an exhausted list means every request succeeds);
    - the requests the code sends, as state-monad computations: a select
      with equality filters, [.single()] and [.maybeSingle()], insert,
      update and delete.  A request returns [Ok data] or [Err error]
      without throwing, as the client's [{ data, error }] does;
    - [read_only] and [keeps_clock]: the computations that change no data,
      and those that change neither the clock nor the session.
    The schema, its constraints and its row-level-security policies are not
    part of the repository: every row is visible to the requests here. *)

From S2P Require Import Prelude.

Open Scope Z_scope.

(** Row ids and user ids are UUIDs; we draw them from [N]. *)
Abbreviation uuid := N.

Inductive color := Primary | Secondary | Accent.
Inductive frequency := Daily | Weekly | Monthly.

#[export] Instance color_eq_dec : EqDecision color.
Proof. solve_decision. Defined.
#[export] Instance frequency_eq_dec : EqDecision frequency.
Proof. solve_decision. Defined.

Module Habit.
Record t := mk {
    id : uuid;
    user_id : uuid;
    name : string;
    description : option string;
    icon : option string;
    color : Db.color;
    category : option string;
    target_value : Z;
    target_unit : string;
    frequency : Db.frequency;
    is_active : bool;
    created_at : Z;
    updated_at : Z
  }.
End Habit.

Module HabitCompletion.
Record t := mk {
    id : uuid;
    habit_id : uuid;
    user_id : uuid;
    completion_date : string;
    value : Z;
    notes : option string;
    created_at : Z
  }.
End HabitCompletion.

Module HabitStreak.
Record t := mk {
    id : uuid;
    habit_id : uuid;
    user_id : uuid;
    current_streak : Z;
    longest_streak : Z;
    last_completion_date : option string
  }.
End HabitStreak.

(** [interface HabitWithProgress extends Habit]: the habit's own fields
    and the four derived ones. *)
Module HabitWithProgress.
Record t := mk {
    habit : Habit.t;
    current_streak : Z;
    longest_streak : Z;
    today_progress : Z;
    is_completed_today : bool
  }.
End HabitWithProgress.

(** [interface User] (the [profiles] table). *)
Module User.
Record t := mk {
    id : uuid;
    email : string;
    name : string;
    bio : option string;
    avatar_url : option string;
    created_at : Z;
    updated_at : Z
  }.
End User.

(** [interface UserSettings] (the [user_settings] table). *)
Module UserSettings.
Record t := mk {
    user_id : uuid;
    habit_reminders : bool;
    streak_alerts : bool;
    weekly_reports : bool;
    motivational_quotes : bool;
    reminder_time : string;
    theme : string;
    accent_color : string;
    data_collection : bool;
    analytics : bool;
    public_profile : bool;
    created_at : Z;
    updated_at : Z
  }.
End UserSettings.

Record db := mkDb {
  habits : list Habit.t;
  habit_streaks : list HabitStreak.t;
  habit_completions : list HabitCompletion.t;
  profiles : list User.t;
  user_settings : list UserSettings.t;
  auth_user : option uuid;     (* [supabase.auth.getUser()] *)
  next_id : uuid;
  now_ms : Z;
  faults : list bool
}.

(** ** Tables *)

Record table (R : Type) := Table {
  tbl_get : db -> list R;
  tbl_set : list R -> db -> db
}.
Arguments Table {R}.
Arguments tbl_get {R}.
Arguments tbl_set {R}.

Definition habits_tbl : table Habit.t :=
  Table habits (fun l d => mkDb l (habit_streaks d) (habit_completions d) (profiles d)
                              (user_settings d) (auth_user d) (next_id d) (now_ms d) (faults d)).
Definition streaks_tbl : table HabitStreak.t :=
  Table habit_streaks (fun l d => mkDb (habits d) l (habit_completions d) (profiles d)
                              (user_settings d) (auth_user d) (next_id d) (now_ms d) (faults d)).
Definition completions_tbl : table HabitCompletion.t :=
  Table habit_completions (fun l d => mkDb (habits d) (habit_streaks d) l (profiles d)
                              (user_settings d) (auth_user d) (next_id d) (now_ms d) (faults d)).
Definition profiles_tbl : table User.t :=
  Table profiles (fun l d => mkDb (habits d) (habit_streaks d) (habit_completions d) l
                              (user_settings d) (auth_user d) (next_id d) (now_ms d) (faults d)).
Definition settings_tbl : table UserSettings.t :=
  Table user_settings (fun l d => mkDb (habits d) (habit_streaks d) (habit_completions d)
                              (profiles d) l (auth_user d) (next_id d) (now_ms d) (faults d)).

Definition with_faults (fs : list bool) (d : db) : db :=
  mkDb (habits d) (habit_streaks d) (habit_completions d) (profiles d)
       (user_settings d) (auth_user d) (next_id d) (now_ms d) fs.

Definition with_next_id (n : uuid) (d : db) : db :=
  mkDb (habits d) (habit_streaks d) (habit_completions d) (profiles d)
       (user_settings d) (auth_user d) n (now_ms d) (faults d).

(** ** Request results *)

Inductive db_error :=
  | RequestFailed          (* the request did not complete *)
  | NotSingle (n : nat)    (* [.single()] saw [n <> 1] rows (PGRST116) *)
  | Conflict               (* a unique constraint is violated (23505) *)
  | ForeignKey.            (* a foreign key is violated (23503) *)

Inductive result (A : Type) := Ok (a : A) | Err (e : db_error).
Arguments Ok {A}.
Arguments Err {A}.

Definition is_ok {A} (r : result A) : bool :=
  match r with Ok _ => true | Err _ => false end.

(** The next request's outcome is taken from [faults]. *)
Definition pop_fault : St db bool := fun d =>
  match faults d with
  | [] => (false, d)
  | f :: fs => (f, with_faults fs d)
  end.

Definition request {A} (body : St db (result A)) : St db (result A) :=
  failed <- pop_fault ;;
  if failed then st_ret (Err RequestFailed) else body.

(** [.select(...).eq(...)...]: the rows satisfying the filters. *)
Definition select_where {R} (t : table R) (p : R -> bool) : St db (result (list R)) :=
  request (fun d => (Ok (List.filter p (tbl_get t d)), d)).

(** [.single()]: exactly one row, an error otherwise. *)
Definition single {R} (r : result (list R)) : result R :=
  match r with
  | Ok [x] => Ok x
  | Ok l => Err (NotSingle (length l))
  | Err e => Err e
  end.

(** [.maybeSingle()]: zero or one row. *)
Definition maybe_single {R} (r : result (list R)) : result (option R) :=
  match r with
  | Ok [] => Ok None
  | Ok [x] => Ok (Some x)
  | Ok l => Err (NotSingle (length l))
  | Err e => Err e
  end.

(** [.insert(row).select().single()]: the row gets the next id and the
    current time. *)
Definition insert_row {R} (t : table R) (mk : uuid -> Z -> R) : St db (result R) :=
  request (fun d =>
    let r := mk (next_id d) (now_ms d) in
    let d' := tbl_set t (tbl_get t d ++ [r]) d in
    (Ok r, with_next_id (N.succ (next_id d)) d')).

Definition update_rows {R} (p : R -> bool) (f : R -> R) (l : list R) : list R :=
  map (fun r => if p r then f r else r) l.

(** [.update(fields).eq(...)...]: every matching row is changed; the
    changed rows are returned. *)
Definition update_where {R} (t : table R) (p : R -> bool) (f : R -> R)
  : St db (result (list R)) :=
  request (fun d =>
    (Ok (map f (List.filter p (tbl_get t d))),
     tbl_set t (update_rows p f (tbl_get t d)) d)).

(** [.update(fields).eq(...).select().single()]: with a singular response
    the change is kept only when exactly one row matched. *)
Definition update_single {R} (t : table R) (p : R -> bool) (f : R -> R)
  : St db (result R) :=
  request (fun d =>
    match List.filter p (tbl_get t d) with
    | [r] => (Ok (f r), tbl_set t (update_rows p f (tbl_get t d)) d)
    | l => (Err (NotSingle (length l)), d)
    end).

(** [.delete().eq(...)]: matching rows are removed; no rows is no error. *)
Definition delete_where {R} (t : table R) (p : R -> bool) : St db (result unit) :=
  request (fun d => (Ok tt, tbl_set t (List.filter (fun r => negb (p r)) (tbl_get t d)) d)).

(** ** Facts about requests *)

(** A database with no pending fault. *)
Definition healthy (d : db) : Prop := faults d = [].

Lemma request_healthy {A} (body : St db (result A)) d :
  healthy d -> request body d = body d.
Proof. unfold healthy, request, pop_fault. st_simpl. by intros ->. Qed.

Lemma request_fault {A} (body : St db (result A)) d fs :
  faults d = true :: fs ->
  request body d = (Err RequestFailed, with_faults fs d).
Proof. unfold request, pop_fault. st_simpl. by intros ->. Qed.

(** Everything of the database but the pending faults. *)
Definition data_of (d : db) :=
  (habits d, habit_streaks d, habit_completions d, profiles d, user_settings d,
   auth_user d, next_id d, now_ms d).

Lemma pop_fault_data d : data_of (snd (pop_fault d)) = data_of d.
Proof. unfold pop_fault. by destruct (faults d). Qed.

(** A computation that changes no data (a read path). *)
Definition read_only {A} (m : St db A) : Prop :=
  forall d, data_of (snd (m d)) = data_of d.

Lemma read_only_ret {A} (a : A) : read_only (st_ret a).
Proof. intros d. done. Qed.

Lemma read_only_bind {A B} (m : St db A) (k : A -> St db B) :
  read_only m -> (forall a, read_only (k a)) -> read_only (st_bind m k).
Proof.
  intros Hm Hk d. unfold st_bind. specialize (Hm d). destruct (m d) as [a d1].
  simpl in *. by rewrite Hk.
Qed.

Lemma read_only_request {A} (body : St db (result A)) :
  read_only body -> read_only (request body).
Proof.
  intros Hb d. unfold request, st_bind. pose proof (pop_fault_data d) as Hp.
  destruct (pop_fault d) as [[|] d1]; simpl in *; [done|]. by rewrite Hb.
Qed.

Lemma read_only_select {R} (t : table R) p : read_only (select_where t p).
Proof. apply read_only_request. intros d. done. Qed.

#[export] Hint Resolve read_only_ret read_only_bind read_only_request read_only_select : habit.

(** ** The clock and the session

    No request changes the time or the signed-in user. *)
Definition clock_of (d : db) : Z * option uuid := (now_ms d, auth_user d).

Definition keeps_clock {A} (m : St db A) : Prop :=
  forall d, clock_of (snd (m d)) = clock_of d.

Definition table_keeps_clock {R} (t : table R) : Prop :=
  forall l d, clock_of (tbl_set t l d) = clock_of d.

Lemma tables_keep_clock :
  table_keeps_clock habits_tbl /\ table_keeps_clock streaks_tbl /\
  table_keeps_clock completions_tbl /\ table_keeps_clock profiles_tbl /\
  table_keeps_clock settings_tbl.
Proof. repeat split; intros l d; done. Qed.

Lemma keeps_clock_ret {A} (a : A) : keeps_clock (st_ret a).
Proof. intros d. done. Qed.

Lemma keeps_clock_get : keeps_clock st_get.
Proof. intros d. done. Qed.

Lemma keeps_clock_bind {A B} (m : St db A) (k : A -> St db B) :
  keeps_clock m -> (forall a, keeps_clock (k a)) -> keeps_clock (st_bind m k).
Proof.
  intros Hm Hk d. unfold st_bind. specialize (Hm d). destruct (m d) as [a d1].
  simpl in *. by rewrite Hk.
Qed.

Lemma keeps_clock_request {A} (body : St db (result A)) :
  keeps_clock body -> keeps_clock (request body).
Proof.
  intros Hb d. unfold request, st_bind, pop_fault.
  destruct (faults d) as [|[|] fs]; simpl; [apply Hb|done|apply (Hb (with_faults fs d))].
Qed.

Lemma keeps_clock_select {R} (t : table R) p : keeps_clock (select_where t p).
Proof. apply keeps_clock_request. intros d. done. Qed.

Lemma keeps_clock_insert {R} (t : table R) mk :
  table_keeps_clock t -> keeps_clock (insert_row t mk).
Proof. intros Ht. apply keeps_clock_request. intros d. simpl. apply Ht. Qed.

Lemma keeps_clock_update_where {R} (t : table R) p f :
  table_keeps_clock t -> keeps_clock (update_where t p f).
Proof. intros Ht. apply keeps_clock_request. intros d. apply Ht. Qed.

Lemma keeps_clock_update_single {R} (t : table R) p f :
  table_keeps_clock t -> keeps_clock (update_single t p f).
Proof.
  intros Ht. apply keeps_clock_request. intros d. simpl.
  destruct (List.filter p (tbl_get t d)) as [|r [|]]; simpl; [done|apply Ht|done].
Qed.

Lemma keeps_clock_delete {R} (t : table R) p :
  table_keeps_clock t -> keeps_clock (delete_where t p).
Proof. intros Ht. apply keeps_clock_request. intros d. apply Ht. Qed.

#[export] Hint Resolve keeps_clock_ret keeps_clock_get keeps_clock_bind keeps_clock_request
  keeps_clock_select keeps_clock_insert keeps_clock_update_where keeps_clock_update_single
  keeps_clock_delete : habit.
