(* ===== verification/Streak.v ===== *)
(** * The streak tracker: [updateHabitStreak]

    [src/supabase/database.ts], lines 259-307.  After a completion is
    recorded for a habit on [completionDate], the habit's streak row is
    read with [.single()]; when it exists, the new current and longest
    streaks are computed from the day difference between [completionDate]
    and the row's [last_completion_date], and the row is updated with them
    and with [last_completion_date := completionDate].

    - [days_diff] is [Math.floor((today - last) / (1000*60*60*24))] on the
      two time values, [None] standing for NaN;
    - [next_streak] is the pure computation of lines 270-295 and
      [apply_completion] the row it writes (lines 298-306);
    - [updateHabitStreak] is the whole handler on the database.

    The theorems show the invariant [0 <= current <= longest], the
    behaviour of every branch, and that, for completions recorded in date
    order, the incremental computation refines the declarative meaning of a
    streak: [current_streak] is the length of the run of consecutive
    completed days that ends on the last completion, and [longest_streak]
    the length of the longest such run ([streak_refines_runs]).  They also
    show what happens outside that contract: a completion dated before the
    last one (a backfill) leaves the counters unchanged but moves
    [last_completion_date] back, so the next day's completion resets the
    streak ([backfill_resets_streak]). *)

From S2P Require Import Prelude JsDate Db.
From Stdlib Require Import Sorted.

Open Scope Z_scope.

Module Streak.

(** [Math.floor((today.getTime() - lastCompletion.getTime()) / (1000 * 60 * 60 * 24))];
    a NaN time value makes the difference NaN. *)
Definition days_diff (today last : option Z) : option Z :=
  match today, last with
  | Some t, Some l => Some ((t - l) / ms_per_day)
  | _, _ => None
  end.

(** Lines 270-295: the new [(current_streak, longest_streak)].  A
    [last_completion_date] that is null or empty is the first completion;
    a NaN [daysDiff] fails both [=== 1] and [> 1]. *)
Definition next_streak (completionDate : string) (streak : HabitStreak.t) : Z * Z :=
  let today := date_getTime completionDate in
  let newCurrentStreak :=
    match js_truthy_string (HabitStreak.last_completion_date streak) with
    | Some last =>
        match days_diff today (date_getTime last) with
        | Some daysDiff =>
            if daysDiff =? 1 then HabitStreak.current_streak streak + 1
            else if 1 <? daysDiff then 1
            else HabitStreak.current_streak streak
        | None => HabitStreak.current_streak streak
        end
    | None => 1
    end in
  let newLongestStreak :=
    if HabitStreak.longest_streak streak <? newCurrentStreak
    then newCurrentStreak else HabitStreak.longest_streak streak in
  (newCurrentStreak, newLongestStreak).

(** Lines 298-306: the updated row. *)
Definition apply_completion (completionDate : string) (streak : HabitStreak.t)
  : HabitStreak.t :=
  let '(c, l) := next_streak completionDate streak in
  HabitStreak.mk (HabitStreak.id streak) (HabitStreak.habit_id streak)
    (HabitStreak.user_id streak) c l (Some completionDate).

(** [.eq('habit_id', habitId).eq('user_id', userId)] *)
Definition streak_filter (habitId userId : uuid) (s : HabitStreak.t) : bool :=
  (HabitStreak.habit_id s =? habitId)%N && (HabitStreak.user_id s =? userId)%N.

(** The whole handler.  A missing (or duplicated) streak row makes
    [.single()] fail and [streak] null: nothing is written.  The update's
    own error is ignored. *)
Definition updateHabitStreak (habitId userId : uuid) (completionDate : string)
  : St db unit :=
  r <- select_where streaks_tbl (streak_filter habitId userId) ;;
  match single r with
  | Err _ => st_ret tt
  | Ok streak =>
      let updated := apply_completion completionDate streak in
      _ <- update_where streaks_tbl (streak_filter habitId userId)
             (fun row => HabitStreak.mk (HabitStreak.id row) (HabitStreak.habit_id row)
                          (HabitStreak.user_id row)
                          (HabitStreak.current_streak updated)
                          (HabitStreak.longest_streak updated)
                          (HabitStreak.last_completion_date updated)) ;;
      st_ret tt
  end.

(** The streak row [createHabit] inserts (lines 186-193). *)
Definition initial_streak (id habitId userId : uuid) : HabitStreak.t :=
  HabitStreak.mk id habitId userId 0 0 None.

(** The completions replayed in call order on one streak row. *)
Definition replay (hist : list string) (row : HabitStreak.t) : HabitStreak.t :=
  fold_left (fun r s => apply_completion s r) hist row.

(** The invariant every streak row keeps. *)
Definition streak_inv (row : HabitStreak.t) : Prop :=
  0 <= HabitStreak.current_streak row <= HabitStreak.longest_streak row.

(** ** The declarative meaning of a streak

    [ds] are the days (numbers of days since the epoch) on which
    completions were recorded.  [run_in ds a k]: the [k] consecutive days
    [a, a+1, ..., a+k-1] all have a completion. *)
Definition run_in (ds : list Z) (a k : Z) : Prop :=
  forall j, 0 <= j < k -> In (a + j) ds.

(** Completions recorded in date order (re-recording a day allowed). *)
Definition in_date_order (ds : list Z) : Prop := StronglySorted Z.le ds.

(** What the counters promise about the history [ds] whose last day is
    [last]: the current streak is the run ending on [last], which cannot
    be extended backwards, and the longest streak is the length of a run
    that no run exceeds. *)
Record streak_meaning (ds : list Z) (last cur longest : Z) : Prop := {
  sm_cur_pos : 1 <= cur;
  sm_cur_run : run_in ds (last - cur + 1) cur;
  sm_cur_max : ~ In (last - cur) ds;
  sm_longest_run : exists a, run_in ds a longest;
  sm_longest_max : forall a k, run_in ds a k -> k <= longest
}.

(** ** Lemmas on runs *)

Lemma run_in_app_l ds e a k : run_in ds a k -> run_in (ds ++ e) a k.
Proof. intros H j Hj. apply in_or_app. left. by apply H. Qed.

Lemma run_in_zero ds a : run_in ds a 0.
Proof. intros j Hj. lia. Qed.

(** A run in [ds ++ [d]], all of [ds] being at most [d], lies in [ds] or
    ends on [d] with the rest in [ds]. *)
Lemma run_in_snoc_split ds d a k :
  Forall (fun x => x <= d) ds -> run_in (ds ++ [d]) a k -> 0 < k ->
  run_in ds a k \/ (a + k - 1 = d /\ run_in ds a (k - 1)).
Proof.
  intros Hle Hrun Hk.
  assert (Hin : forall j, 0 <= j < k -> a + j <> d -> In (a + j) ds).
  { intros j Hj Hne. destruct (in_app_or _ _ _ (Hrun j Hj)) as [|[|[]]]; done. }
  destruct (Z.eq_dec (a + k - 1) d) as [Heq|Hne]; [right; split; [done|]|left].
  - intros j Hj. apply Hin; lia.
  - assert (Htop : In (a + (k - 1)) ds) by (apply Hin; lia).
    rewrite List.Forall_forall in Hle. specialize (Hle _ Htop).
    intros j Hj. apply Hin; lia.
Qed.

(** A run that ends on [last] is no longer than [c] when day [last - c]
    has no completion. *)
Lemma trailing_run_bound ds a k last c :
  run_in ds a k -> a + k - 1 = last -> ~ In (last - c) ds -> 0 <= c -> k <= c.
Proof.
  intros Hrun Hend Hnot Hc. destruct (Z_le_gt_dec k c) as [|Hgt]; [done|].
  exfalso. apply Hnot. replace (last - c) with (a + (k - 1 - c)) by lia.
  apply Hrun. lia.
Qed.

Lemma days_diff_midnight n m :
  days_diff (Some (n * ms_per_day)) (Some (m * ms_per_day)) = Some (n - m).
Proof.
  unfold days_diff. f_equal. rewrite <- Z.mul_sub_distr_r.
  apply Z.div_mul. pose proof ms_per_day_pos. lia.
Qed.

(** [next_streak] on two dates that are UTC midnights, by the difference
    of their day numbers. *)
Lemma next_streak_midnights s row last n m :
  date_getTime s = Some (n * ms_per_day) ->
  js_truthy_string (HabitStreak.last_completion_date row) = Some last ->
  date_getTime last = Some (m * ms_per_day) ->
  next_streak s row =
    let c := if n - m =? 1 then HabitStreak.current_streak row + 1
             else if 1 <? n - m then 1 else HabitStreak.current_streak row in
    (c, Z.max (HabitStreak.longest_streak row) c).
Proof.
  intros Hs Hl Hlast. unfold next_streak. rewrite Hl, Hs, Hlast, days_diff_midnight.
  cbv zeta. f_equal.
  match goal with |- context [?a <? ?b] => destruct (Z.ltb_spec a b) end; lia.
Qed.

Lemma date_getTime_nonempty s t : date_getTime s = Some t -> js_truthy_string (Some s) = Some s.
Proof. destruct s; [done|]. intros _. reflexivity. Qed.

Lemma replay_snoc hist s row :
  replay (hist ++ [s]) row = apply_completion s (replay hist row).
Proof. unfold replay. by rewrite fold_left_app. Qed.

Lemma meaning_cur_le_longest ds L cur lg :
  streak_meaning ds L cur lg -> cur <= lg.
Proof. intros Hm. eapply sm_longest_max; [done|]. apply (sm_cur_run _ _ _ _ Hm). Qed.

(** Every run of [ds ++ [d]] is bounded by the old longest streak or by
    one more than the runs of [ds] that end on [d - 1]. *)
Lemma snoc_run_bound ds d lg b a k :
  Forall (fun x => x <= d) ds ->
  (forall a k, run_in ds a k -> k <= lg) ->
  (forall a k, run_in ds a k -> a + k - 1 = d - 1 -> k <= b) ->
  0 <= lg -> 0 <= b ->
  run_in (ds ++ [d]) a k -> k <= Z.max lg (b + 1).
Proof.
  intros Hle Hlg Hb Hlg0 Hb0 Hrun.
  destruct (Z_le_gt_dec k 0) as [|Hk]; [lia|].
  destruct (run_in_snoc_split ds d a k Hle Hrun) as [H|[Hend H]]; [lia| |].
  - specialize (Hlg _ _ H). lia.
  - specialize (Hb _ _ H). lia.
Qed.

Lemma run_in_snoc_mem ds d a k :
  In d ds -> run_in (ds ++ [d]) a k -> run_in ds a k.
Proof.
  intros Hd Hrun j Hj. destruct (in_app_or _ _ _ (Hrun j Hj)) as [|[<-|[]]]; done.
Qed.

Lemma streak_meaning_first d : streak_meaning [d] d 1 1.
Proof.
  split; [lia| | | |].
  - intros j Hj. left. lia.
  - intros [H|[]]. lia.
  - exists d. intros j Hj. left. lia.
  - intros a k Hrun. destruct (Z_le_gt_dec k 1) as [|Hk]; [done|].
    pose proof (Hrun 0 ltac:(lia)) as H0. pose proof (Hrun 1 ltac:(lia)) as H1.
    destruct H0 as [H0|[]], H1 as [H1|[]]. lia.
Qed.

(** One completion on day [d >= last], from a history whose counters
    have their meaning, gives counters with their meaning. *)
Lemma streak_meaning_step ds L cur lg d :
  streak_meaning ds L cur lg -> In L ds -> Forall (fun x => x <= L) ds -> L <= d ->
  let c := if d - L =? 1 then cur + 1 else if 1 <? d - L then 1 else cur in
  streak_meaning (ds ++ [d]) d c (Z.max lg c).
Proof.
  intros Hm HL Hle Hd c. pose proof (meaning_cur_le_longest _ _ _ _ Hm) as Hcl.
  destruct Hm as [Hc1 Hcr Hcm [a0 Ha0] Hlm].
  assert (Hle_d : Forall (fun x => x <= d) ds).
  { eapply List.Forall_impl; [|exact Hle]. simpl. lia. }
  assert (Hnot_above : forall x, L < x -> ~ In x ds).
  { intros x Hx Hin. rewrite List.Forall_forall in Hle. specialize (Hle _ Hin). lia. }
  unfold c. destruct (Z.eqb_spec (d - L) 1) as [H1|H1];
    [|destruct (Z.ltb_spec 1 (d - L)) as [H2|H2]].
  - (* the next day: the run grows *)
    split; [lia| | | |].
    + intros j Hj. destruct (Z.eq_dec j cur) as [->|Hne].
      * apply in_or_app. right. left. lia.
      * apply in_or_app. left. replace (d - (cur + 1) + 1 + j) with (L - cur + 1 + j) by lia.
        apply Hcr. lia.
    + intros Hin. destruct (in_app_or _ _ _ Hin) as [H|[H|[]]]; [|lia].
      apply Hcm. by replace (L - cur) with (d - (cur + 1)) by lia.
    + destruct (Z.max_spec lg (cur + 1)) as [[_ ->]|[_ ->]].
      * exists (d - (cur + 1) + 1). intros j Hj. destruct (Z.eq_dec j cur) as [->|Hne].
        -- apply in_or_app. right. left. lia.
        -- apply in_or_app. left. replace (d - (cur + 1) + 1 + j) with (L - cur + 1 + j) by lia.
           apply Hcr. lia.
      * exists a0. by apply run_in_app_l.
    + intros a k Hrun. eapply (snoc_run_bound ds d lg cur); eauto; try lia.
      intros a' k' Hr Hend. apply (trailing_run_bound ds a' k' L cur); auto; lia.
  - (* a gap: a new run of one day *)
    split; [lia| | | |].
    + intros j Hj. apply in_or_app. right. left. lia.
    + intros Hin. destruct (in_app_or _ _ _ Hin) as [H|[H|[]]]; [|lia].
      eapply Hnot_above; [|exact H]. lia.
    + exists a0. rewrite Z.max_l by lia. by apply run_in_app_l.
    + intros a k Hrun. eapply (snoc_run_bound ds d lg 0); eauto; try lia.
      intros a' k' Hr Hend. destruct (Z_le_gt_dec k' 0) as [|Hk]; [lia|].
      exfalso. eapply (Hnot_above (a' + (k' - 1))); [lia|]. apply Hr. lia.
  - (* the same day again *)
    assert (d = L) as -> by lia.
    split; [lia| | | |].
    + by apply run_in_app_l.
    + intros Hin. destruct (in_app_or _ _ _ Hin) as [H|[H|[]]]; [done|lia].
    + exists a0. rewrite Z.max_l by lia. by apply run_in_app_l.
    + intros a k Hrun. apply run_in_snoc_mem in Hrun; [|done].
      specialize (Hlm _ _ Hrun). lia.
Qed.

(** ** Lemmas on date-ordered histories *)

Lemma sorted_snoc (ds : list Z) d :
  in_date_order (ds ++ [d]) -> in_date_order ds /\ Forall (fun x => x <= d) ds.
Proof.
  unfold in_date_order. induction ds as [|x ds IH]; simpl; intros H.
  - split; constructor.
  - inversion H as [|? ? Hs Hf]; subst. destruct (IH Hs) as [IH1 IH2].
    rewrite List.Forall_forall in Hf. split.
    + constructor; [done|]. apply List.Forall_forall. intros y Hy.
      apply Hf, in_or_app. by left.
    + constructor; [apply Hf, in_or_app; right; by left|done].
Qed.

Lemma sorted_le_last (ds : list Z) dflt :
  in_date_order ds -> Forall (fun x => x <= List.last ds dflt) ds.
Proof.
  destruct ds as [|x ds] using rev_ind; [constructor|].
  rewrite last_last. intros H. destruct (sorted_snoc _ _ H) as [_ Hf].
  apply List.Forall_app. split; [done|]. constructor; [lia|constructor].
Qed.

Lemma last_in_nonempty (ds : list Z) dflt : ds <> [] -> In (List.last ds dflt) ds.
Proof.
  destruct ds as [|x ds] using rev_ind; [done|]. intros _.
  rewrite last_last. apply in_or_app. right. by left.
Qed.

Lemma apply_completion_fields s row :
  HabitStreak.current_streak (apply_completion s row) = fst (next_streak s row) /\
  HabitStreak.longest_streak (apply_completion s row) = snd (next_streak s row) /\
  HabitStreak.last_completion_date (apply_completion s row) = Some s /\
  HabitStreak.id (apply_completion s row) = HabitStreak.id row /\
  HabitStreak.habit_id (apply_completion s row) = HabitStreak.habit_id row /\
  HabitStreak.user_id (apply_completion s row) = HabitStreak.user_id row.
Proof. unfold apply_completion. by destruct (next_streak s row). Qed.

(** The new current streak is the first completion's 1, one more than
    before, 1 again, or unchanged; the new longest is the maximum. *)
Lemma next_streak_shape s row :
  let '(c, l) := next_streak s row in
  (c = 1 \/ c = HabitStreak.current_streak row + 1 \/ c = HabitStreak.current_streak row) /\
  l = Z.max (HabitStreak.longest_streak row) c.
Proof.
  unfold next_streak. cbv zeta.
  match goal with |- context [HabitStreak.longest_streak row <? ?c] =>
    remember c as cc eqn:Ecc end.
  split.
  - subst cc. repeat case_match; auto.
  - destruct (Z.ltb_spec (HabitStreak.longest_streak row) cc); lia.
Qed.

(** The counters after the first completion of a history and after each
    next one, with the last date stored. *)
Lemma replay_meaning (hist : list (string * Z)) id habitId userId :
  hist <> [] ->
  Forall (fun p => date_getTime (fst p) = Some (snd p * ms_per_day)) hist ->
  in_date_order (map snd hist) ->
  let row := replay (map fst hist) (initial_streak id habitId userId) in
  (exists s, HabitStreak.last_completion_date row = Some s /\
             date_getTime s = Some (List.last (map snd hist) 0 * ms_per_day)) /\
  streak_meaning (map snd hist) (List.last (map snd hist) 0)
    (HabitStreak.current_streak row) (HabitStreak.longest_streak row).
Proof.
  induction hist as [|[s n] h IH] using rev_ind; [done|]. intros _ Hdates Hsorted row.
  apply List.Forall_app in Hdates as [Hh Hx]. apply Forall_inv in Hx as Hsn. simpl in Hsn.
  rewrite map_app in Hsorted. destruct (sorted_snoc _ _ Hsorted) as [Hsh Hle].
  subst row. rewrite !map_app. cbn [map fst snd]. rewrite replay_snoc, last_last.
  destruct (apply_completion_fields s (replay (map fst h) (initial_streak id habitId userId)))
    as (-> & -> & -> & _).
  split; [by exists s|].
  destruct h as [|p h'] eqn:Eh.
  - simpl. unfold next_streak. simpl. apply streak_meaning_first.
  - rewrite <- Eh in *. assert (Hne : h <> []) by (subst; discriminate).
    destruct (IH Hne Hh Hsh) as [[sL [HL HsL]] Hm]. clear IH.
    erewrite next_streak_midnights; [| exact Hsn | rewrite HL; eapply date_getTime_nonempty, HsL | exact HsL].
    simpl. apply streak_meaning_step; [done| |apply sorted_le_last; done|].
    + apply last_in_nonempty. by destruct h.
    + rewrite List.Forall_forall in Hle. apply Hle, last_in_nonempty. by destruct h.
Qed.

(** ** Properties of the streak tracker *)

(** C1: for completions recorded in date order on UTC-midnight dates,
    starting from the zero streak row that habit creation inserts, the
    counters that [updateHabitStreak] maintains mean what a streak means:
    [current_streak] is the number of consecutive completed days ending
    on the last completion (the run cannot be extended backwards), and
    [longest_streak] is the length of a run of consecutive completed days
    that no such run exceeds. *)
Theorem streak_refines_runs (hist : list (string * Z)) (id habitId userId : uuid) :
  hist <> [] ->
  Forall (fun p => date_getTime (fst p) = Some (snd p * ms_per_day)) hist ->
  in_date_order (map snd hist) ->
  let row := replay (map fst hist) (initial_streak id habitId userId) in
  streak_meaning (map snd hist) (List.last (map snd hist) 0)
    (HabitStreak.current_streak row) (HabitStreak.longest_streak row).
Proof. intros Hne Hd Hs. apply (replay_meaning hist id habitId userId Hne Hd Hs). Qed.

(** Witness of C1: completions on Jan 1, Jan 2 (twice) and Jan 5 2024. *)
Lemma streak_refines_runs_witness :
  let hist := [("2024-01-01"%string, 19723); ("2024-01-02"%string, 19724);
               ("2024-01-02"%string, 19724); ("2024-01-05"%string, 19727)] in
  let row := replay (map fst hist) (initial_streak 1 2 3) in
  streak_meaning (map snd hist) (List.last (map snd hist) 0)
    (HabitStreak.current_streak row) (HabitStreak.longest_streak row).
Proof.
  apply streak_refines_runs.
  - discriminate.
  - repeat constructor; vm_compute; reflexivity.
  - unfold in_date_order; simpl.
    repeat (apply SSorted_cons; [|repeat constructor; lia]). constructor.
Defined.

(** C2: one update of the streak row keeps [0 <= current_streak <=
    longest_streak] and never lowers [longest_streak]. *)
Theorem apply_completion_preserves_inv s row :
  streak_inv row ->
  streak_inv (apply_completion s row) /\
  HabitStreak.longest_streak row <= HabitStreak.longest_streak (apply_completion s row).
Proof.
  unfold streak_inv. intros Hinv.
  destruct (apply_completion_fields s row) as (-> & -> & _).
  pose proof (next_streak_shape s row) as Hs.
  destruct (next_streak s row) as [c l]. simpl. lia.
Qed.

Lemma apply_completion_preserves_inv_witness :
  streak_inv (apply_completion "2024-01-01" (initial_streak 1 2 3)) /\
  0 <= HabitStreak.longest_streak (apply_completion "2024-01-01" (initial_streak 1 2 3)).
Proof.
  apply (apply_completion_preserves_inv "2024-01-01" (initial_streak 1 2 3)).
  unfold streak_inv. simpl. lia.
Defined.

(** Recording the same valid date twice. *)
Lemma apply_completion_same_day s t row :
  date_getTime s = Some t ->
  apply_completion s (apply_completion s row) = apply_completion s row.
Proof.
  intros Hs. destruct (date_getTime_midnight s t Hs) as [n ->].
  pose proof (next_streak_shape s row) as Hshape.
  destruct (apply_completion_fields s row) as (Hc & Hl & Hlast & Hid & Hh & Hu).
  assert (Hsame : next_streak s (apply_completion s row) =
    (HabitStreak.current_streak (apply_completion s row),
     HabitStreak.longest_streak (apply_completion s row))).
  { erewrite next_streak_midnights; [|exact Hs|rewrite Hlast; eapply date_getTime_nonempty, Hs|exact Hs].
    rewrite Z.sub_diag. cbv zeta.
    replace (0 =? 1) with false by reflexivity. replace (1 <? 0) with false by reflexivity.
    f_equal. rewrite Hc, Hl. destruct (next_streak s row) as [c l]. simpl in *. lia. }
  unfold apply_completion at 1. rewrite Hsame.
  destruct (apply_completion s row) eqn:E. simpl in *. congruence.
Qed.

(** C3: recording the same valid date a second time leaves the streak
    row as the first recording left it. *)
Theorem streak_same_day_idempotent s t row :
  date_getTime s = Some t ->
  apply_completion s (apply_completion s row) = apply_completion s row.
Proof. apply apply_completion_same_day. Qed.

Lemma streak_same_day_idempotent_witness :
  apply_completion "2024-01-02" (apply_completion "2024-01-02"
    (apply_completion "2024-01-01" (initial_streak 1 2 3))) =
  apply_completion "2024-01-02" (apply_completion "2024-01-01" (initial_streak 1 2 3)).
Proof. apply (streak_same_day_idempotent "2024-01-02" 1704153600000). vm_compute. reflexivity. Defined.

(** C4: a completion dated before the last recorded one (a backfill)
    leaves the counters unchanged but moves [last_completion_date] back
    to the backfilled date; the completion of the day after the last one
    then resets the current streak to 1, where without the backfill it
    would have extended it. *)
Theorem backfill_resets_streak row sL sb s L b :
  HabitStreak.last_completion_date row = Some sL ->
  date_getTime sL = Some (L * ms_per_day) ->
  date_getTime sb = Some (b * ms_per_day) ->
  date_getTime s = Some ((L + 1) * ms_per_day) ->
  b < L ->
  HabitStreak.current_streak (apply_completion sb row) = HabitStreak.current_streak row /\
  HabitStreak.last_completion_date (apply_completion sb row) = Some sb /\
  HabitStreak.current_streak (apply_completion s (apply_completion sb row)) = 1 /\
  HabitStreak.current_streak (apply_completion s row) = HabitStreak.current_streak row + 1.
Proof.
  intros HL HsL Hsb Hs Hb.
  assert (HtL : js_truthy_string (HabitStreak.last_completion_date row) = Some sL)
    by (rewrite HL; eapply date_getTime_nonempty, HsL).
  destruct (apply_completion_fields sb row) as (Hc1 & _ & Hlast1 & _).
  destruct (apply_completion_fields s (apply_completion sb row)) as (Hc2 & _).
  destruct (apply_completion_fields s row) as (Hc3 & _).
  rewrite Hc1, Hc2, Hc3, Hlast1.
  erewrite (next_streak_midnights s row); [|exact Hs|exact HtL|exact HsL].
  erewrite (next_streak_midnights sb row); [|exact Hsb|exact HtL|exact HsL].
  erewrite (next_streak_midnights s (apply_completion sb row));
    [|exact Hs|rewrite Hlast1; eapply date_getTime_nonempty, Hsb|exact Hsb].
  simpl. repeat split.
  - destruct (Z.eqb_spec (b - L) 1); [lia|]. destruct (Z.ltb_spec 1 (b - L)); [lia|done].
  - destruct (Z.eqb_spec (L + 1 - b) 1); [lia|]. destruct (Z.ltb_spec 1 (L + 1 - b)); [done|lia].
  - destruct (Z.eqb_spec (L + 1 - L) 1); [done|lia].
Qed.

(** Witness of C4: a 2-day streak on Jan 10-11 2024, a backfill of Jan 5,
    then Jan 12. *)
Lemma backfill_resets_streak_witness :
  let row := replay ["2024-01-10"%string; "2024-01-11"%string] (initial_streak 1 2 3) in
  HabitStreak.current_streak (apply_completion "2024-01-05" row) = HabitStreak.current_streak row /\
  HabitStreak.last_completion_date (apply_completion "2024-01-05" row) = Some "2024-01-05"%string /\
  HabitStreak.current_streak (apply_completion "2024-01-12" (apply_completion "2024-01-05" row)) = 1 /\
  HabitStreak.current_streak (apply_completion "2024-01-12" row) = HabitStreak.current_streak row + 1.
Proof.
  apply (backfill_resets_streak _ "2024-01-11" "2024-01-05" "2024-01-12" 19733 19727);
    [vm_compute; reflexivity..|lia].
Defined.

Lemma updateHabitStreak_effect habitId userId s d row :
  healthy d ->
  List.filter (streak_filter habitId userId) (habit_streaks d) = [row] ->
  let d' := exec_st (updateHabitStreak habitId userId s) d in
  habit_streaks d' =
    map (fun r => if streak_filter habitId userId r then apply_completion s r else r)
        (habit_streaks d) /\
  habits d' = habits d /\ habit_completions d' = habit_completions d /\ healthy d'.
Proof.
  intros Hh Hf. unfold updateHabitStreak, select_where, update_where, exec_st.
  rewrite st_bind_unfold, request_healthy by done. simpl. rewrite Hf. simpl.
  rewrite st_bind_unfold, request_healthy by done. simpl. repeat split; [|done].
  unfold update_rows. apply (map_filter_single_ext _ _ _ _ row Hf).
  destruct (apply_completion_fields s row) as (? & ? & ? & ? & ? & ?).
  destruct (apply_completion s row). simpl in *. congruence.
Qed.

(** After the update, the habit's one streak row is the updated row. *)
Lemma updateHabitStreak_filter habitId userId s d row :
  healthy d ->
  List.filter (streak_filter habitId userId) (habit_streaks d) = [row] ->
  List.filter (streak_filter habitId userId)
    (habit_streaks (exec_st (updateHabitStreak habitId userId s) d)) =
    [apply_completion s row].
Proof.
  intros Hh Hf. destruct (updateHabitStreak_effect habitId userId s d row Hh Hf) as (-> & _).
  apply filter_update_single; [done|].
  assert (Hrow : streak_filter habitId userId row = true).
  { assert (In row (List.filter (streak_filter habitId userId) (habit_streaks d)))
      by (rewrite Hf; by left).
    by apply filter_In in H as [_ ?]. }
  unfold streak_filter in *. destruct (apply_completion_fields s row) as (_ & _ & _ & _ & -> & ->).
  done.
Qed.

(** C5: with its streak row present exactly once, [updateHabitStreak]
    replaces that row by the updated one and changes no other row or
    table. *)
Theorem updateHabitStreak_updates_row habitId userId s d row :
  healthy d ->
  List.filter (streak_filter habitId userId) (habit_streaks d) = [row] ->
  let d' := exec_st (updateHabitStreak habitId userId s) d in
  habit_streaks d' =
    map (fun r => if streak_filter habitId userId r then apply_completion s r else r)
        (habit_streaks d) /\
  habits d' = habits d /\ habit_completions d' = habit_completions d /\ healthy d'.
Proof. apply updateHabitStreak_effect. Qed.

Lemma updateHabitStreak_updates_row_witness :
  let d := mkDb [] [initial_streak 7 1 2] [] [] [] None 8 0 [] in
  let d' := exec_st (updateHabitStreak 1 2 "2024-01-01") d in
  habit_streaks d' =
    map (fun r => if streak_filter 1 2 r then apply_completion "2024-01-01" r else r)
        (habit_streaks d) /\
  habits d' = habits d /\ habit_completions d' = habit_completions d /\ healthy d'.
Proof. apply (updateHabitStreak_updates_row 1 2 _ _ (initial_streak 7 1 2)); reflexivity. Defined.

(** C6: when the habit has no streak row, or more than one, [.single()]
    fails and [updateHabitStreak] writes nothing. *)
Theorem updateHabitStreak_without_single_row habitId userId s d :
  healthy d ->
  length (List.filter (streak_filter habitId userId) (habit_streaks d)) <> 1%nat ->
  exec_st (updateHabitStreak habitId userId s) d = d.
Proof.
  intros Hh Hlen. unfold updateHabitStreak, select_where, exec_st.
  rewrite st_bind_unfold, request_healthy by done. simpl.
  destruct (List.filter _ _) as [|r [|r' l]]; simpl in *; done.
Qed.

Lemma updateHabitStreak_without_single_row_witness :
  exec_st (updateHabitStreak 1 2 "2024-01-01") (mkDb [] [initial_streak 7 5 2] [] [] [] None 8 0 []) =
  mkDb [] [initial_streak 7 5 2] [] [] [] None 8 0 [].
Proof. apply updateHabitStreak_without_single_row; [reflexivity|simpl; lia]. Defined.

(** [updateHabitStreak] writes only the streak table. *)
(** On a healthy database [updateHabitStreak] keeps the database healthy,
    the habit of every streak row, the id counter and the clock. *)
Lemma updateHabitStreak_healthy habitId userId s d :
  healthy d ->
  let d' := exec_st (updateHabitStreak habitId userId s) d in
  healthy d' /\ map HabitStreak.habit_id (habit_streaks d') = map HabitStreak.habit_id (habit_streaks d) /\
  next_id d' = next_id d /\ now_ms d' = now_ms d.
Proof.
  intros Hh. unfold updateHabitStreak, select_where, update_where, exec_st.
  rewrite st_bind_unfold, request_healthy by done. cbn [fst snd tbl_get streaks_tbl].
  destruct (single _); [|done]. rewrite st_bind_unfold, request_healthy by done.
  cbn. repeat split; [done| |done..]. unfold update_rows. rewrite map_map.
  apply map_ext. intros r. by destruct (streak_filter habitId userId r).
Qed.

Lemma updateHabitStreak_other_tables habitId userId s d :
  let d' := exec_st (updateHabitStreak habitId userId s) d in
  habits d' = habits d /\ habit_completions d' = habit_completions d.
Proof.
  unfold updateHabitStreak, select_where, update_where, exec_st, request.
  rewrite st_bind_unfold. unfold st_bind. pose proof (pop_fault_data d) as Hp.
  destruct (pop_fault d) as [f d1]. unfold data_of in Hp. simpl in *. simplify_eq.
  destruct f; simpl; [split; congruence|].
  destruct (List.filter (streak_filter habitId userId) (habit_streaks d1)) as [|r [|r' l]];
    simpl; [split; congruence| |split; congruence].
  pose proof (pop_fault_data d1) as Hp2. destruct (pop_fault d1) as [f' d2].
  unfold data_of in Hp2. simpl in *. simplify_eq.
  destruct f'; simpl; split; congruence.
Qed.

(** The counters after one completion, on midnight dates. *)
Lemma apply_completion_midnight s row last n m :
  date_getTime s = Some (n * ms_per_day) ->
  HabitStreak.last_completion_date row = Some last ->
  date_getTime last = Some (m * ms_per_day) ->
  let c := if n - m =? 1 then HabitStreak.current_streak row + 1
           else if 1 <? n - m then 1 else HabitStreak.current_streak row in
  HabitStreak.current_streak (apply_completion s row) = c /\
  HabitStreak.longest_streak (apply_completion s row) = Z.max (HabitStreak.longest_streak row) c /\
  HabitStreak.last_completion_date (apply_completion s row) = Some s.
Proof.
  intros Hs Hl Hlast. destruct (apply_completion_fields s row) as (-> & -> & -> & _).
  erewrite next_streak_midnights; [|exact Hs|rewrite Hl; eapply date_getTime_nonempty, Hlast|exact Hlast].
  done.
Qed.

(** The counters after the first completion. *)
Lemma apply_completion_first s row :
  HabitStreak.last_completion_date row = None ->
  HabitStreak.current_streak (apply_completion s row) = 1 /\
  HabitStreak.longest_streak (apply_completion s row) = Z.max (HabitStreak.longest_streak row) 1 /\
  HabitStreak.last_completion_date (apply_completion s row) = Some s.
Proof.
  intros Hl. destruct (apply_completion_fields s row) as (-> & -> & -> & _).
  unfold next_streak. rewrite Hl. simpl. split; [done|]. split; [|done].
  destruct (Z.ltb_spec (HabitStreak.longest_streak row) 1); lia.
Qed.

(** Recording a non-empty date string twice: the second recording keeps
    the current streak, whether the string parses or not. *)
Lemma apply_completion_twice_current s row :
  s <> ""%string ->
  HabitStreak.current_streak (apply_completion s (apply_completion s row)) =
  HabitStreak.current_streak (apply_completion s row).
Proof.
  intros Hne. destruct (date_getTime s) as [t|] eqn:E.
  - by rewrite (apply_completion_same_day s t row E).
  - destruct (apply_completion_fields s (apply_completion s row)) as (-> & _).
    destruct (apply_completion_fields s row) as (_ & _ & Hlast & _).
    unfold next_streak. rewrite Hlast, E. simpl.
    by destruct (String.eqb_spec s "").
Qed.

End Streak.
