(* ===== verification/Completion.v ===== *)
(** * Recording a completion: [recordHabitCompletion]

    [src/supabase/database.ts], lines 228-257.  The completion date is the
    given [date] or, when it is missing or empty, today's date
    ([new Date().toISOString().split('T')[0]]); the row
    [{habit_id, user_id, completion_date, value}] is upserted into
    [habit_completions] with [.select().single()]; on error the function
    returns null, otherwise it updates the streak ([Streak.updateHabitStreak])
    and returns the row.

    The call passes no [onConflict] option, so PostgREST's conflict target
    is the primary key [id], which a payload without an [id] never
    matches; the table's other unique constraints are not in the
    repository.  The section below takes a [schema]: the conflict target
    the upsert merges on, and the table's other unique constraints, which
    reject an insert or update that would duplicate a row (error 23505).
    [conflict_pk] is the code's target with no other constraint,
    [conflict_pk_unique_key] the code's target on a table with the
    specification's [UNIQUE(habit_id, completion_date)], and
    [conflict_habit_date] an upsert whose target is that key (as with
    [onConflict: 'habit_id,completion_date']), the specification's
    behaviour. *)

From S2P Require Import Prelude JsDate Db Streak.

Open Scope Z_scope.

Module Completion.

(** What decides an upsert's outcome: [conflict_target probe r] when the
    existing row [r] matches the row [probe] on the upsert's conflict
    target, and [other_unique probe r] when it would violate one of the
    table's other unique constraints. *)
Record schema := mkSchema {
  conflict_target : HabitCompletion.t -> HabitCompletion.t -> bool;
  other_unique : HabitCompletion.t -> HabitCompletion.t -> bool
}.

Section Upsert.
Variable conflict : schema.

(** [.upsert({habit_id, user_id, completion_date, value}).select().single()]:
    a row matching the conflict target gets the four columns (its id,
    notes and creation time stay); without one a new row is inserted;
    either is rejected when another row violates one of the other unique
    constraints. *)
Definition upsert_completion (habitId userId : uuid) (completionDate : string)
  (value : Z) : St db (result HabitCompletion.t) :=
  request (fun d =>
    let probe := HabitCompletion.mk (next_id d) habitId userId completionDate value
                   None (now_ms d) in
    let merge (r : HabitCompletion.t) :=
      HabitCompletion.mk (HabitCompletion.id r) habitId userId completionDate value
        (HabitCompletion.notes r) (HabitCompletion.created_at r) in
    let violates := existsb (fun r => other_unique conflict probe r &&
                                      negb (conflict_target conflict probe r)) (habit_completions d) in
    match List.filter (conflict_target conflict probe) (habit_completions d) with
    | [] => if violates then (Err Conflict, d)
            else (Ok probe, with_next_id (N.succ (next_id d))
                              (tbl_set completions_tbl (habit_completions d ++ [probe]) d))
    | [r] => if violates then (Err Conflict, d)
             else (Ok (merge r),
                   tbl_set completions_tbl
                     (update_rows (conflict_target conflict probe) merge (habit_completions d)) d)
    | l => (Err (NotSingle (length l)), d)
    end).

(** Lines 228-257. *)
Definition recordHabitCompletion (habitId userId : uuid) (value : Z)
  (date : option string) : St db (option HabitCompletion.t) :=
  d <- st_get ;;
  let completionDate := js_or_string date (iso_date_of_ms (now_ms d)) in
  r <- upsert_completion habitId userId completionDate value ;;
  match r with
  | Err _ => st_ret None
  | Ok data =>
      _ <- Streak.updateHabitStreak habitId userId completionDate ;;
      st_ret (Some data)
  end.

(** A client recording a sequence of [(date, value)] completions of one
    habit, one request after the other. *)
Fixpoint record_all (habitId userId : uuid) (hist : list (string * Z))
  : St db (list (option HabitCompletion.t)) :=
  match hist with
  | [] => st_ret []
  | (date, v) :: rest =>
      r <- recordHabitCompletion habitId userId v (Some date) ;;
      rs <- record_all habitId userId rest ;;
      st_ret (r :: rs)
  end.
End Upsert.

(** The key of a completion row: its habit and its day. *)
Definition completion_key (r : HabitCompletion.t) : uuid * string :=
  (HabitCompletion.habit_id r, HabitCompletion.completion_date r).

Definition key_eqb (a b : uuid * string) : bool :=
  (fst a =? fst b)%N && String.eqb (snd a) (snd b).

(** Rows of the same habit and day, the specification's key. *)
Definition same_key (probe r : HabitCompletion.t) : bool :=
  key_eqb (completion_key r) (completion_key probe).

(** Rows of the same id, the primary key. *)
Definition same_id (probe r : HabitCompletion.t) : bool :=
  (HabitCompletion.id r =? HabitCompletion.id probe)%N.

Definition no_other_unique (probe r : HabitCompletion.t) : bool := false.

(** An upsert on the specification's key, one row per habit and day. *)
Definition conflict_habit_date : schema := mkSchema same_key no_other_unique.

(** The code's call: PostgREST's default target, the primary key, on a
    table without another unique constraint. *)
Definition conflict_pk : schema := mkSchema same_id no_other_unique.

(** The code's call on a table with the specification's
    [UNIQUE(habit_id, completion_date)]. *)
Definition conflict_pk_unique_key : schema := mkSchema same_id same_key.

(** At most one completion row per habit and day. *)
Definition unique_keys (d : db) : Prop := NoDup (map completion_key (habit_completions d)).

(** Every row id is below the next id handed out. *)
Definition fresh_ids (d : db) : Prop :=
  Forall (fun r => (HabitCompletion.id r < next_id d)%N) (habit_completions d).

(** ** Lemmas *)

Lemma key_eqb_iff a b : key_eqb a b = true <-> a = b.
Proof.
  destruct a as [h1 d1], b as [h2 d2]. unfold key_eqb. simpl.
  rewrite andb_true_iff, N.eqb_eq, String.eqb_eq.
  split; [intros [-> ->]|intros [= -> ->]]; done.
Qed.

(** The rows of one habit and day. *)
Definition rows_of_key (k : uuid * string) (l : list HabitCompletion.t) :=
  List.filter (fun r => key_eqb (completion_key r) k) l.

(** A schema without other unique constraints rejects nothing. *)
Lemma no_other_unique_ok (t : HabitCompletion.t -> HabitCompletion.t -> bool) probe l :
  existsb (fun r => no_other_unique probe r && negb (t probe r)) l = false.
Proof. induction l; done. Qed.

Lemma no_other_unique_exists probe l : existsb (no_other_unique probe) l = false.
Proof. induction l; done. Qed.

Lemma with_next_id_healthy n d : healthy d -> healthy (with_next_id n d).
Proof. done. Qed.

(** The upsert under the specification's key, on a healthy database with
    one row per key: it succeeds, keeps one row per key, and the row of
    [(habitId, date)] then holds [value]. *)
Lemma upsert_habit_date_effect habitId userId date v d :
  healthy d -> unique_keys d ->
  let rd := upsert_completion conflict_habit_date habitId userId date v d in
  exists c, fst rd = Ok c /\ HabitCompletion.value c = v /\
    healthy (snd rd) /\ unique_keys (snd rd) /\
    habit_streaks (snd rd) = habit_streaks d /\ habits (snd rd) = habits d /\
    rows_of_key (habitId, date) (habit_completions (snd rd)) = [c].
Proof.
  intros Hh Hu. unfold upsert_completion. rewrite request_healthy by done. cbv zeta.
  rewrite no_other_unique_ok.
  set (p := fun r => key_eqb (completion_key r) (habitId, date)).
  change (conflict_target conflict_habit_date (HabitCompletion.mk (next_id d) habitId userId date v None (now_ms d)))
    with p.
  assert (Hpk : forall r, p r = true -> completion_key r = (habitId, date))
    by (intros r; apply key_eqb_iff).
  destruct (List.filter p (habit_completions d)) as [|r [|r' rest]] eqn:Hf.
  - eexists. split; [reflexivity|]. simpl. split; [done|]. split; [done|].
    split; [|split; [done|split; [done|]]].
    + unfold unique_keys. simpl. rewrite map_app. apply NoDup_snoc; [done|].
      intros Hin. apply in_map_iff in Hin as [r [Hk Hr]].
      assert (In r (List.filter p (habit_completions d))) as Hin
        by (apply filter_In; split; [done|]; by apply key_eqb_iff).
      by rewrite Hf in Hin.
    + unfold rows_of_key. simpl. rewrite List.filter_app. fold p. rewrite Hf. simpl.
      unfold p. simpl. by rewrite (proj2 (key_eqb_iff _ _) eq_refl).
  - set (merge := fun r0 : HabitCompletion.t =>
      HabitCompletion.mk (HabitCompletion.id r0) habitId userId date v
        (HabitCompletion.notes r0) (HabitCompletion.created_at r0)).
    exists (merge r). split; [reflexivity|]. split; [reflexivity|].
    change (healthy (tbl_set completions_tbl (update_rows p merge (habit_completions d)) d) /\
      unique_keys (tbl_set completions_tbl (update_rows p merge (habit_completions d)) d) /\
      habit_streaks d = habit_streaks d /\ habits d = habits d /\
      rows_of_key (habitId, date) (update_rows p merge (habit_completions d)) = [merge r]).
    split; [done|]. split; [|split; [done|split; [done|]]].
    + unfold unique_keys, update_rows. simpl. rewrite map_map.
      replace (map _ (habit_completions d)) with (map completion_key (habit_completions d));
        [done|].
      apply map_ext_in. intros x Hx. destruct (p x) eqn:Hpx; [|done].
      by rewrite (Hpk x Hpx).
    + apply filter_update_single; [done|]. unfold p. simpl. by apply key_eqb_iff.
  - exfalso. pose proof (filter_key_le1 completion_key key_eqb key_eqb_iff
                           (habit_completions d) (habitId, date) Hu) as Hle.
    fold p in Hle. rewrite Hf in Hle. simpl in Hle. lia.
Qed.

(** One recording under the specification's key, with the habit's
    streak row present once. *)
Lemma record_habit_date_effect habitId userId v date d srow :
  healthy d -> unique_keys d -> date <> ""%string ->
  List.filter (Streak.streak_filter habitId userId) (habit_streaks d) = [srow] ->
  let rd := recordHabitCompletion conflict_habit_date habitId userId v (Some date) d in
  exists c, fst rd = Some c /\ HabitCompletion.value c = v /\
    healthy (snd rd) /\ unique_keys (snd rd) /\
    List.filter (Streak.streak_filter habitId userId) (habit_streaks (snd rd)) =
      [Streak.apply_completion date srow] /\
    rows_of_key (habitId, date) (habit_completions (snd rd)) = [c].
Proof.
  intros Hh Hu Hne Hs. unfold recordHabitCompletion.
  rewrite st_bind_unfold. simpl. rewrite js_or_string_nonempty by done.
  rewrite st_bind_unfold.
  destruct (upsert_habit_date_effect habitId userId date v d Hh Hu)
    as (c & Hok & Hv & Hh1 & Hu1 & Hs1 & _ & Hk1).
  rewrite Hok. rewrite <- Hs1 in Hs.
  set (d1 := snd (upsert_completion conflict_habit_date habitId userId date v d)) in *.
  rewrite st_bind_unfold. simpl.
  pose proof (Streak.updateHabitStreak_filter habitId userId date d1 srow Hh1 Hs) as Hf.
  destruct (Streak.updateHabitStreak_effect habitId userId date d1 srow Hh1 Hs)
    as (_ & _ & Hc & Hh2).
  unfold exec_st in *. exists c. unfold unique_keys in *. rewrite Hc. done.
Qed.

(** No recording changes the clock or the session. *)
Lemma record_keeps_clock conflict habitId userId v date :
  keeps_clock (recordHabitCompletion conflict habitId userId v date).
Proof.
  destruct tables_keep_clock as (Hh & Hs & Hc & Hp & Hu).
  unfold recordHabitCompletion. apply keeps_clock_bind; [apply keeps_clock_get|intros d0].
  apply keeps_clock_bind.
  - unfold upsert_completion. apply keeps_clock_request. intros d. cbv zeta.
    destruct (List.filter _ _) as [|r [|]]; [destruct (existsb _ _); [done|apply Hc]..|done].
  - intros [data|e]; [|apply keeps_clock_ret].
    apply keeps_clock_bind; [|intros; apply keeps_clock_ret].
    unfold Streak.updateHabitStreak. apply keeps_clock_bind; [apply keeps_clock_select|].
    intros r. destruct (single r); [|apply keeps_clock_ret].
    apply keeps_clock_bind; [by apply keeps_clock_update_where|intros; apply keeps_clock_ret].
Qed.

(** Without a date, the completion is recorded for today's date string. *)
Lemma record_without_date conflict habitId userId v d :
  recordHabitCompletion conflict habitId userId v None d =
  recordHabitCompletion conflict habitId userId v (Some (iso_date_of_ms (now_ms d))) d.
Proof.
  unfold recordHabitCompletion. rewrite !st_bind_unfold. cbn [st_get fst snd].
  by rewrite (js_or_string_nonempty _ _ (iso_date_nonempty (now_ms d))).
Qed.

Lemma record_all_cons_exec conflict habitId userId date v rest d :
  exec_st (record_all conflict habitId userId ((date, v) :: rest)) d =
  exec_st (record_all conflict habitId userId rest)
    (snd (recordHabitCompletion conflict habitId userId v (Some date) d)).
Proof.
  unfold exec_st. simpl. rewrite st_bind_unfold, st_bind_unfold. simpl.
  unfold st_ret. by destruct (record_all _ _ _ _ _).
Qed.

Lemma date_getTime_not_empty s t : date_getTime s = Some t -> s <> ""%string.
Proof. intros H ->. discriminate. Qed.

(** The streak rows after a sequence of recordings are the pure replay. *)
Lemma record_all_streak habitId userId (hist : list (string * Z)) d srow :
  healthy d -> unique_keys d -> Forall (fun p => fst p <> ""%string) hist ->
  List.filter (Streak.streak_filter habitId userId) (habit_streaks d) = [srow] ->
  let d' := exec_st (record_all conflict_habit_date habitId userId hist) d in
  healthy d' /\ unique_keys d' /\
  List.filter (Streak.streak_filter habitId userId) (habit_streaks d') =
    [Streak.replay (map fst hist) srow].
Proof.
  revert d srow. induction hist as [|[date v] rest IH]; intros d srow Hh Hu Hne Hs.
  - done.
  - inversion Hne as [|? ? Hd Hrest]; subst. simpl in Hd.
    rewrite record_all_cons_exec.
    destruct (record_habit_date_effect habitId userId v date d srow Hh Hu Hd Hs)
      as (c & _ & _ & Hh1 & Hu1 & Hs1 & _).
    apply (IH _ _ Hh1 Hu1 Hrest Hs1).
Qed.

(** ** Properties of recording a completion *)

(** Under the specification's key [(habit_id, completion_date)],
    recording [v1] and then [v2] for one habit on the same valid date
    leaves exactly one completion row for that habit and day, holding
    [v2], and the streak row as the first recording left it. *)
Lemma same_day_rerecord_overwrites habitId userId v1 v2 date t d srow :
  healthy d -> unique_keys d -> date_getTime date = Some t ->
  List.filter (Streak.streak_filter habitId userId) (habit_streaks d) = [srow] ->
  let d2 := exec_st (record_all conflict_habit_date habitId userId [(date, v1); (date, v2)]) d in
  (exists c, rows_of_key (habitId, date) (habit_completions d2) = [c] /\
             HabitCompletion.value c = v2) /\
  List.filter (Streak.streak_filter habitId userId) (habit_streaks d2) =
    [Streak.apply_completion date srow].
Proof.
  intros Hh Hu Ht Hs d2. pose proof (date_getTime_not_empty _ _ Ht) as Hne.
  subst d2. rewrite !record_all_cons_exec.
  destruct (record_habit_date_effect habitId userId v1 date d srow Hh Hu Hne Hs)
    as (c1 & _ & _ & Hh1 & Hu1 & Hs1 & _).
  destruct (record_habit_date_effect habitId userId v2 date _ _ Hh1 Hu1 Hne Hs1)
    as (c2 & _ & Hv2 & _ & _ & Hs2 & Hk2).
  unfold exec_st. simpl. split; [by exists c2|].
  rewrite Hs2. by rewrite (Streak.apply_completion_same_day date t srow Ht).
Qed.



(** When the upsert request fails, [recordHabitCompletion] returns
    null and changes nothing: no completion is stored and the streak is
    not touched. *)
Lemma record_upsert_failure conflict habitId userId v date d fs :
  faults d = true :: fs ->
  recordHabitCompletion conflict habitId userId v date d = (None, with_faults fs d).
Proof.
  intros Hf. unfold recordHabitCompletion. rewrite st_bind_unfold. simpl.
  rewrite st_bind_unfold. unfold upsert_completion. rewrite (request_fault _ _ fs Hf). done.
Qed.

(** The upsert of a row for a habit and day, on a healthy database with
    fresh ids, under the code's conflict target (the primary key): it
    inserts unless a row of that habit and day is a unique-key violation. *)
Lemma upsert_pk_insert others habitId userId date v d :
  healthy d -> fresh_ids d ->
  let probe := HabitCompletion.mk (next_id d) habitId userId date v None (now_ms d) in
  upsert_completion (mkSchema same_id others) habitId userId date v d =
    if existsb (others probe) (habit_completions d) then (Err Conflict, d)
    else (Ok probe, with_next_id (N.succ (next_id d))
                      (tbl_set completions_tbl (habit_completions d ++ [probe]) d)).
Proof.
  intros Hh Hfresh probe. unfold upsert_completion. rewrite request_healthy by done. cbv zeta.
  cbn [conflict_target other_unique]. fold probe.
  assert (Hn : forall r, In r (habit_completions d) -> same_id probe r = false).
  { intros r Hr. unfold fresh_ids in Hfresh. rewrite List.Forall_forall in Hfresh.
    specialize (Hfresh r Hr). unfold same_id. apply N.eqb_neq. cbn. lia. }
  replace (List.filter (same_id probe) (habit_completions d)) with (@nil HabitCompletion.t)
    by (symmetry; apply filter_nil_iff_false; exact Hn).
  replace (existsb (fun r => others probe r && negb (same_id probe r)) (habit_completions d))
    with (existsb (others probe) (habit_completions d)); [done|].
  clear -Hn. induction (habit_completions d) as [|r l IH]; [done|]. cbn.
  rewrite Hn by (left; done). rewrite andb_true_r, IH; [done|]. intros r' Hr'. apply Hn. by right.
Qed.

(** A recording under the primary-key target alone, on a healthy
    database with fresh ids: one row of that habit, user, day and value is
    appended, and the database stays healthy with fresh ids. *)
Lemma record_pk_appends habitId userId v date d :
  healthy d -> fresh_ids d -> date <> ""%string ->
  let d' := exec_st (recordHabitCompletion conflict_pk habitId userId v (Some date)) d in
  healthy d' /\ fresh_ids d' /\ habits d' = habits d /\ now_ms d' = now_ms d /\
  map HabitStreak.habit_id (habit_streaks d') = map HabitStreak.habit_id (habit_streaks d) /\
  exists c, habit_completions d' = habit_completions d ++ [c] /\
    completion_key c = (habitId, date) /\ HabitCompletion.user_id c = userId /\
    HabitCompletion.value c = v.
Proof.
  intros Hh Hfresh Hne. unfold recordHabitCompletion, exec_st.
  rewrite !st_bind_unfold. cbn [st_get fst snd]. rewrite js_or_string_nonempty by done.
  unfold conflict_pk. rewrite upsert_pk_insert by done. cbv zeta.
  rewrite no_other_unique_exists. cbn [fst snd]. rewrite st_bind_unfold. cbn [fst snd st_ret].
  set (d1 := with_next_id _ _).
  assert (Hh1 : healthy d1) by (apply with_next_id_healthy; exact Hh).
  destruct (Streak.updateHabitStreak_healthy habitId userId date d1 Hh1) as (Hh2 & Hs2 & Hn2 & Hc2).
  destruct (Streak.updateHabitStreak_other_tables habitId userId date d1) as [Hb2 Hcs2].
  unfold exec_st, fresh_ids in *. rewrite Hs2, Hn2, Hc2, Hb2, Hcs2.
  split; [exact Hh2|]. subst d1. cbn. split.
  - apply Forall_app. split; [|repeat constructor; cbn; lia].
    eapply Forall_impl; [exact Hfresh|]. cbn. intros; lia.
  - repeat split. by eexists.
Qed.

(** C8: the call passes no [onConflict], so the upsert's conflict
    target is the primary key, which a payload without an [id] never
    matches: recording a habit again on a day that already has its row
    inserts.  On a table with the specification's
    [UNIQUE(habit_id, completion_date)] the insert is rejected and
    [recordHabitCompletion] returns null, leaving the stored value and the
    streak as they were; on a table without it a second row of that habit
    and day is appended.  The specification's overwrite happens under
    neither schema. *)
Theorem pk_upsert_never_overwrites habitId userId v date d c0 :
  healthy d -> fresh_ids d -> date <> ""%string ->
  rows_of_key (habitId, date) (habit_completions d) = [c0] ->
  recordHabitCompletion conflict_pk_unique_key habitId userId v (Some date) d = (None, d) /\
  exists c, habit_completions (exec_st (recordHabitCompletion conflict_pk habitId userId v (Some date)) d) =
              habit_completions d ++ [c] /\
            completion_key c = (habitId, date) /\ HabitCompletion.value c = v.
Proof.
  intros Hh Hfresh Hne Hk.
  assert (Hin : In c0 (rows_of_key (habitId, date) (habit_completions d))) by (rewrite Hk; left; done).
  unfold rows_of_key in Hin. apply filter_In in Hin as [Hin Hkey].
  unfold recordHabitCompletion, exec_st. split.
  - rewrite !st_bind_unfold. cbn [st_get fst snd]. rewrite js_or_string_nonempty by done.
    unfold conflict_pk_unique_key. rewrite upsert_pk_insert by done. cbv zeta.
    replace (existsb _ (habit_completions d)) with true; [done|].
    symmetry. apply existsb_exists. by exists c0.
  - destruct (record_pk_appends habitId userId v date d Hh Hfresh Hne) as (_ & _ & _ & _ & _ & c & Hc & Hkc & _ & Hv).
    exists c. unfold exec_st in Hc. auto.
Qed.

(** A habit that already has a row for Jan 1: the second recording is
    rejected under the unique key, appended without it. *)
Lemma pk_upsert_never_overwrites_witness :
  let row0 := HabitCompletion.mk 4 1 2 "2024-01-01" 3 None 0 in
  let d := mkDb [] [Streak.initial_streak 7 1 2] [row0] [] [] None 8 0 [] in
  recordHabitCompletion conflict_pk_unique_key 1 2 5 (Some "2024-01-01"%string) d = (None, d) /\
  exists c, habit_completions (exec_st (recordHabitCompletion conflict_pk 1 2 5 (Some "2024-01-01"%string)) d)
              = [row0] ++ [c] /\
            completion_key c = (1%N, "2024-01-01"%string) /\ HabitCompletion.value c = 5.
Proof.
  intros row0 d. apply (pk_upsert_never_overwrites 1 2 5 "2024-01-01" d row0).
  - reflexivity.
  - repeat constructor.
  - discriminate.
  - reflexivity.
Defined.

(** Completions of a new habit recorded on three consecutive
    calendar days [D], [D+1], [D+2] leave the streak row with
    [current_streak = 3] and [longest_streak = 3]. *)
Lemma three_consecutive_days habitId userId id s1 s2 s3 D v1 v2 v3 d :
  healthy d -> unique_keys d ->
  date_getTime s1 = Some (D * ms_per_day) ->
  date_getTime s2 = Some ((D + 1) * ms_per_day) ->
  date_getTime s3 = Some ((D + 2) * ms_per_day) ->
  List.filter (Streak.streak_filter habitId userId) (habit_streaks d) =
    [Streak.initial_streak id habitId userId] ->
  exists row,
    List.filter (Streak.streak_filter habitId userId)
      (habit_streaks (exec_st (record_all conflict_habit_date habitId userId
                                 [(s1, v1); (s2, v2); (s3, v3)]) d)) = [row] /\
    HabitStreak.current_streak row = 3 /\ HabitStreak.longest_streak row = 3.
Proof.
  intros Hh Hu H1 H2 H3 Hs.
  destruct (record_all_streak habitId userId [(s1, v1); (s2, v2); (s3, v3)] d (Streak.initial_streak id habitId userId) Hh Hu)
    as (_ & _ & Hrow); [repeat constructor; simpl; eapply date_getTime_not_empty; eauto|exact Hs|].
  eexists. split; [exact Hrow|]. unfold Streak.replay. cbn [fold_left map fst].
  destruct (Streak.apply_completion_first s1 (Streak.initial_streak id habitId userId))
    as (Ha1 & Hb1 & Hc1); [done|].
  destruct (Streak.apply_completion_midnight s2 _ s1 (D + 1) D H2 Hc1 H1) as (Ha2 & Hb2 & Hc2).
  destruct (Streak.apply_completion_midnight s3 _ s2 (D + 2) (D + 1) H3 Hc2 H2) as (Ha3 & Hb3 & _).
  rewrite Ha3, Hb3, Hb2, Ha2, Hb1, Ha1. simpl.
  replace (D + 1 - D) with 1 by lia. replace (D + 2 - (D + 1)) with 1 by lia. simpl. lia.
Qed.

(** A completion recorded more than one day after the last one
    restarts the current streak at 1 and keeps the longest streak reached
    before. *)
Lemma gap_restarts_streak habitId userId s0 s D gap v d srow :
  healthy d -> unique_keys d -> 1 < gap ->
  HabitStreak.last_completion_date srow = Some s0 ->
  date_getTime s0 = Some (D * ms_per_day) ->
  date_getTime s = Some ((D + gap) * ms_per_day) ->
  1 <= HabitStreak.longest_streak srow ->
  List.filter (Streak.streak_filter habitId userId) (habit_streaks d) = [srow] ->
  exists row,
    List.filter (Streak.streak_filter habitId userId)
      (habit_streaks (exec_st (record_all conflict_habit_date habitId userId [(s, v)]) d)) = [row] /\
    HabitStreak.current_streak row = 1 /\
    HabitStreak.longest_streak row = HabitStreak.longest_streak srow.
Proof.
  intros Hh Hu Hgap Hl H0 Hs1 Hlong Hs.
  destruct (record_all_streak habitId userId [(s, v)] d srow Hh Hu)
    as (_ & _ & Hrow); [repeat constructor; simpl; eapply date_getTime_not_empty; eauto|exact Hs|].
  eexists. split; [exact Hrow|]. unfold Streak.replay. cbn [fold_left map fst].
  destruct (Streak.apply_completion_midnight s srow s0 (D + gap) D Hs1 Hl H0) as (Ha & Hb & _).
  rewrite Hb, Ha. replace (D + gap - D) with gap by lia.
  destruct (Z.eqb_spec gap 1); [lia|]. destruct (Z.ltb_spec 1 gap); [|lia]. lia.
Qed.

End Completion.
