(* ===== verification/Habits.v ===== *)
(** * The habit repository

    [src/supabase/database.ts], lines 94-226: reading the habits of a user
    with their streaks and today's progress ([getUserHabits]) or one habit
    ([getHabit]), creating a habit together with its zero streak row
    ([createHabit]), updating ([updateHabit]) and deleting ([deleteHabit]).

    - [select_with_streaks] is the request
      [.select('*, habit_streaks!inner(...)')] with its filters and
      [.order('created_at', { ascending: false })]: each habit comes with
      the streak rows whose [habit_id] is its id, and the [!inner] embedding
      drops habits that have none; rows with equal [created_at] keep table
      order (PostgreSQL leaves that order unspecified);
    - [to_progress] is the [habits.map(...)] of lines 123-134 that joins a
      habit with its first streak row and today's completion;
    - [HabitPatch.t] is [Partial<Habit>];
    - [delete_habits] is [.delete().eq('id', ...)] under the foreign keys
      from [habit_streaks] and [habit_completions] to [habits], whose
      [ON DELETE] action ([on_delete]) the repository leaves to a schema it
      does not contain.

    The theorems show what a read returns (only active habits of the user
    that have a streak row, newest first, with [is_completed_today] exactly
    when today's value reaches the target), that reads change nothing,
    that a created habit appears in the listing with zero counters, and
    what the code does on its error paths: a habit whose streak row could
    not be inserted stays out of every listing; deleting an id that does
    not exist reports success; deleting a habit with its streak row fails
    without a cascading key and removes its rows with one; and two
    recordings of one day under the primary-key upsert make [getHabit]
    report no progress. *)

From S2P Require Import Prelude JsDate Db Streak Completion.
From Stdlib Require Import Sorted Permutation.

Open Scope Z_scope.

Module Habits.

(** [Omit<Habit, "id" | "created_at" | "updated_at">] *)
Record HabitDraft := mkDraft {
  draft_user_id : uuid;
  draft_name : string;
  draft_description : option string;
  draft_icon : option string;
  draft_color : color;
  draft_category : option string;
  draft_target_value : Z;
  draft_target_unit : string;
  draft_frequency : frequency;
  draft_is_active : bool
}.

(** [Partial<Habit>]: every field optional. *)
Module HabitPatch.
Record t := mk {
  id : option uuid;
  user_id : option uuid;
  name : option string;
  description : option (option string);
  icon : option (option string);
  color : option Db.color;
  category : option (option string);
  target_value : option Z;
  target_unit : option string;
  frequency : option Db.frequency;
  is_active : option bool;
  created_at : option Z;
  updated_at : option Z
}.
End HabitPatch.

(** [{ ...habit, ...updates }] *)
Definition apply_patch (p : HabitPatch.t) (h : Habit.t) : Habit.t :=
  Habit.mk (patch_field (HabitPatch.id p) (Habit.id h))
    (patch_field (HabitPatch.user_id p) (Habit.user_id h))
    (patch_field (HabitPatch.name p) (Habit.name h))
    (patch_field (HabitPatch.description p) (Habit.description h))
    (patch_field (HabitPatch.icon p) (Habit.icon h))
    (patch_field (HabitPatch.color p) (Habit.color h))
    (patch_field (HabitPatch.category p) (Habit.category h))
    (patch_field (HabitPatch.target_value p) (Habit.target_value h))
    (patch_field (HabitPatch.target_unit p) (Habit.target_unit h))
    (patch_field (HabitPatch.frequency p) (Habit.frequency h))
    (patch_field (HabitPatch.is_active p) (Habit.is_active h))
    (patch_field (HabitPatch.created_at p) (Habit.created_at h))
    (patch_field (HabitPatch.updated_at p) (Habit.updated_at h)).

(** ** Reading habits *)

(** [.order('created_at', { ascending: false })] *)
Fixpoint insert_created_desc (h : Habit.t) (l : list Habit.t) : list Habit.t :=
  match l with
  | [] => [h]
  | x :: rest =>
      if Habit.created_at x <=? Habit.created_at h then h :: x :: rest
      else x :: insert_created_desc h rest
  end.

Definition sort_created_desc (l : list Habit.t) : list Habit.t :=
  fold_right insert_created_desc [] l.

(** The embedded [habit_streaks] of a habit (by the foreign key). *)
Definition embedded_streaks (d : db) (h : Habit.t) : list HabitStreak.t :=
  List.filter (fun s => (HabitStreak.habit_id s =? Habit.id h)%N) (habit_streaks d).

Definition has_streak (d : db) (h : Habit.t) : bool :=
  match embedded_streaks d h with [] => false | _ => true end.

(** [.select('*, habit_streaks!inner(...)')] with the filter [p], newest
    first. *)
Definition select_with_streaks (p : Habit.t -> bool)
  : St db (result (list (Habit.t * list HabitStreak.t))) :=
  request (fun d =>
    (Ok (map (fun h => (h, embedded_streaks d h))
             (List.filter (fun h => p h && has_streak d h) (sort_created_desc (habits d)))),
     d)).

(** [new Date().toISOString().split('T')[0]] *)
Definition today_string (d : db) : string := iso_date_of_ms (now_ms d).

(** Lines 124-133: one habit with its first streak row and today's
    completion ([value || 0]; a missing streak row reads as zeros). *)
Definition to_progress (todayCompletion : option HabitCompletion.t)
    (hs : Habit.t * list HabitStreak.t) : HabitWithProgress.t :=
  let '(habit, streaks) := hs in
  let '(cur, longest) :=
    match streaks with
    | s :: _ => (HabitStreak.current_streak s, HabitStreak.longest_streak s)
    | [] => (0, 0)
    end in
  let progress :=
    match todayCompletion with Some c => HabitCompletion.value c | None => 0 end in
  HabitWithProgress.mk habit cur longest progress (Habit.target_value habit <=? progress).

(** [completions?.find(c => c.habit_id === habit.id)] *)
Definition find_completion (completions : option (list HabitCompletion.t)) (h : Habit.t)
  : option HabitCompletion.t :=
  match completions with
  | Some l => List.find (fun c => (HabitCompletion.habit_id c =? Habit.id h)%N) l
  | None => None
  end.

(** Lines 95-135. *)
Definition getUserHabits (userId : uuid) : St db (list HabitWithProgress.t) :=
  r <- select_with_streaks (fun h => (Habit.user_id h =? userId)%N && Habit.is_active h) ;;
  match r with
  | Err _ => st_ret []
  | Ok habits =>
      d <- st_get ;;
      let today := today_string d in
      let habitIds := map (fun hs => Habit.id (fst hs)) habits in
      c <- select_where completions_tbl (fun c =>
             (HabitCompletion.user_id c =? userId)%N &&
             String.eqb (HabitCompletion.completion_date c) today &&
             existsb (N.eqb (HabitCompletion.habit_id c)) habitIds) ;;
      let completions := match c with Ok l => Some l | Err _ => None end in
      st_ret (map (fun hs => to_progress (find_completion completions (fst hs)) hs) habits)
  end.

(** Lines 137-171. *)
Definition getHabit (habitId : uuid) : St db (option HabitWithProgress.t) :=
  r <- select_with_streaks (fun h => (Habit.id h =? habitId)%N) ;;
  match single r with
  | Err _ => st_ret None
  | Ok (habit, streaks) =>
      d <- st_get ;;
      let today := today_string d in
      c <- select_where completions_tbl (fun c =>
             (HabitCompletion.habit_id c =? habitId)%N &&
             (HabitCompletion.user_id c =? Habit.user_id habit)%N &&
             String.eqb (HabitCompletion.completion_date c) today) ;;
      let completion := match single c with Ok x => Some x | Err _ => None end in
      st_ret (Some (to_progress completion (habit, streaks)))
  end.

(** ** Writing habits *)

Definition habit_of_draft (draft : HabitDraft) (id : uuid) (now : Z) : Habit.t :=
  Habit.mk id (draft_user_id draft) (draft_name draft) (draft_description draft)
    (draft_icon draft) (draft_color draft) (draft_category draft)
    (draft_target_value draft) (draft_target_unit draft) (draft_frequency draft)
    (draft_is_active draft) now now.

(** Lines 173-196: the habit, then its zero streak row, whose insert's
    error is not looked at. *)
Definition createHabit (habitData : HabitDraft) : St db (option Habit.t) :=
  r <- insert_row habits_tbl (habit_of_draft habitData) ;;
  match r with
  | Err _ => st_ret None
  | Ok data =>
      _ <- insert_row streaks_tbl (fun id _ =>
             Streak.initial_streak id (Habit.id data) (Habit.user_id data)) ;;
      st_ret (Some data)
  end.

Definition habit_id_is (habitId : uuid) (h : Habit.t) : bool := (Habit.id h =? habitId)%N.

(** Lines 198-212. *)
Definition updateHabit (habitId : uuid) (updates : HabitPatch.t) : St db (option Habit.t) :=
  r <- update_single habits_tbl (habit_id_is habitId) (apply_patch updates) ;;
  match r with
  | Err _ => st_ret None
  | Ok data => st_ret (Some data)
  end.

(** The [ON DELETE] action of the foreign keys from [habit_streaks] and
    [habit_completions] to [habits].  The [habit_streaks!inner] embed of
    [getUserHabits] and [getHabit] needs the first key; the repository
    carries no schema, so its action is a parameter: [NoAction] (the
    default of [REFERENCES]) rejects the delete of a referenced habit,
    [Cascade] removes the rows that reference it. *)
Inductive on_delete := NoAction | Cascade.

(** Whether a row referencing the habit id [hid] refers to one of the
    deleted habits [gone]. *)
Definition refers_to (gone : list Habit.t) (hid : uuid) : bool :=
  existsb (fun h => (Habit.id h =? hid)%N) gone.

(** [.delete().eq(...)] on [habits], under the foreign keys. *)
Definition delete_habits (fk : on_delete) (p : Habit.t -> bool) : St db (result unit) :=
  request (fun d =>
    let gone := List.filter p (habits d) in
    let keep_streak s := negb (refers_to gone (HabitStreak.habit_id s)) in
    let keep_completion c := negb (refers_to gone (HabitCompletion.habit_id c)) in
    let d1 := tbl_set habits_tbl (List.filter (fun h => negb (p h)) (habits d)) d in
    match fk with
    | NoAction =>
        if forallb keep_streak (habit_streaks d) && forallb keep_completion (habit_completions d)
        then (Ok tt, d1) else (Err ForeignKey, d)
    | Cascade =>
        (Ok tt, tbl_set completions_tbl (List.filter keep_completion (habit_completions d))
                  (tbl_set streaks_tbl (List.filter keep_streak (habit_streaks d)) d1))
    end).

(** Lines 214-226. *)
Definition deleteHabit (fk : on_delete) (habitId : uuid) : St db bool :=
  r <- delete_habits fk (habit_id_is habitId) ;;
  match r with
  | Err _ => st_ret false
  | Ok _ => st_ret true
  end.

(** ** Lemmas *)

(** Newest first: each habit is created no earlier than those after it. *)
Definition newest_first (l : list Habit.t) : Prop :=
  StronglySorted (fun a b => Habit.created_at b <= Habit.created_at a) l.

Lemma insert_created_desc_perm h l : Permutation (insert_created_desc h l) (h :: l).
Proof.
  induction l as [|x l IH]; simpl; [done|].
  destruct (Habit.created_at x <=? Habit.created_at h); [done|].
  rewrite IH. apply perm_swap.
Qed.

Lemma sort_created_desc_perm l : Permutation (sort_created_desc l) l.
Proof.
  induction l as [|x l IH]; simpl; [done|].
  rewrite insert_created_desc_perm. by apply perm_skip.
Qed.

Lemma insert_created_desc_sorted h l :
  newest_first l -> newest_first (insert_created_desc h l).
Proof.
  unfold newest_first. induction l as [|x l IH]; simpl; intros Hs.
  - repeat constructor.
  - inversion Hs as [|? ? Hs' Hf]; subst.
    destruct (Z.leb_spec (Habit.created_at x) (Habit.created_at h)) as [Hle|Hgt].
    + constructor; [done|]. constructor; [lia|].
      eapply List.Forall_impl; [|exact Hf]. simpl. lia.
    + constructor; [by apply IH|].
      assert (Hp : Permutation (h :: l) (insert_created_desc h l))
        by (symmetry; apply insert_created_desc_perm).
      eapply Permutation_Forall; [exact Hp|]. constructor; [lia|done].
Qed.

Lemma sort_created_desc_sorted l : newest_first (sort_created_desc l).
Proof.
  induction l as [|x l IH]; simpl; [constructor|]. by apply insert_created_desc_sorted.
Qed.

Lemma newest_first_filter p l : newest_first l -> newest_first (List.filter p l).
Proof.
  unfold newest_first. induction l as [|x l IH]; simpl; intros Hs; [constructor|].
  inversion Hs as [|? ? Hs' Hf]; subst. destruct (p x); [|by apply IH].
  constructor; [by apply IH|]. rewrite List.Forall_forall in Hf |- *.
  intros y Hy. apply filter_In in Hy as [Hy _]. by apply Hf.
Qed.

(** The habits [getUserHabits] lists, with their embedded streak rows. *)
Definition listed (d : db) (userId : uuid) : list Habit.t :=
  List.filter (fun h => ((Habit.user_id h =? userId)%N && Habit.is_active h) && has_streak d h)
    (sort_created_desc (habits d)).

(** The completion rows the second request of [getUserHabits] returns. *)
Definition today_rows (d : db) (userId : uuid) (ids : list uuid) : list HabitCompletion.t :=
  List.filter (fun c =>
    (HabitCompletion.user_id c =? userId)%N &&
    String.eqb (HabitCompletion.completion_date c) (today_string d) &&
    existsb (N.eqb (HabitCompletion.habit_id c)) ids) (habit_completions d).

(** On a healthy database, [getUserHabits] returns the listed habits
    joined with their streak rows and today's completions, and changes
    nothing. *)
Lemma getUserHabits_healthy userId d :
  healthy d ->
  getUserHabits userId d =
    (map (fun h => to_progress
            (find_completion (Some (today_rows d userId (map Habit.id (listed d userId)))) h)
            (h, embedded_streaks d h))
         (listed d userId), d).
Proof.
  intros Hh. unfold getUserHabits, select_with_streaks, select_where.
  rewrite st_bind_unfold, request_healthy by done. simpl.
  rewrite st_bind_unfold. simpl. rewrite st_bind_unfold, request_healthy by done. simpl.
  unfold st_ret, listed, today_rows. rewrite !map_map. simpl. done.
Qed.

Lemma in_listed d userId h :
  In h (listed d userId) <->
  In h (habits d) /\ Habit.user_id h = userId /\ Habit.is_active h = true /\ has_streak d h = true.
Proof.
  unfold listed. rewrite filter_In.
  split.
  - intros [Hin Hp]. apply andb_true_iff in Hp as [Hp Hs]. apply andb_true_iff in Hp as [Hu Ha].
    apply N.eqb_eq in Hu. split; [|done]. eapply Permutation_in; [apply sort_created_desc_perm|done].
  - intros (Hin & Hu & Ha & Hs). split.
    + eapply Permutation_in; [symmetry; apply sort_created_desc_perm|done].
    + by rewrite Hu, N.eqb_refl, Ha, Hs.
Qed.

(** The completion [getUserHabits] joins with a listed habit: the first
    row of that habit, that user and today in the table. *)
Definition today_completion (d : db) (userId : uuid) (h : Habit.t) : option HabitCompletion.t :=
  List.find (fun c =>
    (HabitCompletion.user_id c =? userId)%N &&
    String.eqb (HabitCompletion.completion_date c) (today_string d) &&
    (HabitCompletion.habit_id c =? Habit.id h)%N) (habit_completions d).

Lemma find_today_rows d userId ids h :
  In (Habit.id h) ids ->
  find_completion (Some (today_rows d userId ids)) h = today_completion d userId h.
Proof.
  intros Hin. unfold find_completion, today_rows, today_completion. rewrite find_filter.
  apply find_ext_in. intros c _.
  destruct (HabitCompletion.habit_id c =? Habit.id h)%N eqn:E; rewrite ?andb_false_r; [|done].
  apply N.eqb_eq in E. rewrite E.
  replace (existsb (N.eqb (Habit.id h)) ids) with true; [by rewrite !andb_true_r|].
  symmetry. apply existsb_exists. exists (Habit.id h). by rewrite N.eqb_refl.
Qed.

Lemma to_progress_habit c h s : HabitWithProgress.habit (to_progress c (h, s)) = h.
Proof. unfold to_progress. by destruct s as [|[] ?], c. Qed.

Lemma read_only_get : read_only (@st_get db).
Proof. intros d. done. Qed.

Lemma read_only_select_with_streaks p : read_only (select_with_streaks p).
Proof. apply read_only_request. intros d. done. Qed.

#[export] Hint Resolve read_only_get read_only_select_with_streaks : habit.

(** ** Properties of the habit repository *)

(** C10: on a healthy database, [getUserHabits userId] lists exactly the
    habits of [userId] that are active and have a streak row, newest
    first. *)
Theorem getUserHabits_listing userId d :
  healthy d ->
  let res := map HabitWithProgress.habit (eval_st (getUserHabits userId) d) in
  newest_first res /\
  (forall h, In h res <->
     In h (habits d) /\ Habit.user_id h = userId /\ Habit.is_active h = true /\
     has_streak d h = true).
Proof.
  intros Hh res. subst res. unfold eval_st. rewrite getUserHabits_healthy by done. simpl.
  rewrite map_map. rewrite (map_ext _ (fun h => h)) by (intros; apply to_progress_habit).
  rewrite map_id. split; [apply newest_first_filter, sort_created_desc_sorted|].
  intros h. apply in_listed.
Qed.

Lemma getUserHabits_listing_witness :
  let h1 := Habit.mk 1 9 "Read" None None Primary None 30 "minutes" Daily true 100 100 in
  let h2 := Habit.mk 2 9 "Run" None None Accent None 1 "times" Daily true 200 200 in
  let d := mkDb [h1; h2] [Streak.initial_streak 3 1 9; Streak.initial_streak 4 2 9] []
                [] [] None 5 0 [] in
  let res := map HabitWithProgress.habit (eval_st (getUserHabits 9) d) in
  newest_first res /\
  (forall h, In h res <->
     In h (habits d) /\ Habit.user_id h = 9%N /\ Habit.is_active h = true /\
     has_streak d h = true).
Proof. apply getUserHabits_listing. reflexivity. Defined.

(** On a healthy database, each habit [getUserHabits] lists carries
    as [today_progress] the value of the first completion row of that
    habit, that user and today's date ([0] when there is none), is
    [is_completed_today] exactly when that value reaches the habit's
    target, and carries the counters of its first streak row. *)
Lemma getUserHabits_progress userId d hp :
  healthy d -> In hp (eval_st (getUserHabits userId) d) ->
  let h := HabitWithProgress.habit hp in
  HabitWithProgress.today_progress hp =
    match today_completion d userId h with Some c => HabitCompletion.value c | None => 0 end /\
  HabitWithProgress.is_completed_today hp =
    (Habit.target_value h <=? HabitWithProgress.today_progress hp) /\
  HabitWithProgress.current_streak hp =
    match embedded_streaks d h with s :: _ => HabitStreak.current_streak s | [] => 0 end.
Proof.
  intros Hh Hin. unfold eval_st in Hin. rewrite getUserHabits_healthy in Hin by done.
  cbn [fst] in Hin. apply in_map_iff in Hin as [h [<- Hl]].
  rewrite find_today_rows by (by apply in_map).
  rewrite to_progress_habit. unfold to_progress.
  destruct (embedded_streaks d h) as [|s ss], (today_completion d userId h); done.
Qed.

(** The read path changes no data. *)
Lemma getUserHabits_no_effect userId : read_only (getUserHabits userId).
Proof.
  unfold getUserHabits. apply read_only_bind; [auto with habit|].
  intros [hs|e]; [|auto with habit].
  apply read_only_bind; [auto with habit|]. intros d.
  apply read_only_bind; [auto with habit|]. intros c. auto with habit.
Qed.

(** [getUserHabits] changes no data, whatever the database and
    whichever of its requests fail: re-running it on a change
    notification is free of side effects. *)
Lemma getUserHabits_read_only userId : read_only (getUserHabits userId).
Proof. apply getUserHabits_no_effect. Qed.

(** [createHabit] on a healthy database: the habit row and its zero
    streak row are appended. *)
Lemma createHabit_healthy draft d :
  healthy d ->
  let h := habit_of_draft draft (next_id d) (now_ms d) in
  createHabit draft d =
    (Some h,
     mkDb (habits d ++ [h])
          (habit_streaks d ++ [Streak.initial_streak (N.succ (next_id d)) (next_id d) (draft_user_id draft)])
          (habit_completions d) (profiles d) (user_settings d) (auth_user d)
          (N.succ (N.succ (next_id d))) (now_ms d) (faults d)).
Proof.
  intros Hh h. unfold createHabit, insert_row.
  rewrite st_bind_unfold, request_healthy by done. simpl.
  rewrite st_bind_unfold, request_healthy by done. done.
Qed.

Lemma embedded_streaks_fresh d h s :
  Forall (fun r => HabitStreak.habit_id r <> Habit.id h) (habit_streaks d) ->
  HabitStreak.habit_id s = Habit.id h ->
  List.filter (fun r => (HabitStreak.habit_id r =? Habit.id h)%N) (habit_streaks d ++ [s]) = [s].
Proof.
  intros Hf Hs. rewrite List.filter_app, filter_nil_iff_false.
  - simpl. by rewrite Hs, N.eqb_refl.
  - intros r Hr. rewrite List.Forall_forall in Hf. apply N.eqb_neq. by apply Hf.
Qed.

Lemma today_completion_fresh d userId h :
  Forall (fun c => HabitCompletion.habit_id c <> Habit.id h) (habit_completions d) ->
  today_completion d userId h = None.
Proof.
  intros Hf. unfold today_completion. apply find_none_all.
  intros c Hc. rewrite List.Forall_forall in Hf. specialize (Hf c Hc).
  apply N.eqb_neq in Hf. by rewrite Hf, andb_false_r.
Qed.

(** On a healthy database whose tables do not yet mention the next
    id, [createHabit] returns the new habit and [getUserHabits] of its
    owner then lists it (when active) with zero streaks and zero progress. *)
Lemma createHabit_listed draft d :
  healthy d -> draft_is_active draft = true ->
  Forall (fun s => HabitStreak.habit_id s <> next_id d) (habit_streaks d) ->
  Forall (fun c => HabitCompletion.habit_id c <> next_id d) (habit_completions d) ->
  exists h, eval_st (createHabit draft) d = Some h /\ Habit.id h = next_id d /\
    In (HabitWithProgress.mk h 0 0 0 (Habit.target_value h <=? 0))
       (eval_st (getUserHabits (draft_user_id draft)) (exec_st (createHabit draft) d)).
Proof.
  intros Hh Hact Hs Hc. unfold eval_st, exec_st. rewrite createHabit_healthy by done.
  set (h := habit_of_draft draft (next_id d) (now_ms d)).
  exists h. split; [done|]. split; [done|]. simpl.
  set (d' := mkDb _ _ _ _ _ _ _ _ _).
  assert (Hemb : embedded_streaks d' h =
    [Streak.initial_streak (N.succ (next_id d)) (next_id d) (draft_user_id draft)])
    by (apply embedded_streaks_fresh; done).
  rewrite getUserHabits_healthy by done. cbn [fst]. apply in_map_iff. exists h. split.
  - rewrite find_today_rows.
    + rewrite today_completion_fresh by done. unfold to_progress. by rewrite Hemb.
    + apply in_map, in_listed. split; [apply in_or_app; right; by left|].
      split; [done|]. split; [done|]. unfold has_streak. by rewrite Hemb.
  - apply in_listed. split; [apply in_or_app; right; by left|].
    split; [done|]. split; [done|]. unfold has_streak. by rewrite Hemb.
Qed.

Definition sample_draft : HabitDraft :=
  mkDraft 9 "Drink Water" None None Accent (Some "Health"%string) 8 "glasses" Daily true.

(** The habits [getHabit habitId] finds, with their streak rows. *)
Definition found (d : db) (habitId : uuid) : list Habit.t :=
  List.filter (fun h => (Habit.id h =? habitId)%N && has_streak d h) (sort_created_desc (habits d)).

(** The completion rows [getHabit] reads for a habit. *)
Definition habit_today_rows (d : db) (habitId userId : uuid) : list HabitCompletion.t :=
  List.filter (fun c =>
    (HabitCompletion.habit_id c =? habitId)%N && (HabitCompletion.user_id c =? userId)%N &&
    String.eqb (HabitCompletion.completion_date c) (today_string d)) (habit_completions d).

Lemma getHabit_healthy habitId d :
  healthy d ->
  getHabit habitId d =
    (match found d habitId with
     | [h] => Some (to_progress
                 (match habit_today_rows d habitId (Habit.user_id h) with
                  | [c] => Some c | _ => None end)
                 (h, embedded_streaks d h))
     | _ => None
     end, d).
Proof.
  intros Hh. unfold getHabit, select_with_streaks, found.
  rewrite st_bind_unfold, request_healthy by done. simpl.
  destruct (List.filter _ (sort_created_desc (habits d))) as [|h [|h' l]]; simpl; [done| |done].
  rewrite st_bind_unfold. simpl. unfold select_where.
  rewrite st_bind_unfold, request_healthy by done. simpl.
  unfold habit_today_rows. by destruct (List.filter _ (habit_completions d)) as [|c [|c' l']].
Qed.

Lemma createHabit_second_insert_fails draft d :
  faults d = [false; true] ->
  let h := habit_of_draft draft (next_id d) (now_ms d) in
  createHabit draft d =
    (Some h, mkDb (habits d ++ [h]) (habit_streaks d) (habit_completions d) (profiles d)
               (user_settings d) (auth_user d) (N.succ (next_id d)) (now_ms d) []).
Proof.
  intros Hf h. unfold createHabit, insert_row, request, pop_fault, st_bind, st_ret.
  rewrite Hf. reflexivity.
Qed.

(** C11: the habit row and its streak row are inserted by two requests
    with no transaction.  When the second fails, [createHabit] still
    returns the habit, which is stored, but it has no streak row: the
    [!inner] join keeps it out of [getUserHabits], and [getHabit] of its
    id returns null. *)
Theorem createHabit_orphan_habit draft d :
  faults d = [false; true] ->
  Forall (fun h => Habit.id h <> next_id d) (habits d) ->
  Forall (fun s => HabitStreak.habit_id s <> next_id d) (habit_streaks d) ->
  let d' := exec_st (createHabit draft) d in
  exists h, eval_st (createHabit draft) d = Some h /\ In h (habits d') /\
    embedded_streaks d' h = [] /\
    ~ In h (map HabitWithProgress.habit (eval_st (getUserHabits (draft_user_id draft)) d')) /\
    eval_st (getHabit (Habit.id h)) d' = None.
Proof.
  intros Hf Hfh Hfs d'. subst d'. unfold eval_st, exec_st.
  rewrite createHabit_second_insert_fails by done. cbn [fst snd].
  set (h := habit_of_draft draft (next_id d) (now_ms d)).
  set (d' := mkDb _ _ _ _ _ _ _ _ _).
  assert (Hemb : embedded_streaks d' h = []).
  { apply filter_nil_iff_false. intros r Hr. apply N.eqb_neq.
    rewrite List.Forall_forall in Hfs. by apply Hfs. }
  assert (Hns : has_streak d' h = false) by (unfold has_streak; by rewrite Hemb).
  exists h. split; [done|]. split; [apply in_or_app; right; by left|]. split; [done|]. split.
  - rewrite getUserHabits_healthy by done. cbn [fst]. rewrite map_map.
    rewrite (map_ext _ (fun h => h)) by (intros; apply to_progress_habit). rewrite map_id.
    intros Hin. apply in_listed in Hin as (_ & _ & _ & Hs). congruence.
  - rewrite getHabit_healthy by done. cbn [fst].
    replace (found d' (Habit.id h)) with (@nil Habit.t); [done|]. symmetry.
    apply filter_nil_iff_false. intros x Hx.
    apply (Permutation_in _ (sort_created_desc_perm _)) in Hx.
    apply in_app_or in Hx as [Hx|[<-|[]]].
    + change (Habit.id h) with (next_id d).
      rewrite List.Forall_forall in Hfh. specialize (Hfh x Hx).
      apply N.eqb_neq in Hfh. by rewrite Hfh.
    + by rewrite Hns, andb_false_r.
Qed.

Lemma createHabit_orphan_habit_witness :
  let d := mkDb [] [] [] [] [] None 1 1704067200000 [false; true] in
  let d' := exec_st (createHabit sample_draft) d in
  exists h, eval_st (createHabit sample_draft) d = Some h /\ In h (habits d') /\
    embedded_streaks d' h = [] /\
    ~ In h (map HabitWithProgress.habit (eval_st (getUserHabits (draft_user_id sample_draft)) d')) /\
    eval_st (getHabit (Habit.id h)) d' = None.
Proof. apply createHabit_orphan_habit; [reflexivity|constructor|constructor]. Defined.

(** The habits a delete of one id removes are referred to by exactly
    the rows of that id, when such a habit exists. *)
Lemma refers_to_deleted habitId l hid :
  refers_to (List.filter (habit_id_is habitId) l) hid =
    (hid =? habitId)%N && existsb (habit_id_is habitId) l.
Proof.
  unfold refers_to, habit_id_is. induction l as [|h l IH]; cbn; [by rewrite andb_false_r|].
  match goal with |- context [(?x =? habitId)%N] => destruct (N.eqb_spec x habitId) as [E|] end;
    cbn; rewrite IH; [|done].
  rewrite E, N.eqb_sym. by destruct (hid =? habitId)%N.
Qed.

Lemma exists_habit_id habitId d h :
  In h (habits d) -> Habit.id h = habitId -> existsb (habit_id_is habitId) (habits d) = true.
Proof. intros Hin Hid. apply existsb_exists. exists h. split; [done|]. by apply N.eqb_eq. Qed.

(** C13: [deleteHabit] of an id no habit has reports success (true) and
    changes nothing, whatever the foreign keys' action; the
    specification's contract answers [NotFound] (false) there. *)
Theorem deleteHabit_missing fk habitId d :
  healthy d -> existsb (habit_id_is habitId) (habits d) = false ->
  deleteHabit fk habitId d = (true, d).
Proof.
  intros Hh Hn. unfold deleteHabit, delete_habits. rewrite st_bind_unfold, request_healthy by done.
  assert (Hf : List.filter (habit_id_is habitId) (habits d) = []).
  { apply filter_nil_iff_false. intros x Hx. destruct (habit_id_is habitId x) eqn:E; [|done].
    assert (existsb (habit_id_is habitId) (habits d) = true) by (apply existsb_exists; by exists x).
    congruence. }
  assert (Hall : forall A (l : list A), List.filter (fun _ => true) l = l)
    by (intros A l; induction l; cbn; congruence).
  assert (Hk : List.filter (fun h => negb (habit_id_is habitId h)) (habits d) = habits d).
  { rewrite <- (Hall _ (habits d)) at 2. apply filter_ext_in. intros x Hx.
    destruct (habit_id_is habitId x) eqn:E; [|done].
    assert (existsb (habit_id_is habitId) (habits d) = true) by (apply existsb_exists; by exists x).
    congruence. }
  rewrite Hf. unfold refers_to. cbn [existsb negb].
  assert (Htrue : forall A (l : list A), forallb (fun _ => true) l = true)
    by (intros A l; induction l; cbn; congruence).
  destruct fk; cbn -[List.filter forallb]; rewrite ?Htrue, ?Hall; cbn; rewrite Hk; destruct d; done.
Qed.

Lemma deleteHabit_missing_witness :
  let h1 := Habit.mk 1 9 "Read" None None Primary None 30 "minutes" Daily true 100 100 in
  let d := mkDb [h1] [Streak.initial_streak 3 1 9] [] [] [] None 7 0 [] in
  deleteHabit NoAction 2 d = (true, d).
Proof. intros h1 d. apply deleteHabit_missing; reflexivity. Defined.

(** C12: the [habit_streaks!inner] embed needs a foreign key from
    [habit_streaks] to [habits].  Deleting a habit that has a streak row
    (as [createHabit] gives every habit it creates): when the key has no
    [ON DELETE] action the database rejects the delete, [deleteHabit]
    returns false and nothing changes, so no habit [createHabit] made can
    be deleted; with [ON DELETE CASCADE] it returns
    true and removes the habit together with its streak rows and its
    completions, every other row kept. *)
Theorem deleteHabit_fk_outcomes habitId d h s :
  healthy d -> In h (habits d) -> Habit.id h = habitId ->
  In s (habit_streaks d) -> HabitStreak.habit_id s = habitId ->
  deleteHabit NoAction habitId d = (false, d) /\
  let '(ok, d') := deleteHabit Cascade habitId d in
  ok = true /\
  habits d' = List.filter (fun h => negb (habit_id_is habitId h)) (habits d) /\
  habit_streaks d' = List.filter (fun s => negb (HabitStreak.habit_id s =? habitId)%N) (habit_streaks d) /\
  habit_completions d' =
    List.filter (fun c => negb (HabitCompletion.habit_id c =? habitId)%N) (habit_completions d).
Proof.
  intros Hh Hin Hid Hs Hsid. pose proof (exists_habit_id habitId d h Hin Hid) as He.
  unfold deleteHabit, delete_habits. rewrite !st_bind_unfold, !request_healthy by done.
  assert (Hr : forall hid, refers_to (List.filter (habit_id_is habitId) (habits d)) hid = (hid =? habitId)%N)
    by (intros hid; by rewrite refers_to_deleted, He, andb_true_r).
  cbv beta zeta. split.
  - replace (forallb _ (habit_streaks d)) with false; [done|]. symmetry.
    apply not_true_iff_false. rewrite forallb_forall. intros Hall.
    specialize (Hall s Hs). rewrite Hr, Hsid, N.eqb_refl in Hall. discriminate.
  - cbn. split; [done|]. split; [done|].
    split; apply filter_ext; intros x; by rewrite Hr.
Qed.

Lemma deleteHabit_fk_outcomes_witness :
  let h1 := Habit.mk 1 9 "Read" None None Primary None 30 "minutes" Daily true 100 100 in
  let d := mkDb [h1] [Streak.initial_streak 3 1 9] [HabitCompletion.mk 5 1 9 "2024-01-01" 30 None 0] [] []
                None 7 0 [] in
  deleteHabit NoAction 1 d = (false, d) /\
  let '(ok, d') := deleteHabit Cascade 1 d in
  ok = true /\
  habits d' = List.filter (fun h => negb (habit_id_is 1 h)) (habits d) /\
  habit_streaks d' = List.filter (fun s => negb (HabitStreak.habit_id s =? 1)%N) (habit_streaks d) /\
  habit_completions d' =
    List.filter (fun c => negb (HabitCompletion.habit_id c =? 1)%N) (habit_completions d).
Proof.
  intros h1 d. apply (deleteHabit_fk_outcomes 1 d h1 (Streak.initial_streak 3 1 9));
    [reflexivity|left; reflexivity|reflexivity|left; reflexivity|reflexivity].
Defined.

(** Whether a habit has a streak row depends only on the habits the
    streak rows name. *)
Lemma has_streak_ids d h :
  has_streak d h = existsb (fun x => (x =? Habit.id h)%N) (map HabitStreak.habit_id (habit_streaks d)).
Proof.
  unfold has_streak, embedded_streaks. induction (habit_streaks d) as [|r l IH]; [done|].
  cbn. by destruct (HabitStreak.habit_id r =? Habit.id h)%N.
Qed.

Lemma found_same_rows d d' habitId :
  habits d' = habits d ->
  map HabitStreak.habit_id (habit_streaks d') = map HabitStreak.habit_id (habit_streaks d) ->
  found d' habitId = found d habitId.
Proof.
  intros Hb Hs. unfold found. rewrite Hb. apply filter_ext. intros h. by rewrite !has_streak_ids, Hs.
Qed.

(** C14: [getHabit] reads today's completion with [.single()].  The
    recording's upsert targets the primary key, so on a table without
    [UNIQUE(habit_id, completion_date)] recording a habit twice today
    stores two rows of that day (a table with it rejects the second
    recording instead), and [getHabit] then reports the habit with
    [today_progress = 0], whatever the two values. *)
Theorem getHabit_pk_rerecord_reads_zero habitId d h v1 v2 :
  healthy d -> Completion.fresh_ids d -> found d habitId = [h] ->
  let record v := Completion.recordHabitCompletion Completion.conflict_pk habitId (Habit.user_id h) v
                    (Some (today_string d)) in
  let d2 := exec_st (record v2) (exec_st (record v1) d) in
  exists hp, eval_st (getHabit habitId) d2 = Some hp /\
    HabitWithProgress.habit hp = h /\ HabitWithProgress.today_progress hp = 0.
Proof.
  intros Hh Hfresh Hf record d2. pose proof (iso_date_nonempty (now_ms d)) as Hne.
  destruct (Completion.record_pk_appends habitId (Habit.user_id h) v1 (today_string d) d Hh Hfresh Hne)
    as (Hh1 & Hf1 & Hb1 & Hn1 & Hs1 & c1 & Hc1 & Hk1 & Hu1 & _).
  destruct (Completion.record_pk_appends habitId (Habit.user_id h) v2 (today_string d) _ Hh1 Hf1 Hne)
    as (Hh2 & _ & Hb2 & Hn2 & Hs2 & c2 & Hc2 & Hk2 & Hu2 & _).
  fold (record v1) in Hh1, Hb1, Hn1, Hs1, Hc1, Hh2, Hb2, Hn2, Hs2, Hc2.
  fold (record v2) in Hh2, Hb2, Hn2, Hs2, Hc2. fold d2 in Hh2, Hb2, Hn2, Hs2, Hc2.
  assert (Hfd : found d2 habitId = [h]).
  { rewrite <- Hf. apply found_same_rows; congruence. }
  unfold eval_st. rewrite getHabit_healthy, Hfd by done. cbn [fst].
  assert (Hrow : forall c, Completion.completion_key c = (habitId, today_string d) ->
            HabitCompletion.user_id c = Habit.user_id h ->
            (HabitCompletion.habit_id c =? habitId)%N && (HabitCompletion.user_id c =? Habit.user_id h)%N &&
            String.eqb (HabitCompletion.completion_date c) (today_string d2) = true).
  { intros c Hk Hu. unfold Completion.completion_key in Hk. injection Hk as -> ->.
    unfold today_string. rewrite Hn2, Hn1, Hu, !N.eqb_refl, String.eqb_refl. done. }
  unfold habit_today_rows. rewrite Hc2, Hc1, !List.filter_app. cbn [List.filter].
  rewrite (Hrow c1), (Hrow c2) by done.
  eexists. split; [reflexivity|]. split; [apply to_progress_habit|].
  match goal with |- context [(List.filter ?p (habit_completions d) ++ _) ++ _] =>
    generalize (List.filter p (habit_completions d)) as L end. intros L.
  destruct L as [|x [|y L]]; cbn; unfold to_progress; by destruct (embedded_streaks d2 h) as [|[] ?].
Qed.

Lemma getHabit_pk_rerecord_reads_zero_witness :
  let h1 := Habit.mk 1 9 "Read" None None Primary None 30 "minutes" Daily true 100 100 in
  let d := mkDb [h1] [Streak.initial_streak 3 1 9] [] [] [] None 7 1704067200000 [] in
  let record v := Completion.recordHabitCompletion Completion.conflict_pk 1 9 v
                    (Some (today_string d)) in
  let d2 := exec_st (record 45) (exec_st (record 30) d) in
  exists hp, eval_st (getHabit 1) d2 = Some hp /\
    HabitWithProgress.habit hp = h1 /\ HabitWithProgress.today_progress hp = 0.
Proof.
  intros h1 d. apply (getHabit_pk_rerecord_reads_zero 1 d h1 30 45);
    [reflexivity|repeat constructor|reflexivity].
Defined.

(** [updateHabit] of an id that no habit has returns null and
    changes nothing. *)
Lemma updateHabit_missing habitId updates d :
  healthy d -> List.filter (habit_id_is habitId) (habits d) = [] ->
  updateHabit habitId updates d = (None, d).
Proof.
  intros Hh Hf. unfold updateHabit, update_single.
  rewrite st_bind_unfold, request_healthy by done. simpl. by rewrite Hf.
Qed.

Definition empty_patch : HabitPatch.t :=
  HabitPatch.mk None None None None None None None None None None None None None.

End Habits.
