(* ===== verification/Stats.v ===== *)
(** * The stats aggregator: [getHabitStats]

    [src/supabase/database.ts], lines 309-324.  The statistics are computed
    from the listing of [Habits.getUserHabits]: the number of habits, the
    number completed today, the overall percentage of today's progress
    against the targets ([Math.round((totalProgress / totalTarget) * 100)],
    [0] when the targets sum to [0] or less), the rounded mean current
    streak and the maximum longest streak ([Math.max(...streaks, 0)]).

    The counts and sums are integers; the divisions, the product and the
    rounding are done on binary64 floats exactly as the engine does them
    ([JsNumber]).  The theorems show the bounds of the counts and of the
    longest streak, the example of the specification, and two places where
    the code's numbers differ from the specification's formulas: with no
    habit the average streak is [NaN], not [0], and floating-point rounding
    can make the percentage one less than [round(100 * sum / sum)]. *)

From S2P Require Import Prelude JsNumber JsDate Db Habits.

Open Scope Z_scope.

Module Stats.

(** The object [getHabitStats] returns. *)
Record HabitStats := mkStats {
  totalHabits : Z;
  completedToday : Z;
  todayProgress : float;
  averageStreak : float;
  longestStreak : float
}.

(** Lines 311-323, on the listing. *)
Definition stats_of (habits : list HabitWithProgress.t) : HabitStats :=
  let totalHabits := Z.of_nat (length habits) in
  let completedToday := Z.of_nat (count_where HabitWithProgress.is_completed_today habits) in
  let totalProgress := reduce_sum HabitWithProgress.today_progress habits in
  let totalTarget := reduce_sum (fun h => Habit.target_value (HabitWithProgress.habit h)) habits in
  let averageStreak :=
    js_div (float_of_Z (reduce_sum HabitWithProgress.current_streak habits))
           (float_of_Z totalHabits) in
  mkStats totalHabits completedToday
    (if 0 <? totalTarget
     then js_round (js_mul (js_div (float_of_Z totalProgress) (float_of_Z totalTarget))
                           (float_of_Z 100))
     else 0%float)
    (js_round averageStreak)
    (js_max_Z (map HabitWithProgress.longest_streak habits ++ [0])).

(** Lines 309-324. *)
Definition getHabitStats (userId : uuid) : St db HabitStats :=
  habits <- Habits.getUserHabits userId ;;
  st_ret (stats_of habits).

(** [round(100 * p / t)] computed exactly, the specification's formula
    for a positive [t]. *)
Definition exact_percent (p t : Z) : Z := (200 * p + t) / (2 * t).

(** ** Lemmas *)

Lemma js_max_with_zero (xs : list Z) :
  exists m, js_max_Z (xs ++ [0]) = float_of_Z m /\ 0 <= m /\
    Forall (fun x => x <= m) xs /\ (m = 0 \/ In m xs).
Proof.
  destruct xs as [|x rest].
  - exists 0. repeat split; [lia|constructor|by left].
  - exists (list_max_Z x (rest ++ [0])). split; [done|].
    destruct (list_max_Z_spec x (rest ++ [0])) as [Hin Hall].
    rewrite List.Forall_forall in Hall.
    split; [apply Hall; right; apply in_or_app; right; by left|].
    split.
    + apply List.Forall_forall. intros y [<-|Hy]; apply Hall; [by left|].
      right. apply in_or_app. by left.
    + destruct Hin as [<-|Hin]; [right; by left|].
      apply in_app_or in Hin as [Hin|[<-|[]]]; [right; by right|by left].
Qed.

(** ** Properties of the statistics *)

(** C15: for a user with no listed habit, [getHabitStats] returns zero
    habits, zero completed, a [0] percentage and a [0] longest streak,
    but an average streak of [NaN] ([0 / 0]), where the specification
    requires [0]. *)
Theorem stats_no_habits userId d :
  healthy d -> Habits.listed d userId = [] ->
  eval_st (getHabitStats userId) d = mkStats 0 0 0 nan 0.
Proof.
  intros Hh Hl. unfold getHabitStats, eval_st. rewrite st_bind_unfold.
  rewrite Habits.getUserHabits_healthy by done. rewrite Hl. vm_compute. reflexivity.
Qed.

Lemma stats_no_habits_witness :
  eval_st (getHabitStats 9) (mkDb [] [] [] [] [] None 1 0 []) = mkStats 0 0 0 nan 0.
Proof. apply stats_no_habits; reflexivity. Defined.

(** The example of the specification: two habits with targets 1 and
    10 and today's progress 1 and 5 give [todayProgress = 55] and
    [completedToday = 1], whatever their streaks. *)
Lemma stats_spec_example h1 h2 c1 l1 c2 l2 :
  Habit.target_value h1 = 1 -> Habit.target_value h2 = 10 ->
  let hs := [HabitWithProgress.mk h1 c1 l1 1 (Habit.target_value h1 <=? 1);
             HabitWithProgress.mk h2 c2 l2 5 (Habit.target_value h2 <=? 5)] in
  todayProgress (stats_of hs) = 55%float /\ completedToday (stats_of hs) = 1 /\
  totalHabits (stats_of hs) = 2.
Proof.
  intros H1 H2 hs. unfold stats_of, hs. cbn -[js_round js_mul js_div float_of_Z].
  rewrite H1, H2. vm_compute. auto.
Qed.

(** The percentage is computed in binary64: for any listing whose
    progress sums to 57 and whose targets sum to 200, [(57 / 200) * 100]
    is [28.499999999999996] and [todayProgress] is [28], while the
    specification's [round(100 * 57 / 200)] is [29]. *)
Lemma stats_float_rounding hs :
  reduce_sum HabitWithProgress.today_progress hs = 57 ->
  reduce_sum (fun h => Habit.target_value (HabitWithProgress.habit h)) hs = 200 ->
  todayProgress (stats_of hs) = 28%float /\ exact_percent 57 200 = 29.
Proof.
  intros Hp Ht. unfold stats_of. cbn [todayProgress]. rewrite Hp, Ht.
  vm_compute. auto.
Qed.

(** [completedToday] is between 0 and [totalHabits], and
    [longestStreak] is the Number of an integer [m >= 0] that bounds every
    habit's longest streak and is one of them or 0. *)
Lemma stats_bounds hs :
  0 <= completedToday (stats_of hs) <= totalHabits (stats_of hs) /\
  exists m, longestStreak (stats_of hs) = float_of_Z m /\ 0 <= m /\
    Forall (fun h => HabitWithProgress.longest_streak h <= m) hs /\
    (m = 0 \/ exists h, In h hs /\ HabitWithProgress.longest_streak h = m).
Proof.
  unfold stats_of. cbn [completedToday totalHabits longestStreak]. split.
  - pose proof (count_where_le HabitWithProgress.is_completed_today hs). lia.
  - destruct (js_max_with_zero (map HabitWithProgress.longest_streak hs)) as (m & Hm & H0 & Hall & Hin).
    exists m. split; [done|]. split; [done|]. split.
    + rewrite List.Forall_forall in Hall |- *. intros h Hh. apply Hall, in_map, Hh.
    + destruct Hin as [->|Hin]; [by left|right].
      apply in_map_iff in Hin as [h [<- Hh]]. by exists h.
Qed.

(** [getHabitStats] changes no data. *)
Lemma getHabitStats_read_only userId : read_only (getHabitStats userId).
Proof.
  unfold getHabitStats. apply read_only_bind; [apply Habits.getUserHabits_no_effect|].
  intros hs. apply read_only_ret.
Qed.

End Stats.
