(* ===== verification/Mock.v ===== *)
(** * The in-memory data layer of [src/lib/database.ts]

    The file keeps a module-level array [mockHabits] of six
    [HabitWithProgress] objects owned by [mockUser], and every function
    reads or mutates that one array.  The API routes under
    [src/app/api/habits/[id]] import their functions from this file.

    - [mock] is the module state: the array, in order, and the clock;
      the ids drawn with [Math.random().toString(36)] are inputs;
    - [find_index] is [findIndex]; the in-place writes [mockHabits[i] = x],
      [splice(i, 1)] and the field assignments on the object found by
      [find] are list updates at that index (stdpp's [<[i:=x]>] and
      [delete]);
    - the functions keep the source's names.

    The theorems show how this layer differs from the database one and
    from the specification: its completion rule counts only a value that
    reaches the target, never resets, and counts the same day twice; a
    created habit is never stored; [getHabit] and [recordHabitCompletion]
    ignore the habit's owner; and the statistics of a user with no habit
    are [NaN] and [-Infinity].  On a non-empty listing its [getHabitStats]
    is equivalent to the database layer's [stats_of] on the same listing. *)

From S2P Require Import Prelude JsNumber Db Habits Stats.

Open Scope Z_scope.

Module Mock.

Record mock := mkMock {
  mockHabits : list HabitWithProgress.t;
  mock_now : Z
}.

(** [mockUser] (lines 58-65); its timestamps are the load time [t0]. *)
Definition mockUser (t0 : Z) : User.t :=
  User.mk 0x550e8400e29b41d4a716446655440000%N "alex@example.com" "Alex Johnson"
    (Some "Building better habits one day at a time. Passionate about personal growth and mindfulness."%string)
    None t0 t0.

Definition mock_habit (t0 : Z) (id : uuid) (name desc icon : string) (c : color)
    (cat : string) (target : Z) (unit : string) (cur longest progress : Z) (done : bool)
  : HabitWithProgress.t :=
  HabitWithProgress.mk
    (Habit.mk id (User.id (mockUser t0)) name (Some desc) (Some icon) c (Some cat)
       target unit Daily true t0 t0)
    cur longest progress done.

(** [mockHabits] (lines 67-182). *)
Definition initial_mockHabits (t0 : Z) : list HabitWithProgress.t :=
  [ mock_habit t0 1 "Morning Meditation" "10 minutes of mindfulness" "🧘‍♂️" Primary
      "Wellness" 1 "times" 12 15 1 true;
    mock_habit t0 2 "Drink Water" "8 glasses throughout the day" "💧" Accent
      "Health" 8 "glasses" 8 12 5 false;
    mock_habit t0 3 "Read Books" "30 minutes of reading" "📚" Secondary
      "Learning" 30 "minutes" 15 20 45 true;
    mock_habit t0 4 "Exercise" "45 minutes workout" "💪" Primary
      "Fitness" 45 "minutes" 5 8 0 false;
    mock_habit t0 5 "Gratitude Journal" "Write 3 things I'm grateful for" "📝" Secondary
      "Mindfulness" 3 "items" 20 25 3 true;
    mock_habit t0 6 "Learn Spanish" "15 minutes language practice" "🇪🇸" Accent
      "Learning" 15 "minutes" 7 10 8 false ].

Definition initial_mock (t0 : Z) : mock := mkMock (initial_mockHabits t0) t0.

(** [array.findIndex(p)], [None] for [-1]. *)
Fixpoint find_index {A} (p : A -> bool) (l : list A) : option nat :=
  match l with
  | [] => None
  | x :: rest => if p x then Some O else option_map S (find_index p rest)
  end.

Definition has_id (habitId : uuid) (h : HabitWithProgress.t) : bool :=
  (Habit.id (HabitWithProgress.habit h) =? habitId)%N.

(** [getUser] (lines 185-189). *)
Definition getUser (t0 : Z) (userId : uuid) : option User.t :=
  if (User.id (mockUser t0) =? userId)%N then Some (mockUser t0) else None.

(** [getUserHabits] (lines 191-195). *)
Definition getUserHabits (userId : uuid) (m : mock) : list HabitWithProgress.t :=
  List.filter (fun h => (Habit.user_id (HabitWithProgress.habit h) =? userId)%N) (mockHabits m).

(** [getHabit] (lines 197-201). *)
Definition getHabit (habitId : uuid) (m : mock) : option HabitWithProgress.t :=
  List.find (has_id habitId) (mockHabits m).

(** [createHabit] (lines 203-215): a new object with a random id; the
    array is not changed. *)
Definition createHabit (habitData : Habits.HabitDraft) (rid : uuid) (m : mock) : Habit.t * mock :=
  (Habits.habit_of_draft habitData rid (mock_now m), m).

Definition set_updated_at (t : Z) (h : Habit.t) : Habit.t :=
  Habit.mk (Habit.id h) (Habit.user_id h) (Habit.name h) (Habit.description h)
    (Habit.icon h) (Habit.color h) (Habit.category h) (Habit.target_value h)
    (Habit.target_unit h) (Habit.frequency h) (Habit.is_active h) (Habit.created_at h) t.

(** [{ ...mockHabits[i], ...updates, updated_at }] *)
Definition merge_update (updates : Habits.HabitPatch.t) (t : Z) (h : HabitWithProgress.t)
  : HabitWithProgress.t :=
  HabitWithProgress.mk (set_updated_at t (Habits.apply_patch updates (HabitWithProgress.habit h)))
    (HabitWithProgress.current_streak h) (HabitWithProgress.longest_streak h)
    (HabitWithProgress.today_progress h) (HabitWithProgress.is_completed_today h).

(** [updateHabit] (lines 217-232). *)
Definition updateHabit (habitId : uuid) (updates : Habits.HabitPatch.t) (m : mock)
  : option HabitWithProgress.t * mock :=
  match find_index (has_id habitId) (mockHabits m) with
  | None => (None, m)
  | Some i =>
      match mockHabits m !! i with
      | Some h =>
          let updatedHabit := merge_update updates (mock_now m) h in
          (Some updatedHabit, mkMock (<[i := updatedHabit]> (mockHabits m)) (mock_now m))
      | None => (None, m)
      end
  end.

(** [deleteHabit] (lines 234-243). *)
Definition deleteHabit (habitId : uuid) (m : mock) : bool * mock :=
  match find_index (has_id habitId) (mockHabits m) with
  | None => (false, m)
  | Some i => (true, mkMock (delete i (mockHabits m)) (mock_now m))
  end.

(** Lines 264-273: the assignments on the habit object. *)
Definition record_on_habit (value : Z) (habit : HabitWithProgress.t) : HabitWithProgress.t :=
  let is_completed_today := Habit.target_value (HabitWithProgress.habit habit) <=? value in
  let current_streak :=
    if is_completed_today then HabitWithProgress.current_streak habit + 1
    else HabitWithProgress.current_streak habit in
  let longest_streak :=
    if is_completed_today && (HabitWithProgress.longest_streak habit <? current_streak)
    then current_streak else HabitWithProgress.longest_streak habit in
  HabitWithProgress.mk (HabitWithProgress.habit habit) current_streak longest_streak
    value is_completed_today.

(** [recordHabitCompletion] (lines 245-277); [today] is the date string
    of the clock and [rid] the random id. *)
Definition recordHabitCompletion (habitId userId : uuid) (value : Z) (date : option string)
    (today : string) (rid : uuid) (m : mock) : HabitCompletion.t * mock :=
  let completion :=
    HabitCompletion.mk rid habitId userId (js_or_string date today) value None (mock_now m) in
  match find_index (has_id habitId) (mockHabits m) with
  | Some i =>
      match mockHabits m !! i with
      | Some habit =>
          (completion, mkMock (<[i := record_on_habit value habit]> (mockHabits m)) (mock_now m))
      | None => (completion, m)
      end
  | None => (completion, m)
  end.

(** [getHabitStats] (lines 279-297): as the database layer's, but
    [Math.max(...streaks)] has no [0] argument. *)
Definition stats_of_list (habits : list HabitWithProgress.t) :=
  let totalHabits := Z.of_nat (length habits) in
  let completedToday := Z.of_nat (count_where HabitWithProgress.is_completed_today habits) in
  let totalProgress := reduce_sum HabitWithProgress.today_progress habits in
  let totalTarget := reduce_sum (fun h => Habit.target_value (HabitWithProgress.habit h)) habits in
  let averageStreak :=
    js_div (float_of_Z (reduce_sum HabitWithProgress.current_streak habits))
           (float_of_Z totalHabits) in
  (totalHabits, completedToday,
   (if 0 <? totalTarget
    then js_round (js_mul (js_div (float_of_Z totalProgress) (float_of_Z totalTarget))
                          (float_of_Z 100))
    else 0%float),
   js_round averageStreak,
   js_max_Z (map HabitWithProgress.longest_streak habits)).

Definition getHabitStats (userId : uuid) (m : mock) := stats_of_list (getUserHabits userId m).

(** The operations of the module, as steps of its state; the arguments
    of each call are arbitrary. *)
Inductive mock_step : mock -> mock -> Prop :=
  | step_create draft rid m : mock_step m (snd (createHabit draft rid m))
  | step_update habitId updates m : mock_step m (snd (updateHabit habitId updates m))
  | step_delete habitId m : mock_step m (snd (deleteHabit habitId m))
  | step_record habitId userId value date today rid m :
      mock_step m (snd (recordHabitCompletion habitId userId value date today rid m))
  | step_tick m t : mock_step m (mkMock (mockHabits m) t).

Inductive mock_reachable (t0 : Z) : mock -> Prop :=
  | reach_init : mock_reachable t0 (initial_mock t0)
  | reach_step m m' : mock_reachable t0 m -> mock_step m m' -> mock_reachable t0 m'.

(** Every habit of the array has [0 <= current_streak <= longest_streak]. *)
Definition habit_counters_ok (h : HabitWithProgress.t) : Prop :=
  0 <= HabitWithProgress.current_streak h <= HabitWithProgress.longest_streak h.

Definition mock_inv (m : mock) : Prop := Forall habit_counters_ok (mockHabits m).

(** ** Lemmas *)

Lemma find_index_some {A} (p : A -> bool) (l : list A) i :
  find_index p l = Some i ->
  exists x, l !! i = Some x /\ p x = true /\ List.find p l = Some x.
Proof.
  revert i. induction l as [|y l IH]; intros i; simpl; [done|].
  destruct (p y) eqn:Hy.
  - intros [= <-]. by exists y.
  - destruct (find_index p l) as [j|] eqn:Hj; simpl; [|done]. intros [= <-].
    destruct (IH j eq_refl) as (x & Hx & Hpx & Hf). by exists x.
Qed.

Lemma find_index_none {A} (p : A -> bool) (l : list A) :
  find_index p l = None -> List.find p l = None.
Proof.
  induction l as [|y l IH]; simpl; [done|].
  destruct (p y); [done|]. destruct (find_index p l); simpl; [done|]. intros _. by apply IH.
Qed.

(** Writing the first element that passes [p], with a value that still
    passes it: [find] then returns the written value. *)
Lemma find_insert_first {A} (p : A -> bool) (l : list A) i y :
  find_index p l = Some i -> p y = true -> List.find p (<[i := y]> l) = Some y.
Proof.
  revert i. induction l as [|x l IH]; intros i; simpl; [done|].
  destruct (p x) eqn:Hx.
  - intros [= <-] Hy. simpl. by rewrite Hy.
  - destruct (find_index p l) as [j|] eqn:Hj; simpl; [|done]. intros [= <-] Hy.
    simpl. rewrite Hx. by apply IH.
Qed.

Lemma Forall_list_insert {A} (P : A -> Prop) (l : list A) i y :
  Forall P l -> P y -> Forall P (<[i := y]> l).
Proof.
  revert i. induction l as [|x l IH]; intros i Hl Hy; [done|].
  inversion Hl; subst. destruct i; simpl; constructor; auto.
Qed.

Lemma Forall_list_delete {A} (P : A -> Prop) (l : list A) i :
  Forall P l -> Forall P (delete i l).
Proof.
  revert i. induction l as [|x l IH]; intros i Hl; [done|].
  inversion Hl; subst. destruct i; simpl; [done|]. constructor; auto.
Qed.

Lemma Forall_lookup_elem {A} (P : A -> Prop) (l : list A) i x :
  Forall P l -> l !! i = Some x -> P x.
Proof.
  intros Hl Hi. rewrite List.Forall_forall in Hl. apply Hl.
  apply list_elem_of_In, list_elem_of_lookup. by exists i.
Qed.

Lemma has_id_record v h habitId : has_id habitId (record_on_habit v h) = has_id habitId h.
Proof. done. Qed.

(** [recordHabitCompletion] rewrites the first habit with that id, whoever
    owns it. *)
Lemma mock_record_getHabit habitId userId v date today rid m h :
  getHabit habitId m = Some h ->
  getHabit habitId (snd (recordHabitCompletion habitId userId v date today rid m)) =
    Some (record_on_habit v h).
Proof.
  unfold getHabit, recordHabitCompletion. intros Hf.
  destruct (find_index (has_id habitId) (mockHabits m)) as [i|] eqn:Hi.
  - destruct (find_index_some _ _ _ Hi) as (x & Hx & Hpx & Hfx). rewrite Hf in Hfx.
    injection Hfx as ->. rewrite Hx. simpl. apply find_insert_first; [done|].
    by rewrite has_id_record.
  - apply find_index_none in Hi. congruence.
Qed.

Lemma record_on_habit_ok v h : habit_counters_ok h -> habit_counters_ok (record_on_habit v h).
Proof.
  unfold habit_counters_ok, record_on_habit. simpl.
  destruct (Habit.target_value _ <=? v); simpl; [|done].
  destruct (Z.ltb_spec (HabitWithProgress.longest_streak h) (HabitWithProgress.current_streak h + 1));
    simpl; lia.
Qed.

Lemma merge_update_ok p t h : habit_counters_ok h -> habit_counters_ok (merge_update p t h).
Proof. done. Qed.

Lemma mock_step_inv m m' : mock_inv m -> mock_step m m' -> mock_inv m'.
Proof.
  unfold mock_inv. intros Hinv Hs. destruct Hs as [draft rid m|habitId updates m|habitId m|
    habitId userId value date today rid m|m t]; simpl; try done.
  - unfold updateHabit. destruct (find_index _ _) as [i|]; [|done].
    destruct (mockHabits m !! i) as [h|] eqn:Hh; [|done]. simpl.
    apply Forall_list_insert; [done|]. apply merge_update_ok. eapply Forall_lookup_elem; eauto.
  - unfold deleteHabit. destruct (find_index _ _); [|done]. simpl. by apply Forall_list_delete.
  - unfold recordHabitCompletion. destruct (find_index _ _) as [i|]; [|done].
    destruct (mockHabits m !! i) as [h|] eqn:Hh; [|done]. simpl.
    apply Forall_list_insert; [done|]. apply record_on_habit_ok. eapply Forall_lookup_elem; eauto.
Qed.

(** The counter change of one mock recording. *)
Lemma mock_record_effect habitId userId v date today rid m h :
  getHabit habitId m = Some h ->
  exists h', getHabit habitId (snd (recordHabitCompletion habitId userId v date today rid m)) = Some h' /\
    HabitWithProgress.current_streak h' =
      HabitWithProgress.current_streak h +
        (if Habit.target_value (HabitWithProgress.habit h) <=? v then 1 else 0) /\
    HabitWithProgress.longest_streak h' =
      (if Habit.target_value (HabitWithProgress.habit h) <=? v
       then Z.max (HabitWithProgress.longest_streak h) (HabitWithProgress.current_streak h + 1)
       else HabitWithProgress.longest_streak h) /\
    HabitWithProgress.today_progress h' = v /\
    HabitWithProgress.is_completed_today h' = (Habit.target_value (HabitWithProgress.habit h) <=? v).
Proof.
  intros Hf. eexists. split; [by apply mock_record_getHabit|].
  unfold record_on_habit. simpl. destruct (Habit.target_value _ <=? v); simpl; [|lia].
  destruct (Z.ltb_spec (HabitWithProgress.longest_streak h) (HabitWithProgress.current_streak h + 1));
    repeat split; lia.
Qed.

(** ** Properties of the mock layer *)

(** Every state the mock module reaches from its initial array,
    through any sequence of its operations, has
    [0 <= current_streak <= longest_streak] for every habit. *)
Lemma mock_reachable_inv t0 m : mock_reachable t0 m -> mock_inv m.
Proof.
  induction 1 as [|m m' _ IH Hs].
  - unfold mock_inv, habit_counters_ok. simpl. repeat constructor; simpl; lia.
  - by apply (mock_step_inv m).
Qed.

(** The mock completion rule: recording [v] for a habit sets its
    progress to [v], and raises [current_streak] by one exactly when [v]
    reaches the target, whatever the date and whichever user records it
    (it never resets a streak). *)
Lemma mock_record_rule habitId userId v date today rid m h :
  getHabit habitId m = Some h ->
  exists h', getHabit habitId (snd (recordHabitCompletion habitId userId v date today rid m)) = Some h' /\
    HabitWithProgress.current_streak h' =
      HabitWithProgress.current_streak h +
        (if Habit.target_value (HabitWithProgress.habit h) <=? v then 1 else 0) /\
    HabitWithProgress.today_progress h' = v /\
    HabitWithProgress.is_completed_today h' = (Habit.target_value (HabitWithProgress.habit h) <=? v).
Proof.
  intros Hf. destruct (mock_record_effect habitId userId v date today rid m h Hf)
    as (h' & ? & ? & _ & ? & ?). by exists h'.
Qed.

(** Recording a value that reaches the target twice on the same day
    raises the mock streak twice: the mock layer has no same-day rule. *)
Lemma mock_record_twice_counts_twice habitId userId v date today rid1 rid2 m h :
  getHabit habitId m = Some h -> Habit.target_value (HabitWithProgress.habit h) <= v ->
  let m1 := snd (recordHabitCompletion habitId userId v date today rid1 m) in
  let m2 := snd (recordHabitCompletion habitId userId v date today rid2 m1) in
  exists h2, getHabit habitId m2 = Some h2 /\
    HabitWithProgress.current_streak h2 = HabitWithProgress.current_streak h + 2.
Proof.
  intros Hf Ht m1 m2.
  destruct (mock_record_effect habitId userId v date today rid1 m h Hf) as (h1 & Hf1 & Hc1 & _).
  destruct (mock_record_effect habitId userId v date today rid2 m1 h1 Hf1) as (h2 & Hf2 & Hc2 & _).
  exists h2. split; [done|].
  assert (Habit.target_value (HabitWithProgress.habit h1) = Habit.target_value (HabitWithProgress.habit h)).
  { pose proof (mock_record_getHabit habitId userId v date today rid1 m h Hf) as E.
    unfold m1 in Hf1. rewrite Hf1 in E. by injection E as ->. }
  rewrite Hc2, Hc1, H. destruct (Z.leb_spec (Habit.target_value (HabitWithProgress.habit h)) v); lia.
Qed.

(** for a user with no habit in the array, the mock [getHabitStats]
    returns an average streak of [NaN] and a longest streak of
    [-Infinity]. *)
Lemma mock_stats_no_habits userId m :
  getUserHabits userId m = [] ->
  getHabitStats userId m = (0, 0, 0%float, nan, neg_infinity).
Proof. intros H. unfold getHabitStats, stats_of_list. rewrite H. vm_compute. reflexivity. Qed.

(** The mock [createHabit] returns the new habit but does not store
    it: the array is unchanged and the new id is not found afterwards. *)
Lemma mock_createHabit_not_stored draft rid m :
  Forall (fun h => Habit.id (HabitWithProgress.habit h) <> rid) (mockHabits m) ->
  snd (createHabit draft rid m) = m /\ Habit.id (fst (createHabit draft rid m)) = rid /\
  getHabit rid (snd (createHabit draft rid m)) = None.
Proof.
  intros Hf. split; [done|]. split; [done|]. simpl. unfold getHabit.
  apply find_none_all. intros h Hh. rewrite List.Forall_forall in Hf.
  apply N.eqb_neq. by apply Hf.
Qed.

(** The five numbers of a [HabitStats] record, in the order the mock
    returns them. *)
Definition stats_fields (s : Stats.HabitStats) :=
  (Stats.totalHabits s, Stats.completedToday s, Stats.todayProgress s,
   Stats.averageStreak s, Stats.longestStreak s).

(** The two layers compute the same statistics: on the listing of a
    user, the mock [getHabitStats] gives the database layer's count,
    completed count, percentage and average streak, and its longest
    streak [Math.max(...streaks)] equals the database's
    [Math.max(...streaks, 0)] whenever the listing is non-empty and its
    streaks are non-negative (an empty listing gives [-Infinity] against
    [0]). *)
Lemma mock_stats_equiv userId m :
  let hs := getUserHabits userId m in
  getHabitStats userId m =
    (Stats.totalHabits (Stats.stats_of hs), Stats.completedToday (Stats.stats_of hs),
     Stats.todayProgress (Stats.stats_of hs), Stats.averageStreak (Stats.stats_of hs),
     js_max_Z (map HabitWithProgress.longest_streak hs)) /\
  (hs <> [] -> Forall (fun h => 0 <= HabitWithProgress.longest_streak h) hs ->
   getHabitStats userId m = stats_fields (Stats.stats_of hs)).
Proof.
  intros hs. split; [done|]. intros Hne Hall.
  unfold getHabitStats, stats_of_list, stats_fields, Stats.stats_of. fold hs. cbn [Stats.longestStreak].
  rewrite js_max_Z_app_zero; [done| |].
  - by destruct hs.
  - by apply Forall_map.
Qed.

End Mock.
