(* ===== verification/Api.v ===== *)
(** * The HTTP routes under [src/app/api]

    Four route files answer the client:
    - [habits/route.ts]: [GET] lists the signed-in user's habits and
      [POST] creates one, through the database layer
      ([Habits.getUserHabits], [Habits.createHabit]);
    - [habits/[id]/route.ts]: [GET], [PUT] and [DELETE] of one habit,
      through the in-memory layer of [src/lib/database.ts] ([Mock]), with
      no authentication;
    - [habits/[id]/complete/route.ts]: [POST] records a completion through
      [Completion.recordHabitCompletion] after checking that an
      [authorization] header is present;
    - [stats/route.ts]: [GET] the statistics ([Stats.getHabitStats]).

    The server state [server] pairs the database ([db], whose [auth_user]
    is the session [supabase.auth.getUser()] reads) with the module state
    of the in-memory layer ([Mock.mock]).  A handler is a computation of
    [St server response]; a [response] is the status and the JSON body of
    [NextResponse.json].  A request body is [None] when [request.json()]
    throws (the text is not JSON, or is JSON [null] where the route
    destructures it), which the routes' [catch] turns into a 500.
    [supabase.auth.getUser()] is a request like the others: when it
    fails, [user] is null and the route answers 401.

    The theorems show the routes' status codes on every branch, and three
    places where they differ from the specification: the [[id]] routes
    answer another user's habit without any session, a habit created by
    [POST /api/habits] is answered 404 by [GET /api/habits/[id]], and a
    failed creation or recording is answered with a success status and a
    [null] body. *)

From S2P Require Import Prelude JsNumber Db Streak Completion Habits Stats Mock.

Open Scope Z_scope.

Module Api.

Record server := mkServer {
  sdb : db;
  smock : Mock.mock
}.

(** The JSON bodies the routes send. *)
Inductive json_body :=
| JError (error : string)
| JHabits (habits : list HabitWithProgress.t)
| JHabit (habit : option Habit.t)
| JHabitView (habit : HabitWithProgress.t)
| JCompletion (completion : option HabitCompletion.t)
| JStats (stats : Stats.HabitStats)
| JMessage (message : string).

(** [NextResponse.json(body, { status })]; the status defaults to 200. *)
Record response := mkResponse {
  status : Z;
  body : json_body
}.

Definition json (b : json_body) : response := mkResponse 200 b.

(** The body of [POST /api/habits/[id]/complete]: [{ value, date }]. *)
Record complete_body := mkCompleteBody {
  body_value : option Z;
  body_date : option string
}.

(** A database call inside a route. *)
Definition on_db {A} (m : St db A) : St server A := fun s =>
  let r := m (sdb s) in (fst r, mkServer (snd r) (smock s)).

(** A call of the in-memory layer inside a route. *)
Definition on_mock {A} (f : Mock.mock -> A * Mock.mock) : St server A := fun s =>
  let r := f (smock s) in (fst r, mkServer (sdb s) (snd r)).

(** [const { data: { user } } = await supabase.auth.getUser()]: a
    request to the auth server, whose failure leaves [user] null. *)
Definition getUser : St server (option uuid) :=
  on_db (r <- request (fun d => (Ok (auth_user d), d)) ;;
         st_ret (match r with Ok u => u | Err _ => None end)).

Definition unauthorized : response := mkResponse 401 (JError "Unauthorized").

(** [habits/route.ts], lines 5-20. *)
Definition GET_habits : St server response :=
  user <- getUser ;;
  match user with
  | None => st_ret unauthorized
  | Some uid =>
      habits <- on_db (Habits.getUserHabits uid) ;;
      st_ret (json (JHabits habits))
  end.

(** [{ ...body, user_id: user.id, is_active: true }] *)
Definition habitData (uid : uuid) (b : Habits.HabitDraft) : Habits.HabitDraft :=
  Habits.mkDraft uid (Habits.draft_name b) (Habits.draft_description b)
    (Habits.draft_icon b) (Habits.draft_color b) (Habits.draft_category b)
    (Habits.draft_target_value b) (Habits.draft_target_unit b)
    (Habits.draft_frequency b) true.

(** [habits/route.ts], lines 22-45: the body is read before the session. *)
Definition POST_habits (request_body : option Habits.HabitDraft) : St server response :=
  match request_body with
  | None => st_ret (mkResponse 500 (JError "Failed to create habit"))
  | Some b =>
      user <- getUser ;;
      match user with
      | None => st_ret unauthorized
      | Some uid =>
          newHabit <- on_db (Habits.createHabit (habitData uid b)) ;;
          st_ret (mkResponse 201 (JHabit newHabit))
      end
  end.

Definition not_found : response := mkResponse 404 (JError "Habit not found").

(** [habits/[id]/route.ts], lines 4-17. *)
Definition GET_habit (id : uuid) : St server response :=
  habit <- on_mock (fun m => (Mock.getHabit id m, m)) ;;
  match habit with
  | None => st_ret not_found
  | Some h => st_ret (json (JHabitView h))
  end.

(** [habits/[id]/route.ts], lines 19-34. *)
Definition PUT_habit (id : uuid) (request_body : option Habits.HabitPatch.t) : St server response :=
  match request_body with
  | None => st_ret (mkResponse 500 (JError "Failed to update habit"))
  | Some updates =>
      updatedHabit <- on_mock (Mock.updateHabit id updates) ;;
      match updatedHabit with
      | None => st_ret not_found
      | Some h => st_ret (json (JHabitView h))
      end
  end.

(** [habits/[id]/route.ts], lines 36-49. *)
Definition DELETE_habit (id : uuid) : St server response :=
  success <- on_mock (Mock.deleteHabit id) ;;
  if success then st_ret (json (JMessage "Habit deleted successfully"))
  else st_ret not_found.

(** [stats/route.ts], lines 5-20. *)
Definition GET_stats : St server response :=
  user <- getUser ;;
  match user with
  | None => st_ret unauthorized
  | Some uid =>
      stats <- on_db (Stats.getHabitStats uid) ;;
      st_ret (json (JStats stats))
  end.

Section Complete.
Variable conflict : Completion.schema.

(** [habits/[id]/complete/route.ts], lines 5-30: [value] defaults to 1
    when it is absent; the header is tested for presence only. *)
Definition POST_complete (id : uuid) (request_body : option complete_body)
    (authHeader : option string) : St server response :=
  match request_body with
  | None => st_ret (mkResponse 500 (JError "Failed to record completion"))
  | Some b =>
      let value := default 1 (body_value b) in
      match js_truthy_string authHeader with
      | None => st_ret (mkResponse 401 (JError "No authorization header"))
      | Some _ =>
          user <- getUser ;;
          match user with
          | None => st_ret unauthorized
          | Some uid =>
              completion <- on_db
                (Completion.recordHabitCompletion conflict id uid value (body_date b)) ;;
              st_ret (json (JCompletion completion))
          end
      end
  end.
End Complete.

(** ** Lemmas *)

Lemma on_db_unfold {A} (m : St db A) s :
  on_db m s = (fst (m (sdb s)), mkServer (snd (m (sdb s))) (smock s)).
Proof. done. Qed.

Lemma on_mock_unfold {A} (f : Mock.mock -> A * Mock.mock) s :
  on_mock f s = (fst (f (smock s)), mkServer (sdb s) (snd (f (smock s)))).
Proof. done. Qed.

Lemma server_eta s : mkServer (sdb s) (smock s) = s.
Proof. by destruct s. Qed.

#[export] Hint Rewrite @on_db_unfold @on_mock_unfold server_eta : habit_rw.

Lemma getUser_unfold s :
  healthy (sdb s) -> getUser s = (auth_user (sdb s), s).
Proof.
  intros Hh. unfold getUser. rewrite on_db_unfold, st_bind_unfold, request_healthy by done.
  simpl. by rewrite server_eta.
Qed.

Lemma getUser_fault s fs :
  faults (sdb s) = true :: fs -> getUser s = (None, mkServer (with_faults fs (sdb s)) (smock s)).
Proof. intros Hf. unfold getUser. by rewrite on_db_unfold, st_bind_unfold, (request_fault _ _ fs Hf). Qed.

Lemma getUser_ok s fs :
  faults (sdb s) = false :: fs ->
  getUser s = (auth_user (sdb s), mkServer (with_faults fs (sdb s)) (smock s)).
Proof.
  intros Hf. unfold getUser. rewrite on_db_unfold, st_bind_unfold. unfold request.
  rewrite st_bind_unfold. unfold pop_fault. rewrite Hf. done.
Qed.

Lemma getUser_mock s : smock (snd (getUser s)) = smock s.
Proof. done. Qed.

Lemma getUser_signed_out s : auth_user (sdb s) = None -> fst (getUser s) = None.
Proof.
  intros Hu. unfold getUser. rewrite on_db_unfold, st_bind_unfold. unfold request.
  rewrite st_bind_unfold. unfold pop_fault.
  destruct (faults (sdb s)) as [|[] ?]; cbn; by rewrite ?Hu.
Qed.

(** The routes that go to the database leave the in-memory layer alone. *)
Lemma POST_habits_mock b s : smock (snd (POST_habits b s)) = smock s.
Proof.
  unfold POST_habits. destruct b as [b|]; [|done].
  rewrite st_bind_unfold. destruct (fst (getUser s)); [|done]. by rewrite st_bind_unfold.
Qed.

(** [GET /api/habits/[id]] reads only the in-memory layer. *)
Lemma GET_habit_unfold id s :
  GET_habit id s =
  (match Mock.getHabit id (smock s) with
   | None => not_found
   | Some h => json (JHabitView h)
   end, s).
Proof.
  unfold GET_habit. rewrite st_bind_unfold, on_mock_unfold. simpl.
  rewrite server_eta. by destruct (Mock.getHabit id (smock s)).
Qed.

(** ** Properties of the routes *)

(** C20: [GET /api/habits/[id]] answers 200 with any habit of the
    in-memory array, whatever the session (none at all included) and
    whoever owns the habit and whatever state the database is in (the
    route reads no session and makes no request: [src/lib/database.ts]'s
    [getHabit] only waits and searches its array, so its one rejection
    is the 404 of an id no habit has); the specification requires
    [NotFound] for a habit of another user and no unauthenticated
    call. *)
Theorem GET_habit_ignores_owner id s h :
  Mock.getHabit id (smock s) = Some h ->
  GET_habit id s = (json (JHabitView h), s).
Proof. intros Hf. by rewrite GET_habit_unfold, Hf. Qed.

Lemma GET_habit_ignores_owner_witness :
  let s := mkServer (mkDb [] [] [] [] [] None 1 0 []) (Mock.initial_mock 0) in
  GET_habit 3 s =
  (json (JHabitView (Mock.mock_habit 0 3 "Read Books" "30 minutes of reading" "📚" Secondary
                       "Learning" 30 "minutes" 15 20 45 true)), s).
Proof. apply GET_habit_ignores_owner. reflexivity. Defined.

(** C23: without a signed-in user, the routes that read the session
    ([GET /api/habits], [POST /api/habits], [GET /api/stats] and, with a
    non-empty authorization header, [POST /api/habits/[id]/complete])
    answer 401 and change neither the database nor the in-memory layer:
    no habit, completion or streak is read or written for a caller
    without a session. *)
Theorem unauthenticated_routes_401 conflict s :
  healthy (sdb s) -> auth_user (sdb s) = None ->
  GET_habits s = (unauthorized, s) /\ GET_stats s = (unauthorized, s) /\
  (forall b, POST_habits (Some b) s = (unauthorized, s)) /\
  (forall id b hdr, js_truthy_string hdr <> None ->
     POST_complete conflict id (Some b) hdr s = (unauthorized, s)).
Proof.
  intros Hh Hu. unfold GET_habits, GET_stats, POST_habits, POST_complete.
  repeat split; intros;
    repeat (rewrite ?st_bind_unfold, ?getUser_unfold, ?Hu by done; simpl); [done..|].
  destruct (js_truthy_string hdr); [|done].
  by rewrite st_bind_unfold, getUser_unfold, Hu.
Qed.

Lemma unauthenticated_routes_401_witness :
  let s := mkServer (mkDb [] [] [] [] [] None 1 0 []) (Mock.initial_mock 0) in
  GET_habits s = (unauthorized, s) /\ GET_stats s = (unauthorized, s) /\
  (forall b, POST_habits (Some b) s = (unauthorized, s)) /\
  (forall id b hdr, js_truthy_string hdr <> None ->
     POST_complete Completion.conflict_pk id (Some b) hdr s = (unauthorized, s)).
Proof. intros s. apply unauthenticated_routes_401; reflexivity. Defined.

(** C21: a habit created by [POST /api/habits] (stored in the database)
    is answered 404 by [GET /api/habits/[id]] (which reads the in-memory
    array), unless that array already had a habit with the new id. *)
Theorem created_habit_not_found_by_id b s s' h :
  POST_habits (Some b) s = (mkResponse 201 (JHabit (Some h)), s') ->
  Mock.getHabit (Habit.id h) (smock s) = None ->
  fst (GET_habit (Habit.id h) s') = not_found.
Proof.
  intros Hp Hn. pose proof (POST_habits_mock (Some b) s) as Hm.
  rewrite Hp in Hm. simpl in Hm. by rewrite GET_habit_unfold, Hm, Hn.
Qed.

Lemma created_habit_not_found_by_id_witness :
  let s := mkServer (mkDb [] [] [] [] [] (Some 9%N) 8 0 []) (Mock.initial_mock 0) in
  POST_habits (Some Habits.sample_draft) s =
    (mkResponse 201 (JHabit (Some (Habits.habit_of_draft (habitData 9 Habits.sample_draft) 8 0))),
     snd (POST_habits (Some Habits.sample_draft) s)) /\
  Mock.getHabit (Habit.id (Habits.habit_of_draft (habitData 9 Habits.sample_draft) 8 0)) (smock s) = None /\
  fst (GET_habit (Habit.id (Habits.habit_of_draft (habitData 9 Habits.sample_draft) 8 0))
        (snd (POST_habits (Some Habits.sample_draft) s))) = not_found.
Proof.
  intros s. split; [reflexivity|]. split; [reflexivity|].
  apply (created_habit_not_found_by_id Habits.sample_draft s); reflexivity.
Defined.

(** C22: when the session is read and the insert of the habit then
    fails, [POST /api/habits] still answers 201 Created, with
    [habit: null]: [createHabit]'s null is passed on as a created habit. *)
Theorem POST_habits_null_on_failure b s uid fs :
  auth_user (sdb s) = Some uid -> faults (sdb s) = false :: true :: fs ->
  fst (POST_habits (Some b) s) = mkResponse 201 (JHabit None).
Proof.
  intros Hu Hf. unfold POST_habits. rewrite st_bind_unfold, (getUser_ok _ _ Hf), Hu. cbn [fst snd].
  rewrite st_bind_unfold, on_db_unfold. cbn [fst]. unfold Habits.createHabit.
  rewrite st_bind_unfold. unfold insert_row. by rewrite (request_fault _ _ fs).
Qed.

Lemma POST_habits_null_on_failure_witness :
  fst (POST_habits (Some Habits.sample_draft)
         (mkServer (mkDb [] [] [] [] [] (Some 9%N) 8 0 [false; true]) (Mock.initial_mock 0))) =
  mkResponse 201 (JHabit None).
Proof. eapply POST_habits_null_on_failure; reflexivity. Defined.

(** With a non-empty authorization header (any one: it is not
    validated) and a signed-in user, [POST /api/habits/[id]/complete]
    records the body's value, 1 when absent, for the session's user, and
    answers 200 with what [recordHabitCompletion] returned, [null] when
    the recording failed. *)
Lemma POST_complete_records conflict id b hdr s uid :
  healthy (sdb s) -> js_truthy_string hdr <> None -> auth_user (sdb s) = Some uid ->
  let r := Completion.recordHabitCompletion conflict id uid (default 1 (body_value b))
             (body_date b) (sdb s) in
  POST_complete conflict id (Some b) hdr s = (json (JCompletion (fst r)), mkServer (snd r) (smock s)).
Proof.
  intros Hok Hh Hu r. unfold r, POST_complete. cbv zeta.
  destruct (js_truthy_string hdr); [|done].
  rewrite st_bind_unfold, (getUser_unfold s Hok), Hu. cbn [fst snd].
  by rewrite st_bind_unfold, on_db_unfold.
Qed.

End Api.
