(* ===== verification/Settings.v ===== *)
(** * Profiles and user settings

    [src/supabase/database.ts]: [getCurrentUser] and [updateUserProfile]
    (lines 56-92) read and change the signed-in user's row of [profiles];
    [getUserSettings] (lines 395-428) reads the user's row of
    [user_settings] with [.maybeSingle()], and when it gets none (no row,
    or an error) inserts [{ user_id }] and reads again;
    [updateUserSettings] (lines 430-443) changes the signed-in user's row.

    The column defaults of [user_settings] and its constraints are in the
    database schema, which the repository does not contain: the section
    [Defaults] takes the default row ([dflt], whose [user_id] and times
    are replaced by the insert's) and whether [user_id] is unique
    ([user_id_unique]; the [UserSettings] interface has no [id], so it is
    probably the primary key).

    The theorems show the first read of a new user's settings, and that a
    transient failure of the first read makes [getUserSettings] return
    [null] whichever constraint the table has; without the constraint it
    also adds a second row, after which every read returns [null] and adds
    one more. *)

From S2P Require Import Prelude Db.

Open Scope Z_scope.

Module Profile.

(** [Partial<User>] *)
Module UserPatch.
Record t := mk {
  id : option uuid;
  email : option string;
  name : option string;
  bio : option (option string);
  avatar_url : option (option string);
  created_at : option Z;
  updated_at : option Z
}.
End UserPatch.

(** [{ ...row, ...updates }] *)
Definition apply_user_patch (p : UserPatch.t) (u : User.t) : User.t :=
  User.mk (patch_field (UserPatch.id p) (User.id u))
    (patch_field (UserPatch.email p) (User.email u))
    (patch_field (UserPatch.name p) (User.name u))
    (patch_field (UserPatch.bio p) (User.bio u))
    (patch_field (UserPatch.avatar_url p) (User.avatar_url u))
    (patch_field (UserPatch.created_at p) (User.created_at u))
    (patch_field (UserPatch.updated_at p) (User.updated_at u)).

Definition profile_of (uid : uuid) (u : User.t) : bool := (User.id u =? uid)%N.

(** Lines 56-73. *)
Definition getCurrentUser : St db (option User.t) :=
  d <- st_get ;;
  match auth_user d with
  | None => st_ret None
  | Some uid =>
      r <- select_where profiles_tbl (profile_of uid) ;;
      match single r with
      | Err _ => st_ret None
      | Ok profile => st_ret (Some profile)
      end
  end.

(** Lines 75-92. *)
Definition updateUserProfile (updates : UserPatch.t) : St db (option User.t) :=
  d <- st_get ;;
  match auth_user d with
  | None => st_ret None
  | Some uid =>
      r <- update_single profiles_tbl (profile_of uid) (apply_user_patch updates) ;;
      match r with
      | Err _ => st_ret None
      | Ok data => st_ret (Some data)
      end
  end.

End Profile.

Module Settings.

(** [Partial<UserSettings>] *)
Module SettingsPatch.
Record t := mk {
  user_id : option uuid;
  habit_reminders : option bool;
  streak_alerts : option bool;
  weekly_reports : option bool;
  motivational_quotes : option bool;
  reminder_time : option string;
  theme : option string;
  accent_color : option string;
  data_collection : option bool;
  analytics : option bool;
  public_profile : option bool;
  created_at : option Z;
  updated_at : option Z
}.
End SettingsPatch.

Definition apply_settings_patch (p : SettingsPatch.t) (r : UserSettings.t) : UserSettings.t :=
  UserSettings.mk (patch_field (SettingsPatch.user_id p) (UserSettings.user_id r))
    (patch_field (SettingsPatch.habit_reminders p) (UserSettings.habit_reminders r))
    (patch_field (SettingsPatch.streak_alerts p) (UserSettings.streak_alerts r))
    (patch_field (SettingsPatch.weekly_reports p) (UserSettings.weekly_reports r))
    (patch_field (SettingsPatch.motivational_quotes p) (UserSettings.motivational_quotes r))
    (patch_field (SettingsPatch.reminder_time p) (UserSettings.reminder_time r))
    (patch_field (SettingsPatch.theme p) (UserSettings.theme r))
    (patch_field (SettingsPatch.accent_color p) (UserSettings.accent_color r))
    (patch_field (SettingsPatch.data_collection p) (UserSettings.data_collection r))
    (patch_field (SettingsPatch.analytics p) (UserSettings.analytics r))
    (patch_field (SettingsPatch.public_profile p) (UserSettings.public_profile r))
    (patch_field (SettingsPatch.created_at p) (UserSettings.created_at r))
    (patch_field (SettingsPatch.updated_at p) (UserSettings.updated_at r)).

Definition settings_of (uid : uuid) (r : UserSettings.t) : bool :=
  (UserSettings.user_id r =? uid)%N.

Section Defaults.
(** The table's column defaults. *)
Variable dflt : UserSettings.t.
(** Whether [user_settings.user_id] is unique. *)
Variable user_id_unique : bool.

(** The row [.insert({ user_id })] creates at time [t]. *)
Definition default_row (uid : uuid) (t : Z) : UserSettings.t :=
  UserSettings.mk uid (UserSettings.habit_reminders dflt) (UserSettings.streak_alerts dflt)
    (UserSettings.weekly_reports dflt) (UserSettings.motivational_quotes dflt)
    (UserSettings.reminder_time dflt) (UserSettings.theme dflt)
    (UserSettings.accent_color dflt) (UserSettings.data_collection dflt)
    (UserSettings.analytics dflt) (UserSettings.public_profile dflt) t t.

(** [.from('user_settings').insert({ user_id: userId })], without
    [.select()]. *)
Definition insert_default_settings (uid : uuid) : St db (result unit) :=
  request (fun d =>
    if user_id_unique && existsb (settings_of uid) (user_settings d)
    then (Err Conflict, d)
    else (Ok tt, tbl_set settings_tbl (user_settings d ++ [default_row uid (now_ms d)]) d)).

(** Lines 410-427: insert the default row, then read again. *)
Definition create_default_settings (userId : uuid) : St db (option UserSettings.t) :=
  ins <- insert_default_settings userId ;;
  match ins with
  | Err _ => st_ret None
  | Ok _ =>
      r2 <- select_where settings_tbl (settings_of userId) ;;
      match maybe_single r2 with
      | Ok (Some created) => st_ret (Some created)
      | _ => st_ret None
      end
  end.

(** Lines 395-428: [if (data) return data] is taken only on a row; an
    error of the read falls through to the insert like an empty result. *)
Definition getUserSettings (userId : uuid) : St db (option UserSettings.t) :=
  r <- select_where settings_tbl (settings_of userId) ;;
  match maybe_single r with
  | Ok (Some data) => st_ret (Some data)
  | _ => create_default_settings userId
  end.
End Defaults.

(** Lines 430-443. *)
Definition updateUserSettings (updates : SettingsPatch.t) : St db (option UserSettings.t) :=
  d <- st_get ;;
  match auth_user d with
  | None => st_ret None
  | Some uid =>
      r <- update_single settings_tbl (settings_of uid) (apply_settings_patch updates) ;;
      match r with
      | Err _ => st_ret None
      | Ok data => st_ret (Some data)
      end
  end.

(** The user's rows of [user_settings]. *)
Definition rows_of (d : db) (uid : uuid) : list UserSettings.t :=
  List.filter (settings_of uid) (user_settings d).

(** ** Lemmas *)

Lemma settings_of_default dflt uid t : settings_of uid (default_row dflt uid t) = true.
Proof. apply N.eqb_refl. Qed.

Lemma existsb_filter_nil {A} (p : A -> bool) l :
  existsb p l = false <-> List.filter p l = [].
Proof.
  induction l as [|x l IH]; [done|]. simpl. destruct (p x); simpl; [|done].
  split; discriminate.
Qed.

Lemma rows_of_insert_default dflt d uid t :
  rows_of (tbl_set settings_tbl (user_settings d ++ [default_row dflt uid t]) d) uid =
  rows_of d uid ++ [default_row dflt uid t].
Proof.
  unfold rows_of. simpl. rewrite List.filter_app. simpl.
  by rewrite settings_of_default.
Qed.

(** [.maybeSingle()] on two rows or more is an error. *)
Lemma maybe_single_many {R} (l : list R) :
  (2 <= length l)%nat -> exists e, maybe_single (Ok l) = Err e.
Proof. destruct l as [|x [|y l]]; simpl; [lia|lia|by eexists]. Qed.

(** The insert-and-read-again branch on a healthy database. *)
Lemma create_default_settings_healthy dflt u uid d :
  healthy d ->
  create_default_settings dflt u uid d =
  if u && existsb (settings_of uid) (user_settings d) then (None, d)
  else
    let d' := tbl_set settings_tbl (user_settings d ++ [default_row dflt uid (now_ms d)]) d in
    (match maybe_single (Ok (rows_of d' uid)) with Ok (Some c) => Some c | _ => None end, d').
Proof.
  intros Hh. unfold create_default_settings, insert_default_settings.
  rewrite st_bind_unfold, request_healthy by done.
  destruct (u && existsb _ _); [done|]. cbn [fst snd].
  rewrite st_bind_unfold. unfold select_where.
  rewrite request_healthy by (unfold healthy in *; simpl; done).
  cbn [fst snd]. by destruct (maybe_single _) as [[c|]|].
Qed.

(** [updateUserSettings] for a signed-in user with one settings row. *)
Lemma updateUserSettings_single upd d uid r :
  healthy d -> auth_user d = Some uid -> rows_of d uid = [r] ->
  updateUserSettings upd d =
    (Some (apply_settings_patch upd r),
     tbl_set settings_tbl
       (update_rows (settings_of uid) (apply_settings_patch upd) (user_settings d)) d).
Proof.
  intros Hh Ha Hr. unfold updateUserSettings. rewrite st_bind_unfold. cbn [st_get fst snd].
  rewrite Ha, st_bind_unfold. unfold update_single. rewrite request_healthy by done.
  cbn [tbl_get settings_tbl]. unfold rows_of in Hr. by rewrite Hr.
Qed.

(** ** Properties of the settings *)

(** the first read of the settings of a user who has no row inserts
    the default row for that user and returns it; the table has then
    exactly that row for the user. *)
Lemma getUserSettings_creates_default dflt u uid d :
  healthy d -> rows_of d uid = [] ->
  getUserSettings dflt u uid d =
    (Some (default_row dflt uid (now_ms d)),
     tbl_set settings_tbl (user_settings d ++ [default_row dflt uid (now_ms d)]) d) /\
  rows_of (snd (getUserSettings dflt u uid d)) uid = [default_row dflt uid (now_ms d)].
Proof.
  intros Hh Hr.
  assert (Hg : getUserSettings dflt u uid d =
    (Some (default_row dflt uid (now_ms d)),
     tbl_set settings_tbl (user_settings d ++ [default_row dflt uid (now_ms d)]) d)).
  { unfold getUserSettings. rewrite st_bind_unfold. unfold select_where.
    rewrite request_healthy by done. cbn [fst snd tbl_get settings_tbl].
    unfold rows_of in Hr. rewrite Hr. simpl.
    rewrite create_default_settings_healthy by done.
    pose proof Hr as He. apply existsb_filter_nil in He. rewrite He, andb_false_r. cbv zeta.
    rewrite rows_of_insert_default. unfold rows_of. by rewrite Hr. }
  split; [done|]. rewrite Hg. cbn [snd]. rewrite rows_of_insert_default.
  by rewrite Hr.
Qed.

Definition sample_settings : UserSettings.t :=
  UserSettings.mk 0 true true false true "09:00" "system" "blue" true true false 0 0.

(** C24: when the first read fails (a transient request error) for a
    user who has a row, [getUserSettings] returns [null] whichever
    constraint the table has: with [user_id] unique the insert is
    rejected, and without it a second row is added and the read again
    sees two rows. *)
Theorem getUserSettings_fault_loses_settings dflt u uid d r :
  faults d = [true] -> rows_of d uid = [r] ->
  fst (getUserSettings dflt u uid d) = None /\
  rows_of (snd (getUserSettings dflt u uid d)) uid =
    if u then [r] else [r; default_row dflt uid (now_ms d)].
Proof.
  intros Hf Hr. unfold getUserSettings. rewrite st_bind_unfold. unfold select_where.
  rewrite (request_fault _ _ [] Hf). cbn [fst snd maybe_single].
  rewrite create_default_settings_healthy by done.
  assert (He : existsb (settings_of uid) (user_settings (with_faults [] d)) = true).
  { destruct (existsb _ _) eqn:E; [done|]. apply existsb_filter_nil in E.
    unfold rows_of in Hr. simpl in E. by rewrite Hr in E. }
  rewrite He. destruct u; cbn [andb]; [done|]. cbv zeta.
  rewrite rows_of_insert_default. unfold rows_of at 1 2. simpl. unfold rows_of in Hr.
  rewrite Hr. split; [done|]. rewrite List.filter_app, Hr. simpl.
  by rewrite settings_of_default.
Qed.

Lemma getUserSettings_fault_loses_settings_witness :
  let r := default_row sample_settings 5 0 in
  let d := mkDb [] [] [] [] [r] (Some 5%N) 1 1000 [true] in
  fst (getUserSettings sample_settings false 5 d) = None /\
  rows_of (snd (getUserSettings sample_settings false 5 d)) 5 =
    if false then [r] else [r; default_row sample_settings 5 1000].
Proof. intros r d. apply (getUserSettings_fault_loses_settings _ _ _ d r); reflexivity. Defined.

(** A read of a user who has two rows or more. *)
Lemma getUserSettings_many_rows dflt u uid d :
  healthy d -> (2 <= length (rows_of d uid))%nat ->
  fst (getUserSettings dflt u uid d) = None /\
  rows_of (snd (getUserSettings dflt u uid d)) uid =
    if u then rows_of d uid else rows_of d uid ++ [default_row dflt uid (now_ms d)].
Proof.
  intros Hh Hl. unfold getUserSettings. rewrite st_bind_unfold. unfold select_where.
  rewrite request_healthy by done. cbn [fst snd tbl_get settings_tbl].
  destruct (maybe_single_many _ Hl) as [e He]. unfold rows_of in He. rewrite He.
  rewrite create_default_settings_healthy by done.
  assert (Hx : existsb (settings_of uid) (user_settings d) = true).
  { destruct (existsb _ _) eqn:E; [done|]. apply existsb_filter_nil in E.
    unfold rows_of in Hl. rewrite E in Hl. simpl in Hl. lia. }
  rewrite Hx. destruct u; cbn [andb]; [done|]. cbv zeta. rewrite rows_of_insert_default.
  assert (2 <= length (rows_of d uid ++ [default_row dflt uid (now_ms d)]))%nat
    by (rewrite length_app; lia).
  destruct (maybe_single_many _ H) as [e' ->]. cbn [fst snd].
  split; [done|]. apply rows_of_insert_default.
Qed.
(** Once a user has two settings rows or more, every read returns
    [null], and without a unique constraint adds one more default row:
    the user's settings are never read again. *)
Lemma getUserSettings_duplicates_grow dflt u uid d :
  healthy d -> (2 <= length (rows_of d uid))%nat ->
  fst (getUserSettings dflt u uid d) = None /\
  rows_of (snd (getUserSettings dflt u uid d)) uid =
    if u then rows_of d uid else rows_of d uid ++ [default_row dflt uid (now_ms d)].
Proof. apply getUserSettings_many_rows. Qed.

End Settings.
