(* ===== verification/HabitCard.v ===== *)
(** * The habit card: [src/components/habit-card.tsx]

    The card keeps two pieces of React state, [isCompleted] and
    [progress], initialised from the habit it is given
    ([is_completed_today], [today_progress]).  Its three handlers compute
    a new progress, call [recordHabitCompletion] of the database layer
    without a date (so for today's date string) for the signed-in user,
    and change the card's state only when the call returned a completion:
    - [handleToggleComplete]: the target when the card was not completed,
      [0] otherwise;
    - [handleIncrement]: one more, when the progress is below the target;
      the card becomes completed when the target is reached;
    - [handleDecrement]: one less, when the progress is positive; the card
      becomes not completed below the target.
    Without a session the handler alerts and changes nothing.

    A handler is a computation of [St (card * db) unit]; the clicks of a
    user are a list of [click]s run one after the other (each handler
    sees the state the previous one left).  The theorems show that the
    card's [isCompleted] stays equal to [target <= progress] through any
    clicks when the target is positive; the lemma
    [toggle_twice_counts_day] shows that checking and unchecking a new
    habit on one day leaves its database streak at 1 while today's value
    is 0: the database streak does not look at the value.  The
    interleaving of two clicks on the plus button is made explicit by
    splitting [handleIncrement] at its [await] ([increment_value],
    [finish_increment]): when both handlers read the card before the
    first recording returns, one increment is lost.  The progress bar's
    width and the buttons' enabled states are modelled too: a habit of
    target 0 shows a bar of width NaN. *)

From S2P Require Import Prelude JsNumber JsDate Db Streak Completion.

Open Scope Z_scope.

Module HabitCard.

(** [useState(habit.is_completed_today)], [useState(habit.today_progress)] *)
Record card := mkCard {
  isCompleted : bool;
  progress : Z
}.

Definition init (habit : HabitWithProgress.t) : card :=
  mkCard (HabitWithProgress.is_completed_today habit) (HabitWithProgress.today_progress habit).

Inductive click := Toggle | Increment | Decrement.

Section Handlers.
Variable conflict : Completion.schema.
Variable habit : HabitWithProgress.t.

Definition target : Z := Habit.target_value (HabitWithProgress.habit habit).

(** [(progress / target) * 100] (line 35), a Number. *)
Definition progressPercentage (c : card) : float :=
  js_mul (js_div (float_of_Z (progress c)) (float_of_Z target)) (float_of_Z 100).

(** The progress bar's width, [Math.min(progressPercentage, 100)] (line 148). *)
Definition bar_width (c : card) : float := js_min (progressPercentage c) (float_of_Z 100).

(** The minus and plus buttons, shown when [target > 1] (line 154) and
    disabled at [progress === 0] and [progress >= target] (lines 160, 169);
    the toggle is always enabled. *)
Definition steppers_shown : bool := 1 <? target.

Definition click_enabled (k : click) (c : card) : bool :=
  match k with
  | Toggle => true
  | Increment => steppers_shown && negb (target <=? progress c)
  | Decrement => steppers_shown && negb (progress c =? 0)
  end.

(** [supabase.auth.getUser()], then [recordHabitCompletion(habit.id,
    user.id, newProgress)]; [set] is applied to the card on a truthy
    completion. *)
Definition record_and_set (newProgress : Z) (set : card -> card) : St (card * db) unit :=
  fun '(c, d) =>
    match auth_user d with
    | None => (tt, (c, d))
    | Some uid =>
        let r := Completion.recordHabitCompletion conflict
                   (Habit.id (HabitWithProgress.habit habit)) uid newProgress None d in
        match fst r with
        | Some _ => (tt, (set c, snd r))
        | None => (tt, (c, snd r))
        end
    end.

(** Lines 37-59. *)
Definition handleToggleComplete : St (card * db) unit :=
  fun cd =>
    let newCompleted := negb (isCompleted (fst cd)) in
    let newProgress := if newCompleted then target else 0 in
    record_and_set newProgress (fun _ => mkCard newCompleted newProgress) cd.

(** Lines 61-84. *)
Definition handleIncrement : St (card * db) unit :=
  fun cd =>
    let c := fst cd in
    if progress c <? target then
      let newProgress := progress c + 1 in
      record_and_set newProgress
        (fun c => mkCard (if newProgress =? target then true else isCompleted c) newProgress) cd
    else (tt, cd).

(** Lines 86-109. *)
Definition handleDecrement : St (card * db) unit :=
  fun cd =>
    let c := fst cd in
    if 0 <? progress c then
      let newProgress := progress c - 1 in
      record_and_set newProgress
        (fun c => mkCard (if newProgress <? target then false else isCompleted c) newProgress) cd
    else (tt, cd).

Definition handle (k : click) : St (card * db) unit :=
  match k with
  | Toggle => handleToggleComplete
  | Increment => handleIncrement
  | Decrement => handleDecrement
  end.

Fixpoint run_clicks (ks : list click) : St (card * db) unit :=
  match ks with
  | [] => st_ret tt
  | k :: rest => _ <- handle k ;; run_clicks rest
  end.

(** [handleIncrement] in two halves around its [await]: the value it will
    record, read from the card when the click happens, and the recording
    with the state update when the call returns. *)
Definition increment_value (c : card) : option Z :=
  if progress c <? target then Some (progress c + 1) else None.

Definition finish_increment (newProgress : Z) : St (card * db) unit :=
  record_and_set newProgress
    (fun c => mkCard (if newProgress =? target then true else isCompleted c) newProgress).

(** Two clicks on the plus button whose handlers both start before the
    first [await] returns: both read the same [progress]. *)
Definition double_click_increment : St (card * db) unit := fun cd =>
  match increment_value (fst cd) with
  | None => (tt, cd)
  | Some np =>
      match increment_value (fst cd) with
      | None => finish_increment np cd
      | Some np' => (_ <- finish_increment np ;; finish_increment np') cd
      end
  end.

(** The card shows completed exactly when the progress reaches the target. *)
Definition card_ok (c : card) : Prop := isCompleted c = (target <=? progress c).

End Handlers.

(** ** Lemmas *)

(** A handler leaves the card alone or applies its setter. *)
Lemma record_and_set_card conflict habit p set c d :
  fst (snd (record_and_set conflict habit p set (c, d))) = c \/
  fst (snd (record_and_set conflict habit p set (c, d))) = set c.
Proof.
  unfold record_and_set. destruct (auth_user d) as [uid|]; [|by left].
  destruct (fst (Completion.recordHabitCompletion _ _ _ _ _ _)); [right|left]; done.
Qed.

(** The card after any handler, from a consistent card and a positive
    target, is consistent. *)
Lemma handle_ok conflict habit k c d :
  1 <= target habit -> card_ok habit c ->
  card_ok habit (fst (snd (handle conflict habit k (c, d)))).
Proof.
  unfold card_ok. intros Ht Hc.
  destruct k; cbn [handle]; unfold handleToggleComplete, handleIncrement, handleDecrement;
    cbn [fst]; cbv zeta;
    [|destruct (Z.ltb_spec (progress c) (target habit)); [|done]
     |destruct (Z.ltb_spec 0 (progress c)); [|done]];
    match goal with |- context [record_and_set _ _ ?p ?f (c, d)] =>
      destruct (record_and_set_card conflict habit p f c d) as [-> | ->] end; [done| |done| |done|];
    cbn [isCompleted progress]; [destruct (isCompleted c)|rewrite Hc|rewrite Hc]; cbn [negb]; z_cases.
Qed.

Lemma record_and_set_signed conflict habit p set c d uid :
  auth_user d = Some uid ->
  record_and_set conflict habit p set (c, d) =
  let r := Completion.recordHabitCompletion conflict
             (Habit.id (HabitWithProgress.habit habit)) uid p None d in
  (tt, (match fst r with Some _ => set c | None => c end, snd r)).
Proof.
  intros Ha. unfold record_and_set. rewrite Ha. cbv zeta.
  by destruct (fst (Completion.recordHabitCompletion _ _ _ _ _ _)).
Qed.

Lemma handleIncrement_split conflict habit cd :
  handleIncrement conflict habit cd =
  match increment_value habit (fst cd) with
  | None => (tt, cd)
  | Some np => finish_increment conflict habit np cd
  end.
Proof. unfold handleIncrement, increment_value. by destruct (_ <? _). Qed.

(** One recording of today's value [v] for the signed-in user, with the
    habit's streak row present once: the card gets [set], and the
    database stays healthy with one row per key and the streak row. *)
Lemma record_and_set_ok conflict_ok habit v set c d uid srow :
  conflict_ok = Completion.conflict_habit_date ->
  healthy d -> Completion.unique_keys d -> auth_user d = Some uid ->
  List.filter (Streak.streak_filter (Habit.id (HabitWithProgress.habit habit)) uid)
    (habit_streaks d) = [srow] ->
  let cd := snd (record_and_set conflict_ok habit v set (c, d)) in
  fst cd = set c /\ healthy (snd cd) /\ Completion.unique_keys (snd cd) /\
  auth_user (snd cd) = Some uid /\ now_ms (snd cd) = now_ms d /\
  List.filter (Streak.streak_filter (Habit.id (HabitWithProgress.habit habit)) uid)
    (habit_streaks (snd cd)) = [Streak.apply_completion (iso_date_of_ms (now_ms d)) srow].
Proof.
  intros -> Hh Hu Ha Hs cd. subst cd.
  rewrite (record_and_set_signed _ _ _ _ _ _ uid Ha), Completion.record_without_date. cbv zeta.
  pose proof (iso_date_nonempty (now_ms d)) as Hne.
  destruct (Completion.record_habit_date_effect _ uid v _ d srow Hh Hu Hne Hs)
    as (c1 & Hc1 & _ & Hh1 & Hu1 & Hs1 & _).
  pose proof (Completion.record_keeps_clock Completion.conflict_habit_date
    (Habit.id (HabitWithProgress.habit habit)) uid v (Some (iso_date_of_ms (now_ms d))) d) as Hk.
  unfold clock_of in Hk. injection Hk as Hnow Hauth.
  rewrite Hc1. cbn [fst snd]. rewrite Hauth, Ha. done.
Qed.

Lemma run_clicks_cons conflict habit k ks cd :
  run_clicks conflict habit (k :: ks) cd =
  run_clicks conflict habit ks (snd (handle conflict habit k cd)).
Proof. simpl. by rewrite st_bind_unfold. Qed.

(** A habit of target 0 (neither the modal nor the API rejects one) shows,
    before any progress, a bar of width [NaN%]: [(0 / 0) * 100] is NaN
    and so is [Math.min(NaN, 100)]. *)
Lemma bar_width_target_zero habit c :
  target habit = 0 -> progress c = 0 -> PrimFloat.is_nan (bar_width habit c) = true.
Proof. intros Ht Hp. unfold bar_width, progressPercentage. rewrite Ht, Hp. vm_compute. reflexivity. Qed.

(** An enabled minus or plus button runs its handler past its guard, so a
    click on it records a value; at a negative progress the minus button
    is enabled and its handler does nothing. *)
Lemma click_enabled_guard habit k c :
  click_enabled habit k c = true -> 0 <= progress c ->
  match k with
  | Increment => progress c < target habit
  | Decrement => 0 < progress c
  | Toggle => True
  end.
Proof.
  destruct k; cbn; [done| |]; rewrite andb_true_iff, negb_true_iff;
    [rewrite Z.leb_gt|rewrite Z.eqb_neq]; intros [_ H] ?; lia.
Qed.

(** Two clicks on the plus button in quick succession: when both handlers
    read the card before the first recording returns, both record
    [progress + 1] and the card ends at [progress + 1]; clicked one after
    the other they end at [progress + 2]. *)
Lemma double_click_loses_increment habit c d uid srow :
  healthy d -> Completion.unique_keys d -> auth_user d = Some uid ->
  List.filter (Streak.streak_filter (Habit.id (HabitWithProgress.habit habit)) uid)
    (habit_streaks d) = [srow] ->
  progress c + 2 <= target habit ->
  progress (fst (snd (double_click_increment Completion.conflict_habit_date habit (c, d)))) =
    progress c + 1 /\
  progress (fst (snd (run_clicks Completion.conflict_habit_date habit [Increment; Increment] (c, d)))) =
    progress c + 2.
Proof.
  intros Hh Hu Ha Hs Ht.
  assert (Hv : forall c', progress c' < target habit ->
            increment_value habit c' = Some (progress c' + 1)).
  { intros c' Hc'. unfold increment_value. by destruct (Z.ltb_spec (progress c') (target habit)); [|lia]. }
  split.
  - unfold double_click_increment. cbn [fst]. rewrite Hv by lia. rewrite st_bind_unfold.
    unfold finish_increment.
    destruct (record_and_set_ok _ habit (progress c + 1)
      (fun c0 => mkCard (if progress c + 1 =? target habit then true else isCompleted c0) (progress c + 1))
      c d uid srow eq_refl Hh Hu Ha Hs) as (Hc1 & Hh1 & Hu1 & Ha1 & _ & Hs1).
    destruct (record_and_set _ _ _ _ (c, d)) as [u1 [c1 d1]]. cbn [fst snd] in *. subst c1.
    destruct (record_and_set_ok _ habit (progress c + 1)
      (fun c0 => mkCard (if progress c + 1 =? target habit then true else isCompleted c0) (progress c + 1))
      (mkCard (if progress c + 1 =? target habit then true else isCompleted c) (progress c + 1))
      d1 uid _ eq_refl Hh1 Hu1 Ha1 Hs1) as (-> & _). done.
  - rewrite !run_clicks_cons. cbn [run_clicks st_ret fst snd handle].
    rewrite (handleIncrement_split _ _ (c, d)). cbn [fst]. rewrite Hv by lia. unfold finish_increment.
    destruct (record_and_set_ok _ habit (progress c + 1)
      (fun c0 => mkCard (if progress c + 1 =? target habit then true else isCompleted c0) (progress c + 1))
      c d uid srow eq_refl Hh Hu Ha Hs) as (Hc1 & Hh1 & Hu1 & Ha1 & _ & Hs1).
    destruct (record_and_set _ _ _ _ (c, d)) as [u1 [c1 d1]]. cbn [fst snd] in *. subst c1.
    set (c1 := mkCard (if progress c + 1 =? target habit then true else isCompleted c) (progress c + 1)).
    rewrite handleIncrement_split. cbn [fst]. rewrite Hv by (subst c1; cbn; lia).
    unfold finish_increment.
    destruct (record_and_set_ok _ habit (progress c1 + 1)
      (fun c0 => mkCard (if progress c1 + 1 =? target habit then true else isCompleted c0) (progress c1 + 1))
      c1 d1 uid _ eq_refl Hh1 Hu1 Ha1 Hs1) as (-> & _). subst c1. cbn. lia.
Qed.

(** ** Properties of the card *)

(** C26: with a positive target, the card shows completed exactly when its
    progress reaches the target, after any sequence of clicks on the
    toggle, the plus and the minus button, whatever the database answers. *)
Theorem card_consistent_after_clicks conflict habit ks c d :
  1 <= target habit -> card_ok habit c ->
  card_ok habit (fst (snd (run_clicks conflict habit ks (c, d)))).
Proof.
  intros Ht. revert c d. induction ks as [|k ks IH]; intros c d Hc; [done|].
  rewrite run_clicks_cons.
  destruct (handle conflict habit k (c, d)) as [u [c' d']] eqn:E.
  cbn [snd]. apply IH.
  pose proof (handle_ok conflict habit k c d Ht Hc) as Hk. by rewrite E in Hk.
Qed.

Definition sample_habit : HabitWithProgress.t :=
  HabitWithProgress.mk (Habit.mk 1 2 "Water" None None Accent None 8 "glasses" Daily true 0 0)
    0 0 0 false.

Lemma card_consistent_after_clicks_witness :
  let d := mkDb [] [Streak.initial_streak 7 1 2] [] [] [] (Some 2%N) 8 1704067200000 [] in
  card_ok sample_habit
    (fst (snd (run_clicks Completion.conflict_habit_date sample_habit
                [Increment; Toggle; Decrement; Toggle] (init sample_habit, d)))).
Proof.
  intros d. apply card_consistent_after_clicks; [vm_compute; discriminate|reflexivity].
Defined.

(** Checking then unchecking a habit whose streak row is new, on one
    day, leaves the card unchecked with progress 0 and today's completion
    row at value 0, while the database streak of the habit is 1: the
    streak counts a day whatever value was recorded, where the
    specification counts only a value that reaches the target. *)
Lemma toggle_twice_counts_day habit d uid sid :
  healthy d -> Completion.unique_keys d -> auth_user d = Some uid ->
  let hid := Habit.id (HabitWithProgress.habit habit) in
  List.filter (Streak.streak_filter hid uid) (habit_streaks d) = [Streak.initial_streak sid hid uid] ->
  let cd := snd (run_clicks Completion.conflict_habit_date habit [Toggle; Toggle] (mkCard false 0, d)) in
  fst cd = mkCard false 0 /\
  (exists row, List.filter (Streak.streak_filter hid uid) (habit_streaks (snd cd)) = [row] /\
               HabitStreak.current_streak row = 1) /\
  (exists r, Completion.rows_of_key (hid, iso_date_of_ms (now_ms d)) (habit_completions (snd cd)) = [r] /\
             HabitCompletion.value r = 0).
Proof.
  intros Hh Hu Ha hid Hs cd. subst cd. rewrite !run_clicks_cons. cbn [run_clicks st_ret snd].
  set (today := iso_date_of_ms (now_ms d)).
  pose proof (iso_date_nonempty (now_ms d)) as Hne. fold today in Hne.
  change (handle _ habit Toggle (mkCard false 0, d)) with
    (record_and_set Completion.conflict_habit_date habit (target habit)
       (fun _ => mkCard true (target habit)) (mkCard false 0, d)).
  rewrite (record_and_set_signed _ _ _ _ _ _ uid Ha), Completion.record_without_date.
  cbv zeta. fold hid today.
  destruct (Completion.record_habit_date_effect hid uid (target habit) today d _ Hh Hu Hne Hs)
    as (c1 & Hc1 & _ & Hh1 & Hu1 & Hs1 & _).
  rewrite Hc1. cbn [fst snd].
  pose proof (Completion.record_keeps_clock Completion.conflict_habit_date hid uid (target habit)
                (Some today) d) as Hk. unfold clock_of in Hk.
  set (d1 := snd (Completion.recordHabitCompletion _ _ _ _ _ d)) in *.
  injection Hk as Hnow Hauth. rewrite Ha in Hauth.
  change (handle _ habit Toggle (mkCard true (target habit), d1)) with
    (record_and_set Completion.conflict_habit_date habit 0
       (fun _ => mkCard false 0) (mkCard true (target habit), d1)).
  rewrite (record_and_set_signed _ _ _ _ _ _ uid Hauth), Completion.record_without_date, Hnow.
  cbv zeta. fold hid today.
  destruct (Completion.record_habit_date_effect hid uid 0 today d1 _ Hh1 Hu1 Hne Hs1)
    as (c2 & Hc2 & Hv2 & _ & _ & Hs2 & Hk2).
  rewrite Hc2. cbn [fst snd].
  split; [done|]. split; [|by exists c2].
  eexists. split; [exact Hs2|].
  rewrite Streak.apply_completion_twice_current by done.
  by destruct (Streak.apply_completion_first today (Streak.initial_streak sid hid uid) eq_refl).
Qed.

End HabitCard.
