(* ===== verification/Panels.v ===== *)
(** * The dashboard components that load and change data

    The React components of [src/components] whose handlers call the
    database layer, with their state as records and each handler as a
    computation of [St (state * db)]; a React state update is a new value
    of the record.  The realtime subscriptions these components set up,
    the rendering and the unmounting are not modelled.
    - [HabitGrid] ([habit-grid.tsx], lines 9-41): [loadHabits] and
      [handleHabitAdded], which bumps [refreshKey] and so reruns the
      effect;
    - [StatsOverview] ([stats-overview.tsx], lines 8-67): [loadStats] and
      the percentages of [displayStats];
    - [AddHabitModal] ([add-habit-modal.tsx], lines 17-70): the form and
      [handleSubmit]; the columns the form does not send (color, unit,
      frequency, active) take the table's defaults, a parameter here;
    - [NotificationSettings] ([notification-settings.tsx], lines 12-93):
      [loadSettings] and [updateNotification];
    - [ProfileSettings] ([profile-settings.tsx], lines 13-163): the profile
      load, [handleSave], and the panel's controls (edit, the three
      inputs, cancel, save) with their disabled and hidden states;
    - [AppearanceSettings] ([appearance-settings.tsx], lines 11-83) and
      [PrivacySettings] ([privacy-settings.tsx], lines 11-85): their
      loads and updates; the theme is also written to the document and
      [localStorage], kept as [dataTheme].
    The lemmas show that the grid and the statistics card show the
    database's answer, that the modal resets and closes only on a created
    habit and creates it with the form's target unchecked, and that the
    notification panel stays on "Loading..." when [getUserSettings]
    returns [null]; the theorem shows that the profile panel's "Cancel"
    keeps the discarded edits, which the next save stores. *)

From S2P Require Import Prelude JsNumber Db Habits Stats Settings.

Open Scope Z_scope.

Module Grid.

Record grid := mkGrid {
  habits : list HabitWithProgress.t;
  loading : bool;
  refreshKey : Z
}.

Definition initial_grid : grid := mkGrid [] true 0.

(** [loadHabits] (lines 15-34). *)
Definition loadHabits : St (grid * db) unit := fun '(g, d) =>
  match auth_user d with
  | None => (tt, (mkGrid (habits g) false (refreshKey g), d))
  | Some uid =>
      let r := Habits.getUserHabits uid d in
      (tt, (mkGrid (fst r) false (refreshKey g), snd r))
  end.

(** [handleHabitAdded] (lines 39-41), then the effect it triggers. *)
Definition handleHabitAdded : St (grid * db) unit := fun '(g, d) =>
  loadHabits (mkGrid (habits g) (loading g) (refreshKey g + 1), d).

End Grid.

Module Overview.

Record overview := mkOverview {
  stats : Stats.HabitStats;
  loading : bool
}.

Definition initial_overview : overview :=
  mkOverview (Stats.mkStats 0 0 0 0 0) true.

(** [loadStats] (lines 19-38). *)
Definition loadStats : St (overview * db) unit := fun '(o, d) =>
  match auth_user d with
  | None => (tt, (mkOverview (stats o) false, d))
  | Some uid =>
      let r := Stats.getHabitStats uid d in
      (tt, (mkOverview (fst r) false, snd r))
  end.

(** The [percentage] of the four entries of [displayStats] (lines 44-67). *)
Definition display_percentages (s : Stats.HabitStats) : list float :=
  [Stats.todayProgress s;
   js_min (js_mul (js_div (Stats.averageStreak s) (float_of_Z 30)) (float_of_Z 100)) (float_of_Z 100);
   float_of_Z 100;
   js_min (js_mul (js_div (Stats.longestStreak s) (float_of_Z 100)) (float_of_Z 100)) (float_of_Z 100)].

End Overview.

Module Modal.

(** [formData] *)
Record form := mkForm {
  f_name : string;
  f_description : string;
  f_icon : string;
  f_category : string;
  f_target : Z
}.

Record modal := mkModal {
  open : bool;
  isSubmitting : bool;
  formData : form
}.

(** Lines 20-26 and 54-60. *)
Definition empty_form : form := mkForm "" "" "🎯" "other" 1.

Section Submit.
(** The table's defaults for the columns the form does not send. *)
Variable default_color : color.
Variable default_unit : string.
Variable default_frequency : frequency.
Variable default_active : bool.

(** [habitData] (lines 43-50): an empty description is [null], an empty
    icon is ["🎯"]. *)
Definition habitData (uid : uuid) (f : form) : Habits.HabitDraft :=
  Habits.mkDraft uid (f_name f)
    (if String.eqb (f_description f) "" then None else Some (f_description f))
    (Some (if String.eqb (f_icon f) "" then "🎯"%string else f_icon f))
    default_color (Some (f_category f)) (f_target f) default_unit default_frequency
    default_active.

(** [handleSubmit] (lines 32-70): the boolean is whether [onHabitAdded]
    was called; [finally] clears [isSubmitting] on every path. *)
Definition handleSubmit : St (modal * db) bool := fun '(m, d) =>
  match auth_user d with
  | None => (false, (mkModal (open m) false (formData m), d))
  | Some uid =>
      let r := Habits.createHabit (habitData uid (formData m)) d in
      match fst r with
      | Some _ => (true, (mkModal false false empty_form, snd r))
      | None => (false, (mkModal (open m) false (formData m), snd r))
      end
  end.
End Submit.

End Modal.

Module Notifications.

Record notifications := mkNotifications {
  habitReminders : bool;
  streakAlerts : bool;
  weeklyReports : bool;
  motivationalQuotes : bool;
  reminderTime : string
}.

Record panel := mkPanel {
  notifs : notifications;
  loading : bool;
  saving : bool;
  error : string;
  success : string
}.

(** Lines 13-23. *)
Definition initial_panel : panel :=
  mkPanel (mkNotifications true true false true "09:00") true false "" "".

Definition notifications_of (s : UserSettings.t) : notifications :=
  mkNotifications (UserSettings.habit_reminders s) (UserSettings.streak_alerts s)
    (UserSettings.weekly_reports s) (UserSettings.motivational_quotes s)
    (UserSettings.reminder_time s).

(** The [(key, value)] pairs the switches and the select pass. *)
Inductive notification_update :=
  | UHabitReminders (b : bool)
  | UStreakAlerts (b : bool)
  | UWeeklyReports (b : bool)
  | UMotivationalQuotes (b : bool)
  | UReminderTime (s : string).

(** [updates] (lines 74-79). *)
Definition updates_of (u : notification_update) : Settings.SettingsPatch.t :=
  match u with
  | UHabitReminders b =>
      Settings.SettingsPatch.mk None (Some b) None None None None None None None None None None None
  | UStreakAlerts b =>
      Settings.SettingsPatch.mk None None (Some b) None None None None None None None None None None
  | UWeeklyReports b =>
      Settings.SettingsPatch.mk None None None (Some b) None None None None None None None None None
  | UMotivationalQuotes b =>
      Settings.SettingsPatch.mk None None None None (Some b) None None None None None None None None
  | UReminderTime s =>
      Settings.SettingsPatch.mk None None None None None (Some s) None None None None None None None
  end.

(** [setNotifications((prev) => ({ ...prev, [key]: value }))] *)
Definition set_notification (u : notification_update) (n : notifications) : notifications :=
  match u with
  | UHabitReminders b => mkNotifications b (streakAlerts n) (weeklyReports n) (motivationalQuotes n) (reminderTime n)
  | UStreakAlerts b => mkNotifications (habitReminders n) b (weeklyReports n) (motivationalQuotes n) (reminderTime n)
  | UWeeklyReports b => mkNotifications (habitReminders n) (streakAlerts n) b (motivationalQuotes n) (reminderTime n)
  | UMotivationalQuotes b => mkNotifications (habitReminders n) (streakAlerts n) (weeklyReports n) b (reminderTime n)
  | UReminderTime s => mkNotifications (habitReminders n) (streakAlerts n) (weeklyReports n) (motivationalQuotes n) s
  end.

Section Load.
Variable dflt : UserSettings.t.
Variable user_id_unique : bool.

(** [loadSettings] (lines 27-63), the component mounted: [loading] is
    cleared only with no session or on a settings row. *)
Definition loadSettings : St (panel * db) unit := fun '(p, d) =>
  match auth_user d with
  | None => (tt, (mkPanel (notifs p) false (saving p) (error p) (success p), d))
  | Some uid =>
      let r := Settings.getUserSettings dflt user_id_unique uid d in
      match fst r with
      | Some s => (tt, (mkPanel (notifications_of s) false (saving p) (error p) (success p), snd r))
      | None => (tt, (p, snd r))
      end
  end.
End Load.

(** [updateNotification] (lines 68-93). *)
Definition updateNotification (u : notification_update) : St (panel * db) unit := fun '(p, d) =>
  let r := Settings.updateUserSettings (updates_of u) d in
  match fst r with
  | Some _ => (tt, (mkPanel (set_notification u (notifs p)) (loading p) false "" "Settings updated!", snd r))
  | None => (tt, (mkPanel (notifs p) (loading p) false "Failed to update settings." "", snd r))
  end.

(** The four switches and the reminder-time select (lines 113-165); while
    loading the panel shows "Loading..." and no control (lines 95-97). *)
Definition control (u : notification_update) : St (panel * db) unit := fun '(p, d) =>
  if loading p then (tt, (p, d)) else updateNotification u (p, d).

End Notifications.

Module ProfilePanel.

(** [profile] *)
Record profile_form := mkProfileForm {
  p_name : string;
  p_email : string;
  p_bio : string
}.

Record panel := mkPanel {
  isEditing : bool;
  profile : profile_form;
  loading : bool;
  saving : bool;
  error : string;
  success : string
}.

(** Lines 14-23. *)
Definition initial_panel : panel := mkPanel false (mkProfileForm "" "" "") true false "" "".

(** [user.name || ""] and the like. *)
Definition or_empty (s : string) : string := js_or_string (Some s) "".

(** The effect of lines 25-39, the component mounted. *)
Definition loadProfile : St (panel * db) unit := fun '(p, d) =>
  let r := Profile.getCurrentUser d in
  match fst r with
  | Some user =>
      (tt, (mkPanel (isEditing p)
              (mkProfileForm (or_empty (User.name user)) (or_empty (User.email user))
                 (js_or_string (User.bio user) ""))
              false (saving p) (error p) (success p), snd r))
  | None => (tt, (mkPanel (isEditing p) (profile p) false (saving p) (error p) (success p), snd r))
  end.

(** [{ name, email, bio }] sent by [handleSave]. *)
Definition profile_updates (f : profile_form) : Profile.UserPatch.t :=
  Profile.UserPatch.mk None (Some (p_email f)) (Some (p_name f)) (Some (Some (p_bio f)))
    None None None.

(** [handleSave] (lines 41-62). *)
Definition handleSave : St (panel * db) unit := fun '(p, d) =>
  let r := Profile.updateUserProfile (profile_updates (profile p)) d in
  match fst r with
  | Some _ => (tt, (mkPanel false (profile p) (loading p) false "" "Profile updated!", snd r))
  | None => (tt, (mkPanel (isEditing p) (profile p) (loading p) false "Failed to update profile." "", snd r))
  end.

(** The panel's controls: "Edit Profile"/"Cancel" at the top (line 75),
    the three inputs, disabled unless editing (lines 109-143), and the
    "Cancel" and "Save Changes" buttons shown while editing and disabled
    while saving (lines 149-163).  While loading the panel shows
    "Loading..." and no control (lines 64-66). *)
Inductive profile_event :=
  | ToggleEdit | EditName (v : string) | EditEmail (v : string) | EditBio (v : string)
  | CancelEdit | SaveClick.

Definition with_form (f : profile_form) (p : panel) : panel :=
  mkPanel (isEditing p) f (loading p) (saving p) (error p) (success p).

Definition with_editing (b : bool) (p : panel) : panel :=
  mkPanel b (profile p) (loading p) (saving p) (error p) (success p).

Definition profile_event_step (e : profile_event) : St (panel * db) unit := fun '(p, d) =>
  let f := profile p in
  if loading p then (tt, (p, d)) else
  match e with
  | ToggleEdit => (tt, (with_editing (negb (isEditing p)) p, d))
  | EditName v =>
      if isEditing p then (tt, (with_form (mkProfileForm v (p_email f) (p_bio f)) p, d)) else (tt, (p, d))
  | EditEmail v =>
      if isEditing p then (tt, (with_form (mkProfileForm (p_name f) v (p_bio f)) p, d)) else (tt, (p, d))
  | EditBio v =>
      if isEditing p then (tt, (with_form (mkProfileForm (p_name f) (p_email f) v) p, d)) else (tt, (p, d))
  | CancelEdit =>
      if isEditing p && negb (saving p) then (tt, (with_editing false p, d)) else (tt, (p, d))
  | SaveClick =>
      if isEditing p && negb (saving p) then handleSave (p, d) else (tt, (p, d))
  end.

Fixpoint run_profile_events (es : list profile_event) : St (panel * db) unit :=
  match es with
  | [] => st_ret tt
  | e :: rest => _ <- profile_event_step e ;; run_profile_events rest
  end.

End ProfilePanel.

Module Appearance.

(** The component's state, with the theme written to
    [document.documentElement] and [localStorage] ([None] until one is). *)
Record panel := mkPanel {
  theme : string;
  accentColor : string;
  loading : bool;
  saving : bool;
  error : string;
  success : string;
  dataTheme : option string
}.

(** Lines 12-17. *)
Definition initial_panel : panel := mkPanel "dark" "blue" true false "" "" None.

Inductive appearance_update := UTheme (v : string) | UAccentColor (v : string).

Section Load.
Variable dflt : UserSettings.t.
Variable user_id_unique : bool.

(** [loadSettings] (lines 21-46), the component mounted. *)
Definition loadSettings : St (panel * db) unit := fun '(p, d) =>
  match auth_user d with
  | None => (tt, (mkPanel (theme p) (accentColor p) false (saving p) (error p) (success p) (dataTheme p), d))
  | Some uid =>
      let r := Settings.getUserSettings dflt user_id_unique uid d in
      match fst r with
      | Some s => (tt, (mkPanel (UserSettings.theme s) (UserSettings.accent_color s) false
                          (saving p) (error p) (success p) (dataTheme p), snd r))
      | None => (tt, (p, snd r))
      end
  end.
End Load.

(** [updates] (lines 59-61). *)
Definition updates_of (u : appearance_update) : Settings.SettingsPatch.t :=
  match u with
  | UTheme v =>
      Settings.SettingsPatch.mk None None None None None None (Some v) None None None None None None
  | UAccentColor v =>
      Settings.SettingsPatch.mk None None None None None None None (Some v) None None None None None
  end.

(** [updateSetting] (lines 53-83). *)
Definition updateSetting (u : appearance_update) : St (panel * db) unit := fun '(p, d) =>
  let r := Settings.updateUserSettings (updates_of u) d in
  match fst r with
  | Some _ =>
      let p' := match u with
                | UTheme v => mkPanel v (accentColor p) (loading p) false "" "Settings updated!" (Some v)
                | UAccentColor v => mkPanel (theme p) v (loading p) false "" "Settings updated!" (dataTheme p)
                end in
      (tt, (p', snd r))
  | None => (tt, (mkPanel (theme p) (accentColor p) (loading p) false "Failed to update settings." ""
                   (dataTheme p), snd r))
  end.

(** The ids of [themes] and [colors] (lines 85-93). *)
Definition themes : list string := ["light"; "dark"; "system"].
Definition colors : list string := ["monochrome"].

(** A click on the [i]-th theme or colour button (lines 115-150), disabled
    while saving; while loading no button is shown (lines 95-97). *)
Inductive option_click := ThemeOption (i : nat) | ColorOption (i : nat).

Definition option_click_step (k : option_click) : St (panel * db) unit := fun '(p, d) =>
  if loading p || saving p then (tt, (p, d)) else
  match k with
  | ThemeOption i =>
      match nth_error themes i with Some v => updateSetting (UTheme v) (p, d) | None => (tt, (p, d)) end
  | ColorOption i =>
      match nth_error colors i with Some v => updateSetting (UAccentColor v) (p, d) | None => (tt, (p, d)) end
  end.

(** The highlighted buttons (lines 123 and 144). *)
Definition option_selected (p : panel) (k : option_click) : bool :=
  match k with
  | ThemeOption i => match nth_error themes i with Some v => String.eqb (theme p) v | None => false end
  | ColorOption i => match nth_error colors i with Some v => String.eqb (accentColor p) v | None => false end
  end.

End Appearance.

Module Privacy.

Record privacy := mkPrivacy {
  dataCollection : bool;
  analytics : bool;
  publicProfile : bool
}.

Record panel := mkPanel {
  settings : privacy;
  loading : bool;
  saving : bool;
  error : string;
  success : string
}.

(** Lines 12-21. *)
Definition initial_panel : panel := mkPanel (mkPrivacy false true false) true false "" "".

Definition privacy_of (s : UserSettings.t) : privacy :=
  mkPrivacy (UserSettings.data_collection s) (UserSettings.analytics s) (UserSettings.public_profile s).

Inductive privacy_update := UDataCollection (b : bool) | UAnalytics (b : bool) | UPublicProfile (b : bool).

Section Load.
Variable dflt : UserSettings.t.
Variable user_id_unique : bool.

(** [loadSettings] (lines 25-58), the component mounted. *)
Definition loadSettings : St (panel * db) unit := fun '(p, d) =>
  match auth_user d with
  | None => (tt, (mkPanel (settings p) false (saving p) (error p) (success p), d))
  | Some uid =>
      let r := Settings.getUserSettings dflt user_id_unique uid d in
      match fst r with
      | Some s => (tt, (mkPanel (privacy_of s) false (saving p) (error p) (success p), snd r))
      | None => (tt, (p, snd r))
      end
  end.
End Load.

(** [updates] (lines 68-71). *)
Definition updates_of (u : privacy_update) : Settings.SettingsPatch.t :=
  match u with
  | UDataCollection b =>
      Settings.SettingsPatch.mk None None None None None None None None (Some b) None None None None
  | UAnalytics b =>
      Settings.SettingsPatch.mk None None None None None None None None None (Some b) None None None
  | UPublicProfile b =>
      Settings.SettingsPatch.mk None None None None None None None None None None (Some b) None None
  end.

(** [setPrivacy((prev) => ({ ...prev, [key]: value }))] *)
Definition set_privacy (u : privacy_update) (v : privacy) : privacy :=
  match u with
  | UDataCollection b => mkPrivacy b (analytics v) (publicProfile v)
  | UAnalytics b => mkPrivacy (dataCollection v) b (publicProfile v)
  | UPublicProfile b => mkPrivacy (dataCollection v) (analytics v) b
  end.

(** [updatePrivacy] (lines 62-85). *)
Definition updatePrivacy (u : privacy_update) : St (panel * db) unit := fun '(p, d) =>
  let r := Settings.updateUserSettings (updates_of u) d in
  match fst r with
  | Some _ => (tt, (mkPanel (set_privacy u (settings p)) (loading p) false "" "Settings updated!", snd r))
  | None => (tt, (mkPanel (settings p) (loading p) false "Failed to update settings." "", snd r))
  end.

(** The three switches (lines 105-131); while loading the panel shows
    "Loading..." and no control (lines 87-89). *)
Definition control (u : privacy_update) : St (panel * db) unit := fun '(p, d) =>
  if loading p then (tt, (p, d)) else updatePrivacy u (p, d).

End Privacy.

(** ** Lemmas *)

(** When [getUserSettings] answers [null] (see
    [Settings.getUserSettings_many_rows]: a user with two settings rows),
    the notification panel keeps showing "Loading..." for good. *)
Lemma notifications_stuck_loading dflt u uid d :
  healthy d -> auth_user d = Some uid ->
  (2 <= length (Settings.rows_of d uid))%nat ->
  Notifications.loading
    (fst (snd (Notifications.loadSettings dflt u (Notifications.initial_panel, d)))) = true.
Proof.
  intros Hh Ha Hl. unfold Notifications.loadSettings. rewrite Ha. cbv zeta.
  destruct (Settings.getUserSettings_many_rows dflt u uid d Hh Hl) as [-> _]. done.
Qed.

(** So its switches and select, and those of the other settings panels
    while they load, change nothing. *)
Lemma controls_inert_while_loading pn pa pp d un ka up :
  Notifications.loading pn = true -> Appearance.loading pa = true -> Privacy.loading pp = true ->
  snd (Notifications.control un (pn, d)) = (pn, d) /\
  snd (Appearance.option_click_step ka (pa, d)) = (pa, d) /\
  snd (Privacy.control up (pp, d)) = (pp, d).
Proof.
  intros Hn Ha Hp. unfold Notifications.control, Appearance.option_click_step, Privacy.control.
  by rewrite Hn, Ha, Hp.
Qed.

(** The modal sends the form's target as it is: a form with target [t]
    (0 or negative included) creates a habit of target [t] for the
    signed-in user, then closes and resets. *)
Lemma modal_submit_creates c unit fr act m d uid :
  healthy d -> auth_user d = Some uid ->
  let r := Modal.handleSubmit c unit fr act (m, d) in
  fst r = true /\ fst (snd r) = Modal.mkModal false false Modal.empty_form /\
  exists h, habits (snd (snd r)) = habits d ++ [h] /\ Habit.user_id h = uid /\
    Habit.target_value h = Modal.f_target (Modal.formData m).
Proof.
  intros Hh Ha r. subst r. unfold Modal.handleSubmit. rewrite Ha. cbv zeta.
  rewrite (Habits.createHabit_healthy _ d Hh). cbn [fst snd].
  split; [done|]. split; [done|]. by eexists.
Qed.

(** The grid, after a habit was added, lists what [getUserHabits] returns
    for the signed-in user and no longer shows the loading state. *)
Lemma grid_after_added g d uid :
  auth_user d = Some uid ->
  fst (snd (Grid.handleHabitAdded (g, d))) =
    Grid.mkGrid (fst (Habits.getUserHabits uid d)) false (Grid.refreshKey g + 1).
Proof. intros Ha. unfold Grid.handleHabitAdded, Grid.loadHabits. cbn. by rewrite Ha. Qed.

(** With the statistics of a user with no habit ([averageStreak] NaN),
    the "Current Streak" card's percentage is NaN. *)
Lemma overview_nan_percentage :
  nth 1 (Overview.display_percentages (Stats.mkStats 0 0 0 nan 0)) 0%float = nan.
Proof. vm_compute. reflexivity. Qed.

(** Opening the profile panel and saving it unedited writes an empty
    string over a [null] bio ([user.bio || ""] is what is sent back). *)
Lemma profile_save_unedited_bio d uid u :
  healthy d -> auth_user d = Some uid ->
  List.filter (Profile.profile_of uid) (profiles d) = [u] -> User.bio u = None ->
  let pd := snd (ProfilePanel.loadProfile (ProfilePanel.initial_panel, d)) in
  let d' := snd (snd (ProfilePanel.handleSave pd)) in
  exists u', List.filter (Profile.profile_of uid) (profiles d') = [u'] /\ User.bio u' = Some ""%string.
Proof.
  intros Hh Ha Hf Hb pd d'. subst pd d'.
  unfold ProfilePanel.loadProfile, Profile.getCurrentUser.
  rewrite !st_bind_unfold. cbn [st_get fst snd]. rewrite Ha.
  rewrite st_bind_unfold. unfold select_where. rewrite request_healthy by done.
  cbn [fst snd tbl_get profiles_tbl]. rewrite Hf. cbn [single fst snd st_ret].
  unfold ProfilePanel.handleSave, Profile.updateUserProfile.
  rewrite !st_bind_unfold. cbn [st_get fst snd]. rewrite Ha.
  rewrite st_bind_unfold. unfold update_single. rewrite request_healthy by done.
  cbn [fst snd tbl_get profiles_tbl]. rewrite Hf. cbn.
  eexists. split.
  - apply filter_update_single; [done|]. unfold Profile.profile_of. simpl.
    unfold Profile.profile_of in Hf. pose proof (filter_In (fun u0 => (User.id u0 =? uid)%N) u (profiles d)) as [Hi _].
    rewrite Hf in Hi. destruct (Hi (or_introl eq_refl)) as [_ ->]. done.
  - rewrite Hb. done.
Qed.

(** A successful theme change shows the theme, writes it to the document
    and to the user's settings row. *)
Lemma appearance_theme_update p d uid r v :
  healthy d -> auth_user d = Some uid -> Settings.rows_of d uid = [r] ->
  let pd := snd (Appearance.updateSetting (Appearance.UTheme v) (p, d)) in
  Appearance.theme (fst pd) = v /\ Appearance.dataTheme (fst pd) = Some v /\
  exists r', Settings.rows_of (snd pd) uid = [r'] /\ UserSettings.theme r' = v.
Proof.
  intros Hh Ha Hr pd. subst pd. unfold Appearance.updateSetting. cbv zeta.
  rewrite (Settings.updateUserSettings_single _ d uid r Hh Ha Hr). cbn [fst snd].
  split; [done|]. split; [done|].
  exists (Settings.apply_settings_patch (Appearance.updates_of (Appearance.UTheme v)) r).
  split; [|reflexivity].
  unfold Settings.rows_of. cbn [user_settings tbl_set settings_tbl].
  apply filter_update_single; [done|]. unfold Settings.settings_of. cbn.
  pose proof (filter_In (Settings.settings_of uid) r (user_settings d)) as [Hi _].
  unfold Settings.rows_of in Hr. rewrite Hr in Hi. by destruct (Hi (or_introl eq_refl)).
Qed.

(** ** Properties of the panels *)

(** C28: "Cancel" in the profile panel leaves editing without restoring
    the profile: after "Edit Profile", a new name and "Cancel", the panel
    shows the new name while the database is unchanged, and the next
    "Edit Profile" then "Save Changes" stores that name without it being
    typed again. *)
Theorem profile_cancel_keeps_edits p d v :
  ProfilePanel.loading p = false -> ProfilePanel.isEditing p = false -> ProfilePanel.saving p = false ->
  let '(_, (p1, d1)) :=
    ProfilePanel.run_profile_events [ProfilePanel.ToggleEdit; ProfilePanel.EditName v; ProfilePanel.CancelEdit] (p, d) in
  d1 = d /\ ProfilePanel.isEditing p1 = false /\
  ProfilePanel.profile p1 =
    ProfilePanel.mkProfileForm v (ProfilePanel.p_email (ProfilePanel.profile p))
      (ProfilePanel.p_bio (ProfilePanel.profile p)) /\
  snd (snd (ProfilePanel.run_profile_events [ProfilePanel.ToggleEdit; ProfilePanel.SaveClick] (p1, d1))) =
    snd (Profile.updateUserProfile (ProfilePanel.profile_updates (ProfilePanel.profile p1)) d).
Proof.
  destruct p as [e f l sv er su]. cbn [ProfilePanel.loading ProfilePanel.isEditing ProfilePanel.saving].
  intros -> -> ->. unfold ProfilePanel.run_profile_events. rewrite !st_bind_unfold.
  cbn -[ProfilePanel.handleSave Profile.updateUserProfile].
  split; [done|]. split; [done|]. split; [done|].
  rewrite st_bind_unfold. unfold ProfilePanel.handleSave. cbn -[Profile.updateUserProfile].
  match goal with |- context [Profile.updateUserProfile ?u d] =>
    destruct (Profile.updateUserProfile u d) as [[] ?] end; done.
Qed.

Lemma profile_cancel_keeps_edits_witness :
  let p := ProfilePanel.mkPanel false (ProfilePanel.mkProfileForm "Ann" "a@x.io" "") false false "" "" in
  let d := mkDb [] [] [] [] [] None 1 0 [] in
  ProfilePanel.loading p = false /\ ProfilePanel.isEditing p = false /\ ProfilePanel.saving p = false /\
  let '(_, (p1, d1)) :=
    ProfilePanel.run_profile_events [ProfilePanel.ToggleEdit; ProfilePanel.EditName "Bo"; ProfilePanel.CancelEdit] (p, d) in
  d1 = d /\ ProfilePanel.isEditing p1 = false /\
  ProfilePanel.profile p1 = ProfilePanel.mkProfileForm "Bo" "a@x.io" "" /\
  snd (snd (ProfilePanel.run_profile_events [ProfilePanel.ToggleEdit; ProfilePanel.SaveClick] (p1, d1))) =
    snd (Profile.updateUserProfile (ProfilePanel.profile_updates (ProfilePanel.profile p1)) d).
Proof.
  intros p d. split; [reflexivity|]. split; [reflexivity|]. split; [reflexivity|].
  apply (profile_cancel_keeps_edits p d "Bo"); reflexivity.
Defined.
