(* ===== verification/Screens.v ===== *)
(** * Screens with logic of their own

    - [Calendar] ([src/app/dashboard/calendar/page.tsx], lines 41-83): the
      35 cells of the month grid titled "December 2024"; the two
      [Math.random()] draws of each cell are inputs;
    - [Splash] ([src/components/splash-screen.tsx], lines 9-56 and 126):
      the typewriter title and the feature carousel, two chains of
      [setTimeout] callbacks, as a step relation whose steps are the
      timers firing in any order;
    - [Login] ([src/components/login-form.tsx], lines 12-113): the
      password sign-in and the Google sign-in; the identity provider is a
      parameter, its session is the [auth_user] of the database; the eye
      button, and the browser's checks before [onSubmit] (the [required]
      inputs, the HTML standard's valid e-mail address for
      [type="email"], the submit button disabled while signing in);
    - [Nav] ([src/components/sidebar.tsx], lines 13-38 and 65-66;
      [src/components/dashboard-header.tsx], lines 76-79): the navigation
      entries, the active one, the user load and the sign-out button.
    The theorems show that the calendar shows the days 1 to 29 only and
    puts the first of the month on a Saturday where December 1, 2024 was a
    Sunday, and that the splash screen's timers stop, in every order of
    firing, on the full title with the "Get Started" button shown; the
    lemmas of [LoginFacts] show that the e-mail check's split on [@]
    joins back to the address, so a valid address has one [@] after a
    non-empty local part. *)

From S2P Require Import Prelude JsNumber JsDate Db Settings Mock Api.
From Stdlib Require Import Ascii String Wellfounded.

Open Scope Z_scope.

Module Calendar.

(** One cell of the grid. *)
Record cell := mkCell {
  day : Z;
  isCurrentMonth : bool;
  hasHabits : bool;
  completionRate : Z
}.

(** The Number [0.3], the binary64 value nearest to 3/10. *)
Definition js_0_3 : float := 0x1.3333333333333p-2%float.

(** Lines 41-45 for the cell [i], with the two draws [r1], [r2] of
    [Math.random()]; the floor of a Number in [0, 100) is an integer. *)
Definition cell_of (i : Z) (r1 r2 : float) : cell :=
  let day := i - 6 + 1 in
  let isCurrentMonth := (0 <? day) && (day <=? 31) in
  let hasHabits := isCurrentMonth && (js_0_3 <? r1)%float in
  let completionRate :=
    if hasHabits then default 0 (js_floor_Z (PrimFloat.mul r2 (float_of_Z 100))) else 0 in
  mkCell day isCurrentMonth hasHabits completionRate.

(** [Array.from({ length: 35 }, (_, i) => ...)]; [draws i] are the two
    random numbers cell [i] draws. *)
Definition cells (draws : Z -> float * float) : list cell :=
  map (fun i => cell_of i (fst (draws i)) (snd (draws i))) (map Z.of_nat (seq 0 35)).

(** The bar colour of a completion rate (lines 62-70): 3 for "bg-white"
    down to 0 for "bg-gray-700". *)
Definition rate_class (completionRate : Z) : Z :=
  if 80 <=? completionRate then 3
  else if 60 <=? completionRate then 2
  else if 40 <=? completionRate then 1
  else 0.

(** The ring around the cell of day 18 (line 57), the page's fixed "today". *)
Definition highlighted (c : cell) : bool := day c =? 18.

(** The column of cell [i] in a seven-column grid whose header starts
    with "Sun". *)
Definition column (i : Z) : Z := i mod 7.

(** The weekday of a day number, 0 for Sunday (1970-01-01 was a
    Thursday). *)
Definition weekday (n : Z) : Z := (n + 4) mod 7.

End Calendar.

Module Splash.

(** [features] (lines 14-30): three entries. *)
Definition features_length : Z := 3.

(** [appTitle] (line 32). *)
Definition appTitle : string := "SMART HABIT TRACKER".

(** The component's state, the [index] the typewriter closure keeps, and
    which timeouts are pending. *)
Record splash := mkSplash {
  currentStep : Z;
  showGetStarted : bool;
  pixelText : string;
  index : nat;
  typewriter_pending : bool;
  step_pending : bool
}.

(** [typeWriter] (lines 36-42): one more character and a new timeout, or
    nothing once the title is written. *)
Definition typeWriter (s : splash) : splash :=
  if (index s <? String.length appTitle)%nat then
    mkSplash (currentStep s) (showGetStarted s) (substring 0 (S (index s)) appTitle)
      (S (index s)) true (step_pending s)
  else mkSplash (currentStep s) (showGetStarted s) (pixelText s) (index s) false (step_pending s).

(** The carousel timeout (lines 47-53).  Changing [currentStep] re-runs
    the effect, which schedules the next timeout; showing the button
    leaves [currentStep] as it is, so no timeout follows. *)
Definition step_timeout (s : splash) : splash :=
  if currentStep s <? features_length - 1 then
    mkSplash (currentStep s + 1) (showGetStarted s) (pixelText s) (index s)
      (typewriter_pending s) true
  else mkSplash (currentStep s) true (pixelText s) (index s) (typewriter_pending s) false.

(** After mounting: the state of lines 10-12, the first [typeWriter()]
    call and the first carousel timeout scheduled. *)
Definition mounted : splash :=
  let s := mkSplash 0 false "" 0 false true in typeWriter s.

(** A pending timeout fires. *)
Inductive splash_step : splash -> splash -> Prop :=
  | fire_typewriter s :
      typewriter_pending s = true ->
      splash_step s (typeWriter (mkSplash (currentStep s) (showGetStarted s) (pixelText s)
                                   (index s) false (step_pending s)))
  | fire_step s :
      step_pending s = true ->
      splash_step s (step_timeout (mkSplash (currentStep s) (showGetStarted s) (pixelText s)
                                     (index s) (typewriter_pending s) false)).

Inductive splash_reachable : splash -> Prop :=
  | reach_mounted : splash_reachable mounted
  | reach_step s s' : splash_reachable s -> splash_step s s' -> splash_reachable s'.

(** The loading percentage (line 126): [Math.floor(((currentStep + 1) /
    features.length) * 100)]. *)
Definition loading_percent (s : splash) : option Z :=
  js_floor_Z (PrimFloat.mul (PrimFloat.div (float_of_Z (currentStep s + 1))
                                           (float_of_Z features_length)) (float_of_Z 100)).

(** The features' titles (lines 14-30), and [features[currentStep].title]
    (line 86), [undefined] as [None]. *)
Definition feature_titles : list string := ["TRACK HABITS"; "VIEW STATS"; "STAY CONSISTENT"].

Definition shown_title (s : splash) : option string :=
  if currentStep s <? 0 then None else nth_error feature_titles (Z.to_nat (currentStep s)).

(** The progress dots (lines 95-104): dot [index] is filled when
    [index <= currentStep]. *)
Definition dots (s : splash) : list bool :=
  map (fun i => Z.of_nat i <=? currentStep s) (seq 0 (List.length feature_titles)).

(** What is left to do: characters to write and carousel steps to take,
    each pending timeout counting once more. *)
Definition work (s : splash) : nat :=
  2 * (String.length appTitle - index s) + (if typewriter_pending s then 1 else 0) +
  2 * Z.to_nat (features_length - 1 - currentStep s) + (if step_pending s then 1 else 0).

(** The states the screen keeps. *)
Definition splash_inv (s : splash) : Prop :=
  (index s <= String.length appTitle)%nat /\
  pixelText s = substring 0 (index s) appTitle /\
  (typewriter_pending s = false -> index s = String.length appTitle) /\
  0 <= currentStep s <= features_length - 1 /\
  (step_pending s = false -> showGetStarted s = true /\ currentStep s = features_length - 1).

End Splash.

Module Login.

(** The form's state (lines 13-16). *)
Record form := mkForm {
  showPassword : bool;
  email : string;
  password : string;
  isLoading : bool
}.

(** What the page shows outside the form: the route [router.push] went
    to and the [alert]s raised. *)
Record page := mkPage {
  route : string;
  alerts : list string
}.

(** The session [signInWithPassword] opens and [signOut] closes. *)
Definition with_auth_user (u : option uuid) (d : db) : db :=
  mkDb (habits d) (habit_streaks d) (habit_completions d) (profiles d)
       (user_settings d) u (next_id d) (now_ms d) (faults d).

Section Provider.
(** The identity provider: the user a password signs in, or the error
    message; and the message of a request that does not complete. *)
Variable signInWithPassword : string -> string -> uuid + string.
Variable fetch_error : string.

(** [handleSubmit] (lines 19-40): [finally] clears [isLoading]. *)
Definition handleSubmit : St (form * page * db) unit := fun '(f, p, d) =>
  let r := pop_fault d in
  let f' := mkForm (showPassword f) (email f) (password f) false in
  let outcome := if fst r then inr fetch_error else signInWithPassword (email f) (password f) in
  match outcome with
  | inl uid => (tt, (f', mkPage "/dashboard" (alerts p), with_auth_user (Some uid) (snd r)))
  | inr message => (tt, (f', mkPage (route p) (alerts p ++ [message]), snd r))
  end.
End Provider.

(** [handleGoogleSignIn] (lines 42-57): the browser is sent to the
    provider, or the error is alerted; [oauth] is the provider's answer. *)
Definition handleGoogleSignIn (oauth : option string) (p : page) : page :=
  match oauth with
  | None => mkPage "google-oauth" (alerts p)
  | Some message => mkPage (route p) (alerts p ++ [message])
  end.

(** The eye button (lines 101-107) and the password input's [type]
    (line 94). *)
Definition toggleShowPassword (f : form) : form :=
  mkForm (negb (showPassword f)) (email f) (password f) (isLoading f).

Definition password_input_type (f : form) : string :=
  if showPassword f then "text" else "password".

(** The submit button (lines 111-113): its label and whether it is
    disabled. *)
Definition submit_label (f : form) : string :=
  if isLoading f then "Signing in..." else "Sign In".

(** A valid e-mail address as the HTML standard defines it for
    [<input type="email">]: a local part of letters, digits and
    [.!#$%&'*+/=?^_`{|}~-], an [@], and dot-separated labels of letters,
    digits and hyphens, each 1 to 63 characters long and starting and
    ending with a letter or digit. *)
Definition is_alnum (c : ascii) : bool :=
  let n := nat_of_ascii c in
  ((48 <=? n) && (n <=? 57))%nat || ((65 <=? n) && (n <=? 90))%nat || ((97 <=? n) && (n <=? 122))%nat.

Definition local_specials : list ascii := list_ascii_of_string ".!#$%&'*+/=?^_`{|}~-".

Definition is_local_char (c : ascii) : bool :=
  is_alnum c || existsb (Ascii.eqb c) local_specials.

(** The pieces of a string between the separators. *)
Fixpoint split_on (sep : ascii) (s : list ascii) : list (list ascii) :=
  match s with
  | [] => [[]]
  | c :: rest =>
      let pieces := split_on sep rest in
      if Ascii.eqb c sep then [] :: pieces
      else match pieces with
           | p :: ps => (c :: p) :: ps
           | [] => [[c]]
           end
  end.

Definition valid_label (l : list ascii) : bool :=
  match l with
  | [] => false
  | c :: _ =>
      (List.length l <=? 63)%nat && is_alnum c && is_alnum (List.last l c) &&
      forallb (fun c => is_alnum c || Ascii.eqb c "-"%char) l
  end.

Definition is_valid_email (s : string) : bool :=
  match split_on "@"%char (list_ascii_of_string s) with
  | [local; domain] =>
      negb (Nat.eqb (List.length local) 0) && forallb is_local_char local &&
      forallb valid_label (split_on "."%char domain)
  | _ => false
  end.

(** The browser's checks before [onSubmit] fires: the [required] e-mail
    input holds a valid address, the [required] password input is not
    empty, and the submit button is not disabled by [isLoading]. *)
Definition can_submit (f : form) : bool :=
  negb (isLoading f) && is_valid_email (email f) && negb (String.eqb (password f) "").

End Login.

Module Nav.

Record nav_item := mkItem {
  item_name : string;
  href : string
}.

(** [navigation] (sidebar.tsx, lines 13-19). *)
Definition navigation : list nav_item :=
  [mkItem "Dashboard" "/dashboard"; mkItem "Habits" "/dashboard/habits";
   mkItem "Analytics" "/dashboard/analytics"; mkItem "Calendar" "/dashboard/calendar";
   mkItem "Settings" "/dashboard/settings"].

(** [const isActive = pathname === item.href] (line 66). *)
Definition isActive (pathname : string) (item : nav_item) : bool :=
  String.eqb pathname (href item).

Record sidebar := mkSidebar {
  collapsed : bool;
  user : option User.t;
  loading : bool
}.

Definition initial_sidebar : sidebar := mkSidebar false None true.

(** The effect of lines 27-38, the component mounted. *)
Definition loadUser : St (sidebar * db) unit := fun '(sb, d) =>
  let r := Profile.getCurrentUser d in
  (tt, (mkSidebar (collapsed sb) (fst r) false, snd r)).

(** The sign-out button of the dashboard header (lines 76-79):
    [supabase.auth.signOut()] then [router.push("/")]. *)
Definition signOut (p : Login.page) (d : db) : Login.page * db :=
  (Login.mkPage "/" (Login.alerts p), Login.with_auth_user None d).

End Nav.

(** ** Lemmas *)

Module SplashFacts.
Import Splash.

Lemma splash_step_work s s' : splash_step s s' -> (work s' < work s)%nat.
Proof.
  intros [s0 Hp | s0 Hp]; unfold work, typeWriter, step_timeout; cbn [currentStep showGetStarted pixelText index typewriter_pending step_pending].
  - destruct (Nat.ltb_spec (index s0) (String.length appTitle)); cbn [currentStep showGetStarted pixelText index typewriter_pending step_pending]; rewrite Hp; lia.
  - destruct (Z.ltb_spec (currentStep s0) (features_length - 1)); cbn [currentStep showGetStarted pixelText index typewriter_pending step_pending]; rewrite Hp;
      unfold features_length in *; lia.
Qed.

Lemma splash_wf : well_founded (fun s' s => splash_step s s').
Proof.
  apply (wf_incl _ _ (ltof _ work)); [intros s' s; apply splash_step_work|].
  apply well_founded_ltof.
Qed.

Lemma substring_appTitle : substring 0 (String.length appTitle) appTitle = appTitle.
Proof. reflexivity. Qed.

Lemma splash_inv_mounted : splash_inv mounted.
Proof. unfold splash_inv, features_length. cbn. repeat split; try lia; discriminate. Qed.

Lemma splash_inv_step s s' : splash_inv s -> splash_step s s' -> splash_inv s'.
Proof.
  intros Hinv Hst. inversion Hst as [s0 Hp0 | s0 Hp0]; subst;
    destruct Hinv as (Hi & Ht & Hp & Hc & Hs); unfold splash_inv;
    unfold typeWriter, step_timeout; cbn [currentStep showGetStarted pixelText index typewriter_pending step_pending] in *.
  - destruct (Nat.ltb_spec (index s) (String.length appTitle)); cbn [currentStep showGetStarted pixelText index typewriter_pending step_pending] in *;
      repeat split; try done; try lia; try (intros; discriminate); try (intros _; lia);
      match goal with H : step_pending _ = false |- _ => destruct (Hs H); done end.
  - destruct (Z.ltb_spec (currentStep s) (features_length - 1)); cbn [currentStep showGetStarted pixelText index typewriter_pending step_pending] in *;
      unfold features_length in *; repeat split; try done; try lia; try discriminate.
Qed.

Lemma splash_reachable_inv s : splash_reachable s -> splash_inv s.
Proof.
  induction 1; [apply splash_inv_mounted|]. by eapply splash_inv_step.
Qed.

(** No timeout is pending in a state where none fires. *)
Lemma splash_stuck s :
  (forall s', ~ splash_step s s') -> typewriter_pending s = false /\ step_pending s = false.
Proof.
  intros Hn. split.
  - destruct (typewriter_pending s) eqn:E; [|done]. exfalso. eapply Hn. by apply fire_typewriter.
  - destruct (step_pending s) eqn:E; [|done]. exfalso. eapply Hn. by apply fire_step.
Qed.

(** [features[currentStep]] is always an entry of the array, and the
    loading percentage one of 33, 66 and 100. *)
Lemma splash_feature_in_bounds s :
  splash_reachable s ->
  0 <= currentStep s < features_length /\
  loading_percent s = Some (if currentStep s =? 0 then 33 else if currentStep s =? 1 then 66 else 100).
Proof.
  intros Hr. destruct (splash_reachable_inv s Hr) as (_ & _ & _ & Hc & _).
  unfold features_length in *. split; [lia|].
  unfold loading_percent. destruct s as [c ? ? ? ? ?]; cbn in *.
  assert (c = 0 \/ c = 1 \/ c = 2) as [->|[->| ->]] by lia; vm_compute; reflexivity.
Qed.

(** The carousel shows a defined feature and the dots up to it. *)
Lemma splash_display s :
  splash_reachable s ->
  (currentStep s = 0 /\ shown_title s = Some "TRACK HABITS"%string /\ dots s = [true; false; false]) \/
  (currentStep s = 1 /\ shown_title s = Some "VIEW STATS"%string /\ dots s = [true; true; false]) \/
  (currentStep s = 2 /\ shown_title s = Some "STAY CONSISTENT"%string /\ dots s = [true; true; true]).
Proof.
  intros Hr. destruct (splash_reachable_inv s Hr) as (_ & _ & _ & Hc & _).
  unfold features_length in Hc. unfold shown_title, dots.
  destruct s as [c ? ? ? ? ?]; cbn in *.
  assert (c = 0 \/ c = 1 \/ c = 2) as [->|[->| ->]] by lia; vm_compute; auto.
Qed.

End SplashFacts.

Module ScreenFacts.

(** At most one navigation entry is active: the [href]s are distinct. *)
Lemma nav_active_unique pathname :
  (List.length (List.filter (Nav.isActive pathname) Nav.navigation) <= 1)%nat.
Proof.
  unfold Nav.navigation, Nav.isActive. cbn [List.filter Nav.href].
  repeat match goal with |- context [String.eqb pathname ?h] =>
    destruct (String.eqb_spec pathname h) as [->|] end; vm_compute; lia.
Qed.

(** After a successful password sign-in the habits route answers for the
    signed-in user; after the header's sign-out it answers 401, while the
    [[id]] route still answers with the in-memory habit. *)
Lemma sign_in_then_out signIn err f p d m uid id h :
  faults d = [] -> signIn (Login.email f) (Login.password f) = inl uid ->
  Mock.getHabit id m = Some h ->
  let '(_, (_, p1, d1)) := Login.handleSubmit signIn err (f, p, d) in
  Login.route p1 = "/dashboard"%string /\ auth_user d1 = Some uid /\
  let '(p2, d2) := Nav.signOut p1 d1 in
  fst (Api.GET_habits (Api.mkServer d2 m)) = Api.unauthorized /\
  fst (Api.GET_habit id (Api.mkServer d2 m)) = Api.json (Api.JHabitView h).
Proof.
  intros Hf Hs Hm. unfold Login.handleSubmit, pop_fault. rewrite Hf. cbn. rewrite Hs.
  cbn. split; [done|]. split; [done|].
  split.
  - rewrite st_bind_unfold, request_healthy by (unfold healthy; cbn; done). done.
  - by rewrite Hm.
Qed.

End ScreenFacts.

Module LoginFacts.
Import Login.

(** The pieces joined back with the separator. *)
Fixpoint join_on (sep : ascii) (ps : list (list ascii)) : list ascii :=
  match ps with
  | [] => []
  | [p] => p
  | p :: rest => p ++ sep :: join_on sep rest
  end.

Lemma split_on_cons sep s : exists p ps, split_on sep s = p :: ps.
Proof.
  induction s as [|c s (p & ps & IH)]; cbn; [by eexists _, _|].
  rewrite IH. destruct (Ascii.eqb c sep); by eexists _, _.
Qed.

Lemma join_on_cons sep c p ps : join_on sep ((c :: p) :: ps) = c :: join_on sep (p :: ps).
Proof. by destruct ps. Qed.

(** Splitting and joining again gives the string back. *)
Lemma split_on_join sep s : join_on sep (split_on sep s) = s.
Proof.
  induction s as [|c s IH]; [done|]. cbn.
  destruct (split_on_cons sep s) as (p & ps & E). rewrite E in IH |- *.
  destruct (Ascii.eqb_spec c sep) as [->|_]; [cbn -[join_on]; rewrite <- IH at 1; by destruct ps|].
  by rewrite join_on_cons, IH.
Qed.

(** No piece holds the separator. *)
Lemma split_on_no_sep sep s : Forall (fun p => ~ In sep p) (split_on sep s).
Proof.
  induction s as [|c s IH]; cbn; [constructor; [intros []|constructor]|].
  destruct (split_on_cons sep s) as (p & ps & E). rewrite E in IH |- *.
  apply Forall_cons in IH as [Hp Hps].
  destruct (Ascii.eqb_spec c sep) as [->|Hc].
  - constructor; [intros []|by constructor].
  - constructor; [|done]. intros [->|Hin]; [done|by apply Hp].
Qed.

(** A valid address is a non-empty local part, one [@], and a domain
    without [@]. *)
Lemma valid_email_split s :
  is_valid_email s = true ->
  exists local domain, list_ascii_of_string s = local ++ "@"%char :: domain /\
    local <> [] /\ ~ In "@"%char local /\ ~ In "@"%char domain.
Proof.
  unfold is_valid_email. intros Hv.
  pose proof (split_on_join "@"%char (list_ascii_of_string s)) as J.
  pose proof (split_on_no_sep "@"%char (list_ascii_of_string s)) as N.
  destruct (split_on _ _) as [|l [|dm [|]]]; try discriminate.
  apply andb_true_iff in Hv as [[Hl _]%andb_true_iff _].
  apply Forall_cons in N as [Nl [Nd _]%Forall_cons].
  exists l, dm. split; [done|]. split; [|done].
  intros ->. discriminate.
Qed.

Lemma valid_email_examples :
  is_valid_email "alex@example.com" = true /\ is_valid_email "a.b+c@mail.co.uk" = true /\
  is_valid_email "alex" = false /\ is_valid_email "@example.com" = false /\
  is_valid_email "a@b@c" = false /\ is_valid_email "a@-x.com" = false /\
  is_valid_email "a@x..com" = false /\ is_valid_email "a@localhost" = true.
Proof. vm_compute. repeat split. Qed.

End LoginFacts.

(** ** Properties of the screens *)

(** The calendar page titled "December 2024" shows, whatever the
    random draws, the days 1 to 29 only (its 35 cells hold the days -5 to
    29), with day 1 in the seventh column, under "Sat"; but December has 31
    days and December 1, 2024 was a Sunday, the first column. *)
Lemma calendar_december_2024 draws :
  map Calendar.day (List.filter Calendar.isCurrentMonth (Calendar.cells draws)) =
    map Z.of_nat (seq 1 29) /\
  (exists i, nth_error (Calendar.cells draws) 6 = Some i /\ Calendar.day i = 1) /\
  Calendar.column 6 = 6 /\
  Calendar.weekday (days_from_civil 2024 12 1) = 0 /\
  days_from_civil 2025 1 1 - days_from_civil 2024 12 1 = 31.
Proof.
  split; [vm_compute; reflexivity|]. split; [|vm_compute; auto].
  eexists. split; [vm_compute; reflexivity|]. reflexivity.
Qed.

(** C30: the splash screen's two chains of timeouts stop: every sequence
    of timer firings from the mounted screen is finite, whatever their
    interleaving, and when no timeout is pending the screen shows the
    whole title and the "Get Started" button on the last feature. *)
Theorem splash_terminates :
  well_founded (fun s' s => Splash.splash_step s s') /\
  forall s, Splash.splash_reachable s -> (forall s', ~ Splash.splash_step s s') ->
    Splash.pixelText s = Splash.appTitle /\ Splash.showGetStarted s = true /\
    Splash.currentStep s = Splash.features_length - 1.
Proof.
  split; [apply SplashFacts.splash_wf|].
  intros s Hr Hn. destruct (SplashFacts.splash_stuck s Hn) as [Ht Hs].
  destruct (SplashFacts.splash_reachable_inv s Hr) as (_ & Htext & Hidx & _ & Hstep).
  destruct (Hstep Hs) as [-> ->]. split; [|done].
  rewrite Htext, (Hidx Ht). apply SplashFacts.substring_appTitle.
Qed.
