(* ===== verification/App.v ===== *)
(** * The application shell: home page, dashboard layout, header, sidebar

    - [Shell] ([src/app/**/page.tsx], [src/app/dashboard/layout.tsx],
      [src/components/dashboard-header.tsx], [src/components/sidebar.tsx]):
      the pages of the app router, the links and redirects the shell
      holds, the header's and the sidebar's user state and what they show,
      the sidebar's collapse and Sign Out buttons, the layout's mobile
      sidebar;
    - [Home] ([src/app/page.tsx]): the home page composes the splash
      screen ([Screens.Splash]), the session check and the login form
      ([Screens.Login]); its events (a timer of the splash firing, the
      session check returning, "Get Started", the form's inputs and
      buttons) are a step relation on the page's state and the database.
    The theorems show that the home page shows the login form only after
    the splash has reached its last feature, that it sends to the dashboard
    only a signed-in user, that every link and redirect of the shell names
    a page except the header's settings link, and that the sidebar's Sign
    Out button leaves the session open. *)

From S2P Require Import Prelude Db Habits Settings Mock Api Screens.
From Stdlib Require Import Ascii String.

Open Scope Z_scope.

Module Shell.

(** The pages of the app router: one per [page.tsx] under [src/app]. *)
Definition app_routes : list string :=
  ["/"; "/signup"; "/dashboard"; "/dashboard/habits"; "/dashboard/analytics";
   "/dashboard/calendar"; "/dashboard/settings"]%string.

Definition is_route (path : string) : bool := existsb (String.eqb path) app_routes.

(** [<Link href="/settings">] of the header (dashboard-header.tsx, line 63). *)
Definition header_settings_href : string := "/settings".

(** The header's state (lines 14-15) and its user load (lines 24-35),
    the same request as the sidebar's. *)
Record header := mkHeader {
  h_user : option User.t;
  h_loading : bool
}.

Definition initial_header : header := mkHeader None true.

Definition header_load : St (header * db) unit := fun '(h, d) =>
  let r := Profile.getCurrentUser d in
  (tt, (mkHeader (fst r) false, snd r)).

(** [user?.name || "User"] *)
Definition name_or_user (u : option User.t) : string :=
  js_or_string (option_map User.name u) "User".

(** The title (line 54). *)
Definition greeting (h : header) : string :=
  if h_loading h then "Good morning!"
  else "Good morning, " ++ name_or_user (h_user h) ++ "!".

(** [String.prototype.toUpperCase] on ASCII letters. *)
Definition ascii_upper (c : ascii) : ascii :=
  let n := nat_of_ascii c in
  if (97 <=? n)%nat && (n <=? 122)%nat then ascii_of_nat (n - 32) else c.

Fixpoint string_upper (s : string) : string :=
  match s with
  | EmptyString => EmptyString
  | String c s' => String (ascii_upper c) (string_upper s')
  end.

(** The avatar fallback of the sidebar (line 94):
    [user?.name ? user.name.slice(0,2).toUpperCase() : "AX"]. *)
Definition initials (u : option User.t) : string :=
  match u with
  | Some user => if String.eqb (User.name user) "" then "AX"
                 else string_upper (substring 0 2 (User.name user))
  | None => "AX"
  end.

(** The name line of the sidebar (line 98). *)
Definition display_name (sb : Nav.sidebar) : string :=
  if Nav.loading sb then "Loading..." else name_or_user (Nav.user sb).

(** The collapse button (line 56). *)
Definition toggle_collapsed (sb : Nav.sidebar) : Nav.sidebar :=
  Nav.mkSidebar (negb (Nav.collapsed sb)) (Nav.user sb) (Nav.loading sb).

(** The sidebar's Sign Out button (lines 113-122) has no [onClick]: a
    click changes nothing. *)
Definition sidebar_sign_out_click (sd : Nav.sidebar * db) : Nav.sidebar * db := sd.

(** The dashboard layout's mobile sidebar (layout.tsx, lines 12, 23, 30). *)
Definition hamburger_click (sidebarOpen : bool) : bool := negb sidebarOpen.

Definition overlay_click (sidebarOpen : bool) : bool := false.

End Shell.

Module Home.

(** The home page's state (lines 11-12), with the splash screen, the
    login form and the page it shows, and whether the session check of
    lines 15-23 is still running. *)
Record home := mkHome {
  showSplash : bool;
  isLogin : bool;
  splash : Splash.splash;
  form : Login.form;
  page : Login.page;
  session_pending : bool
}.

Definition home_mounted : home :=
  mkHome true true Splash.mounted (Login.mkForm false "" "" false) (Login.mkPage "/" []) true.

Definition set_splash (s : Splash.splash) (h : home) : home :=
  mkHome (showSplash h) (isLogin h) s (form h) (page h) (session_pending h).

Definition set_page (p : Login.page) (h : home) : home :=
  mkHome (showSplash h) (isLogin h) (splash h) (form h) p (session_pending h).

Definition set_form (f : Login.form) (h : home) : home :=
  mkHome (showSplash h) (isLogin h) (splash h) f (page h) (session_pending h).

(** [checkSession] (lines 16-21): [router.replace("/dashboard")] when the
    session has a user. *)
Definition checkSession : St (home * db) unit := fun '(h, d) =>
  let h' := mkHome (showSplash h) (isLogin h) (splash h) (form h) (page h) false in
  match auth_user d with
  | Some _ => (tt, (set_page (Login.mkPage "/dashboard" (Login.alerts (page h))) h', d))
  | None => (tt, (h', d))
  end.

(** [onComplete] of the splash (line 26), bound to "Get Started". *)
Definition getStarted (h : home) : home :=
  mkHome false (isLogin h) (splash h) (form h) (page h) (session_pending h).

(** The toggle between the two forms (line 59). *)
Definition toggleForm (h : home) : home :=
  mkHome (showSplash h) (negb (isLogin h)) (splash h) (form h) (page h) (session_pending h).

(** The inputs of the login form ([setEmail], [setPassword]). *)
Definition input (email password : string) (h : home) : home :=
  let f := form h in
  mkHome (showSplash h) (isLogin h) (splash h)
    (Login.mkForm (Login.showPassword f) email password (Login.isLoading f))
    (page h) (session_pending h).

Section Events.
Variable signInWithPassword : string -> string -> uuid + string.
Variable fetch_error : string.

(** The password sign-in of the form shown on the page. *)
Definition submit : St (home * db) unit := fun '(h, d) =>
  let r := Login.handleSubmit signInWithPassword fetch_error (form h, page h, d) in
  let '(f', p', d') := snd r in
  (tt, (mkHome (showSplash h) (isLogin h) (splash h) f' p' (session_pending h), d')).

(** What can happen on the home page: a splash timer fires while the
    splash is shown, the session check returns, "Get Started" is clicked
    once shown, or the login form, once shown, is used: its inputs, the
    eye button, the submit button once the browser's checks pass, or the
    Google button while no sign-in runs. *)
Inductive home_step : home * db -> home * db -> Prop :=
  | hs_timer h d s' :
      showSplash h = true -> Splash.splash_step (splash h) s' ->
      home_step (h, d) (set_splash s' h, d)
  | hs_session h d :
      session_pending h = true -> home_step (h, d) (exec_st checkSession (h, d))
  | hs_get_started h d :
      showSplash h = true -> Splash.showGetStarted (splash h) = true ->
      home_step (h, d) (getStarted h, d)
  | hs_toggle h d :
      showSplash h = false -> home_step (h, d) (toggleForm h, d)
  | hs_input h d e pw :
      showSplash h = false -> isLogin h = true -> home_step (h, d) (input e pw h, d)
  | hs_show_password h d :
      showSplash h = false -> isLogin h = true ->
      home_step (h, d) (set_form (Login.toggleShowPassword (form h)) h, d)
  | hs_submit h d :
      showSplash h = false -> isLogin h = true -> Login.can_submit (form h) = true ->
      home_step (h, d) (exec_st submit (h, d))
  | hs_google h d oauth :
      showSplash h = false -> isLogin h = true -> Login.isLoading (form h) = false ->
      home_step (h, d) (set_page (Login.handleGoogleSignIn oauth (page h)) h, d).

Inductive home_reachable (d0 : db) : home * db -> Prop :=
  | hr_mounted : home_reachable d0 (home_mounted, d0)
  | hr_step hd hd' : home_reachable d0 hd -> home_step hd hd' -> home_reachable d0 hd'.

End Events.

End Home.

(** ** Lemmas *)

Module AppFacts.
Import Home.

(** Once the splash shows "Get Started" the carousel has stopped on its
    last feature. *)
Lemma splash_get_started_final s :
  Splash.splash_reachable s -> Splash.showGetStarted s = true ->
  Splash.step_pending s = false /\ Splash.currentStep s = Splash.features_length - 1.
Proof.
  intros Hr. pose proof (SplashFacts.splash_reachable_inv s Hr) as Hinv.
  induction Hr as [|s s' Hr IH Hst]; [done|].
  pose proof (SplashFacts.splash_reachable_inv s Hr) as Hi.
  inversion Hst as [s0 Hp | s0 Hp]; subst;
    unfold Splash.typeWriter, Splash.step_timeout in *;
    cbn [Splash.currentStep Splash.showGetStarted Splash.step_pending Splash.index] in *.
  - destruct (Nat.ltb (Splash.index s) _); cbn in *; intros Hg; by apply IH.
  - destruct (Z.ltb_spec (Splash.currentStep s) (Splash.features_length - 1)); cbn in *.
    + intros Hg. destruct (IH Hi Hg) as [Hf _]. congruence.
    + intros _. destruct Hi as (_ & _ & _ & Hb & _). split; [done|lia].
Qed.

(** The password sign-in leaves the session as it was or opens one, and
    sends to the dashboard only in the second case. *)
Lemma handleSubmit_session signIn err f p d :
  let '(_, p', d') := snd (Login.handleSubmit signIn err (f, p, d)) in
  (auth_user d' = auth_user d /\ Login.route p' = Login.route p) \/
  (exists uid, auth_user d' = Some uid /\ Login.route p' = "/dashboard"%string).
Proof.
  unfold Login.handleSubmit, pop_fault.
  destruct (faults d) as [|b fs]; [|destruct b]; cbn; [| left; done |];
    destruct (signIn _ _); cbn; [right; eauto|left; done|right; eauto|left; done].
Qed.

(** What every state of the home page satisfies. *)
Definition home_inv (hd : home * db) : Prop :=
  Splash.splash_reachable (splash (fst hd)) /\
  (showSplash (fst hd) = false -> Splash.showGetStarted (splash (fst hd)) = true) /\
  (Login.route (page (fst hd)) = "/dashboard"%string -> exists uid, auth_user (snd hd) = Some uid).

Lemma home_inv_step signIn err hd hd' :
  home_inv hd -> home_step signIn err hd hd' -> home_inv hd'.
Proof.
  intros (Hs & Hg & Hr) Hst.
  destruct Hst as [h d s' Hsh Hss|h d Hp|h d Hsh Hgs|h d Hsh|h d e pw Hsh Hl|h d Hsh Hl|h d Hsh Hl Hc|h d oauth Hsh Hl Hg'];
    cbn [fst snd] in *.
  - split; [by econstructor|]. cbn. split; [congruence|done].
  - unfold exec_st, checkSession. destruct (auth_user d) eqn:Ha; unfold home_inv; cbn;
      (split; [done|]); (split; [done|]); rewrite Ha; eauto.
  - cbn. split; [done|]. split; [done|exact Hr].
  - cbn. split; [done|]. split; [exact Hg|exact Hr].
  - cbn. split; [done|]. split; [exact Hg|exact Hr].
  - cbn. split; [done|]. split; [exact Hg|exact Hr].
  - unfold exec_st, submit. pose proof (handleSubmit_session signIn err (form h) (page h) d) as Hss.
    destruct (snd (Login.handleSubmit _ _ _)) as [[f' p'] d']. cbn.
    split; [done|]. split; [done|].
    cbn [fst snd page]. destruct Hss as [[-> ->]|(uid & Hu & _)]; eauto.
  - split; [done|]. split; [done|]. cbn. unfold Login.handleGoogleSignIn.
    destruct oauth; cbn; [done|discriminate].
Qed.

Lemma home_reachable_inv signIn err d0 hd :
  home_reachable signIn err d0 hd -> home_inv hd.
Proof.
  induction 1 as [|hd hd' _ IH Hst]; [|by eapply home_inv_step].
  split; [constructor|]. split; [discriminate|discriminate].
Qed.

(** The carousel's timeout fired, and the splash after three of them. *)
Definition fire_carousel (s : Splash.splash) : Splash.splash :=
  Splash.step_timeout (Splash.mkSplash (Splash.currentStep s) (Splash.showGetStarted s)
    (Splash.pixelText s) (Splash.index s) (Splash.typewriter_pending s) false).

Definition carousel_done : Splash.splash :=
  fire_carousel (fire_carousel (fire_carousel Splash.mounted)).

Lemma timer_reachable signIn err d0 s :
  home_reachable signIn err d0 (set_splash s home_mounted, d0) ->
  Splash.step_pending s = true ->
  home_reachable signIn err d0 (set_splash (fire_carousel s) home_mounted, d0).
Proof.
  intros Hr Hp. eapply hr_step; [exact Hr|].
  apply (hs_timer _ _ (set_splash s home_mounted) d0 (fire_carousel s)); [done|].
  by apply Splash.fire_step.
Qed.

(** The home page reaches "Get Started" by three carousel timeouts. *)
Lemma carousel_reachable signIn err d0 :
  home_reachable signIn err d0 (set_splash carousel_done home_mounted, d0).
Proof.
  repeat apply timer_reachable; try done.
  change (set_splash Splash.mounted home_mounted) with home_mounted. constructor.
Qed.

End AppFacts.

(** ** Properties of the shell *)

(** C31: the home page composes the splash screen, the session check and
    the login form: in every state reached by any interleaving of the
    splash's timers, the session check, "Get Started" and the form's
    events, the login form is shown only once the splash has shown
    "Get Started" on its last feature, and the page has sent the browser
    to the dashboard only when a session is open. *)
Theorem home_login_after_splash signIn err d0 hd :
  Home.home_reachable signIn err d0 hd ->
  (Home.showSplash (fst hd) = false ->
     Splash.showGetStarted (Home.splash (fst hd)) = true /\
     Splash.currentStep (Home.splash (fst hd)) = Splash.features_length - 1) /\
  (Login.route (Home.page (fst hd)) = "/dashboard"%string ->
     exists uid, auth_user (snd hd) = Some uid).
Proof.
  intros Hr. destruct (AppFacts.home_reachable_inv _ _ _ _ Hr) as (Hs & Hg & Hd).
  split; [|exact Hd]. intros Hf. specialize (Hg Hf). split; [exact Hg|].
  exact (proj2 (AppFacts.splash_get_started_final _ Hs Hg)).
Qed.

Definition example_db : db := mkDb [] [] [] [] [] None 1 0 [].

Lemma home_login_after_splash_witness :
  let sig := fun (_ _ : string) => @inl uuid string 5%N in
  let hd := exec_st (Home.submit sig "failed")
              (Home.input "alex@example.com" "secret"
                 (Home.getStarted (Home.set_splash AppFacts.carousel_done Home.home_mounted)), example_db) in
  Home.showSplash (fst hd) = false /\ Login.route (Home.page (fst hd)) = "/dashboard"%string /\
  (Splash.showGetStarted (Home.splash (fst hd)) = true /\
   Splash.currentStep (Home.splash (fst hd)) = Splash.features_length - 1) /\
  (exists uid, auth_user (snd hd) = Some uid).
Proof.
  intros sig hd.
  assert (Hr : Home.home_reachable sig "failed" example_db hd).
  { eapply Home.hr_step; [eapply Home.hr_step; [eapply Home.hr_step|]|].
    - apply AppFacts.carousel_reachable.
    - apply Home.hs_get_started; reflexivity.
    - apply Home.hs_input; reflexivity.
    - apply Home.hs_submit; vm_compute; reflexivity. }
  destruct (home_login_after_splash sig "failed" example_db hd Hr) as [H1 H2].
  split; [reflexivity|]. split; [reflexivity|].
  split; [apply H1; reflexivity|apply H2; reflexivity].
Defined.

(** The shell's controls: every entry of the sidebar's navigation
    and the header's sign-out redirect name a page of the app, but the
    header's settings link names none ([/settings]; the page is
    [/dashboard/settings]); and the sidebar's "Sign Out" button, which
    has no handler, leaves the session open, so [GET /api/habits] still
    answers 200 with the user's habits, where the header's sign-out makes
    it answer 401. *)
Lemma shell_dead_controls sb p d m uid :
  healthy d -> auth_user d = Some uid ->
  Forall (fun i => Shell.is_route (Nav.href i) = true) Nav.navigation /\
  Shell.is_route (Login.route (fst (Nav.signOut p d))) = true /\
  Shell.is_route Shell.header_settings_href = false /\
  (let '(_, d1) := Shell.sidebar_sign_out_click (sb, d) in
   auth_user d1 = Some uid /\
   fst (Api.GET_habits (Api.mkServer d1 m)) =
     Api.json (Api.JHabits (eval_st (Habits.getUserHabits uid) d))) /\
  fst (Api.GET_habits (Api.mkServer (snd (Nav.signOut p d)) m)) = Api.unauthorized.
Proof.
  intros Hh Hu. split; [repeat constructor|]. split; [done|]. split; [done|].
  unfold Api.GET_habits. split.
  - unfold Shell.sidebar_sign_out_click. split; [done|].
    rewrite st_bind_unfold, Api.getUser_unfold by done. cbn [fst snd Api.sdb].
    rewrite Hu. by rewrite st_bind_unfold, Api.on_db_unfold.
  - rewrite st_bind_unfold, Api.getUser_unfold by (unfold healthy in *; cbn; done). done.
Qed.

Definition with_auth_user_example : db := Login.with_auth_user (Some 2%N) example_db.

