(* ===== verification/AddHabit.v ===== *)
(** * The add-habit dialog as the user drives it: [src/components/add-habit-modal.tsx]

    [Panels.Modal] models the state and [handleSubmit].  This file adds the
    dialog around them: the trigger and the Cancel button (lines 74-83,
    150), the inputs with [updateFormData] (lines 28-30, 91-146), the
    submit button disabled while submitting (line 153), and what the
    browser checks before it fires [onSubmit]: the [required] name (line
    96) and the [required], [min="1"] number input of the target (lines
    137-145), whose value is rendered from the state ([value={formData.target}]).
    The target input's [onChange] stores [parseInt(e.target.value)],
    which is NaN when the input is empty; [js_parseInt] models [parseInt]
    with no radix on decimal strings ([None] for NaN), and
    [js_int_to_string] is [String(n)] for an integer [n].

    The theorems show that the rendered target reads back through
    [parseInt], and that every habit the dialog creates, through any
    sequence of the user's inputs and clicks, has a non-empty name and a
    target of at least 1: the checks the handler lacks are made by the
    browser (the API route [POST /api/habits] makes none). *)

From S2P Require Import Prelude Db Streak Habits Panels.
From Stdlib Require Import Ascii String DecimalString DecimalPos DecimalZ.

Open Scope Z_scope.

Module JsParse.

(** The ASCII characters of [WhiteSpace] and [LineTerminator]: tab, line
    feed, vertical tab, form feed, carriage return, space. *)
Definition is_js_space (c : ascii) : bool :=
  let n := nat_of_ascii c in
  ((9 <=? n) && (n <=? 13))%nat || (n =? 32)%nat.

Definition is_digit (c : ascii) : bool :=
  let n := nat_of_ascii c in ((48 <=? n) && (n <=? 57))%nat.

Fixpoint trim_start (s : string) : string :=
  match s with
  | EmptyString => EmptyString
  | String c s' => if is_js_space c then trim_start s' else s
  end.

Fixpoint digit_prefix (s : string) : string :=
  match s with
  | EmptyString => EmptyString
  | String c s' => if is_digit c then String c (digit_prefix s') else EmptyString
  end.

(** [parseInt(s)]: leading white space, a sign, then the longest run of
    decimal digits; NaN ([None]) without a digit.  (The [0x] prefix,
    which a number input's value never has, is not modelled.) *)
Definition js_parseInt (s : string) : option Z :=
  let s1 := trim_start s in
  let '(neg, s2) :=
    match s1 with
    | String "-" r => (true, r)
    | String "+" r => (false, r)
    | _ => (false, s1)
    end in
  match NilZero.uint_of_string (digit_prefix s2) with
  | Some u => Some (Z.of_int (if neg then Decimal.Neg u else Decimal.Pos u))
  | None => None
  end.

(** [String(n)] of an integer Number: its decimal digits, with a [-]
    when negative.  This is the ECMAScript result for [|n| < 10^21]; from
    [10^21] on [String] writes the exponent form ([1e+21]), which the
    values printed here (targets, progress and streak counts) never
    reach. *)
Definition js_int_to_string (z : Z) : string := NilZero.string_of_int (Z.to_int z).

End JsParse.

Module Dialog.
Import JsParse.

(** [formData], with the target as the Number [parseInt] returned
    ([None] for NaN). *)
Record ui_form := mkUi {
  u_name : string;
  u_description : string;
  u_icon : string;
  u_category : string;
  u_target : option Z
}.

Record dialog := mkDialog {
  open : bool;
  isSubmitting : bool;
  form : ui_form
}.

(** Lines 18-26. *)
Definition initial_dialog : dialog := mkDialog false false (mkUi "" "" "🎯" "other" (Some 1)).

Definition of_form (f : Modal.form) : ui_form :=
  mkUi (Modal.f_name f) (Modal.f_description f) (Modal.f_icon f) (Modal.f_category f)
    (Some (Modal.f_target f)).

Definition to_form (f : ui_form) (t : Z) : Modal.form :=
  Modal.mkForm (u_name f) (u_description f) (u_icon f) (u_category f) t.

(** The browser's constraint validation of the form before [onSubmit]:
    a non-empty name, and a target input whose value, rendered from the
    state, is a number of at least 1 (NaN renders as an empty value). *)
Definition form_valid (f : ui_form) : option Z :=
  if String.eqb (u_name f) "" then None
  else match u_target f with
       | Some t => if 1 <=? t then Some t else None
       | None => None
       end.

Inductive dialog_event :=
  | Trigger | CancelClick
  | SetName (v : string) | SetDescription (v : string) | SetIcon (v : string)
  | SetCategory (v : string) | SetTarget (raw : string)
  | SubmitClick.

(** [updateFormData] (lines 28-30) for the field of an input. *)
Definition update (e : dialog_event) (f : ui_form) : ui_form :=
  match e with
  | SetName v => mkUi v (u_description f) (u_icon f) (u_category f) (u_target f)
  | SetDescription v => mkUi (u_name f) v (u_icon f) (u_category f) (u_target f)
  | SetIcon v => mkUi (u_name f) (u_description f) v (u_category f) (u_target f)
  | SetCategory v => mkUi (u_name f) (u_description f) (u_icon f) v (u_target f)
  | SetTarget raw => mkUi (u_name f) (u_description f) (u_icon f) (u_category f) (js_parseInt raw)
  | _ => f
  end.

Section Events.
Variable default_color : color.
Variable default_unit : string.
Variable default_frequency : frequency.
Variable default_active : bool.

(** One event on the dialog; the boolean is whether [onHabitAdded] was
    called.  The inputs and buttons are in the dialog's content, shown
    while it is open. *)
Definition step (e : dialog_event) : St (dialog * db) bool := fun '(g, d) =>
  match e with
  | Trigger => (false, (mkDialog true (isSubmitting g) (form g), d))
  | CancelClick => (false, (mkDialog false (isSubmitting g) (form g), d))
  | SubmitClick =>
      if open g && negb (isSubmitting g) then
        match form_valid (form g) with
        | Some t =>
            let r := Modal.handleSubmit default_color default_unit default_frequency default_active
                       (Modal.mkModal (open g) true (to_form (form g) t), d) in
            let '(m', d') := snd r in
            (fst r, (mkDialog (Modal.open m') (Modal.isSubmitting m') (of_form (Modal.formData m')), d'))
        | None => (false, (g, d))
        end
      else (false, (g, d))
  | _ =>
      if open g then (false, (mkDialog (open g) (isSubmitting g) (update e (form g)), d))
      else (false, (g, d))
  end.

Fixpoint run (es : list dialog_event) : St (dialog * db) unit :=
  match es with
  | [] => st_ret tt
  | e :: rest => _ <- step e ;; run rest
  end.

End Events.

End Dialog.

(** ** Lemmas *)

Module DialogFacts.
Import JsParse Dialog.

Lemma digit_prefix_uint u :
  digit_prefix (NilEmpty.string_of_uint u) = NilEmpty.string_of_uint u.
Proof. induction u; cbn; by rewrite ?IHu. Qed.

Lemma parse_digits (neg : bool) (u : Decimal.uint) :
  u <> Decimal.Nil ->
  js_parseInt ((if neg then String "-"%char else fun s : string => s) (NilZero.string_of_uint u)) =
    Some (Z.of_int (if neg then Decimal.Neg u else Decimal.Pos u)).
Proof.
  intros Hu. pose proof (NilZero.usu u Hu) as H.
  unfold js_parseInt. destruct u; [done|..]; destruct neg; simpl in *;
    rewrite digit_prefix_uint; by rewrite H.
Qed.

Lemma parseInt_examples :
  js_parseInt " -12ab" = Some (-12) /\ js_parseInt "" = None /\ js_parseInt "1e3" = Some 1 /\
  js_parseInt "2.5" = Some 2 /\ js_parseInt "007" = Some 7 /\ js_parseInt "+4" = Some 4.
Proof. vm_compute. repeat split. Qed.

(** [createHabit] appends at most rows of the draft's name and target to
    the [habits] table, whatever the requests do. *)
Lemma createHabit_habits draft d :
  exists new, habits (snd (Habits.createHabit draft d)) = habits d ++ new /\
    Forall (fun h => Habit.name h = Habits.draft_name draft /\
                     Habit.target_value h = Habits.draft_target_value draft) new.
Proof.
  unfold Habits.createHabit, insert_row, request, pop_fault. rewrite !st_bind_unfold.
  destruct (faults d) as [|[] fs]; cbn.
  - rewrite !st_bind_unfold. cbn. destruct (faults d); [|destruct b]; cbn;
      eexists; (split; [done|]); repeat constructor.
  - exists []. rewrite app_nil_r. split; [done|constructor].
  - rewrite !st_bind_unfold. cbn. destruct fs as [|[] fs']; cbn;
      eexists; (split; [done|]); repeat constructor.
Qed.

(** A step of the dialog creates only habits that passed the browser's
    checks. *)
Lemma step_habits dc du df da e g d :
  exists new, habits (snd (snd (step dc du df da e (g, d)))) = habits d ++ new /\
    Forall (fun h => Habit.name h <> ""%string /\ 1 <= Habit.target_value h) new.
Proof.
  assert (Hno : forall P : Habit.t -> Prop, exists new, habits d = habits d ++ new /\ Forall P new)
    by (intros P; exists []; by rewrite app_nil_r).
  destruct e; cbn -[Modal.handleSubmit]; try (destruct (open g); cbn; apply Hno).
  destruct (open g && negb (isSubmitting g)); [|apply Hno].
  unfold form_valid. destruct (String.eqb_spec (u_name (form g)) "") as [_|Hn]; [apply Hno|].
  destruct (u_target (form g)) as [t|]; [|apply Hno].
  destruct (Z.leb_spec 1 t) as [Ht|_]; [|apply Hno].
  unfold Modal.handleSubmit. destruct (auth_user d) as [uid|]; cbn; [|apply Hno].
  destruct (createHabit_habits (Modal.habitData dc du df da uid (to_form (form g) t)) d) as (new & E & Hf).
  destruct (Habits.createHabit _ d) as [[h|] d']; cbn in *; exists new; (split; [done|]);
    (eapply Forall_impl; [exact Hf|]); intros h' [-> ->]; cbn; split; done || lia.
Qed.
End DialogFacts.

(** The target input's value, rendered from the state as
    [String(n)], reads back through [parseInt] as [n] for every integer
    [n] of [js_int_to_string]'s domain, that is below [10^21] in absolute
    value, where [String] switches to exponent form. *)
Lemma parseInt_roundtrip z : JsParse.js_parseInt (JsParse.js_int_to_string z) = Some z.
Proof.
  unfold JsParse.js_int_to_string. rewrite <- (DecimalZ.of_to z) at 2.
  destruct z as [|p|p]; [reflexivity| |].
  - apply (DialogFacts.parse_digits false), DecimalPos.Unsigned.to_uint_nonnil.
  - apply (DialogFacts.parse_digits true), DecimalPos.Unsigned.to_uint_nonnil.
Qed.

(** C29: through any sequence of inputs and clicks on the add-habit
    dialog, the habits it creates all have a non-empty name and a target
    of at least 1 (the browser's [required] and [min="1"] checks); the
    [habits] table only grows by such rows. *)
Theorem dialog_creates_checked_habits dc du df da es g d :
  exists new, habits (snd (snd (Dialog.run dc du df da es (g, d)))) = habits d ++ new /\
    Forall (fun h => Habit.name h <> ""%string /\ 1 <= Habit.target_value h) new.
Proof.
  revert g d. induction es as [|e es IH]; intros g d.
  - exists []. cbn. by rewrite app_nil_r.
  - cbn [Dialog.run]. rewrite st_bind_unfold.
    destruct (DialogFacts.step_habits dc du df da e g d) as (n1 & E1 & F1).
    destruct (Dialog.step dc du df da e (g, d)) as [b [g1 d1]]. cbn [fst snd] in *.
    destruct (IH g1 d1) as (n2 & E2 & F2). exists (n1 ++ n2).
    rewrite E2, E1, app_assoc. split; [done|]. by apply Forall_app.
Qed.
