(* ===== verification/ReadPaths.v ===== *)
(** * The read paths as an interface both data layers implement

    A change notification re-runs a read path ([getUserHabits] for the
    habit grid, [getHabitStats] for the stats overview, database.ts lines
    338-341 and 370-373), and the specification asks that this
    recomputation be idempotent and side-effect-free.  The two data
    layers, [src/supabase/database.ts] and [src/lib/database.ts], export
    these functions under the same names; [HabitReads] is what they offer
    a client (the listing, the statistics, and how the statistics derive
    from a listing) and [HabitReadsLaws] what they promise on the states
    a predicate [ok] selects: a read changes nothing, and the statistics
    are those of the listing.  The client lemma [rerun_stable] is proved
    once against the interface; the instances for the database ([ok]:
    no pending request failure) and for the in-memory array ([ok]:
    always) discharge the laws.  On a database with a pending failure the
    law fails: the failed read returns an empty listing. *)

From S2P Require Import Prelude JsNumber Db Habits Stats Mock.

Open Scope Z_scope.

Class HabitReads (T Stat : Type) := {
  read_habits : uuid -> St T (list HabitWithProgress.t);
  read_stats : uuid -> St T Stat;
  stats_from : list HabitWithProgress.t -> Stat
}.

Class HabitReadsLaws (T Stat : Type) `{!HabitReads T Stat} (ok : T -> Prop) := {
  read_habits_pure u s : ok s -> snd (read_habits u s) = s;
  read_stats_pure u s : ok s -> snd (read_stats u s) = s;
  read_stats_listing u s : ok s -> fst (read_stats u s) = stats_from (fst (read_habits u s))
}.

(** A read run [k] times in a row, as [k] notifications run it. *)
Fixpoint rerun {T A} (k : nat) (m : St T A) : St T (list A) :=
  match k with
  | O => st_ret []
  | S k' => a <- m ;; rest <- rerun k' m ;; st_ret (a :: rest)
  end.

(** The database layer. *)
#[export] Instance supabase_reads : HabitReads db Stats.HabitStats := {|
  read_habits := Habits.getUserHabits;
  read_stats := Stats.getHabitStats;
  stats_from := Stats.stats_of
|}.

(** The in-memory layer: its functions read the array and return. *)
#[export] Instance mock_reads : HabitReads Mock.mock (Z * Z * float * float * float) := {|
  read_habits u m := (Mock.getUserHabits u m, m);
  read_stats u m := (Mock.getHabitStats u m, m);
  stats_from := Mock.stats_of_list
|}.

(** ** Lemmas *)

Section Client.
Context {T Stat : Type} `{!HabitReads T Stat} (ok : T -> Prop) `{!HabitReadsLaws T Stat ok}.

Lemma rerun_pure {A} (m : St T A) k s :
  (forall s, ok s -> snd (m s) = s) -> ok s -> rerun k m s = (repeat (fst (m s)) k, s).
Proof.
  intros Hm Hs. induction k as [|k IH]; [done|].
  cbn [rerun]. rewrite !st_bind_unfold. rewrite (Hm s Hs), IH. cbn. done.
Qed.

(** Notifications re-running the reads on a state the laws cover return
    the same listing and the statistics of that listing every time, and
    leave the state as it was. *)
Lemma rerun_stable u k s :
  ok s ->
  rerun k (read_habits u) s = (repeat (fst (read_habits u s)) k, s) /\
  rerun k (read_stats u) s = (repeat (stats_from (fst (read_habits u s))) k, s).
Proof.
  intros Hs. split; [apply rerun_pure; [apply read_habits_pure|done]|].
  rewrite <- read_stats_listing by done. apply rerun_pure; [apply read_stats_pure|done].
Qed.

End Client.

Lemma getUserHabits_pure u d : healthy d -> snd (Habits.getUserHabits u d) = d.
Proof. intros Hh. by rewrite Habits.getUserHabits_healthy. Qed.

Lemma getHabitStats_listing u d :
  fst (Stats.getHabitStats u d) = Stats.stats_of (fst (Habits.getUserHabits u d)).
Proof. unfold Stats.getHabitStats. by rewrite st_bind_unfold. Qed.

#[export] Instance supabase_reads_laws : HabitReadsLaws db Stats.HabitStats healthy.
Proof.
  split; cbn.
  - apply getUserHabits_pure.
  - intros u d Hh. unfold Stats.getHabitStats. rewrite st_bind_unfold. by apply getUserHabits_pure.
  - intros u d _. apply getHabitStats_listing.
Qed.

#[export] Instance mock_reads_laws : HabitReadsLaws Mock.mock (Z * Z * float * float * float) (fun _ => True).
Proof. split; done. Qed.

(** A read whose first request fails returns an empty listing and
    consumes the failure. *)
Lemma getUserHabits_fault u d fs :
  faults d = true :: fs -> Habits.getUserHabits u d = ([], with_faults fs d).
Proof.
  intros Hf. unfold Habits.getUserHabits, Habits.select_with_streaks, request, pop_fault.
  rewrite !st_bind_unfold, Hf. done.
Qed.

(** ** Properties of the read paths *)

(** Both data layers satisfy the read-path interface, so
    notifications that re-run the reads any number of times get, on a
    database with no failing request and on any in-memory array, the same
    listing each time and the statistics of that listing, and change
    nothing: the recomputation is idempotent and side-effect-free. *)
Lemma read_paths_rerun_stable u k d m :
  healthy d ->
  rerun k (Habits.getUserHabits u) d = (repeat (eval_st (Habits.getUserHabits u) d) k, d) /\
  rerun k (Stats.getHabitStats u) d =
    (repeat (Stats.stats_of (eval_st (Habits.getUserHabits u) d)) k, d) /\
  rerun k (fun m => (Mock.getHabitStats u m, m)) m =
    (repeat (Mock.stats_of_list (Mock.getUserHabits u m)) k, m).
Proof.
  intros Hh. destruct (rerun_stable healthy u k d Hh) as [H1 H2].
  destruct (rerun_stable (fun _ : Mock.mock => True) u k m I) as [_ H3].
  split; [exact H1|]. split; [exact H2|exact H3].
Qed.

Definition reads_db : db :=
  mkDb [Habit.mk 1 2 "Read" None None Primary None 1 "times" Daily true 0 0]
       [HabitStreak.mk 2 1 2 0 0 None] [] [] [] (Some 2%N) 3 0 [].

(** A notification's re-read that meets a failing request returns
    an empty listing, which the habit grid shows as "No habits yet",
    and the next notification's re-read lists the habits again: the
    failure is not reported, and the recomputation is not idempotent. *)
Lemma failed_reread_empties_listing u d :
  faults d = [true] ->
  fst (rerun 2 (Habits.getUserHabits u) d) =
    [[]; eval_st (Habits.getUserHabits u) (with_faults [] d)].
Proof.
  intros Hf. cbn [rerun]. rewrite !st_bind_unfold. rewrite (getUserHabits_fault u d [] Hf).
  cbn [fst snd]. rewrite ?st_bind_unfold. rewrite (getUserHabits_pure u (with_faults [] d)) by done.
  done.
Qed.

