(* ===== verification/Pages.v ===== *)
(** * Pages that compose components: the dashboard, the settings page,
      the root layout's theme script and the analytics page

    - [Dashboard] ([src/app/dashboard/page.tsx]): the page renders the
      stats overview and the habit grid side by side.  Each runs an effect
      that loads its data and subscribes to a realtime channel
      ([stats-overview.tsx] lines 18-41, [habit-grid.tsx] lines 14-37);
      the grid's effect reruns when [refreshKey] changes, which
      [handleHabitAdded] does after the add-habit modal created a habit.
      Both effects return their cleanup from the [async] function, not
      from the effect, so React never unsubscribes.  The page's events are
      a step relation: an effect runs, a habit is added through the modal
      (its row changes become pending notifications), or a pending
      notification is delivered to every subscription whose channel
      listens to it ([Realtime.fires]), each running its callback.
    A subscription is the channel one call of [subscribeToHabits] or
    [subscribeToHabitStats] opens, as a realtime client that opens a new
    channel per call does; a client that returns the existing channel of
    a topic ([habits], [habit-stats]) instead refuses its second
    [subscribe()], which this model does not cover.
    The theorem shows that the overview's statistics never change after
    its first load however habits are added, since its channel listens
    to [habit_completions] only; a lemma shows that under such a client
    the grid holds one more subscription after each added habit, so a
    change of the [habits] table runs the listing read [refreshKey + 1]
    times.
    - [SettingsPage] ([src/app/dashboard/settings/page.tsx] with the
      theme script of [src/app/layout.tsx] lines 48-55): the page renders
      the profile, notification and privacy panels; the appearance panel,
      the only writer of [localStorage] [app-theme], is commented out.  A
      reload runs the script, which copies [app-theme] (or [dark]) to the
      document's [data-theme].  The theorem shows that no sequence of the
      page's events and reloads changes [app-theme], whatever the
      settings row says.
    - [AnalyticsPage] ([src/app/dashboard/analytics/page.tsx]): the stats
      overview's load followed by the three charts, whose figures are
      constants of the page; the lemma at the end shows that the charts
      are the same on every database. *)

From S2P Require Import Prelude Db Streak Completion Habits Stats Settings Panels Realtime.
From stdpp Require Import relations.

Open Scope Z_scope.

Module Dashboard.
Import Realtime.

(** Which component a subscription calls back. *)
Inductive owner := GridSub | StatsSub.

#[export] Instance owner_eq_dec : EqDecision owner.
Proof. solve_decision. Defined.

(** A channel the page subscribed to: its owner, the user of its filter
    and its listeners. *)
Record sub := mkSub {
  s_owner : owner;
  s_user : uuid;
  s_channel : list listener
}.

(** The page's state: the two components, the subscriptions they hold,
    the row changes not yet delivered, and the effects still to run (the
    grid's as a count: each change of [refreshKey] schedules one run). *)
Record dash := mkDash {
  grid : Grid.grid;
  overview : Overview.overview;
  subs : list sub;
  pending : list change;
  grid_runs : nat;
  overview_run : bool
}.

(** Both components mounted, their effects scheduled. *)
Definition mounted : dash :=
  mkDash Grid.initial_grid Overview.initial_overview [] [] 1 true.

Definition subscribe (o : owner) (ch : uuid -> list listener) (d : db) (ss : list sub) : list sub :=
  match auth_user d with
  | Some uid => ss ++ [mkSub o uid (ch uid)]
  | None => ss
  end.

(** The grid's effect (habit-grid.tsx, lines 14-37): [loadHabits], then
    [subscribeToHabits] when there is a user. *)
Definition run_grid_effect : St (dash * db) unit := fun '(p, d) =>
  let r := Grid.loadHabits (grid p, d) in
  let '(g, d') := snd r in
  (tt, (mkDash g (overview p) (subscribe GridSub habits_channel d (subs p)) (pending p)
          (pred (grid_runs p)) (overview_run p), d')).

(** The overview's effect (stats-overview.tsx, lines 18-41): [loadStats],
    then [subscribeToHabitStats] when there is a user. *)
Definition run_overview_effect : St (dash * db) unit := fun '(p, d) =>
  let r := Overview.loadStats (overview p, d) in
  let '(o, d') := snd r in
  (tt, (mkDash (grid p) o (subscribe StatsSub stats_channel d (subs p)) (pending p)
          (grid_runs p) false, d')).

(** The callbacks (habit-grid.tsx lines 27-29 with database.ts lines
    338-341 and 351-354; stats-overview.tsx lines 31-33 with database.ts
    lines 370-373): re-run the read and set the component's state. *)
Definition callback (s : sub) : St (dash * db) unit := fun '(p, d) =>
  match s_owner s with
  | GridSub =>
      let r := on_habits_change (s_user s) d in
      let g := grid p in
      (tt, (mkDash (Grid.mkGrid (fst r) (Grid.loading g) (Grid.refreshKey g)) (overview p)
              (subs p) (pending p) (grid_runs p) (overview_run p), snd r))
  | StatsSub =>
      let r := on_stats_change (s_user s) d in
      (tt, (mkDash (grid p) (Overview.mkOverview (fst r) (Overview.loading (overview p)))
              (subs p) (pending p) (grid_runs p) (overview_run p), snd r))
  end.

(** A change delivered to the subscriptions in order; the result is the
    number of callbacks run. *)
Fixpoint deliver (c : change) (ss : list sub) : St (dash * db) nat :=
  match ss with
  | [] => st_ret 0%nat
  | s :: ss' =>
      if fires (s_channel s) c
      then _ <- callback s ;; n <- deliver c ss' ;; st_ret (S n)
      else deliver c ss'
  end.

(** The row changes [createHabit] publishes: the habit's insert, then the
    streak row's when it was inserted. *)
Definition create_changes (draft : Habits.HabitDraft) (d : db) : list change :=
  let r1 := insert_row habits_tbl (Habits.habit_of_draft draft) d in
  match fst r1 with
  | Err _ => []
  | Ok data =>
      let r2 := insert_row streaks_tbl (fun id _ =>
                  Streak.initial_streak id (Habit.id data) (Habit.user_id data)) (snd r1) in
      mkChange THabits (Habit.user_id data) ::
      match fst r2 with Ok _ => [mkChange THabitStreaks (Habit.user_id data)] | Err _ => [] end
  end.

Section Add.
Variable default_color : color.
Variable default_unit : string.
Variable default_frequency : frequency.
Variable default_active : bool.

(** The modal of the grid's "Add Habit" button submitted with form [m]:
    on a created habit [onHabitAdded] is [handleHabitAdded], which bumps
    [refreshKey] and so schedules the grid's effect. *)
Definition add_habit (m : Modal.modal) : St (dash * db) unit := fun '(p, d) =>
  let changes :=
    match auth_user d with
    | Some uid => create_changes (Modal.habitData default_color default_unit default_frequency
                                    default_active uid (Modal.formData m)) d
    | None => []
    end in
  let r := Modal.handleSubmit default_color default_unit default_frequency default_active (m, d) in
  let d' := snd (snd r) in
  let g := grid p in
  if fst r
  then (tt, (mkDash (Grid.mkGrid (Grid.habits g) (Grid.loading g) (Grid.refreshKey g + 1))
               (overview p) (subs p) (pending p ++ changes) (S (grid_runs p)) (overview_run p), d'))
  else (tt, (mkDash g (overview p) (subs p) (pending p ++ changes) (grid_runs p) (overview_run p), d')).

Definition with_pending (cs : list change) (p : dash) : dash :=
  mkDash (grid p) (overview p) (subs p) cs (grid_runs p) (overview_run p).

(** What can happen on the dashboard, in any order. *)
Inductive dash_step : dash * db -> dash * db -> Prop :=
  | ds_grid p d :
      (0 < grid_runs p)%nat -> dash_step (p, d) (exec_st run_grid_effect (p, d))
  | ds_overview p d :
      overview_run p = true -> dash_step (p, d) (exec_st run_overview_effect (p, d))
  | ds_add p d m :
      dash_step (p, d) (exec_st (add_habit m) (p, d))
  | ds_deliver p d c rest :
      pending p = c :: rest ->
      dash_step (p, d) (exec_st (deliver c (subs p)) (with_pending rest p, d)).

Definition dash_reachable (d0 : db) (s : dash * db) : Prop :=
  rtc dash_step (mounted, d0) s.

End Add.

End Dashboard.

Module SettingsPage.

(** What the browser keeps of the theme: [localStorage]'s [app-theme],
    the [data-theme] attribute of the document, and whether
    [localStorage] can be used (the [try] of the script). *)
Record browser := mkBrowser {
  app_theme : option string;
  data_theme : option string;
  storage_ok : bool
}.

(** The script of the root layout (layout.tsx, lines 48-55), run on every
    page load: [localStorage.getItem('app-theme') || 'dark'] becomes the
    document's [data-theme]; an exception leaves the document as it is. *)
Definition boot_theme (b : browser) : browser :=
  if storage_ok b
  then mkBrowser (app_theme b) (Some (js_or_string (app_theme b) "dark")) true
  else b.

(** The settings page (dashboard/settings/page.tsx, lines 7-20) renders
    the profile, notification and privacy panels; the appearance panel is
    commented out (lines 4 and 15). *)
Record page := mkPage {
  profile : ProfilePanel.panel;
  notifications : Notifications.panel;
  privacy : Privacy.panel
}.

Inductive event :=
  | EProfile (e : ProfilePanel.profile_event)
  | ENotification (u : Notifications.notification_update)
  | EPrivacy (u : Privacy.privacy_update)
  | EReload.

Section Run.
Variable dflt : UserSettings.t.
Variable user_id_unique : bool.

(** The page mounted: the layout's script, then the three panels' loads. *)
Definition mount (b : browser) : St db (page * browser) := fun d =>
  let r1 := ProfilePanel.loadProfile (ProfilePanel.initial_panel, d) in
  let r2 := Notifications.loadSettings dflt user_id_unique (Notifications.initial_panel, snd (snd r1)) in
  let r3 := Privacy.loadSettings dflt user_id_unique (Privacy.initial_panel, snd (snd r2)) in
  ((mkPage (fst (snd r1)) (fst (snd r2)) (fst (snd r3)), boot_theme b), snd (snd r3)).

Definition step (e : event) : St (page * browser * db) unit := fun '(p, b, d) =>
  match e with
  | EProfile pe =>
      let r := ProfilePanel.profile_event_step pe (profile p, d) in
      (tt, (mkPage (fst (snd r)) (notifications p) (privacy p), b, snd (snd r)))
  | ENotification u =>
      let r := Notifications.control u (notifications p, d) in
      (tt, (mkPage (profile p) (fst (snd r)) (privacy p), b, snd (snd r)))
  | EPrivacy u =>
      let r := Privacy.control u (privacy p, d) in
      (tt, (mkPage (profile p) (notifications p) (fst (snd r)), b, snd (snd r)))
  | EReload =>
      let r := mount b d in
      (tt, (fst (fst r), snd (fst r), snd r))
  end.

Fixpoint run (es : list event) : St (page * browser * db) unit :=
  match es with
  | [] => st_ret tt
  | e :: rest => _ <- step e ;; run rest
  end.

End Run.

End SettingsPage.

Module AnalyticsPage.

(** The weekly chart (analytics/page.tsx, lines 30-38): each day of
    ["Mon".."Sun"] with the value at its index in a fixed array. *)
Definition weekdays : list string := ["Mon"; "Tue"; "Wed"; "Thu"; "Fri"; "Sat"; "Sun"].
Definition weekly_values : list Z := [85; 92; 78; 95; 88; 76; 90].

Definition weekly_progress : list (string * Z) :=
  imap (fun index day => (day, default 0 (weekly_values !! index))) weekdays.

(** The categories chart (lines 50-63). *)
Definition categories : list (string * Z) :=
  [("Health & Fitness", 35); ("Learning", 25); ("Mindfulness", 20); ("Productivity", 20)].

(** The monthly overview (lines 75-92). *)
Definition monthly : list (string * string) :=
  [("Total Completions", "156"); ("Best Streak", "23"); ("Success Rate", "87%");
   ("Active Habits", "6")].

(** What the page shows: the stats overview it renders (line 19), loaded
    for the signed-in user, and the three charts. *)
Record view := mkView {
  v_overview : Overview.overview;
  v_weekly : list (string * Z);
  v_categories : list (string * Z);
  v_monthly : list (string * string)
}.

Definition analytics : St db view := fun d =>
  let r := Overview.loadStats (Overview.initial_overview, d) in
  (mkView (fst (snd r)) weekly_progress categories monthly, snd (snd r)).

End AnalyticsPage.

(** ** Lemmas *)

Module DashboardFacts.
Import Realtime Dashboard.

Lemma read_only_auth {A} (m : St db A) d :
  read_only m -> auth_user (snd (m d)) = auth_user d.
Proof. intros Hm. pose proof (Hm d) as H. unfold data_of in H. congruence. Qed.

Lemma keeps_clock_auth {A} (m : St db A) d :
  keeps_clock m -> auth_user (snd (m d)) = auth_user d.
Proof. intros Hm. pose proof (Hm d) as H. unfold clock_of in H. congruence. Qed.

Lemma createHabit_keeps_clock draft : keeps_clock (Habits.createHabit draft).
Proof.
  destruct tables_keep_clock as (Hh & Hs & _).
  unfold Habits.createHabit. apply keeps_clock_bind; [by apply keeps_clock_insert|].
  intros [data|e]; eauto with habit.
Qed.

(** The grid's load keeps the key and the session. *)
Lemma loadHabits_shape g d :
  exists hs, fst (snd (Grid.loadHabits (g, d))) = Grid.mkGrid hs false (Grid.refreshKey g) /\
    auth_user (snd (snd (Grid.loadHabits (g, d)))) = auth_user d.
Proof.
  unfold Grid.loadHabits. destruct (auth_user d) eqn:Ha; cbn; eauto.
  eexists. split; [done|]. rewrite read_only_auth; [done|apply Habits.getUserHabits_no_effect].
Qed.

Lemma loadStats_shape o d :
  exists st, fst (snd (Overview.loadStats (o, d))) = Overview.mkOverview st false /\
    auth_user (snd (snd (Overview.loadStats (o, d)))) = auth_user d.
Proof.
  unfold Overview.loadStats. destruct (auth_user d) eqn:Ha; cbn; eauto.
  eexists. split; [done|]. rewrite read_only_auth; [done|apply Stats.getHabitStats_read_only].
Qed.

Lemma handleSubmit_auth dc du df da m d :
  auth_user (snd (snd (Modal.handleSubmit dc du df da (m, d)))) = auth_user d.
Proof.
  unfold Modal.handleSubmit. destruct (auth_user d) as [u|] eqn:Ha; [|done].
  pose proof (keeps_clock_auth _ d (createHabit_keeps_clock
                (Modal.habitData dc du df da u (Modal.formData m)))) as Hk.
  destruct (Habits.createHabit _ d) as [[h|] d']; cbn in *; congruence.
Qed.

(** A callback changes the component it belongs to only. *)
Lemma callback_frame s p d :
  let '(p', d') := snd (callback s (p, d)) in
  subs p' = subs p /\ pending p' = pending p /\ grid_runs p' = grid_runs p /\
  overview_run p' = overview_run p /\ Grid.refreshKey (grid p') = Grid.refreshKey (grid p) /\
  (s_owner s = GridSub -> overview p' = overview p) /\ auth_user d' = auth_user d.
Proof.
  unfold callback, on_habits_change, on_stats_change.
  destruct (s_owner s); cbn; do 5 (split; [done|]).
  - split; [done|]. apply read_only_auth, Habits.getUserHabits_no_effect.
  - split; [discriminate|]. apply read_only_auth, Stats.getHabitStats_read_only.
Qed.

(** Delivering a change runs one callback per subscription whose channel
    listens to it, and changes neither the subscriptions nor the
    scheduled effects. *)
Lemma deliver_frame c ss p d :
  let r := deliver c ss (p, d) in
  fst r = List.length (List.filter (fun s => fires (s_channel s) c) ss) /\
  subs (fst (snd r)) = subs p /\ pending (fst (snd r)) = pending p /\
  grid_runs (fst (snd r)) = grid_runs p /\ overview_run (fst (snd r)) = overview_run p /\
  Grid.refreshKey (grid (fst (snd r))) = Grid.refreshKey (grid p) /\
  auth_user (snd (snd r)) = auth_user d /\
  (Forall (fun s => s_owner s = StatsSub -> fires (s_channel s) c = false) ss ->
   overview (fst (snd r)) = overview p).
Proof.
  revert p d. induction ss as [|s ss IH]; intros p d; [cbn; by repeat split|].
  cbn [deliver List.filter]. destruct (fires (s_channel s) c) eqn:Hf.
  - rewrite st_bind_unfold. pose proof (callback_frame s p d) as Hc.
    destruct (callback s (p, d)) as [u [p1 d1]]. cbn [fst snd] in *.
    destruct Hc as (H1 & H2 & H3 & H4 & H5 & H6 & H7).
    rewrite st_bind_unfold. destruct (IH p1 d1) as (I0 & I1 & I2 & I3 & I4 & I5 & I6 & I7).
    destruct (deliver c ss (p1, d1)) as [n [p2 d2]]. cbn [fst snd st_ret List.length] in *.
    repeat split; try congruence.
    intros Hall. inversion Hall as [|? ? Hs Hss]; subst.
    rewrite I7 by done. apply H6. destruct (s_owner s); [done|]. by rewrite Hs in Hf.
  - destruct (IH p d) as (I0 & I1 & I2 & I3 & I4 & I5 & I6 & I7).
    repeat split; try done. intros Hall. apply I7. by inversion Hall.
Qed.

Definition count_owner (o : owner) (ss : list sub) : nat :=
  List.length (List.filter (fun s => bool_decide (s_owner s = o)) ss).

Lemma count_owner_app o ss s :
  count_owner o (ss ++ [s]) = (count_owner o ss + if bool_decide (s_owner s = o) then 1 else 0)%nat.
Proof. unfold count_owner. rewrite List.filter_app, List.length_app. cbn. by case_bool_decide. Qed.

(** The subscriptions a signed-in user's page can hold. *)
Definition sub_ok (uid : uuid) (s : sub) : Prop :=
  s = mkSub GridSub uid (habits_channel uid) \/ s = mkSub StatsSub uid (stats_channel uid).

(** What every state of the page satisfies, for a signed-in user: the
    session stays, the subscriptions are the user's, no pending change is
    a completion's, and each change of [refreshKey] left one grid
    subscription or one scheduled run. *)
Definition dash_inv (uid : uuid) (s : dash * db) : Prop :=
  auth_user (snd s) = Some uid /\
  Forall (sub_ok uid) (subs (fst s)) /\
  Forall (fun c => ch_table c <> THabitCompletions) (pending (fst s)) /\
  (count_owner GridSub (subs (fst s)) + grid_runs (fst s))%nat =
    S (Z.to_nat (Grid.refreshKey (grid (fst s)))) /\
  0 <= Grid.refreshKey (grid (fst s)).

Lemma create_changes_tables draft d :
  Forall (fun c => ch_table c <> THabitCompletions) (create_changes draft d).
Proof.
  unfold create_changes.
  destruct (fst (insert_row habits_tbl _ d)); [|constructor].
  destruct (fst (insert_row streaks_tbl _ _)); repeat constructor; discriminate.
Qed.

(** The dashboard's step relation with the table defaults of the modal
    fixed. *)
Section Steps.
Context (dc : color) (du : string) (df : frequency) (da : bool) (uid : uuid).

Lemma dash_inv_step s s' :
  dash_inv uid s -> dash_step dc du df da s s' -> dash_inv uid s'.
Proof.
  intros (Ha & Hs & Hp & Hc & Hk) Hst. unfold dash_inv.
  destruct Hst as [p d Hr|p d Hr|p d m|p d c rest Hpc]; cbn [fst snd] in *.
  - unfold exec_st, run_grid_effect. destruct (loadHabits_shape (grid p) d) as (hs & Hg & Ha').
    destruct (Grid.loadHabits (grid p, d)) as [u [g d']]. cbn [fst snd] in *. subst g.
    unfold subscribe. rewrite Ha. cbn [fst snd subs pending grid_runs overview_run grid overview Grid.refreshKey].
    split; [congruence|].
    split; [apply Forall_app; split; [done|repeat constructor; by left]|]. split; [done|].
    rewrite count_owner_app. case_bool_decide; [|done]. split; [lia|done].
  - unfold exec_st, run_overview_effect. destruct (loadStats_shape (overview p) d) as (st & Ho & Ha').
    destruct (Overview.loadStats (overview p, d)) as [u [o d']]. cbn [fst snd] in *.
    unfold subscribe. rewrite Ha. cbn [fst snd subs pending grid_runs overview_run grid overview Grid.refreshKey].
    split; [congruence|].
    split; [apply Forall_app; split; [done|repeat constructor; by right]|]. split; [done|].
    rewrite count_owner_app, bool_decide_false by discriminate. split; [lia|done].
  - unfold exec_st, add_habit. rewrite Ha. pose proof (handleSubmit_auth dc du df da m d) as Ha'.
    pose proof (create_changes_tables (Modal.habitData dc du df da uid (Modal.formData m)) d) as Hcc.
    destruct (Modal.handleSubmit dc du df da (m, d)) as [[] [m' d']]; cbn in *;
      (split; [congruence|]); (split; [done|]); (split; [apply Forall_app; by split|]).
    + fold (count_owner GridSub (subs p)). split; [rewrite Z2Nat.inj_add by lia; cbn; lia|lia].
    + done.
  - unfold exec_st. destruct (deliver_frame c (subs p) (with_pending rest p) d)
      as (_ & H1 & H2 & H3 & _ & H5 & H6 & _).
    cbn in *. rewrite H1, H2, H3, H5, H6. rewrite Hpc in Hp. inversion Hp. by repeat split.
Qed.

Lemma dash_inv_rtc s s' :
  rtc (dash_step dc du df da) s s' -> dash_inv uid s -> dash_inv uid s'.
Proof. induction 1; eauto using dash_inv_step. Qed.

Lemma dash_reachable_inv d0 s :
  auth_user d0 = Some uid -> dash_reachable dc du df da d0 s -> dash_inv uid s.
Proof.
  intros Ha Hr. apply (dash_inv_rtc _ _ Hr). split; [done|]. by repeat split.
Qed.

(** A change of the [habits] table runs the grid's callbacks only. *)
Lemma fires_habits_grid ss :
  Forall (sub_ok uid) ss ->
  List.length (List.filter (fun s => fires (s_channel s) (mkChange THabits uid)) ss) =
  count_owner GridSub ss.
Proof.
  unfold count_owner. induction 1 as [|s ss [-> | ->] _ IH]; [done| |];
    cbn [List.filter s_channel s_owner fires existsb habits_channel stats_channel
         l_table l_user ch_table ch_user]; rewrite ?N.eqb_refl;
    repeat first [rewrite bool_decide_true by done | rewrite bool_decide_false by discriminate];
    cbn [andb orb List.length]; by rewrite IH.
Qed.

(** The overview's step: once its effect ran, nothing changes it. *)
Lemma overview_step s s' :
  dash_inv uid s -> overview_run (fst s) = false -> dash_step dc du df da s s' ->
  overview (fst s') = overview (fst s) /\ overview_run (fst s') = false.
Proof.
  intros (Ha & Hs & Hp & _) Hr Hst.
  destruct Hst as [p d _|p d Hr'|p d m|p d c rest Hpc]; cbn [fst snd] in *.
  - unfold exec_st, run_grid_effect. destruct (Grid.loadHabits (grid p, d)) as [u [g d']]. done.
  - congruence.
  - unfold exec_st, add_habit. destruct (Modal.handleSubmit dc du df da (m, d)) as [[] [m' d']]; done.
  - unfold exec_st. destruct (deliver_frame c (subs p) (with_pending rest p) d)
      as (_ & _ & _ & _ & H4 & _ & _ & H7).
    rewrite Hpc in Hp. inversion Hp as [|? ? Hc _]; subst. split; [|rewrite H4; exact Hr].
    apply H7. eapply Forall_impl; [exact Hs|]. intros s [-> | ->]; cbn; [discriminate|].
    intros _. unfold fires. cbn. rewrite bool_decide_false; [done|congruence].
Qed.

End Steps.

(** The steps of the page as functions of its state, for traces. *)
Lemma ds_grid' dc du df da s :
  (0 < grid_runs (fst s))%nat -> dash_step dc du df da s (exec_st run_grid_effect s).
Proof. destruct s. by constructor. Qed.

Lemma ds_overview' dc du df da s :
  overview_run (fst s) = true -> dash_step dc du df da s (exec_st run_overview_effect s).
Proof. destruct s. by constructor. Qed.

Lemma ds_add' dc du df da m s :
  dash_step dc du df da s (exec_st (add_habit dc du df da m) s).
Proof. destruct s. by constructor. Qed.

Lemma ds_deliver' dc du df da c rest s :
  pending (fst s) = c :: rest ->
  dash_step dc du df da s (exec_st (deliver c (subs (fst s))) (with_pending rest (fst s), snd s)).
Proof. destruct s. by constructor. Qed.

End DashboardFacts.

(** ** Properties of the dashboard *)

(** A signed-in user's empty database and an add-habit form, for the
    traces below. *)
Definition dash_db : db := mkDb [] [] [] [] [] (Some 2%N) 1 0 [].

Definition dash_modal : Modal.modal :=
  Modal.mkModal true false (Modal.mkForm "Read" "" "📚" "learning" 1).

Definition dash_mounted_state : Dashboard.dash * db :=
  exec_st Dashboard.run_grid_effect (exec_st Dashboard.run_overview_effect (Dashboard.mounted, dash_db)).

Definition dash_after_add : Dashboard.dash * db :=
  exec_st (Dashboard.add_habit Primary "times" Daily true dash_modal) dash_mounted_state.

Lemma dash_mounted_reachable :
  Dashboard.dash_reachable Primary "times" Daily true dash_db dash_mounted_state.
Proof.
  eapply rtc_l; [apply DashboardFacts.ds_overview'; reflexivity|].
  eapply rtc_l; [apply DashboardFacts.ds_grid'; vm_compute; lia|]. apply rtc_refl.
Qed.

(** The habit grid never unsubscribes: its effect subscribes again
    each time [refreshKey] changes and the cleanup is lost, so once the
    scheduled effects ran the page holds [refreshKey + 1] subscriptions of
    the grid, and one change of the [habits] table runs the listing read
    [refreshKey + 1] times. *)
Lemma grid_subscriptions_accumulate dc du df da d0 uid s :
  auth_user d0 = Some uid -> Dashboard.dash_reachable dc du df da d0 s ->
  Dashboard.grid_runs (fst s) = 0%nat ->
  DashboardFacts.count_owner Dashboard.GridSub (Dashboard.subs (fst s)) =
    S (Z.to_nat (Grid.refreshKey (Dashboard.grid (fst s)))) /\
  fst (Dashboard.deliver (Realtime.mkChange Realtime.THabits uid) (Dashboard.subs (fst s)) s) =
    S (Z.to_nat (Grid.refreshKey (Dashboard.grid (fst s)))).
Proof.
  intros Ha Hr Hz.
  destruct (DashboardFacts.dash_reachable_inv dc du df da uid d0 s Ha Hr) as (_ & Hs & _ & Hc & _).
  rewrite Hz, Nat.add_0_r in Hc. split; [done|].
  destruct s as [p d]. change (fst (p, d)) with p in *.
  destruct (DashboardFacts.deliver_frame (Realtime.mkChange Realtime.THabits uid) (Dashboard.subs p) p d)
    as (H0 & _). rewrite H0. by rewrite DashboardFacts.fires_habits_grid.
Qed.

(** C19: the stats overview misses new habits: once its effect ran, no
    sequence of the dashboard's events (effects, habits added through the
    modal, their notifications delivered in any order) changes the
    statistics it shows, because its channel listens to
    [habit_completions] only and it has no other reload. *)
Theorem overview_misses_new_habits dc du df da d0 uid s s' :
  auth_user d0 = Some uid -> Dashboard.dash_reachable dc du df da d0 s ->
  Dashboard.overview_run (fst s) = false ->
  rtc (Dashboard.dash_step dc du df da) s s' ->
  Dashboard.overview (fst s') = Dashboard.overview (fst s).
Proof.
  intros Ha Hr Ho Hss.
  pose proof (DashboardFacts.dash_reachable_inv dc du df da uid d0 s Ha Hr) as Hi. clear Hr.
  revert Hi Ho. induction Hss as [x|x y z Hxy Hyz IH]; intros Hi Ho; [done|].
  destruct (DashboardFacts.overview_step dc du df da uid x y Hi Ho Hxy) as [E Ho'].
  rewrite <- E. apply IH; [by eapply DashboardFacts.dash_inv_step|done].
Qed.

Definition deliver_next (c : Realtime.change) (rest : list Realtime.change)
    (s : Dashboard.dash * db) : Dashboard.dash * db :=
  exec_st (Dashboard.deliver c (Dashboard.subs (fst s))) (Dashboard.with_pending rest (fst s), snd s).

Lemma overview_misses_new_habits_witness :
  let s' := exec_st Dashboard.run_grid_effect
              (deliver_next (Realtime.mkChange Realtime.THabitStreaks 2) []
                 (deliver_next (Realtime.mkChange Realtime.THabits 2)
                    [Realtime.mkChange Realtime.THabitStreaks 2] dash_after_add)) in
  Dashboard.overview (fst s') = Dashboard.overview (fst dash_mounted_state) /\
  Stats.totalHabits (Overview.stats (Dashboard.overview (fst s'))) = 0 /\
  List.length (Grid.habits (Dashboard.grid (fst s'))) = 1%nat /\
  Stats.totalHabits (eval_st (Stats.getHabitStats 2) (snd s')) = 1.
Proof.
  intros s'.
  assert (Hss : rtc (Dashboard.dash_step Primary "times" Daily true) dash_mounted_state s').
  { eapply rtc_l; [apply DashboardFacts.ds_add'|].
    eapply rtc_l; [apply DashboardFacts.ds_deliver'; vm_compute; reflexivity|].
    eapply rtc_l; [apply DashboardFacts.ds_deliver'; vm_compute; reflexivity|].
    eapply rtc_l; [apply DashboardFacts.ds_grid'; vm_compute; lia|]. apply rtc_refl. }
  pose proof (overview_misses_new_habits Primary "times" Daily true dash_db 2 dash_mounted_state s'
                eq_refl dash_mounted_reachable eq_refl Hss) as E.
  split; [exact E|]. rewrite E. vm_compute. repeat split; reflexivity.
Defined.

(** ** Properties of the settings page *)

Module SettingsFacts.
Import SettingsPage.

Lemma boot_theme_idem b : boot_theme (boot_theme b) = boot_theme b.
Proof. unfold boot_theme. destruct (storage_ok b) eqn:E; cbn; by rewrite ?E. Qed.

(** A panel event leaves the browser alone; a reload runs the script. *)
Lemma step_browser dflt uu e p b d :
  let '(_, b', _) := snd (step dflt uu e (p, b, d)) in b' = b \/ b' = boot_theme b.
Proof. destruct e; cbn; auto. Qed.

End SettingsFacts.

(** C32: the theme chosen in the settings is never applied: the settings
    page does not render the appearance panel, the only code that writes
    [app-theme], so through any sequence of its panels' events and page
    reloads [localStorage] keeps its [app-theme] and the document's
    [data-theme] is either unchanged or what the layout's script derives
    from [app-theme] ([dark] without one), whatever the user's settings
    row says. *)
Theorem settings_page_ignores_theme dflt uu es p b d :
  let '(_, b', _) := snd (SettingsPage.run dflt uu es (p, b, d)) in
  SettingsPage.app_theme b' = SettingsPage.app_theme b /\
  (b' = b \/ b' = SettingsPage.boot_theme b).
Proof.
  revert p b d. induction es as [|e es IH]; intros p b d; [cbn; auto|].
  cbn [SettingsPage.run]. rewrite st_bind_unfold.
  pose proof (SettingsFacts.step_browser dflt uu e p b d) as Hs.
  destruct (snd (SettingsPage.step dflt uu e (p, b, d))) as [[p1 b1] d1].
  specialize (IH p1 b1 d1). destruct (snd (SettingsPage.run dflt uu es (p1, b1, d1))) as [[p2 b2] d2].
  destruct IH as [Ha [-> | ->]]; destruct Hs as [-> | ->]; rewrite ?SettingsFacts.boot_theme_idem;
    unfold SettingsPage.boot_theme in *; repeat destruct (SettingsPage.storage_ok _); cbn in *; auto.
Qed.

(** The analytics page's three charts are the same for every user and
    every database: only its stats overview reads the user's habits. *)
Lemma analytics_charts_fixed d d' :
  let v := fst (AnalyticsPage.analytics d) in
  let v' := fst (AnalyticsPage.analytics d') in
  AnalyticsPage.v_weekly v = AnalyticsPage.v_weekly v' /\
  AnalyticsPage.v_categories v = AnalyticsPage.v_categories v' /\
  AnalyticsPage.v_monthly v = AnalyticsPage.v_monthly v' /\
  AnalyticsPage.v_weekly v = [("Mon", 85); ("Tue", 92); ("Wed", 78); ("Thu", 95); ("Fri", 88);
                              ("Sat", 76); ("Sun", 90)]%string.
Proof. repeat split. Qed.
