(* ===== verification/Views.v ===== *)
(** * What the dashboard's components render

    The components of [Panels] and [Screens] hold their state; this file
    models what they render from it, so that the theorems can say what a
    user sees after a handler ran:
    - [NumberText]: [String(x)] of a Number, which template literals and
      JSX text use: [NaN], the infinities, and the decimal digits of an
      integral value below [10^21]; the shortest round-trip digits of
      other values are a section variable [fraction_text], since the
      values shown here are integral or [NaN] ([Math.round]ed) except the
      streak cards' percentages;
    - [GridView] ([habit-grid.tsx] lines 43-88): six skeleton cards while
      loading, "No habits yet" for an empty listing, else one card per
      habit in the listing's order; the "Add Habit" button is in the
      header of the last two;
    - [OverviewView] ([stats-overview.tsx] lines 43-110): four skeleton
      cards while loading, else the four cards of [displayStats], each
      with its value, its percentage and a bar whose width is
      [Math.min(percentage, 100)];
    - [CalendarView] ([calendar/page.tsx] lines 47-107): what a cell of
      the month grid shows, and the legend under it;
    - [HeaderView] ([dashboard-header.tsx] lines 17-22): the header's
      date, [toLocaleDateString("en-US")] with long weekday and month, of
      the local time (the time value minus [getTimezoneOffset()]).
    The theorems show that a user with no habit sees "NaN days" as the
    current streak, that a grid load whose request fails shows "No habits
    yet" to a user who has habits, that the calendar's legend names the
    bar colour of every rate a cell can show, and that west of UTC, late
    in the local day, a completion recorded without a date is dated the
    day after the one the header shows. *)

From S2P Require Import Prelude JsNumber JsDate Db Completion Habits Stats Panels Screens AddHabit ReadPaths.
From Stdlib Require Import String.

Open Scope Z_scope.

Module NumberText.
Section Text.
(** The shortest decimal digits that read back as a non-integral finite
    Number (Number::toString, ECMA-262 6.1.6.1.20). *)
Variable fraction_text : float -> string.

(** [String(x)]. *)
Definition js_number_to_string (x : float) : string :=
  if PrimFloat.is_nan x then "NaN"
  else if PrimFloat.is_infinity x then (if get_sign x then "-Infinity" else "Infinity")
  else match js_floor_Z x with
       | Some z =>
           if PrimFloat.eqb (float_of_Z z) x && (Z.abs z <? 10 ^ 21)
           then JsParse.js_int_to_string z
           else fraction_text x
       | None => fraction_text x
       end.
End Text.
End NumberText.

Module GridView.
Import Grid.

(** The body under the "Your Habits" header. *)
Inductive grid_body :=
  | GridSkeleton (n : nat)
  | NoHabitsYet
  | HabitCards (cards : list HabitWithProgress.t).

Record grid_view := mkGridView {
  add_button : bool;
  body : grid_body
}.

(** Lines 43-88. *)
Definition render (g : grid) : grid_view :=
  if loading g then mkGridView false (GridSkeleton 6)
  else match habits g with
       | [] => mkGridView true NoHabitsYet
       | hs => mkGridView true (HabitCards hs)
       end.

End GridView.

Module OverviewView.
Import NumberText Overview.

Record card := mkCard {
  title : string;
  value : string;
  percentage_text : string;
  bar_width : string
}.

Inductive overview_view :=
  | StatsSkeleton (n : nat)
  | StatsCards (cards : list card).

Section Render.
Variable fraction_text : float -> string.
Let num := js_number_to_string fraction_text.

(** The [title] and [value] of the four entries of [displayStats]
    (lines 43-68). *)
Definition display_titles : list string :=
  ["Today's Progress"; "Current Streak"; "Total Habits"; "Longest Streak"]%string.

Definition display_values (s : Stats.HabitStats) : list string :=
  [(JsParse.js_int_to_string (Stats.completedToday s) ++ "/" ++
      JsParse.js_int_to_string (Stats.totalHabits s))%string;
   (num (Stats.averageStreak s) ++ " days")%string;
   JsParse.js_int_to_string (Stats.totalHabits s);
   (num (Stats.longestStreak s) ++ " days")%string].

(** One card (lines 88-107): the value, the percentage as text, and the
    bar's [width: Math.min(percentage, 100)%]. *)
Definition card_of (t v : string) (p : float) : card :=
  mkCard t v (num p ++ "%") (num (js_min p (float_of_Z 100)) ++ "%").

(** Lines 70-110. *)
Definition render (o : overview) : overview_view :=
  if loading o then StatsSkeleton 4
  else StatsCards (zip_with (fun '(t, v) p => card_of t v p)
                     (zip display_titles (display_values (stats o)))
                     (display_percentages (stats o))).
End Render.

End OverviewView.

Module CalendarView.
Import Calendar.

(** What a cell shows: its day number in the month, and with habits a
    bar of the rate's colour over the rate (lines 60-83). *)
Record cell_view := mkCellView {
  label : option Z;
  bar : option (Z * Z);
  ring : bool
}.

Definition render_cell (c : cell) : cell_view :=
  mkCellView (if isCurrentMonth c then Some (day c) else None)
    (if isCurrentMonth c && hasHabits c
     then Some (rate_class (completionRate c), completionRate c) else None)
    (highlighted c).

(** The legend (lines 90-107): a colour and the range of rates it
    stands for. *)
Definition legend : list (Z * (Z * Z)) :=
  [(3, (80, 100)); (2, (60, 79)); (1, (40, 59)); (0, (0, 39))].

(** The colours the legend gives a rate. *)
Definition legend_colours (r : Z) : list Z :=
  map fst (List.filter (fun e => (fst (snd e) <=? r) && (r <=? snd (snd e))) legend).

End CalendarView.

Module HeaderView.

Definition weekday_names : list string :=
  ["Sunday"; "Monday"; "Tuesday"; "Wednesday"; "Thursday"; "Friday"; "Saturday"]%string.

Definition month_names : list string :=
  ["January"; "February"; "March"; "April"; "May"; "June"; "July"; "August";
   "September"; "October"; "November"; "December"]%string.

(** A day in the [en-US] long format the header asks for (weekday long,
    month long, day and year numeric): ["Wednesday, December 18, 2024"],
    for the years from 1 on. *)
Definition day_text (n : Z) : string :=
  let '(y, m, d) := civil_from_days n in
  (nth (Z.to_nat (Calendar.weekday n)) weekday_names "" ++ ", " ++
   nth (Z.to_nat (m - 1)) month_names "" ++ " " ++
   JsParse.js_int_to_string d ++ ", " ++ JsParse.js_int_to_string y)%string.

(** [new Date().toLocaleDateString("en-US", ...)] (dashboard-header.tsx
    lines 17-22): the day of the local time, the time value [t] minus
    [getTimezoneOffset()] minutes ([tz], positive west of UTC). *)
Definition currentDate (t tz : Z) : string := day_text (day_of_ms (t - tz * 60000)).

End HeaderView.

(** ** Lemmas *)

Module ViewFacts.

(** An integer-valued Number prints as its decimal digits. *)
Lemma number_text_examples ft :
  NumberText.js_number_to_string ft (float_of_Z 0) = "0"%string /\
  NumberText.js_number_to_string ft (float_of_Z 100) = "100"%string /\
  NumberText.js_number_to_string ft nan = "NaN"%string /\
  NumberText.js_number_to_string ft (float_of_Z (-7)) = "-7"%string.
Proof. vm_compute. auto. Qed.

(** The statistics a healthy database gives a user with no listed habit. *)
Lemma getHabitStats_none u d :
  healthy d -> Habits.listed d u = [] ->
  Stats.getHabitStats u d = (Stats.stats_of [], d).
Proof.
  intros Hh Hl. unfold Stats.getHabitStats. rewrite st_bind_unfold.
  rewrite Habits.getUserHabits_healthy, Hl by done. done.
Qed.

(** After a load, the grid is no longer loading and shows the listing
    the load returned. *)
Lemma render_loaded hs r :
  GridView.render (Grid.mkGrid hs false r) =
    GridView.mkGridView true (match hs with [] => GridView.NoHabitsYet | _ => GridView.HabitCards hs end).
Proof. by destruct hs. Qed.

(** The local day of a time value in a zone less than a day from UTC:
    the UTC day, the one before it when the offset reaches back past
    midnight, or the one after. *)
Lemma local_day t o :
  - ms_per_day < o < ms_per_day ->
  day_of_ms (t - o) =
    day_of_ms t + (if t mod ms_per_day <? o then -1
                   else if ms_per_day <=? t mod ms_per_day - o then 1 else 0).
Proof.
  intros Ho. unfold day_of_ms. pose proof ms_per_day_pos as Hp.
  pose proof (Z.div_mod t ms_per_day ltac:(lia)) as Ht.
  pose proof (Z.mod_pos_bound t ms_per_day Hp) as Hr.
  destruct (Z.ltb_spec (t mod ms_per_day) o), (Z.leb_spec ms_per_day (t mod ms_per_day - o));
    try lia; symmetry;
    first [ apply (Z.div_unique _ _ _ (t mod ms_per_day - o + ms_per_day)); lia
          | apply (Z.div_unique _ _ _ (t mod ms_per_day - o - ms_per_day)); lia
          | apply (Z.div_unique _ _ _ (t mod ms_per_day - o)); lia ].
Qed.

(** Consecutive days have different civil dates. *)
Lemma civil_from_days_pred n : civil_from_days (n - 1) <> civil_from_days n.
Proof.
  pose proof (days_civil_roundtrip (n - 1)) as H1. pose proof (days_civil_roundtrip n) as H2.
  destruct (civil_from_days (n - 1)) as [[y1 m1] d1], (civil_from_days n) as [[y2 m2] d2].
  intros [= -> -> ->]. lia.
Qed.

End ViewFacts.

(** ** What the user sees *)

(** C16: a user with no listed habit sees, once the stats overview has
    loaded on a healthy database, "0/0" for today's progress, a current
    streak of "NaN days" with a percentage of "NaN%", "0" habits and a
    longest streak of "0 days": the average streak [0 / 0] reaches the
    screen. *)
Theorem no_habits_overview_shows_nan ft o d u :
  healthy d -> auth_user d = Some u -> Habits.listed d u = [] ->
  OverviewView.render ft (fst (snd (Overview.loadStats (o, d)))) =
    OverviewView.StatsCards
      [OverviewView.mkCard "Today's Progress" "0/0" "0%" "0%";
       OverviewView.mkCard "Current Streak" "NaN days" "NaN%" "NaN%";
       OverviewView.mkCard "Total Habits" "0" "100%" "100%";
       OverviewView.mkCard "Longest Streak" "0 days" "0%" "0%"].
Proof.
  intros Hh Hu Hl. unfold Overview.loadStats. rewrite Hu.
  rewrite (ViewFacts.getHabitStats_none u d Hh Hl). vm_compute. reflexivity.
Qed.

Definition views_db : db :=
  mkDb [] [] [] [] [] (Some 4%N) 1 0 [].

Lemma no_habits_overview_shows_nan_witness :
  healthy views_db /\ auth_user views_db = Some 4%N /\ Habits.listed views_db 4 = [] /\
  OverviewView.render (fun _ => EmptyString) (fst (snd (Overview.loadStats (Overview.initial_overview, views_db)))) =
    OverviewView.StatsCards
      [OverviewView.mkCard "Today's Progress" "0/0" "0%" "0%";
       OverviewView.mkCard "Current Streak" "NaN days" "NaN%" "NaN%";
       OverviewView.mkCard "Total Habits" "0" "100%" "100%";
       OverviewView.mkCard "Longest Streak" "0 days" "0%" "0%"].
Proof.
  split; [reflexivity|]. split; [reflexivity|]. split; [reflexivity|].
  apply (no_habits_overview_shows_nan _ _ _ 4%N); reflexivity.
Defined.

(** C18: when the habit grid's load meets a failing request, the grid
    shows "No habits yet" with the "Add Habit" button, whatever habits the
    user has: the error is logged, not shown. *)
Theorem failed_load_shows_no_habits g d u fs :
  auth_user d = Some u -> faults d = true :: fs ->
  GridView.render (fst (snd (Grid.loadHabits (g, d)))) = GridView.mkGridView true GridView.NoHabitsYet.
Proof.
  intros Hu Hf. unfold Grid.loadHabits. rewrite Hu.
  rewrite (getUserHabits_fault u d fs Hf). apply ViewFacts.render_loaded.
Qed.

Lemma failed_load_shows_no_habits_witness :
  let d := with_faults [true] reads_db in
  Habits.listed (with_faults [] d) 2 <> [] /\
  GridView.render (fst (snd (Grid.loadHabits (Grid.initial_grid, d)))) =
    GridView.mkGridView true GridView.NoHabitsYet.
Proof.
  intros d. split; [vm_compute; discriminate|].
  apply (failed_load_shows_no_habits _ _ 2 []); reflexivity.
Defined.

(** The calendar's legend gives every rate a cell can show, from 0 to
    100, exactly one colour, the one of the rate's bar. *)
Lemma legend_names_rate_class r :
  0 <= r <= 100 -> CalendarView.legend_colours r = [Calendar.rate_class r].
Proof.
  intros Hr. unfold CalendarView.legend_colours, Calendar.rate_class. cbn [CalendarView.legend List.filter fst snd].
  destruct (Z.leb_spec 80 r), (Z.leb_spec r 100), (Z.leb_spec 60 r), (Z.leb_spec r 79),
    (Z.leb_spec 40 r), (Z.leb_spec r 59), (Z.leb_spec 0 r), (Z.leb_spec r 39);
    cbn; first [reflexivity | lia].
Qed.

(** C9: the specification makes "today", the default date of a
    completion, the process-local calendar date; the code takes the date
    part of [toISOString()], the UTC date.  In a zone [tz] minutes west
    of UTC, during the first [tz] minutes of a UTC day (the last [tz]
    minutes of the local day), the header shows the local date, day
    [n - 1], while a completion recorded without a date is dated the UTC
    date [iso_date_of_ms now], day [n]: a different calendar date. *)
Theorem default_completion_date_is_utc conflict hid uid v d tz :
  0 < tz < 1440 -> now_ms d mod ms_per_day < tz * 60000 ->
  HeaderView.currentDate (now_ms d) tz = HeaderView.day_text (day_of_ms (now_ms d) - 1) /\
  Completion.recordHabitCompletion conflict hid uid v None d =
    Completion.recordHabitCompletion conflict hid uid v (Some (iso_date_of_ms (now_ms d))) d /\
  civil_from_days (day_of_ms (now_ms d) - 1) <> civil_from_days (day_of_ms (now_ms d)).
Proof.
  intros Htz Hr. split; [|split; [apply Completion.record_without_date|apply ViewFacts.civil_from_days_pred]].
  unfold HeaderView.currentDate. rewrite ViewFacts.local_day by (unfold ms_per_day; lia).
  by rewrite (proj2 (Z.ltb_lt _ _) Hr).
Qed.

(** 2024-12-19T01:00:00Z, in New York (UTC-5). *)
Definition evening_db : db := mkDb [] [] [] [] [] (Some 4%N) 1 1734570000000 [].

Lemma default_completion_date_is_utc_witness :
  HeaderView.currentDate (now_ms evening_db) 300 = "Wednesday, December 18, 2024"%string /\
  iso_date_of_ms (now_ms evening_db) = "2024-12-19"%string /\
  HeaderView.currentDate (now_ms evening_db) 300 = HeaderView.day_text (day_of_ms (now_ms evening_db) - 1) /\
  Completion.recordHabitCompletion Completion.conflict_habit_date 1 4 1 None evening_db =
    Completion.recordHabitCompletion Completion.conflict_habit_date 1 4 1
      (Some (iso_date_of_ms (now_ms evening_db))) evening_db.
Proof.
  split; [vm_compute; reflexivity|]. split; [vm_compute; reflexivity|].
  destruct (default_completion_date_is_utc Completion.conflict_habit_date 1 4 1 evening_db 300)
    as (H1 & H2 & _); [lia|vm_compute; reflexivity|].
  split; [exact H1|exact H2].
Defined.
