(* ===== verification/Concurrency.v ===== *)
(** * Concurrent requests of components mounted together

    The [St db] models run an [async] function to its end before anything
    else happens.  In the browser, the components a page mounts run their
    effects together: each [await] of a request lets the other effects'
    requests reach the database first.  This file models that:
    - [proc A]: an [async] function as a resumption, which either has
      returned ([Ret]) or awaits one request ([Await serve k]): when the
      database serves the request in state [d], it becomes [serve d] and
      the function resumes as [k d] (the response is a function of [d]);
    - [run]: the function alone, request after request;
    - [interleave]: two functions under a schedule, a list saying whose
      request the database serves next;
    - [SettingsRace]: [getUserSettings] (src/supabase/database.ts lines
      395-427) as a [proc], with one [Await] per request (the read, the
      insert, the read again), and the load effects of the notification
      and privacy panels (notification-settings.tsx lines 27-63,
      privacy-settings.tsx lines 25-58), which the settings page
      (src/app/dashboard/settings/page.tsx lines 14-16) mounts together.
    The lemmas show that [run] of each [proc] is the sequential model of
    [Settings] and [Panels], and that [interleave] with the schedule that
    serves one function entirely first is the sequential composition.
    The theorem shows the race of a new user's first visit: both panels
    read before either inserts, so without a unique [user_id] two default
    rows are inserted, both panels stay on "Loading...", and every later
    read fails. *)

From S2P Require Import Prelude Db Settings Panels.

Open Scope Z_scope.

(** An [async] function over the database. *)
Inductive proc (A : Type) : Type :=
  | Ret (a : A)
  | Await (serve : db -> db) (k : db -> proc A).

Arguments Ret {A} a.
Arguments Await {A} serve k.

(** [await m]: one request, whose response and effect [m] gives. *)
Definition await {A R} (m : St db R) (k : R -> proc A) : proc A :=
  Await (fun d => snd (m d)) (fun d => k (fst (m d))).

Fixpoint proc_bind {A B} (p : proc A) (f : A -> proc B) : proc B :=
  match p with
  | Ret a => f a
  | Await s k => Await s (fun d => proc_bind (k d) f)
  end.

(** The function alone. *)
Fixpoint run {A} (p : proc A) : St db A :=
  match p with
  | Ret a => st_ret a
  | Await s k => fun d => run (k d) (s d)
  end.

(** Two functions under a schedule: [true] serves the first one's
    pending request, [false] the second one's; a function that has
    returned is skipped. *)
Fixpoint interleave {A B} (sched : list bool) (p : proc A) (q : proc B) (d : db)
  : proc A * proc B * db :=
  match sched with
  | [] => (p, q, d)
  | true :: rest =>
      match p with
      | Await s k => interleave rest (k d) q (s d)
      | Ret _ => interleave rest p q d
      end
  | false :: rest =>
      match q with
      | Await s k => interleave rest p (k d) (s d)
      | Ret _ => interleave rest p q d
      end
  end.

(** The results, once both functions have returned. *)
Definition results {A B} (r : proc A * proc B * db) : option (A * B) :=
  match r with
  | (Ret a, Ret b, _) => Some (a, b)
  | _ => None
  end.

(** The number of requests a function makes from [d] on when alone. *)
Fixpoint requests {A} (p : proc A) (d : db) : nat :=
  match p with
  | Ret _ => 0
  | Await s k => S (requests (k d) (s d))
  end.

Module SettingsRace.
Section Race.
Variable dflt : UserSettings.t.
Variable user_id_unique : bool.

(** Lines 395-427, one [Await] per request. *)
Definition getUserSettings_proc (userId : uuid) : proc (option UserSettings.t) :=
  await (select_where settings_tbl (Settings.settings_of userId)) (fun r =>
  match maybe_single r with
  | Ok (Some data) => Ret (Some data)
  | _ =>
      await (Settings.insert_default_settings dflt user_id_unique userId) (fun ins =>
      match ins with
      | Err _ => Ret None
      | Ok _ =>
          await (select_where settings_tbl (Settings.settings_of userId)) (fun r2 =>
          match maybe_single r2 with
          | Ok (Some created) => Ret (Some created)
          | _ => Ret None
          end)
      end)
  end).

(** The notification panel's load effect: [supabase.auth.getUser()],
    then [getUserSettings]. *)
Definition notifications_load (p : Notifications.panel) : proc Notifications.panel :=
  await st_get (fun d =>
  match auth_user d with
  | None => Ret (Notifications.mkPanel (Notifications.notifs p) false (Notifications.saving p)
                  (Notifications.error p) (Notifications.success p))
  | Some uid =>
      proc_bind (getUserSettings_proc uid) (fun r =>
      match r with
      | Some s => Ret (Notifications.mkPanel (Notifications.notifications_of s) false
                         (Notifications.saving p) (Notifications.error p) (Notifications.success p))
      | None => Ret p
      end)
  end).

(** The privacy panel's load effect. *)
Definition privacy_load (p : Privacy.panel) : proc Privacy.panel :=
  await st_get (fun d =>
  match auth_user d with
  | None => Ret (Privacy.mkPanel (Privacy.settings p) false (Privacy.saving p)
                  (Privacy.error p) (Privacy.success p))
  | Some uid =>
      proc_bind (getUserSettings_proc uid) (fun r =>
      match r with
      | Some s => Ret (Privacy.mkPanel (Privacy.privacy_of s) false
                         (Privacy.saving p) (Privacy.error p) (Privacy.success p))
      | None => Ret p
      end)
  end).

(** The settings page's two settings panels mounted together. *)
Definition mount_panels (sched : list bool) (d : db) :=
  interleave sched (notifications_load Notifications.initial_panel)
    (privacy_load Privacy.initial_panel) d.

End Race.
End SettingsRace.

(** ** Lemmas *)

Module ProcFacts.

Lemma run_await {A R} (m : St db R) (k : R -> proc A) d :
  run (await m k) d = st_bind m (fun r => run (k r)) d.
Proof. by rewrite st_bind_unfold. Qed.

Lemma run_bind {A B} (p : proc A) (f : A -> proc B) d :
  run (proc_bind p f) d = st_bind (run p) (fun a => run (f a)) d.
Proof.
  revert d. induction p as [a|s k IH]; intros d; rewrite st_bind_unfold; [done|].
  cbn. rewrite IH. by rewrite st_bind_unfold.
Qed.

(** Serving the first function's requests first runs it alone, then
    goes on with the rest of the schedule. *)
Lemma interleave_first {A B} (p : proc A) (q : proc B) d sched :
  interleave (repeat true (requests p d) ++ sched) p q d =
    interleave sched (Ret (fst (run p d))) q (snd (run p d)).
Proof.
  revert d. induction p as [a|s k IH]; intros d; [done|]. cbn. apply IH.
Qed.

(** A function that has returned is left as it is. *)
Lemma interleave_second {A B} (a : A) (q : proc B) d :
  interleave (repeat false (requests q d)) (Ret a) q d = (Ret a, Ret (fst (run q d)), snd (run q d)).
Proof.
  revert d. induction q as [b|s k IH]; intros d; [done|]. cbn. apply IH.
Qed.

End ProcFacts.

Module RaceFacts.
Import SettingsRace ProcFacts.

Section Facts.
Variable dflt : UserSettings.t.
Variable u : bool.

(** [getUserSettings] alone is the sequential model. *)
Lemma getUserSettings_proc_run uid d :
  run (getUserSettings_proc dflt u uid) d = Settings.getUserSettings dflt u uid d.
Proof.
  unfold getUserSettings_proc, Settings.getUserSettings. rewrite run_await, !st_bind_unfold.
  destruct (maybe_single _) as [[data|]|e]; [done| |];
    unfold Settings.create_default_settings; rewrite run_await, !st_bind_unfold;
    (destruct (fst _) as [[]|]; [|done]);
    rewrite run_await, !st_bind_unfold; by destruct (maybe_single _) as [[]|].
Qed.

Lemma notifications_load_run p d :
  run (notifications_load dflt u p) d =
    let r := Notifications.loadSettings dflt u (p, d) in (fst (snd r), snd (snd r)).
Proof.
  unfold notifications_load, Notifications.loadSettings. rewrite run_await, st_bind_unfold. cbn [fst snd st_get].
  destruct (auth_user d) as [uid|]; [|done].
  rewrite run_bind, st_bind_unfold, getUserSettings_proc_run. by destruct (Settings.getUserSettings _ _ _ _) as [[s|] d'].
Qed.

Lemma privacy_load_run p d :
  run (privacy_load dflt u p) d =
    let r := Privacy.loadSettings dflt u (p, d) in (fst (snd r), snd (snd r)).
Proof.
  unfold privacy_load, Privacy.loadSettings. rewrite run_await, st_bind_unfold. cbn [fst snd st_get].
  destruct (auth_user d) as [uid|]; [|done].
  rewrite run_bind, st_bind_unfold, getUserSettings_proc_run. by destruct (Settings.getUserSettings _ _ _ _) as [[s|] d'].
Qed.

End Facts.
End RaceFacts.

(** ** The settings page's panels mounted together *)

(** Serving the notification panel's requests first, then the
    privacy panel's, is the sequential model of the two effects: the
    panels and the database are those of the two [loadSettings] run one
    after the other, as [Pages.SettingsPage.mount] runs them. *)
Lemma mount_panels_sequential dflt u d :
  let r2 := Notifications.loadSettings dflt u (Notifications.initial_panel, d) in
  let r3 := Privacy.loadSettings dflt u (Privacy.initial_panel, snd (snd r2)) in
  SettingsRace.mount_panels dflt u
    (repeat true (requests (SettingsRace.notifications_load dflt u Notifications.initial_panel) d) ++
     repeat false (requests (SettingsRace.privacy_load dflt u Privacy.initial_panel) (snd (snd r2)))) d =
  (Ret (fst (snd r2)), Ret (fst (snd r3)), snd (snd r3)).
Proof.
  intros r2 r3. unfold SettingsRace.mount_panels.
  rewrite ProcFacts.interleave_first, RaceFacts.notifications_load_run. cbn zeta. fold r2.
  rewrite ProcFacts.interleave_second, RaceFacts.privacy_load_run. done.
Qed.

(** C25: a new user's first visit to the settings page: both panels ask
    for the session, then both read the settings before either inserts
    (the order in which concurrent requests usually reach the database).
    Without a unique [user_id], both insert a default row, both read
    again two rows, which [.maybeSingle()] rejects, and both panels stay
    on "Loading..."; with a unique [user_id] the second insert is
    rejected and the privacy panel stays on "Loading...". *)
Theorem settings_race_first_visit dflt u d uid :
  healthy d -> auth_user d = Some uid -> Settings.rows_of d uid = [] ->
  let row := Settings.default_row dflt uid (now_ms d) in
  let r := SettingsRace.mount_panels dflt u [true; false; true; false; true; false; true; false] d in
  results r = Some ((if u then Notifications.mkPanel (Notifications.notifications_of row) false false "" ""
                     else Notifications.initial_panel), Privacy.initial_panel) /\
  Settings.rows_of (snd r) uid = (if u then [row] else [row; row]) /\ healthy (snd r).
Proof.
  intros Hh Ha Hr row r.
  destruct d as [hb st cp pr us au nid now fs]. unfold healthy in Hh. cbn in Hh, Ha. subst fs au.
  unfold Settings.rows_of in Hr. cbn in Hr.
  assert (He : existsb (Settings.settings_of uid) us = false) by (by apply Settings.existsb_filter_nil).
  subst r. unfold SettingsRace.mount_panels, SettingsRace.notifications_load, SettingsRace.privacy_load,
    SettingsRace.getUserSettings_proc, await, Settings.insert_default_settings, request, pop_fault.
  destruct u; repeat progress (cbn; rewrite ?Hr, ?He, ?List.filter_app, ?existsb_app, ?Settings.settings_of_default);
    repeat split.
Qed.

Definition race_db : db := mkDb [] [] [] [] [] (Some 3%N) 1 0 [].

Definition race_defaults : UserSettings.t :=
  UserSettings.mk 0 true true false true "09:00" "system" "blue" true true false 0 0.

(** After the race the user's settings are never read again: each later
    read returns [null] and adds a row. *)
Lemma settings_race_first_visit_witness :
  let r := SettingsRace.mount_panels race_defaults false [true; false; true; false; true; false; true; false] race_db in
  results r = Some (Notifications.initial_panel, Privacy.initial_panel) /\
  Settings.rows_of (snd r) 3 = [Settings.default_row race_defaults 3 0; Settings.default_row race_defaults 3 0] /\
  healthy (snd r) /\
  fst (Settings.getUserSettings race_defaults false 3 (snd r)) = None.
Proof.
  intros r. destruct (settings_race_first_visit race_defaults false race_db 3) as (H1 & H2 & H3);
    [reflexivity..|].
  split; [exact H1|]. split; [exact H2|]. split; [exact H3|].
  apply Settings.getUserSettings_duplicates_grow; [exact H3|]. subst r. vm_compute. lia.
Defined.
