(* ===== verification/Routes.v ===== *)
(** * The app router: which components each route mounts, and the head

    Next.js renders a route as its [page.tsx] inside the layouts of the
    directories above it.  This file models that composition:
    - [Tree]: the components the pages and layouts render, the pages
      ([src/app/page.tsx], [signup/page.tsx] and the five pages under
      [src/app/dashboard/]), the dashboard layout
      ([src/app/dashboard/layout.tsx] lines 7-36: the sidebar, then the
      header with its hamburger button, then the page) and [route], the
      components a path mounts;
    - [Mount]: the requests a component's mount effect makes, read off
      each component's [useEffect] ([getCurrentUser],
      [supabase.auth.getUser], the data reads and the realtime channels);
    - [Head]: the tags of the document's head, those Next.js generates
      from the root layout's [metadata] and [viewport]
      ([src/app/layout.tsx] lines 6-38) followed by those the layout
      writes itself (lines 56-61).
    The theorems show that the habits and analytics pages render the
    dashboard header a second time inside the layout's, so mounting them
    asks for the current user three times, that the settings page mounts
    two readers of [getUserSettings] (whose race [Concurrency] models), and
    that the head carries two different status-bar styles. *)

From S2P Require Import Prelude Db Screens App.
From Stdlib Require Import String.

Open Scope Z_scope.

Module Tree.

(** The components the pages render ([GlassCard] and the [ui] primitives
    only wrap them). *)
Inductive component :=
  | Sidebar
  | DashboardHeader (hamburger : bool)
  | StatsOverview
  | HabitGrid
  | AddHabitButton
  | SearchInput
  | FilterButton
  | SortButton
  | SettingsHeader
  | ProfileSettings
  | NotificationSettings
  | PrivacySettings
  | AnalyticsCharts
  | CalendarGrid
  | HomeScreen
  | SignupForm.

#[export] Instance component_eq_dec : EqDecision component.
Proof. solve_decision. Defined.

(** [src/app/page.tsx]: the splash screen, then the login or the signup
    form ([App.Home]). *)
Definition home_page : list component := [HomeScreen].

(** [src/app/signup/page.tsx] lines 4-21. *)
Definition signup_page : list component := [SignupForm].

(** [src/app/dashboard/page.tsx] lines 4-11. *)
Definition dashboard_page : list component := [StatsOverview; HabitGrid].

(** [src/app/dashboard/habits/page.tsx] lines 9-44: its own header, the
    add button, a search input and two buttons without handlers, and the
    grid. *)
Definition habits_page : list component :=
  [DashboardHeader false; AddHabitButton; SearchInput; FilterButton; SortButton; HabitGrid].

(** [src/app/dashboard/analytics/page.tsx] lines 7-97. *)
Definition analytics_page : list component :=
  [DashboardHeader false; StatsOverview; AnalyticsCharts].

(** [src/app/dashboard/calendar/page.tsx] lines 6-111. *)
Definition calendar_page : list component := [CalendarGrid].

(** [src/app/dashboard/settings/page.tsx] lines 7-20 (the appearance
    panel commented out). *)
Definition settings_page : list component :=
  [SettingsHeader; ProfileSettings; NotificationSettings; PrivacySettings].

(** [src/app/dashboard/layout.tsx] lines 7-36. *)
Definition dashboard_layout (children : list component) : list component :=
  Sidebar :: DashboardHeader true :: children.

(** The components a path mounts; [None] for a path with no page (the
    app has no [not-found] page of its own). *)
Definition route (path : string) : option (list component) :=
  if String.eqb path "/" then Some home_page
  else if String.eqb path "/signup" then Some signup_page
  else if String.eqb path "/dashboard" then Some (dashboard_layout dashboard_page)
  else if String.eqb path "/dashboard/habits" then Some (dashboard_layout habits_page)
  else if String.eqb path "/dashboard/analytics" then Some (dashboard_layout analytics_page)
  else if String.eqb path "/dashboard/calendar" then Some (dashboard_layout calendar_page)
  else if String.eqb path "/dashboard/settings" then Some (dashboard_layout settings_page)
  else None.

End Tree.

Module Mount.
Import Tree.

Inductive request :=
  | GetCurrentUser
  | AuthGetUser
  | GetUserHabits
  | GetHabitStats
  | GetUserSettings
  | Subscribe (channel : string).

#[export] Instance request_eq_dec : EqDecision request.
Proof. solve_decision. Defined.

(** The requests of a component's mount effect, for a signed-in user:
    sidebar.tsx lines 27-38, dashboard-header.tsx 24-35,
    profile-settings.tsx 28, stats-overview.tsx 18-41, habit-grid.tsx
    14-37, notification-settings.tsx 25-65, privacy-settings.tsx 23-60,
    and the home page's session check (page.tsx lines 15-23). *)
Definition mount_requests (c : component) : list request :=
  match c with
  | Sidebar | DashboardHeader _ | ProfileSettings => [GetCurrentUser]
  | StatsOverview => [AuthGetUser; GetHabitStats; Subscribe "habit-stats"]
  | HabitGrid => [AuthGetUser; GetUserHabits; Subscribe "habits"]
  | NotificationSettings | PrivacySettings => [AuthGetUser; GetUserSettings; Subscribe "user-settings"]
  | HomeScreen => [AuthGetUser]
  | _ => []
  end.

(** The requests mounting a path makes. *)
Definition route_requests (path : string) : list request :=
  match route path with
  | Some cs => List.concat (map mount_requests cs)
  | None => []
  end.

Definition count_request (r : request) (path : string) : nat :=
  List.length (List.filter (fun r' => bool_decide (r' = r)) (route_requests path)).

Definition count_component (c : component) (path : string) : nat :=
  match route path with
  | Some cs => List.length (List.filter (fun c' => bool_decide (c' = c)) cs)
  | None => 0
  end.

Definition headers (path : string) : nat :=
  count_component (DashboardHeader true) path + count_component (DashboardHeader false) path.

End Mount.

Module Head.

Record tag := mkTag {
  tag_name : string;
  content : string
}.

(** The [<meta>] tags Next.js generates from [metadata.appleWebApp],
    [metadata.formatDetection] and [viewport] (layout.tsx lines 11-18 and
    32-38), in the order of its documentation. *)
Definition apple_web_app_tags (capable : bool) (statusBarStyle title : string) : list tag :=
  (if capable then [mkTag "mobile-web-app-capable" "yes"] else []) ++
  [mkTag "apple-mobile-web-app-title" title;
   mkTag "apple-mobile-web-app-status-bar-style" statusBarStyle].

Definition metadata_tags : list tag :=
  [mkTag "description" "Build better habits with a clean, minimalist interface";
   mkTag "generator" "Next.js"] ++
  apple_web_app_tags true "default" "Habit Tracker" ++
  [mkTag "format-detection" "telephone=no";
   mkTag "viewport" "width=device-width, initial-scale=1, maximum-scale=1, user-scalable=no";
   mkTag "theme-color" "#000000"].

(** The tags the layout writes in its [<head>] (lines 56-59). *)
Definition layout_tags : list tag :=
  [mkTag "mobile-web-app-capable" "yes";
   mkTag "apple-mobile-web-app-capable" "yes";
   mkTag "apple-mobile-web-app-status-bar-style" "black-translucent";
   mkTag "apple-mobile-web-app-title" "Habit Tracker"].

Definition head : list tag := metadata_tags ++ layout_tags.

(** The contents of the tags of a name. *)
Definition contents (name : string) (h : list tag) : list string :=
  map content (List.filter (fun t => String.eqb (tag_name t) name) h).

End Head.

(** ** Lemmas *)

Module RouteFacts.
Import Tree Mount.

(** The paths with a component tree are the app router's pages. *)
Lemma route_is_route path : Shell.is_route path = true <-> route path <> None.
Proof.
  unfold Shell.is_route, Shell.app_routes, route. cbn [existsb].
  repeat match goal with
  | |- context [String.eqb path ?s] =>
      destruct (String.eqb_spec path s) as [->|?]; cbn; [split; intros; congruence|]
  end.
  split; intros H; [discriminate|by destruct H].
Qed.

(** Every page of the dashboard mounts the sidebar and the layout's
    header first. *)
Lemma dashboard_routes_layout path cs :
  route path = Some cs -> path <> "/"%string -> path <> "/signup"%string ->
  exists page, cs = dashboard_layout page.
Proof.
  unfold route. intros Hr H1 H2.
  destruct (String.eqb_spec path "/"); [congruence|]. destruct (String.eqb_spec path "/signup"); [congruence|].
  repeat match type of Hr with
  | context [String.eqb path ?s] =>
      destruct (String.eqb_spec path s); [injection Hr as <-; by eexists|]
  end.
  discriminate.
Qed.

(** The head has two status-bar styles: the one of [metadata] and the
    one the layout writes. *)
Lemma head_status_bar_styles :
  Head.contents "apple-mobile-web-app-status-bar-style" Head.head = ["default"; "black-translucent"]%string.
Proof. vm_compute. reflexivity. Qed.

End RouteFacts.

(** ** Properties of the composition *)

(** The habits and analytics pages render a dashboard header of
    their own inside the dashboard layout, which already renders one: on
    these two paths the page shows two headers (each greeting the user
    and showing the date), and mounting them asks [getCurrentUser] three
    times (the sidebar and the two headers); every other dashboard path
    shows one header.  The settings page mounts two readers of
    [getUserSettings]. *)
Lemma dashboard_headers_twice :
  Mount.headers "/dashboard/habits" = 2%nat /\ Mount.headers "/dashboard/analytics" = 2%nat /\
  Mount.headers "/dashboard" = 1%nat /\ Mount.headers "/dashboard/calendar" = 1%nat /\
  Mount.headers "/dashboard/settings" = 1%nat /\
  Mount.count_request Mount.GetCurrentUser "/dashboard/habits" = 3%nat /\
  Mount.count_request Mount.GetCurrentUser "/dashboard/analytics" = 3%nat /\
  Mount.count_request Mount.GetUserSettings "/dashboard/settings" = 2%nat.
Proof. vm_compute. repeat split. Qed.
