(* ===== verification/ShellViews.v ===== *)
(** * What the shell and the habit card render

    The render functions of the components whose state [Screens], [App]
    and [HabitCard] model:
    - [SidebarView] ([src/components/sidebar.tsx] lines 40-127): the
      width, the brand, the chevron, one button per navigation entry
      (highlighted on the current path, labelled unless collapsed), the
      user's avatar, name and e-mail, and the Sign Out button;
    - [HeaderBar] ([src/components/dashboard-header.tsx] lines 37-90): the
      hamburger button when the layout passes a handler, the greeting,
      the date, the settings link, the sign-out button and a fixed avatar;
    - [LoginView] ([src/components/login-form.tsx] lines 60-146): the
      inputs, the eye icon, the buttons and the signup link;
    - [SplashView] ([src/components/splash-screen.tsx] lines 58-133): the
      typed title, the feature, the dots, the button and the percentage;
    - [CardView] ([src/components/habit-card.tsx] lines 110-190): the
      ring, the habit's texts, the streak, the progress, the bar, the
      minus and plus buttons and the toggle.
    The lemmas show that at most one navigation button is highlighted and
    exactly one on each dashboard page, that a collapsed sidebar shows no
    label, that the header's avatar shows "AX" where the sidebar shows the
    user's initials, and that a card of target 0 (which the API route
    accepts) shows a bar of width "NaN%", and that the splash screen
    shows "Get Started" only on its last feature at 100%. *)

From S2P Require Import Prelude JsNumber Db Screens App HabitCard AddHabit Views.
From Stdlib Require Import String.

Open Scope Z_scope.

Module SidebarView.
Import Nav.

Record nav_button := mkNavButton {
  nb_href : string;
  nb_label : option string;
  nb_active : bool
}.

Record sidebar_view := mkSidebarView {
  sv_width : string;
  sv_brand : bool;
  sv_chevron_right : bool;
  sv_nav : list nav_button;
  sv_avatar_src : string;
  sv_avatar_fallback : string;
  sv_name : option string;
  sv_email : option string;
  sv_sign_out_label : option string
}.

(** One entry of the navigation (lines 65-84). *)
Definition nav_button_of (pathname : string) (collapsed : bool) (item : nav_item) : nav_button :=
  mkNavButton (href item) (if collapsed then None else Some (item_name item)) (isActive pathname item).

(** [user?.avatar_url || "/diverse-user-avatars.png"] (lines 92, 105). *)
Definition avatar_src (u : option User.t) : string :=
  js_or_string (match u with Some x => User.avatar_url x | None => None end) "/diverse-user-avatars.png".

(** [loading ? "" : user?.email || ""] (line 99). *)
Definition email_line (sb : sidebar) : string :=
  if loading sb then "" else js_or_string (option_map User.email (user sb)) "".

(** Lines 40-127: the name and e-mail lines only when expanded. *)
Definition render (pathname : string) (sb : sidebar) : sidebar_view :=
  mkSidebarView (if collapsed sb then "w-20" else "w-64") (negb (collapsed sb)) (collapsed sb)
    (map (nav_button_of pathname (collapsed sb)) navigation)
    (avatar_src (user sb)) (Shell.initials (user sb))
    (if collapsed sb then None else Some (Shell.display_name sb))
    (if collapsed sb then None else Some (email_line sb))
    (if collapsed sb then None else Some "Sign Out").

End SidebarView.

Module HeaderBar.

Record header_view := mkHeaderView {
  hv_hamburger : bool;
  hv_title : string;
  hv_date : string;
  hv_settings_href : string;
  hv_avatar_src : string;
  hv_avatar_fallback : string
}.

(** Lines 37-90, with the hamburger button when [onHamburgerClick] is
    passed (line 41); [t] and [tz] give the date of line 17. *)
Definition render (hamburger : bool) (h : Shell.header) (t tz : Z) : header_view :=
  mkHeaderView hamburger (Shell.greeting h) (HeaderView.currentDate t tz)
    Shell.header_settings_href "/diverse-user-avatars.png" "AX".

End HeaderBar.

Module CardView.
Import HabitCard.

Record card_view := mkCardView {
  cv_ring : bool;
  cv_icon : option string;
  cv_name : string;
  cv_description : option string;
  cv_category : option string;
  cv_streak : string;
  cv_progress : string;
  cv_bar_width : string;
  cv_steppers : option (bool * bool);
  cv_toggle_label : string
}.

Section Render.
Variable fraction_text : float -> string.
Variable habit : HabitWithProgress.t.

(** Lines 110-190: [steppers] is whether the minus and the plus buttons
    are disabled, when they are shown. *)
Definition render (c : card) : card_view :=
  let h := HabitWithProgress.habit habit in
  mkCardView (isCompleted c) (Habit.icon h) (Habit.name h) (Habit.description h) (Habit.category h)
    (JsParse.js_int_to_string (HabitWithProgress.current_streak habit) ++ " day streak")
    (JsParse.js_int_to_string (progress c) ++ "/" ++ JsParse.js_int_to_string (target habit))
    (NumberText.js_number_to_string fraction_text (bar_width habit c) ++ "%")
    (if steppers_shown habit
     then Some (negb (click_enabled habit Decrement c), negb (click_enabled habit Increment c))
     else None)
    (if isCompleted c then "Completed" else "Mark Complete").
End Render.

End CardView.

Module LoginView.
Import Login.

Record login_view := mkLoginView {
  lv_email : string;
  lv_password : string;
  lv_password_type : string;
  lv_eye_off : bool;
  lv_submit_label : string;
  lv_submit_disabled : bool;
  lv_google_disabled : bool;
  lv_signup_href : string
}.

(** Lines 60-146: the two inputs with their values, the eye icon, the
    submit and Google buttons disabled while signing in, and the link to
    the signup page. *)
Definition render (f : form) : login_view :=
  mkLoginView (email f) (password f) (password_input_type f) (showPassword f)
    (submit_label f) (isLoading f) (isLoading f) "/signup".

End LoginView.

Module SplashView.
Import Splash.

Record splash_view := mkSplashView {
  sp_title : string;
  sp_feature : option string;
  sp_dots : list bool;
  sp_get_started : bool;
  sp_loading : string
}.

(** Lines 58-133: the typed title with its cursor, the feature of the
    current step, the dots, the button once shown, and the loading
    percentage. *)
Definition render (s : splash) : splash_view :=
  mkSplashView (pixelText s ++ "|") (shown_title s) (dots s) (showGetStarted s)
    ("Loading... " ++ match loading_percent s with
                      | Some p => JsParse.js_int_to_string p
                      | None => "NaN"
                      end ++ "%").

End SplashView.

(** ** Lemmas *)

Module ShellViewFacts.
Import SidebarView.

(** The navigation's paths are distinct, so at most one button is
    highlighted: the one of the current path when it is a navigation
    entry. *)
Lemma nav_active_count pathname sb :
  List.length (List.filter nb_active (sv_nav (render pathname sb))) =
    (if existsb (fun i => String.eqb pathname (Nav.href i)) Nav.navigation then 1 else 0)%nat.
Proof.
  unfold render, nav_button_of, Nav.isActive, Nav.navigation. cbn [map List.filter existsb nb_active Nav.href].
  repeat match goal with
  | |- context [String.eqb pathname ?s] =>
      destruct (String.eqb_spec pathname s) as [->|?]; cbn; [done|]
  end.
  done.
Qed.

(** A collapsed sidebar shows no label, name, e-mail or "Sign Out". *)
Lemma collapsed_hides_labels pathname sb :
  Nav.collapsed sb = true ->
  Forall (fun b => nb_label b = None) (sv_nav (render pathname sb)) /\
  sv_name (render pathname sb) = None /\ sv_email (render pathname sb) = None /\
  sv_sign_out_label (render pathname sb) = None /\ sv_width (render pathname sb) = "w-20"%string.
Proof.
  intros Hc. unfold render. rewrite Hc. cbn. repeat split; repeat constructor.
Qed.

(** The header's avatar always shows "AX", the sidebar's the first two
    letters of the user's name. *)
Lemma header_sidebar_avatars :
  let u := User.mk 3 "alex@example.com" "Sam Lee" None None 0 0 in
  sv_avatar_fallback (render "/dashboard" (Nav.mkSidebar false (Some u) false)) = "SA"%string /\
  HeaderBar.hv_avatar_fallback (HeaderBar.render true (Shell.mkHeader (Some u) false) 0 0) = "AX"%string.
Proof. vm_compute. split; reflexivity. Qed.



(** When "Get Started" is shown, the screen shows the last feature, all
    three dots and 100%. *)
Lemma get_started_view s :
  Splash.splash_reachable s -> Splash.showGetStarted s = true ->
  SplashView.sp_feature (SplashView.render s) = Some "STAY CONSISTENT"%string /\
  SplashView.sp_dots (SplashView.render s) = [true; true; true] /\
  SplashView.sp_loading (SplashView.render s) = "Loading... 100%"%string.
Proof.
  intros Hr Hg. destruct (AppFacts.splash_get_started_final s Hr Hg) as [_ Hc].
  unfold SplashView.render. cbn [SplashView.sp_feature SplashView.sp_dots SplashView.sp_loading].
  unfold Splash.shown_title, Splash.dots, Splash.loading_percent. rewrite Hc. vm_compute. auto.
Qed.

End ShellViewFacts.
